(** * Huddy-Web layout editor: store, canvas controller and validation engine

    A shallow embedding of the TypeScript sources
    - [src/types/index.ts]            (the data model),
    - [src/lib/element-definitions.ts] (the element-kind catalog),
    - [src/lib/validation.ts]         ([validateLayout]),
    - [src/store/editorStore.ts]      (the zustand store, second document of
      [src/contexts/EditorContext.tsx]),
    - [src/components/Canvas.tsx]     (click, drag and resize handlers),
    - [src/lib/asset-manager.ts]      ([AssetManager], first part of the
      document that also holds [src/lib/validation.ts]),
    - [src/lib/sensor-data.ts]        ([mockSensorData] and
      [SensorDataSimulator]; [getSensorInfo] of the element renderers is in
      the same document),
    - [src/components/PropertiesPanel.tsx] ([handleSizeUpdate]),
    followed by the properties of the editing engine and their proofs.

    Conventions of the embedding.
    - A JavaScript [number] is an exact rational ([Q]): the fraction its
      decimal text denotes.  Binary rounding is outside the model; [NaN]
      and the two infinities appear only as arguments of the actions that
      clamp ([JS.float]).
    - A JavaScript [string] is the [string] of its bytes in UTF-8; strings
      with a surrogate outside a pair are outside the model.
    - [Date.now()] is an input of the action that reads it.
    - zustand's [get()] / [set(partial)] become explicit state passing over
      the record [EditorState.t].
    - The functions the platform provides ([JSON.stringify], [JSON.parse],
      [RegExp.prototype.test], [Math.max], ...) are written out after
      ECMA-262, to the extent the sources use them.
    - The JSON schema Ajv compiles is not among the sources; the compiled
      validator is a parameter ([validateSchema]).
    - An object used as a dictionary is the list of its own properties; a
      read also finds the member names of [Object.prototype].
    - Objects that are shared and assigned to (the sensor records) live in
      a heap and are known by their address. *)

From Stdlib Require Import QArith Qminmax Qround ZArith NArith Bool Lia Lqa.
From Stdlib Require Import String Ascii List DecimalString DecimalNat DecimalN.
From Stdlib Require DecimalFacts.
Import ListNotations.
Open Scope string_scope.

(** ** JavaScript primitives *)

Module JS.

Definition number : Type := Q.

(** Truthiness of a string and of a number ([""] and [0] are falsy). *)
Definition truthy_string (s : string) : bool := negb (s =? "").
Definition truthy_number (n : number) : bool := negb (Qeq_bool n 0).

(** [a || b] on strings. *)
Definition or_string (a b : string) : string :=
  if truthy_string a then a else b.

(** [a < b] and [a <= b] on numbers. *)
Definition lt (a b : number) : bool := negb (Qle_bool b a).
Definition le (a b : number) : bool := Qle_bool a b.
Definition gt (a b : number) : bool := lt b a.

(** [Array.prototype.includes] on an array of strings. *)
Definition includes (l : list string) (s : string) : bool :=
  existsb (String.eqb s) l.

(** [String.prototype.includes] with a one-character needle. *)
Fixpoint includes_char (s : string) (c : ascii) : bool :=
  match s with
  | EmptyString => false
  | String c' s' => Ascii.eqb c' c || includes_char s' c
  end.

(** How a call ends: it returns a value, or it throws. *)
Inductive completion (A : Type) : Type :=
| returned (value : A)
| threw (error : string).
Arguments returned {A} value.
Arguments threw {A} error.

(** [Array.prototype.join]. *)
Definition join (sep : string) (l : list string) : string :=
  String.concat sep l.

(** [Math.max] and [Math.round]. *)
Definition Math_max (a b : number) : number := Qmax a b.
Definition Math_round (a : number) : number :=
  inject_Z (Qfloor (a + (1 # 2))).

(** Decimal rendering of a natural number, as in a template literal
    ([`${index}`], [`${Date.now()}`]). *)
Definition nat_toString (n : nat) : string :=
  NilEmpty.string_of_uint (Nat.to_uint n).
Definition N_toString (n : N) : string :=
  NilEmpty.string_of_uint (N.to_uint n).

(** The least [k] from which on [d] divides [10 ^ k], if there is one among
    the first [fuel] candidates after [k]: the number of digits the fraction
    of denominator [d] has after the decimal point. *)
Fixpoint decimal_scale (fuel k : nat) (d : positive) : option nat :=
  if (10 ^ Z.of_nat k mod Zpos d =? 0)%Z then Some k
  else match fuel with
       | O => None
       | S fuel' => decimal_scale fuel' (S k) d
       end.

Fixpoint zeros (n : nat) : string :=
  match n with O => "" | S n' => String "0" (zeros n') end.

(** [s.slice(0, n)] and [s.slice(n)]. *)
Fixpoint take (n : nat) (s : string) : string :=
  match n, s with
  | S n', String c s' => String c (take n' s')
  | _, _ => ""
  end.
Fixpoint drop (n : nat) (s : string) : string :=
  match n, s with
  | S n', String _ s' => drop n' s'
  | _, _ => s
  end.

(** The digits [ds] with a decimal point before the last [k] of them, zeros
    added in front so that a digit precedes the point. *)
Definition place_point (k : nat) (ds : string) : string :=
  match k with
  | O => ds
  | _ =>
      let padded := zeros (S k - String.length ds)%nat ++ ds in
      let n := (String.length padded - k)%nat in
      take n padded ++ "." ++ drop n padded
  end.

(** The digits [s] without the zeros at their end. *)
Fixpoint strip_zeros (s : string) : string :=
  match s with
  | EmptyString => ""
  | String c s' =>
      match strip_zeros s' with
      | EmptyString => if Ascii.eqb c "0" then "" else String c ""
      | rest => String c rest
      end
  end.

(** The exponent part of a number: [e], the sign and the digits. *)
Definition exponent (e : Z) : string :=
  "e" ++ (if (e <? 0)%Z then "-" else "+") ++ N_toString (Z.abs_N e).

(** [Number::toString] (ECMA-262, 6.1.6.1.20) from step 5 on, for the
    positive number [0.s * 10 ^ n], where [s] are its digits, the first and
    the last of them not [0]: plain decimal notation when [n] is in the
    interval from -5 to 21, notation with an exponent otherwise. *)
Definition digits_toString (s : string) (n : Z) : string :=
  let k := Z.of_nat (String.length s) in
  if ((-5 <=? n)%Z && (n <=? 21)%Z)%bool then
    if (k <=? n)%Z then s ++ zeros (Z.to_nat (n - k))
    else if (0 <? n)%Z
         then take (Z.to_nat n) s ++ "." ++ drop (Z.to_nat n) s
    else "0." ++ zeros (Z.to_nat (- n)) ++ s
  else
    match s with
    | EmptyString => ""
    | String c EmptyString => String c (exponent (n - 1))
    | String c rest => String c ("." ++ rest ++ exponent (n - 1))
    end.

(** [Number::toString(x)], as in [String(x)], a template literal and
    [JSON.stringify].  A rational whose reduced denominator divides a power
    of ten (every binary floating-point value is one) is written with all
    its digits; any other one is cut after 17 fractional digits. *)
Definition Number_toString (q : number) : string :=
  let r := Qred q in
  let scale := match decimal_scale (Pos.to_nat (Pos.size (Qden r))) 0
                       (Qden r) with
               | Some k => k
               | None => 17%nat
               end in
  let m := (Z.abs (Qnum r) * 10 ^ Z.of_nat scale / Zpos (Qden r))%Z in
  if (m =? 0)%Z then "0"
  else
    let digits := N_toString (Z.to_N m) in
    (if (Qnum r <? 0)%Z then "-" else "")
      ++ digits_toString (strip_zeros digits)
           (Z.of_nat (String.length digits) - Z.of_nat scale).

(** [Math.min]. *)
Definition Math_min (a b : number) : number := Qmin a b.

(** The values of the type [number]: the numbers of the model, the two
    infinities and [NaN]; and [Math.min(a, x)], [Math.max(a, x)] for a
    number [a] and any such [x]. *)
Inductive float : Type :=
| finite (q : number)
| Infinity
| minus_Infinity
| NaN.

Definition Math_min_float (a : number) (x : float) : float :=
  match x with
  | finite q => finite (Math_min a q)
  | Infinity => finite a
  | minus_Infinity => minus_Infinity
  | NaN => NaN
  end.

Definition Math_max_float (a : number) (x : float) : float :=
  match x with
  | finite q => finite (Math_max a q)
  | Infinity => Infinity
  | minus_Infinity => finite a
  | NaN => NaN
  end.

(** [a || b] on numbers. *)
Definition or_number (a b : number) : number :=
  if truthy_number a then a else b.

(** [x.toFixed(1)] for a number below 10^21: the tenths nearest to [x], the
    larger of two that are equally near, written with one digit after the
    point. *)
Definition toFixed1 (x : number) : string :=
  let negative := negb (Qle_bool 0 x) in
  let x := if negative then - x else x in
  let n := Qfloor (x * 10 + (1 # 2)) in
  (if negative then "-" else "") ++ place_point 1 (N_toString (Z.to_N n)).

(** [String.prototype.startsWith]. *)
Definition startsWith (s searchString : string) : bool :=
  String.prefix searchString s.

(** A string-valued property that may be absent: [!v], [a === b] and
    [`${v}`]. *)
Definition falsy_member (v : option string) : bool :=
  match v with
  | Some s => negb (truthy_string s)
  | None => true
  end.
Definition strict_equal (a b : option string) : bool :=
  match a, b with
  | Some x, Some y => (x =? y)%string
  | None, None => true
  | _, _ => false
  end.
Definition template (v : option string) : string :=
  match v with
  | Some s => s
  | None => "undefined"
  end.

End JS.

(** ** Regular expressions (the fragment [COLOR_REGEX] uses)

    [RegExp.prototype.test] for a pattern anchored with [^] and [$] is a
    whole-string match, computed here with derivatives. *)

Module Regex.

Inductive re : Type :=
| Void
| Eps
| Class (p : ascii -> bool)
| Seq (a b : re)
| Alt (a b : re)
| Star (a : re).

Fixpoint nullable (r : re) : bool :=
  match r with
  | Void => false
  | Eps => true
  | Class _ => false
  | Seq a b => nullable a && nullable b
  | Alt a b => nullable a || nullable b
  | Star _ => true
  end.

Fixpoint deriv (c : ascii) (r : re) : re :=
  match r with
  | Void => Void
  | Eps => Void
  | Class p => if p c then Eps else Void
  | Seq a b =>
      if nullable a then Alt (Seq (deriv c a) b) (deriv c b)
      else Seq (deriv c a) b
  | Alt a b => Alt (deriv c a) (deriv c b)
  | Star a => Seq (deriv c a) (Star a)
  end.

Fixpoint test (r : re) (s : string) : bool :=
  match s with
  | EmptyString => nullable r
  | String c s' => test (deriv c r) s'
  end.

Definition chr (c : ascii) : re := Class (Ascii.eqb c).

Fixpoint lit (s : string) : re :=
  match s with
  | EmptyString => Eps
  | String c s' => Seq (chr c) (lit s')
  end.

Definition plus (r : re) : re := Seq r (Star r).

(** [r{n}] and [r{n,n+extra}]. *)
Fixpoint times (n : nat) (r : re) : re :=
  match n with O => Eps | S n' => Seq r (times n' r) end.
Fixpoint upto (n : nat) (r : re) : re :=
  match n with O => Eps | S n' => Alt Eps (Seq r (upto n' r)) end.
Definition between (n extra : nat) (r : re) : re :=
  Seq (times n r) (upto extra r).

Definition in_range (lo hi c : ascii) : bool :=
  (nat_of_ascii lo <=? nat_of_ascii c)%nat
  && (nat_of_ascii c <=? nat_of_ascii hi)%nat.

(** [\d], [[0-9a-fA-F]] and [[0-9.]]. *)
Definition digit : re := Class (in_range "0" "9").

(** [\s]: the white space and the line terminators of ECMA-262, in UTF-8:
    the characters U+0009 to U+000D and U+0020, then U+00A0, U+1680, U+2000
    to U+200A, U+2028, U+2029, U+202F, U+205F, U+3000 and U+FEFF. *)
Definition byte (n : nat) : re := chr (ascii_of_nat n).
Definition space : re :=
  fold_right Alt Void
    [ Class (fun c => let n := nat_of_ascii c in
                      (n =? 32)%nat || ((9 <=? n)%nat && (n <=? 13)%nat));
      Seq (byte 194) (byte 160);
      Seq (byte 225) (Seq (byte 154) (byte 128));
      Seq (byte 226)
        (Seq (byte 128)
           (Class (fun c => let n := nat_of_ascii c in
                            ((128 <=? n)%nat && (n <=? 138)%nat)
                            || (n =? 168)%nat || (n =? 169)%nat
                            || (n =? 175)%nat)));
      Seq (byte 226) (Seq (byte 129) (byte 159));
      Seq (byte 227) (Seq (byte 128) (byte 128));
      Seq (byte 239) (Seq (byte 187) (byte 191)) ].
Definition hex : re :=
  Class (fun c => in_range "0" "9" c || in_range "a" "f" c
                  || in_range "A" "F" c).
Definition digit_or_dot : re :=
  Class (fun c => in_range "0" "9" c || Ascii.eqb c ".").

End Regex.

(** ** Data model ([src/types/index.ts]) *)

(** [ElementType] and [SensorId] are unions of string literals; at run time
    they are strings ([Canvas.tsx] passes [currentTool as any]). *)
Definition ElementType : Type := string.
Definition SensorId : Type := string.

Module VisualProperties.
Record t : Type := mk {
  x : JS.number;
  y : JS.number;
  width : JS.number;
  height : JS.number;
  backgroundColor : string;
  foregroundColor : string;
  needleColor : string;
  opacity : JS.number;
  visible : bool;
  showText : bool;
  fontFamily : string;
  fontSize : JS.number;
  fontWeight : string;
  fontStyle : string
}.

(** [{ ...v, x: x', y: y' }] and [{ ...v, width: w, height: h }]. *)
Definition with_position (v : t) (x' y' : JS.number) : t :=
  mk x' y' (width v) (height v) (backgroundColor v) (foregroundColor v)
     (needleColor v) (opacity v) (visible v) (showText v) (fontFamily v)
     (fontSize v) (fontWeight v) (fontStyle v).
Definition with_size (v : t) (w h : JS.number) : t :=
  mk (x v) (y v) w h (backgroundColor v) (foregroundColor v)
     (needleColor v) (opacity v) (visible v) (showText v) (fontFamily v)
     (fontSize v) (fontWeight v) (fontStyle v).
End VisualProperties.

Module Element.
Record t : Type := mk {
  id : string;
  type : ElementType;
  sensor : SensorId;
  visual : VisualProperties.t;
  animated : bool;
  animationSpeed : JS.number
}.

(** [Partial<Element>]: a field that is absent is [None]. *)
Record partial : Type := mkPartial {
  p_id : option string;
  p_type : option ElementType;
  p_sensor : option SensorId;
  p_visual : option VisualProperties.t;
  p_animated : option bool;
  p_animationSpeed : option JS.number
}.

Definition or_else {A : Type} (o : option A) (a : A) : A :=
  match o with Some a' => a' | None => a end.

(** [{ ...el, ...updates }]. *)
Definition merge (el : t) (updates : partial) : t :=
  mk (or_else (p_id updates) (id el))
     (or_else (p_type updates) (type el))
     (or_else (p_sensor updates) (sensor el))
     (or_else (p_visual updates) (visual el))
     (or_else (p_animated updates) (animated el))
     (or_else (p_animationSpeed updates) (animationSpeed el)).

(** [{ visual: v }]. *)
Definition only_visual (v : VisualProperties.t) : partial :=
  mkPartial None None None (Some v) None None.

(** [{ ...el, id: i, visual: v }]. *)
Definition with_id_visual (el : t) (i : string) (v : VisualProperties.t) : t :=
  mk i (type el) (sensor el) v (animated el) (animationSpeed el).

(** An [Element] seen as an object with all its members present. *)
Definition members (el : t) : partial :=
  mkPartial (Some (id el)) (Some (type el)) (Some (sensor el))
    (Some (visual el)) (Some (animated el)) (Some (animationSpeed el)).

(** [{ id: i }] and [{}]. *)
Definition only_id (i : string) : partial :=
  mkPartial (Some i) None None None None None.
Definition no_update : partial :=
  mkPartial None None None None None None.
End Element.

Module Metadata.
Record compatibility : Type := mkCompatibility {
  minVersion : option string;
  maxVersion : option string
}.
Record t : Type := mk {
  name : option string;
  description : option string;
  author : option string;
  created : option string;
  modified : option string;
  tags : option (list string);
  compat : option compatibility
}.
End Metadata.

Module LayoutData.
Record t : Type := mk {
  version : string;
  elements : list Element.t;
  metadata : option Metadata.t
}.

(** [{ ...layout, elements: els }]. *)
Definition with_elements (l : t) (els : list Element.t) : t :=
  mk (version l) els (metadata l).
End LayoutData.

Module ValidationError.
Inductive severity_t : Type := error | warning | info.
Record t : Type := mk {
  path : string;
  message : string;
  severity : severity_t
}.
End ValidationError.

Module ValidationResult.
Record t : Type := mk {
  isValid : bool;
  errors : list ValidationError.t;
  warnings : list ValidationError.t
}.
End ValidationResult.

(** ** Objects used as dictionaries

    The own properties, in the order they were added.  A property read
    [d[key]] also finds the members every object inherits from
    [Object.prototype], which are functions or objects and hence truthy. *)

(** The value stored under the key [k] in a list of entries. *)
Fixpoint lookup_entry {A : Type} (k : string) (l : list (string * A))
  : option A :=
  match l with
  | [] => None
  | (k', v) :: l' => if k' =? k then Some v else lookup_entry k l'
  end.

Module Dict.

Definition t (A : Type) : Type := list (string * A).

Definition Object_prototype : list string :=
  ["constructor"; "__defineGetter__"; "__defineSetter__"; "hasOwnProperty";
   "__lookupGetter__"; "__lookupSetter__"; "isPrototypeOf";
   "propertyIsEnumerable"; "toString"; "valueOf"; "__proto__";
   "toLocaleString"].

Inductive member (A : Type) : Type :=
| own (a : A)
| inherited.
Arguments own {A} a.
Arguments inherited {A}.

(** [d[key]]; [None] is [undefined]. *)
Definition get {A : Type} (d : t A) (key : string) : option (member A) :=
  match lookup_entry key d with
  | Some a => Some (own a)
  | None => if JS.includes Object_prototype key then Some inherited else None
  end.

(** Truthiness of [d[key]] when the own properties hold objects. *)
Definition truthy {A : Type} (d : t A) (key : string) : bool :=
  match get d key with
  | Some _ => true
  | None => false
  end.

Fixpoint put {A : Type} (d : t A) (key : string) (a : A) : t A :=
  match d with
  | [] => [(key, a)]
  | (k, v) :: d' => if k =? key then (k, a) :: d' else (k, v) :: put d' key a
  end.

(** [d[key] = a].  An assignment to [__proto__] replaces the prototype
    instead of adding a property; it is outside the model ([None]). *)
Definition set {A : Type} (d : t A) (key : string) (a : A) : option (t A) :=
  if key =? "__proto__" then None else Some (put d key a).

(** [delete d[key]]. *)
Definition delete {A : Type} (d : t A) (key : string) : t A :=
  filter (fun entry => negb (fst entry =? key)) d.

(** [Object.keys(d)] and [Object.values(d)].  JavaScript lists keys that
    are array indices first; the callers below only count, sum and search,
    so that the order is immaterial. *)
Definition keys {A : Type} (d : t A) : list string := map fst d.
Definition values {A : Type} (d : t A) : list A := map snd d.

End Dict.

(** ** The element-kind catalog ([src/lib/element-definitions.ts]) *)

Module ElementDefinition.
Record size : Type := mkSize { width : JS.number; height : JS.number }.
Record t : Type := mk {
  type : ElementType;
  name : string;
  description : string;
  category : string;
  icon : string;
  defaultSize : size;
  suggestedSensors : list SensorId;
  requiredProperties : list string;
  optionalProperties : list string
}.
End ElementDefinition.

Definition mkDef (type name description category icon : string)
    (w h : JS.number) (suggested required optional : list string)
  : ElementDefinition.t :=
  ElementDefinition.mk type name description category icon
    (ElementDefinition.mkSize w h) suggested required optional.

(** The object literal [ELEMENT_DEFINITIONS], key by key. *)
Definition ELEMENT_DEFINITIONS_entries : list (string * ElementDefinition.t) :=
  [
    ("gauge",
     mkDef "gauge" "Gauge" "Circular needle gauge for displaying values"
       "basic" "⭕" 150 150
       ["CPU_Utilization"; "GPU_Utilization"; "Memory_Usage"]
       ["needleColor"]
       ["backgroundColor"; "foregroundColor"]);
    ("text",
     mkDef "text" "Text" "Dynamic text display for sensor values"
       "basic" "📝" 100 30
       ["CPU_Temperature"; "GPU_Temperature"; "Memory_Total"]
       ["fontFamily"; "fontSize"; "foregroundColor"]
       ["backgroundColor"]);
    ("bar",
     mkDef "bar" "Progress Bar" "Horizontal or vertical progress bar"
       "basic" "📊" 200 30
       ["CPU_Utilization"; "GPU_Utilization"; "Memory_Usage"]
       ["backgroundColor"; "foregroundColor"]
       ["needleColor"]);
    ("circle",
     mkDef "circle" "Circle" "Value-scaled circular element"
       "basic" "⭕" 100 100
       ["CPU_Utilization"; "GPU_Utilization"]
       ["backgroundColor"; "foregroundColor"]
       ["needleColor"]);
    ("rectangle",
     mkDef "rectangle" "Rectangle" "Basic rectangular element"
       "basic" "⬜" 100 50
       ["CPU_Utilization"; "GPU_Utilization"]
       ["backgroundColor"; "foregroundColor"]
       []);
    ("line",
     mkDef "line" "Line" "Value-thickness line element"
       "basic" "📏" 200 10
       ["CPU_Utilization"; "GPU_Utilization"]
       ["foregroundColor"]
       ["backgroundColor"]);
    ("progress_ring",
     mkDef "progress_ring" "Progress Ring" "Circular progress with segments"
       "gauges" "🔄" 150 150
       ["CPU_Utilization"; "GPU_Utilization"; "Memory_Usage"]
       ["backgroundColor"; "foregroundColor"; "needleColor"]
       []);
    ("dial",
     mkDef "dial" "Dial" "Traditional dial gauge"
       "gauges" "🎛️" 150 150
       ["CPU_Temperature"; "GPU_Temperature"]
       ["backgroundColor"; "foregroundColor"; "needleColor"]
       []);
    ("thermometer",
     mkDef "thermometer" "Thermometer" "Temperature with bulb visualization"
       "gauges" "🌡️" 50 200
       ["CPU_Temperature"; "GPU_Temperature"; "Disk_Temperature"]
       ["backgroundColor"; "foregroundColor"]
       ["needleColor"]);
    ("speedometer",
     mkDef "speedometer" "Speedometer" "Car-style gauge"
       "gauges" "🏎️" 200 150
       ["CPU_Clock"; "GPU_Clock"]
       ["backgroundColor"; "foregroundColor"; "needleColor"]
       []);
    ("level_meter",
     mkDef "level_meter" "Level Meter" "Vertical/horizontal level display"
       "gauges" "📊" 30 200
       ["Memory_Usage"; "Disk_Usage"]
       ["backgroundColor"; "foregroundColor"]
       ["needleColor"]);
    ("radial_gauge",
     mkDef "radial_gauge" "Radial Gauge" "Circular value display"
       "gauges" "⭕" 150 150
       ["CPU_Utilization"; "GPU_Utilization"]
       ["backgroundColor"; "foregroundColor"; "needleColor"]
       []);
    ("linear_gauge",
     mkDef "linear_gauge" "Linear Gauge" "Straight-line gauge"
       "gauges" "📏" 200 50
       ["CPU_Utilization"; "GPU_Utilization"]
       ["backgroundColor"; "foregroundColor"; "needleColor"]
       []);
    ("led",
     mkDef "led" "LED" "On/off light with glow effect"
       "indicators" "💡" 20 20
       ["CPU_Utilization"; "GPU_Utilization"]
       ["backgroundColor"; "foregroundColor"]
       ["needleColor"]);
    ("status_light",
     mkDef "status_light" "Status Light" "System status indicator"
       "indicators" "🟢" 30 30
       ["CPU_Utilization"; "GPU_Utilization"]
       ["backgroundColor"; "foregroundColor"]
       ["needleColor"]);
    ("traffic_light",
     mkDef "traffic_light" "Traffic Light" "Multi-state indicator"
       "indicators" "🚦" 40 100
       ["CPU_Temperature"; "GPU_Temperature"]
       ["backgroundColor"; "foregroundColor"]
       ["needleColor"]);
    ("battery",
     mkDef "battery" "Battery" "Charge level with color coding"
       "indicators" "🔋" 60 30
       ["Memory_Usage"; "Disk_Usage"; "GPU_Memory"]
       ["backgroundColor"; "foregroundColor"]
       ["needleColor"]);
    ("signal_bars",
     mkDef "signal_bars" "Signal Bars" "Network strength bars"
       "indicators" "📶" 40 60
       ["WiFi_Speed"; "Ethernet_Speed"; "Network_Upload"]
       ["backgroundColor"; "foregroundColor"]
       ["needleColor"]);
    ("wifi_indicator",
     mkDef "wifi_indicator" "WiFi Indicator" "Wireless signal display"
       "indicators" "📶" 50 50
       ["WiFi_Speed"; "Network_Upload"]
       ["backgroundColor"; "foregroundColor"]
       ["needleColor"]);
    ("cpu_cores",
     mkDef "cpu_cores" "CPU Cores" "8-core CPU visualization"
       "system" "🖥️" 200 100
       ["CPU_Utilization"; "CPU_Core_0"; "CPU_Core_1"]
       ["backgroundColor"; "foregroundColor"]
       ["needleColor"]);
    ("memory_banks",
     mkDef "memory_banks" "Memory Banks" "RAM module display"
       "system" "💾" 150 200
       ["Memory_Usage"; "Memory_Total"]
       ["backgroundColor"; "foregroundColor"]
       ["needleColor"]);
    ("network_activity",
     mkDef "network_activity" "Network Activity" "Data flow indicators"
       "system" "🌐" 200 100
       ["Network_Upload"; "Network_Download"; "WiFi_Speed"]
       ["backgroundColor"; "foregroundColor"]
       ["needleColor"]);
    ("disk_activity",
     mkDef "disk_activity" "Disk Activity" "Storage I/O visualization"
       "system" "💿" 200 100
       ["Disk_Read"; "Disk_Write"; "Disk_Usage"]
       ["backgroundColor"; "foregroundColor"]
       ["needleColor"]);
    ("fan_blade",
     mkDef "fan_blade" "Fan Blade" "Rotating fan display"
       "system" "🌀" 100 100
       ["Fan_CPU"; "Fan_Case_1"; "GPU_Fan"]
       ["backgroundColor"; "foregroundColor"]
       ["needleColor"]);
    ("temperature_zones",
     mkDef "temperature_zones" "Temperature Zones" "Heat distribution map"
       "system" "🌡️" 200 150
       ["CPU_Temperature"; "GPU_Temperature"; "Motherboard_Temperature"]
       ["backgroundColor"; "foregroundColor"]
       ["needleColor"]);
    ("line_graph",
     mkDef "line_graph" "Line Graph" "Time-series data"
       "graphs" "📈" 300 150
       ["CPU_Utilization"; "GPU_Utilization"; "Memory_Usage"]
       ["backgroundColor"; "foregroundColor"]
       ["needleColor"]);
    ("area_graph",
     mkDef "area_graph" "Area Graph" "Filled area charts"
       "graphs" "📊" 300 150
       ["CPU_Utilization"; "GPU_Utilization"]
       ["backgroundColor"; "foregroundColor"]
       ["needleColor"]);
    ("sparkline",
     mkDef "sparkline" "Sparkline" "Mini trend lines"
       "graphs" "⚡" 100 30
       ["CPU_Utilization"; "GPU_Utilization"]
       ["foregroundColor"]
       ["backgroundColor"; "needleColor"]);
    ("histogram",
     mkDef "histogram" "Histogram" "Bar distributions"
       "graphs" "📊" 200 150
       ["CPU_Utilization"; "GPU_Utilization"]
       ["backgroundColor"; "foregroundColor"]
       ["needleColor"]);
    ("pie_chart",
     mkDef "pie_chart" "Pie Chart" "Circular data slices"
       "graphs" "🥧" 150 150
       ["CPU_Utilization"; "GPU_Utilization"; "Memory_Usage"]
       ["backgroundColor"; "foregroundColor"]
       ["needleColor"]);
    ("donut_chart",
     mkDef "donut_chart" "Donut Chart" "Ring charts"
       "graphs" "🍩" 150 150
       ["CPU_Utilization"; "GPU_Utilization"; "Memory_Usage"]
       ["backgroundColor"; "foregroundColor"]
       ["needleColor"]);
    ("button",
     mkDef "button" "Button" "Clickable elements"
       "interactive" "🔘" 100 40
       []
       ["backgroundColor"; "foregroundColor"]
       ["needleColor"]);
    ("toggle",
     mkDef "toggle" "Toggle" "Switch controls"
       "interactive" "🔄" 60 30
       []
       ["backgroundColor"; "foregroundColor"]
       ["needleColor"]);
    ("slider",
     mkDef "slider" "Slider" "Range selectors"
       "interactive" "🎚️" 200 20
       []
       ["backgroundColor"; "foregroundColor"]
       ["needleColor"]);
    ("knob",
     mkDef "knob" "Knob" "Rotary controls"
       "interactive" "🎛️" 60 60
       []
       ["backgroundColor"; "foregroundColor"]
       ["needleColor"]);
    ("particle_system",
     mkDef "particle_system" "Particle System" "Dynamic particle effects"
       "effects" "✨" 200 200
       ["CPU_Utilization"; "GPU_Utilization"]
       ["backgroundColor"; "foregroundColor"]
       ["needleColor"]);
    ("wave_form",
     mkDef "wave_form" "Wave Form" "Audio/signal waves"
       "effects" "🌊" 300 100
       ["CPU_Utilization"; "GPU_Utilization"]
       ["backgroundColor"; "foregroundColor"]
       ["needleColor"]);
    ("spectrum_analyzer",
     mkDef "spectrum_analyzer" "Spectrum Analyzer" "Frequency display"
       "effects" "📊" 300 150
       ["CPU_Utilization"; "GPU_Utilization"]
       ["backgroundColor"; "foregroundColor"]
       ["needleColor"]);
    ("flame_effect",
     mkDef "flame_effect" "Flame Effect" "Fire animations"
       "effects" "🔥" 100 150
       ["CPU_Temperature"; "GPU_Temperature"]
       ["backgroundColor"; "foregroundColor"]
       ["needleColor"]);
    ("liquid_fill",
     mkDef "liquid_fill" "Liquid Fill" "Fluid-style fills"
       "effects" "💧" 100 200
       ["Memory_Usage"; "Disk_Usage"]
       ["backgroundColor"; "foregroundColor"]
       ["needleColor"])
  ].

(** [ELEMENT_DEFINITIONS[type]]: the entry stored under the key [type], a
    member inherited from [Object.prototype] ([ELEMENT_DEFINITIONS] is an
    object literal), or [undefined] ([None]). *)
Definition ELEMENT_DEFINITIONS (type : ElementType)
  : option (Dict.member ElementDefinition.t) :=
  Dict.get ELEMENT_DEFINITIONS_entries type.

(** The palette's categories. *)
Module ElementCategory.
Record t : Type := mk {
  id : string;
  name : string;
  icon : string;
  elements : list ElementType
}.
End ElementCategory.

Definition ELEMENT_CATEGORIES : list ElementCategory.t :=
  [ ElementCategory.mk "basic" "📊 Basic" "📊"
      ["gauge"; "text"; "bar"; "circle"; "rectangle"; "line"];
    ElementCategory.mk "gauges" "📈 Advanced Gauges" "📈"
      ["progress_ring"; "dial"; "thermometer"; "speedometer"; "level_meter";
       "radial_gauge"; "linear_gauge"];
    ElementCategory.mk "indicators" "💡 Indicators" "💡"
      ["led"; "status_light"; "traffic_light"; "battery"; "signal_bars";
       "wifi_indicator"];
    ElementCategory.mk "system" "🔧 System" "🔧"
      ["cpu_cores"; "memory_banks"; "network_activity"; "disk_activity";
       "fan_blade"; "temperature_zones"];
    ElementCategory.mk "graphs" "📊 Graphs" "📊"
      ["line_graph"; "area_graph"; "sparkline"; "histogram"; "pie_chart";
       "donut_chart"];
    ElementCategory.mk "interactive" "🎮 Interactive" "🎮"
      ["button"; "toggle"; "slider"; "knob"];
    ElementCategory.mk "effects" "✨ Effects" "✨"
      ["particle_system"; "wave_form"; "spectrum_analyzer"; "flame_effect";
       "liquid_fill"] ].

(** [getElementDefinition(type)]: [undefined] is [None]. *)
Definition getElementDefinition (type : ElementType)
  : option (Dict.member ElementDefinition.t) :=
  ELEMENT_DEFINITIONS type.

(** [getElementsByCategory(categoryId)] *)
Definition getElementsByCategory (categoryId : string) : list ElementType :=
  match find (fun cat => ElementCategory.id cat =? categoryId)
             ELEMENT_CATEGORIES with
  | Some category => ElementCategory.elements category
  | None => []
  end.

(** [getAllElementTypes()]: [Object.keys] lists the keys of the literal in
    the order they are written. *)
Definition getAllElementTypes : list ElementType :=
  map fst ELEMENT_DEFINITIONS_entries.

(** ** The validation engine ([src/lib/validation.ts]) *)

(** What Ajv leaves in [validateSchema.errors]: one object per violation. *)
Module Ajv.
Record ErrorObject : Type := mk {
  instancePath : string;
  message : option string
}.
End Ajv.

Definition VALID_SENSOR_IDS : list SensorId :=
  [ "CPU_Utilization"; "CPU_Temperature"; "CPU_Power"; "CPU_Voltage";
    "CPU_Clock";
    "CPU_Core_0"; "CPU_Core_1"; "CPU_Core_2"; "CPU_Core_3"; "CPU_Core_4";
    "CPU_Core_5"; "CPU_Core_6"; "CPU_Core_7";
    "GPU_Utilization"; "GPU_Temperature"; "GPU_Memory"; "GPU_Power";
    "GPU_Clock"; "GPU_Fan";
    "Memory_Usage"; "Memory_Total"; "Memory_Available"; "Memory_Bandwidth";
    "WiFi_Speed"; "Ethernet_Speed"; "Network_Upload"; "Network_Download";
    "Disk_Usage"; "Disk_Temperature"; "Disk_Read"; "Disk_Write";
    "Motherboard_Temperature"; "Fan_CPU"; "Fan_Case_1"; "Fan_Case_2";
    "PSU_Power"; "PSU_Voltage_12V"; "PSU_Voltage_5V" ].

(** [/^(transparent|#[0-9a-fA-F]{3,6}|rgb\(\d+,\s*\d+,\s*\d+\)
      |rgba\(\d+,\s*\d+,\s*\d+,\s*[0-9.]+\)|hsl\(\d+,\s*\d+%,\s*\d+%\)
      |hsla\(\d+,\s*\d+%,\s*\d+%,\s*[0-9.]+\))$/] *)
Definition COLOR_REGEX : Regex.re :=
  let seqs := fold_right Regex.Seq Regex.Eps in
  let alts := fold_right Regex.Alt Regex.Void in
  let num := Regex.plus Regex.digit in
  let pct := Regex.Seq num (Regex.chr "%") in
  let comma := Regex.Seq (Regex.chr ",") (Regex.Star Regex.space) in
  let alpha := Regex.plus Regex.digit_or_dot in
  alts
    [ Regex.lit "transparent";
      Regex.Seq (Regex.chr "#") (Regex.between 3 3 Regex.hex);
      seqs [Regex.lit "rgb("; num; comma; num; comma; num; Regex.chr ")"];
      seqs [Regex.lit "rgba("; num; comma; num; comma; num; comma; alpha;
            Regex.chr ")"];
      seqs [Regex.lit "hsl("; num; comma; pct; comma; pct; Regex.chr ")"];
      seqs [Regex.lit "hsla("; num; comma; pct; comma; pct; comma; alpha;
            Regex.chr ")"] ].

Definition validFontWeights : list string :=
  ["normal"; "bold"; "100"; "200"; "300"; "400"; "500"; "600"; "700"; "800";
   "900"].
Definition validFontStyles : list string := ["normal"; "italic"; "oblique"].

(** The two arrays [errors] and [warnings] that [validateLayout] fills, and
    the statements that fill them. *)
Module Issues.
Record t : Type := mk {
  errors : list ValidationError.t;
  warnings : list ValidationError.t
}.
Definition rule : Type := t -> t.

Definition skip : rule := fun acc => acc.
Definition andThen (r1 r2 : rule) : rule := fun acc => r2 (r1 acc).
Definition when (b : bool) (r : rule) : rule := if b then r else skip.

(** [errors.push({ path, message, severity: 'error' })] *)
Definition pushError (path message : string) : rule :=
  fun acc =>
    mk (errors acc ++ [ValidationError.mk path message ValidationError.error])
       (warnings acc).
(** [warnings.push({ path, message, severity: 'warning' })] *)
Definition pushWarning (path message : string) : rule :=
  fun acc =>
    mk (errors acc)
       (warnings acc
          ++ [ValidationError.mk path message ValidationError.warning]).

(** [xs.forEach((x, index) => body)] *)
Fixpoint forEach {A : Type} (body : A -> nat -> rule) (xs : list A)
    (index : nat) : rule :=
  match xs with
  | [] => skip
  | x :: xs' => andThen (body x index) (forEach body xs' (S index))
  end.
End Issues.

Declare Scope rule_scope.
Delimit Scope rule_scope with rule.
Bind Scope rule_scope with Issues.rule.
Notation "r1 ;; r2" := (Issues.andThen r1 r2)
  (at level 61, right associativity) : rule_scope.

(** The template literals of the messages. *)
Module Message.
Definition unknownSensor (sensor : string) : string :=
  "Unknown sensor ID: " ++ sensor ++ ". Valid sensors: "
    ++ JS.join ", " VALID_SENSOR_IDS.
Definition duplicateId (id : string) : string :=
  "Duplicate element ID: " ++ id.
Definition invalidColor (color : string) : string :=
  "Invalid color format: " ++ color.
Definition opacity (v : JS.number) : string :=
  "Opacity must be between 0 and 1, got: " ++ JS.Number_toString v.
Definition fontSize (v : JS.number) : string :=
  "Font size should be between 8 and 72 pixels, got: "
    ++ JS.Number_toString v.
Definition fontWeight (w : string) : string :=
  "Font weight must be one of: " ++ JS.join ", " validFontWeights
    ++ ", got: " ++ w.
Definition fontStyle (st : string) : string :=
  "Font style must be one of: " ++ JS.join ", " validFontStyles
    ++ ", got: " ++ st.
Definition width (v : JS.number) : string :=
  "Width must be greater than 0, got: " ++ JS.Number_toString v.
Definition height (v : JS.number) : string :=
  "Height must be greater than 0, got: " ++ JS.Number_toString v.
Definition negativeX (v : JS.number) : string :=
  "X position is negative: " ++ JS.Number_toString v.
Definition negativeY (v : JS.number) : string :=
  "Y position is negative: " ++ JS.Number_toString v.
Definition animationSpeed (v : JS.number) : string :=
  "Animation speed should be between 0.1 and 10.0, got: "
    ++ JS.Number_toString v.
End Message.

(** [element.visual.<field> && !COLOR_REGEX.test(element.visual.<field>)] *)
Definition badColor (value : string) : bool :=
  JS.truthy_string value && negb (Regex.test COLOR_REGEX value).

(** The checks on [element.visual]. *)
Definition checkVisual (visualPath : string) (v : VisualProperties.t)
  : Issues.rule :=
  (Issues.when (badColor (VisualProperties.backgroundColor v))
     (Issues.pushError (visualPath ++ ".backgroundColor")
        (Message.invalidColor (VisualProperties.backgroundColor v))) ;;
   Issues.when (badColor (VisualProperties.foregroundColor v))
     (Issues.pushError (visualPath ++ ".foregroundColor")
        (Message.invalidColor (VisualProperties.foregroundColor v))) ;;
   Issues.when (badColor (VisualProperties.needleColor v))
     (Issues.pushError (visualPath ++ ".needleColor")
        (Message.invalidColor (VisualProperties.needleColor v))) ;;
   Issues.when (JS.lt (VisualProperties.opacity v) 0
                || JS.gt (VisualProperties.opacity v) 1)
     (Issues.pushError (visualPath ++ ".opacity")
        (Message.opacity (VisualProperties.opacity v))) ;;
   Issues.when (JS.lt (VisualProperties.fontSize v) 8
                || JS.gt (VisualProperties.fontSize v) 72)
     (Issues.pushWarning (visualPath ++ ".fontSize")
        (Message.fontSize (VisualProperties.fontSize v))) ;;
   Issues.when (negb (JS.includes validFontWeights
                        (VisualProperties.fontWeight v)))
     (Issues.pushError (visualPath ++ ".fontWeight")
        (Message.fontWeight (VisualProperties.fontWeight v))) ;;
   Issues.when (negb (JS.includes validFontStyles
                        (VisualProperties.fontStyle v)))
     (Issues.pushError (visualPath ++ ".fontStyle")
        (Message.fontStyle (VisualProperties.fontStyle v))) ;;
   Issues.when (JS.le (VisualProperties.width v) 0)
     (Issues.pushError (visualPath ++ ".width")
        (Message.width (VisualProperties.width v))) ;;
   Issues.when (JS.le (VisualProperties.height v) 0)
     (Issues.pushError (visualPath ++ ".height")
        (Message.height (VisualProperties.height v))) ;;
   Issues.when (JS.lt (VisualProperties.x v) 0)
     (Issues.pushWarning (visualPath ++ ".x")
        (Message.negativeX (VisualProperties.x v))) ;;
   Issues.when (JS.lt (VisualProperties.y v) 0)
     (Issues.pushWarning (visualPath ++ ".y")
        (Message.negativeY (VisualProperties.y v))))%rule.

(** [`elements[${index}]`] *)
Definition elementPath (index : nat) : string :=
  "elements[" ++ JS.nat_toString index ++ "]".

(** The body of [layout.elements.forEach((element, index) => ...)].  The
    guard [if (element.visual)] holds for every [Element]. *)
Definition checkElement (layout : LayoutData.t) (element : Element.t)
    (index : nat) : Issues.rule :=
  let elementPath := elementPath index in
  (Issues.when (JS.truthy_string (Element.sensor element)
                && negb (JS.includes VALID_SENSOR_IDS (Element.sensor element)))
     (Issues.pushWarning (elementPath ++ ".sensor")
        (Message.unknownSensor (Element.sensor element))) ;;
   (let duplicateIds :=
      filter (fun el => Element.id el =? Element.id element)
             (LayoutData.elements layout) in
    Issues.when (1 <? List.length duplicateIds)%nat
      (Issues.pushError (elementPath ++ ".id")
         (Message.duplicateId (Element.id element)))) ;;
   checkVisual (elementPath ++ ".visual") (Element.visual element) ;;
   Issues.when (Element.animated element
                && JS.truthy_number (Element.animationSpeed element))
     (Issues.when (JS.lt (Element.animationSpeed element) (1 # 10)
                   || JS.gt (Element.animationSpeed element) 10)
        (Issues.pushWarning (elementPath ++ ".animationSpeed")
           (Message.animationSpeed (Element.animationSpeed element)))))%rule.

(** [schemaErrors.forEach(error => errors.push(...))] *)
Definition pushSchemaError (error : Ajv.ErrorObject) (_ : nat) : Issues.rule :=
  Issues.pushError
    (JS.or_string (Ajv.instancePath error) "root")
    (JS.or_string (Element.or_else (Ajv.message error) "")
       "Unknown validation error").

Section Validation.

(** The schema file [schema/overlay-layout.schema.json] that Ajv compiles
    is not part of the sources at hand.  The compiled validator is taken
    as a parameter: [validateSchema layout] is the content of
    [validateSchema.errors] after the call, empty when the schema accepts
    the layout. *)
Variable validateSchema : LayoutData.t -> list Ajv.ErrorObject.

(** [validateLayout(layout)].  The guard [if (layout.elements)] holds for
    every [LayoutData]. *)
Definition validateLayout (layout : LayoutData.t) : ValidationResult.t :=
  let acc :=
    (Issues.forEach pushSchemaError (validateSchema layout) 0 ;;
     Issues.forEach (checkElement layout) (LayoutData.elements layout) 0)%rule
      (Issues.mk [] []) in
  ValidationResult.mk
    (List.length (Issues.errors acc) =? 0)%nat
    (Issues.errors acc)
    (Issues.warnings acc).

End Validation.

(** [validateElement(element, allElements)].  Both parameters are typed
    [any]; an element is taken with each of its members present or absent. *)
Definition validateElement (element : Element.partial)
    (allElements : list Element.partial) : ValidationResult.t :=
  let acc :=
    (Issues.when (JS.falsy_member (Element.p_id element))
       (Issues.pushError "id" "Element ID is required") ;;
     Issues.when (JS.falsy_member (Element.p_type element))
       (Issues.pushError "type" "Element type is required") ;;
     Issues.when (JS.falsy_member (Element.p_sensor element))
       (Issues.pushError "sensor" "Sensor binding is required") ;;
     Issues.when (match Element.p_visual element with
                  | Some _ => false
                  | None => true
                  end)
       (Issues.pushError "visual" "Visual properties are required") ;;
     (let duplicateCount :=
        List.length
          (filter (fun el => JS.strict_equal (Element.p_id el)
                                             (Element.p_id element))
                  allElements) in
      Issues.when (1 <? duplicateCount)%nat
        (Issues.pushError "id"
           (Message.duplicateId (JS.template (Element.p_id element))))))%rule
      (Issues.mk [] []) in
  ValidationResult.mk
    (List.length (Issues.errors acc) =? 0)%nat
    (Issues.errors acc)
    (Issues.warnings acc).

(** [validateSensorId(sensorId)] *)
Definition validateSensorId (sensorId : string) : bool :=
  JS.includes VALID_SENSOR_IDS sensorId.

(** [getValidationError(path, errors)]: [null] is [None]. *)
Definition getValidationError (path : string)
    (errors : list ValidationError.t) : option ValidationError.t :=
  find (fun error => ValidationError.path error =? path) errors.

(** [getValidationErrors(path, errors)] *)
Definition getValidationErrors (path : string)
    (errors : list ValidationError.t) : list ValidationError.t :=
  filter (fun error => JS.startsWith (ValidationError.path error) path) errors.

(** [formatValidationError(error)] *)
Definition formatValidationError (error : ValidationError.t) : string :=
  let path :=
    if ValidationError.path error =? "root" then "Layout"
    else ValidationError.path error in
  path ++ ": " ++ ValidationError.message error.

(** ** [JSON.stringify] and [JSON.parse]

    The values of the JSON data model, the text [JSON.stringify(value, null,
    2)] produces for them and the reading of such text by [JSON.parse],
    after ECMA-262, 25.5. *)

Module JSON.

#[local] Unset Elimination Schemes.
Inductive value : Type :=
| JNull
| JBool (b : bool)
| JNumber (n : JS.number)
| JString (s : string)
| JArray (items : list value)
| JObject (members : list (string * value)).
#[local] Set Elimination Schemes.

(** *** Writing *)

Definition nl : string := String (ascii_of_nat 10) "".
Definition dquote : ascii := ascii_of_nat 34.
Definition backslash : ascii := ascii_of_nat 92.

Fixpoint spaces (n : nat) : string :=
  match n with O => "" | S n' => String " " (spaces n') end.

Definition hex_digit (n : nat) : ascii :=
  if (n <? 10)%nat then ascii_of_nat (48 + n) else ascii_of_nat (87 + n).

(** [QuoteJSONString], one character at a time. *)
Definition quote_char (c : ascii) : string :=
  let n := nat_of_ascii c in
  if (n =? 8)%nat then "\b"
  else if (n =? 9)%nat then "\t"
  else if (n =? 10)%nat then "\n"
  else if (n =? 12)%nat then "\f"
  else if (n =? 13)%nat then "\r"
  else if (n =? 34)%nat then String backslash (String dquote "")
  else if (n =? 92)%nat then String backslash (String backslash "")
  else if (n <? 32)%nat
       then "\u00" ++ String (hex_digit (n / 16)) (String (hex_digit (n mod 16)) "")
  else String c "".

Fixpoint quote_body (s : string) : string :=
  match s with
  | EmptyString => ""
  | String c s' => quote_char c ++ quote_body s'
  end.

Definition quote (s : string) : string :=
  String dquote (quote_body s ++ String dquote "").

(** [items.join(separator)] *)
Fixpoint join (separator : string) (items : list string) : string :=
  match items with
  | [] => ""
  | [item] => item
  | item :: rest => item ++ separator ++ join separator rest
  end.

(** [SerializeJSONProperty] with a gap of two spaces; [indent] is the
    width of the current indentation. *)
Fixpoint stringify_at (indent : nat) (v : value) : string :=
  let stepback := spaces indent in
  let inner := spaces (2 + indent) in
  let separator := "," ++ nl ++ inner in
  match v with
  | JNull => "null"
  | JBool true => "true"
  | JBool false => "false"
  | JNumber n => JS.Number_toString n
  | JString s => quote s
  | JArray [] => "[]"
  | JArray items =>
      "[" ++ nl ++ inner
        ++ join separator (map (stringify_at (2 + indent)) items)
        ++ nl ++ stepback ++ "]"
  | JObject [] => "{}"
  | JObject members =>
      "{" ++ nl ++ inner
        ++ join separator
             (map (fun m => quote (fst m) ++ ": "
                              ++ stringify_at (2 + indent) (snd m))
                  members)
        ++ nl ++ stepback ++ "}"
  end.

(** [JSON.stringify(value, null, 2)] *)
Definition stringify (v : value) : string := stringify_at 0 v.

(** *** Reading *)

(** [JSON WhiteSpace]: tab, line feed, carriage return, space. *)
Definition is_ws (c : ascii) : bool :=
  let n := nat_of_ascii c in
  (n =? 9)%nat || (n =? 10)%nat || (n =? 13)%nat || (n =? 32)%nat.

Fixpoint skip_ws (s : string) : string :=
  match s with
  | EmptyString => ""
  | String c s' => if is_ws c then skip_ws s' else s
  end.

Definition is_digit (c : ascii) : bool :=
  let n := nat_of_ascii c in (48 <=? n)%nat && (n <=? 57)%nat.

(** The characters a number starts with, and those it is made of. *)
Definition is_number_start (c : ascii) : bool :=
  is_digit c || Ascii.eqb c "-".
Definition is_number_char (c : ascii) : bool :=
  is_digit c || Ascii.eqb c "-" || Ascii.eqb c "+" || Ascii.eqb c "."
  || Ascii.eqb c "e" || Ascii.eqb c "E".

(** The longest prefix of characters satisfying [p], and what follows. *)
Fixpoint span (p : ascii -> bool) (s : string) : string * string :=
  match s with
  | EmptyString => ("", "")
  | String c s' =>
      if p c then let (a, b) := span p s' in (String c a, b)
      else ("", s)
  end.

(** The number a string of digits stands for. *)
Definition digit_value (c : ascii) : N := N.of_nat (nat_of_ascii c - 48).
Fixpoint digits_value_from (acc : N) (ds : string) : N :=
  match ds with
  | EmptyString => acc
  | String c ds' => digits_value_from (10 * acc + digit_value c) ds'
  end.
Definition digits_value (ds : string) : N := digits_value_from 0 ds.

(** The value of [digits * 10 ^ exponent], in lowest terms. *)
Definition scaled (negative : bool) (digits : N) (exponent : Z) : JS.number :=
  let m := if negative then (- Z.of_N digits)%Z else Z.of_N digits in
  if (0 <=? exponent)%Z
  then Qred (inject_Z (m * 10 ^ exponent))
  else Qred (m # Z.to_pos (10 ^ (- exponent))).

(** A whole token read as a JSON number: an optional minus sign; an integer
    part, [0] or digits not starting with [0]; an optional fraction, a dot
    and digits; an optional exponent, [e] or [E], an optional sign and
    digits. *)
Definition parse_exponent (s : string) : option Z :=
  match s with
  | EmptyString => Some 0%Z
  | String c s' =>
      if Ascii.eqb c "e" || Ascii.eqb c "E" then
        let '(negative, ds) :=
          match s' with
          | String sign ds =>
              if Ascii.eqb sign "-" then (true, ds)
              else if Ascii.eqb sign "+" then (false, ds)
              else (false, s')
          | EmptyString => (false, s')
          end in
        let (e, rest) := span is_digit ds in
        match e, rest with
        | String _ _, EmptyString =>
            Some (if negative then (- Z.of_N (digits_value e))%Z
                  else Z.of_N (digits_value e))
        | _, _ => None
        end
      else None
  end.

(** An integer part: one digit, or several that do not start with [0]. *)
Definition no_leading_zero (int : string) : bool :=
  match int with
  | EmptyString => false
  | String c EmptyString => true
  | String c _ => negb (Ascii.eqb c "0")
  end.

Definition parse_unsigned (negative : bool) (s : string)
  : option JS.number :=
  let (int, s) := span is_digit s in
  if no_leading_zero int then
    let '(frac, frac_ok, s) :=
      match s with
      | String c s' =>
          if Ascii.eqb c "." then
            let (frac, s'') := span is_digit s' in
            (frac, negb (frac =? ""), s'')
          else ("", true, s)
      | EmptyString => ("", true, s)
      end in
    if frac_ok then
      match parse_exponent s with
      | Some e =>
          Some (scaled negative (digits_value (int ++ frac))
                  (e - Z.of_nat (String.length frac)))
      | None => None
      end
    else None
  else None.

Definition parse_number (token : string) : option JS.number :=
  match token with
  | String c s' =>
      if Ascii.eqb c "-" then parse_unsigned true s'
      else parse_unsigned false token
  | EmptyString => None
  end.

Definition hex_value (c : ascii) : option N :=
  let n := nat_of_ascii c in
  if (48 <=? n)%nat && (n <=? 57)%nat then Some (N.of_nat (n - 48))
  else if (97 <=? n)%nat && (n <=? 102)%nat then Some (N.of_nat (n - 87))
  else if (65 <=? n)%nat && (n <=? 70)%nat then Some (N.of_nat (n - 55))
  else None.

(** The bytes (UTF-8) of the character with code point [cp].  A surrogate
    that is not part of a pair has no UTF-8 form; it is written in three
    bytes as the code points around it are. *)
Definition utf8 (cp : N) : string :=
  let byte (n : N) := ascii_of_N n in
  if (cp <? 128)%N then String (byte cp) ""
  else if (cp <? 2048)%N then
    String (byte (192 + cp / 64)%N) (String (byte (128 + cp mod 64)%N) "")
  else if (cp <? 65536)%N then
    String (byte (224 + cp / 4096)%N)
      (String (byte (128 + (cp / 64) mod 64)%N)
         (String (byte (128 + cp mod 64)%N) ""))
  else
    String (byte (240 + cp / 262144)%N)
      (String (byte (128 + (cp / 4096) mod 64)%N)
         (String (byte (128 + (cp / 64) mod 64)%N)
            (String (byte (128 + cp mod 64)%N) ""))).

(** The code unit four hexadecimal digits denote. *)
Definition hex4 (h1 h2 h3 h4 : ascii) : option N :=
  match hex_value h1, hex_value h2, hex_value h3, hex_value h4 with
  | Some a, Some b, Some c, Some d => Some (a * 4096 + b * 256 + c * 16 + d)%N
  | _, _, _, _ => None
  end.

(** The code units U+D800 to U+DBFF and U+DC00 to U+DFFF, and the code
    point a pair of them stands for. *)
Definition is_high_surrogate (cu : N) : bool :=
  (55296 <=? cu)%N && (cu <=? 56319)%N.
Definition is_low_surrogate (cu : N) : bool :=
  (56320 <=? cu)%N && (cu <=? 57343)%N.
Definition surrogate_pair (high low : N) : N :=
  (65536 + (high - 55296) * 1024 + (low - 56320))%N.

(** The low surrogate a text starts with, written as an escape, and the
    text after it. *)
Definition low_surrogate_escape (s : string) : option (N * string) :=
  match s with
  | String b (String u (String l1 (String l2 (String l3 (String l4 s'))))) =>
      if Ascii.eqb b backslash && Ascii.eqb u "u" then
        match hex4 l1 l2 l3 l4 with
        | Some low => if is_low_surrogate low then Some (low, s') else None
        | None => None
        end
      else None
  | _ => None
  end.

(** The characters of a string literal after its opening quote, up to the
    closing quote, and the text that follows.  An escaped high surrogate
    followed by an escaped low surrogate is one character. *)
Fixpoint parse_string_body (s : string) : option (string * string) :=
  let cons (c : string) (r : option (string * string)) :=
    match r with
    | Some (body, rest) => Some (c ++ body, rest)
    | None => None
    end in
  match s with
  | EmptyString => None
  | String c s' =>
      if Ascii.eqb c dquote then Some ("", s')
      else if Ascii.eqb c backslash then
        match s' with
        | String e s'' =>
            if Ascii.eqb e dquote
            then cons (String dquote "") (parse_string_body s'')
            else if Ascii.eqb e backslash
                 then cons (String backslash "") (parse_string_body s'')
            else if Ascii.eqb e "/" then cons "/" (parse_string_body s'')
            else if Ascii.eqb e "b"
                 then cons (String (ascii_of_nat 8) "") (parse_string_body s'')
            else if Ascii.eqb e "f"
                 then cons (String (ascii_of_nat 12) "") (parse_string_body s'')
            else if Ascii.eqb e "n"
                 then cons (String (ascii_of_nat 10) "") (parse_string_body s'')
            else if Ascii.eqb e "r"
                 then cons (String (ascii_of_nat 13) "") (parse_string_body s'')
            else if Ascii.eqb e "t"
                 then cons (String (ascii_of_nat 9) "") (parse_string_body s'')
            else if Ascii.eqb e "u" then
              match s'' with
              | String h1 (String h2 (String h3 (String h4 s3))) =>
                  match hex4 h1 h2 h3 h4 with
                  | Some cu =>
                      if is_high_surrogate cu then
                        match s3 with
                        | String b (String u (String l1 (String l2
                            (String l3 (String l4 s4))))) =>
                            match low_surrogate_escape s3 with
                            | Some (low, _) =>
                                cons (utf8 (surrogate_pair cu low))
                                     (parse_string_body s4)
                            | None => cons (utf8 cu) (parse_string_body s3)
                            end
                        | _ => cons (utf8 cu) (parse_string_body s3)
                        end
                      else cons (utf8 cu) (parse_string_body s3)
                  | None => None
                  end
              | _ => None
              end
            else None
        | EmptyString => None
        end
      else if (nat_of_ascii c <? 32)%nat then None
      else cons (String c "") (parse_string_body s')
  end.

(** [prefix] removed from the front of [s], if it is there. *)
Fixpoint strip_prefix (prefix s : string) : option string :=
  match prefix, s with
  | EmptyString, _ => Some s
  | String a prefix', String b s' =>
      if Ascii.eqb a b then strip_prefix prefix' s' else None
  | String _ _, EmptyString => None
  end.

Definition parse_literal (s : string) : option (value * string) :=
  match strip_prefix "null" s with
  | Some rest => Some (JNull, rest)
  | None =>
      match strip_prefix "true" s with
      | Some rest => Some (JBool true, rest)
      | None =>
          match strip_prefix "false" s with
          | Some rest => Some (JBool false, rest)
          | None => None
          end
      end
  end.

(** A JSON value at the front of [s], and the text after it.  The recursion
    is on [fuel], which every nested value and every item of an array or an
    object uses up by one. *)
Fixpoint parse_value (fuel : nat) (s : string) {struct fuel}
  : option (value * string) :=
  match fuel with
  | O => None
  | S fuel' =>
      match skip_ws s with
      | EmptyString => None
      | String c rest =>
          if is_number_start c then
            let (token, rest') := span is_number_char (String c rest) in
            match parse_number token with
            | Some n => Some (JNumber n, rest')
            | None => None
            end
          else if Ascii.eqb c dquote then
            match parse_string_body rest with
            | Some (str, rest') => Some (JString str, rest')
            | None => None
            end
          else if Ascii.eqb c "[" then
            match skip_ws rest with
            | EmptyString => None
            | String c' rest' =>
                if Ascii.eqb c' "]" then Some (JArray [], rest')
                else
                  match parse_items fuel' rest with
                  | Some (items, rest'') => Some (JArray items, rest'')
                  | None => None
                  end
            end
          else if Ascii.eqb c "{" then
            match skip_ws rest with
            | EmptyString => None
            | String c' rest' =>
                if Ascii.eqb c' "}" then Some (JObject [], rest')
                else
                  match parse_members fuel' rest with
                  | Some (members, rest'') => Some (JObject members, rest'')
                  | None => None
                  end
            end
          else parse_literal (String c rest)
      end
  end

with parse_items (fuel : nat) (s : string) {struct fuel}
  : option (list value * string) :=
  match fuel with
  | O => None
  | S fuel' =>
      match parse_value fuel' s with
      | None => None
      | Some (v, rest) =>
          match skip_ws rest with
          | EmptyString => None
          | String c rest' =>
              if Ascii.eqb c "," then
                match parse_items fuel' rest' with
                | Some (items, rest'') => Some (v :: items, rest'')
                | None => None
                end
              else if Ascii.eqb c "]" then Some ([v], rest')
              else None
          end
      end
  end

with parse_members (fuel : nat) (s : string) {struct fuel}
  : option (list (string * value) * string) :=
  match fuel with
  | O => None
  | S fuel' =>
      match skip_ws s with
      | EmptyString => None
      | String q rest =>
          if Ascii.eqb q dquote then
            match parse_string_body rest with
            | None => None
            | Some (key, rest1) =>
                match skip_ws rest1 with
                | EmptyString => None
                | String colon rest2 =>
                    if Ascii.eqb colon ":" then
                      match parse_value fuel' rest2 with
                      | None => None
                      | Some (v, rest3) =>
                          match skip_ws rest3 with
                          | EmptyString => None
                          | String c rest4 =>
                              if Ascii.eqb c "," then
                                match parse_members fuel' rest4 with
                                | Some (members, rest5) =>
                                    Some ((key, v) :: members, rest5)
                                | None => None
                                end
                              else if Ascii.eqb c "}"
                                   then Some ([(key, v)], rest4)
                              else None
                          end
                      end
                    else None
                end
            end
          else None
      end
  end.

(** [JSON.parse(text)]; [None] is the [SyntaxError]. *)
Definition parse (text : string) : option value :=
  match parse_value (S (String.length text)) text with
  | Some (v, rest) =>
      match skip_ws rest with
      | EmptyString => Some v
      | String _ _ => None
      end
  | None => None
  end.

(** *** Reading properties *)

(** [object[key]]: the value of the last member named [key]. *)
Fixpoint get (key : string) (members : list (string * value))
  : option value :=
  match members with
  | [] => None
  | (k, v) :: rest =>
      match get key rest with
      | Some v' => Some v'
      | None => if k =? key then Some v else None
      end
  end.

(** Truthiness of a value. *)
Definition truthy (v : value) : bool :=
  match v with
  | JNull => false
  | JBool b => b
  | JNumber n => JS.truthy_number n
  | JString s => JS.truthy_string s
  | JArray _ | JObject _ => true
  end.

Definition only_keys (allowed : list string)
    (members : list (string * value)) : bool :=
  forallb (fun m => JS.includes allowed (fst m)) members.

End JSON.

(** ** Layout documents as JSON values

    The store holds the object graph a [LayoutData] stands for.  [toJS]
    spells that graph out (properties in the order the store creates them, a
    property that is absent or [undefined] left out); [ofJS] reads a graph
    back as a [LayoutData] and is defined on exactly the graphs [toJS]
    produces, up to the order of the properties. *)

Module Codec.

Import JSON.

Definition bind {A B : Type} (o : option A) (k : A -> option B) : option B :=
  match o with Some a => k a | None => None end.

Notation "x <- o ;; k" := (bind o (fun x => k))
  (at level 61, o at next level, right associativity).

Definition number (key : string) (members : list (string * value))
  : option JS.number :=
  match get key members with Some (JNumber n) => Some n | _ => None end.
Definition text (key : string) (members : list (string * value))
  : option string :=
  match get key members with Some (JString s) => Some s | _ => None end.
Definition boolean (key : string) (members : list (string * value))
  : option bool :=
  match get key members with Some (JBool b) => Some b | _ => None end.

(** An optional property: absent, or of the expected type. *)
Definition optional {A : Type} (read : value -> option A) (key : string)
    (members : list (string * value)) : option (option A) :=
  match get key members with
  | None => Some None
  | Some v => match read v with Some a => Some (Some a) | None => None end
  end.

Definition as_text (v : value) : option string :=
  match v with JString s => Some s | _ => None end.

Fixpoint all {A B : Type} (read : A -> option B) (l : list A)
  : option (list B) :=
  match l with
  | [] => Some []
  | a :: l' => b <- read a ;; bs <- all read l' ;; Some (b :: bs)
  end.

Definition as_texts (v : value) : option (list string) :=
  match v with JArray items => all as_text items | _ => None end.

(** A property that is written only when it is there. *)
Definition field {A : Type} (key : string) (write : A -> value)
    (o : option A) : list (string * value) :=
  match o with Some a => [(key, write a)] | None => [] end.

Definition VisualProperties_toJS (v : VisualProperties.t) : value :=
  JObject
    [ ("x", JNumber (VisualProperties.x v));
      ("y", JNumber (VisualProperties.y v));
      ("width", JNumber (VisualProperties.width v));
      ("height", JNumber (VisualProperties.height v));
      ("backgroundColor", JString (VisualProperties.backgroundColor v));
      ("foregroundColor", JString (VisualProperties.foregroundColor v));
      ("needleColor", JString (VisualProperties.needleColor v));
      ("opacity", JNumber (VisualProperties.opacity v));
      ("visible", JBool (VisualProperties.visible v));
      ("showText", JBool (VisualProperties.showText v));
      ("fontFamily", JString (VisualProperties.fontFamily v));
      ("fontSize", JNumber (VisualProperties.fontSize v));
      ("fontWeight", JString (VisualProperties.fontWeight v));
      ("fontStyle", JString (VisualProperties.fontStyle v)) ].

Definition VisualProperties_keys : list string :=
  ["x"; "y"; "width"; "height"; "backgroundColor"; "foregroundColor";
   "needleColor"; "opacity"; "visible"; "showText"; "fontFamily"; "fontSize";
   "fontWeight"; "fontStyle"].

Definition VisualProperties_ofJS (v : value) : option VisualProperties.t :=
  match v with
  | JObject m =>
      if only_keys VisualProperties_keys m then
        x <- number "x" m ;;
        y <- number "y" m ;;
        width <- number "width" m ;;
        height <- number "height" m ;;
        backgroundColor <- text "backgroundColor" m ;;
        foregroundColor <- text "foregroundColor" m ;;
        needleColor <- text "needleColor" m ;;
        opacity <- number "opacity" m ;;
        visible <- boolean "visible" m ;;
        showText <- boolean "showText" m ;;
        fontFamily <- text "fontFamily" m ;;
        fontSize <- number "fontSize" m ;;
        fontWeight <- text "fontWeight" m ;;
        fontStyle <- text "fontStyle" m ;;
        Some (VisualProperties.mk x y width height backgroundColor
                foregroundColor needleColor opacity visible showText
                fontFamily fontSize fontWeight fontStyle)
      else None
  | _ => None
  end.

Definition Element_toJS (e : Element.t) : value :=
  JObject
    [ ("id", JString (Element.id e));
      ("type", JString (Element.type e));
      ("sensor", JString (Element.sensor e));
      ("visual", VisualProperties_toJS (Element.visual e));
      ("animated", JBool (Element.animated e));
      ("animationSpeed", JNumber (Element.animationSpeed e)) ].

Definition Element_keys : list string :=
  ["id"; "type"; "sensor"; "visual"; "animated"; "animationSpeed"].

Definition Element_ofJS (v : value) : option Element.t :=
  match v with
  | JObject m =>
      if only_keys Element_keys m then
        id <- text "id" m ;;
        type <- text "type" m ;;
        sensor <- text "sensor" m ;;
        visual <- bind (get "visual" m) VisualProperties_ofJS ;;
        animated <- boolean "animated" m ;;
        animationSpeed <- number "animationSpeed" m ;;
        Some (Element.mk id type sensor visual animated animationSpeed)
      else None
  | _ => None
  end.

Definition compatibility_toJS (c : Metadata.compatibility) : value :=
  JObject (field "minVersion" JString (Metadata.minVersion c)
           ++ field "maxVersion" JString (Metadata.maxVersion c)).

Definition compatibility_ofJS (v : value) : option Metadata.compatibility :=
  match v with
  | JObject m =>
      if only_keys ["minVersion"; "maxVersion"] m then
        minVersion <- optional as_text "minVersion" m ;;
        maxVersion <- optional as_text "maxVersion" m ;;
        Some (Metadata.mkCompatibility minVersion maxVersion)
      else None
  | _ => None
  end.

Definition Metadata_toJS (d : Metadata.t) : value :=
  JObject (field "name" JString (Metadata.name d)
           ++ field "description" JString (Metadata.description d)
           ++ field "author" JString (Metadata.author d)
           ++ field "created" JString (Metadata.created d)
           ++ field "modified" JString (Metadata.modified d)
           ++ field "tags" (fun l => JArray (map JString l)) (Metadata.tags d)
           ++ field "compatibility" compatibility_toJS (Metadata.compat d)).

Definition Metadata_keys : list string :=
  ["name"; "description"; "author"; "created"; "modified"; "tags";
   "compatibility"].

Definition Metadata_ofJS (v : value) : option Metadata.t :=
  match v with
  | JObject m =>
      if only_keys Metadata_keys m then
        name <- optional as_text "name" m ;;
        description <- optional as_text "description" m ;;
        author <- optional as_text "author" m ;;
        created <- optional as_text "created" m ;;
        modified <- optional as_text "modified" m ;;
        tags <- optional as_texts "tags" m ;;
        compat <- optional compatibility_ofJS "compatibility" m ;;
        Some (Metadata.mk name description author created modified tags
                compat)
      else None
  | _ => None
  end.

Definition LayoutData_toJS (l : LayoutData.t) : value :=
  JObject ([ ("version", JString (LayoutData.version l));
             ("elements", JArray (map Element_toJS (LayoutData.elements l))) ]
           ++ field "metadata" Metadata_toJS (LayoutData.metadata l)).

Definition LayoutData_ofJS (v : value) : option LayoutData.t :=
  match v with
  | JObject m =>
      if only_keys ["version"; "elements"; "metadata"] m then
        version <- text "version" m ;;
        elements <-
          match get "elements" m with
          | Some (JArray items) => all Element_ofJS items
          | _ => None
          end ;;
        metadata <- optional Metadata_ofJS "metadata" m ;;
        Some (LayoutData.mk version elements metadata)
      else None
  | _ => None
  end.

(** The numbers of a document. *)
Definition VisualProperties_numbers (v : VisualProperties.t)
  : list JS.number :=
  [VisualProperties.x v; VisualProperties.y v; VisualProperties.width v;
   VisualProperties.height v; VisualProperties.opacity v;
   VisualProperties.fontSize v].
Definition LayoutData_numbers (l : LayoutData.t) : list JS.number :=
  flat_map (fun e => (VisualProperties_numbers (Element.visual e)
                      ++ [Element.animationSpeed e])%list)
           (LayoutData.elements l).

End Codec.


(** [validateLayout(value)] on a value that [JSON.parse] produced and that
    need not be a [LayoutData]: cases in which the rules end in a
    [TypeError].  [layout.elements] cannot be read when the value is
    [null]; a truthy [layout.elements] that is no array has no method
    [forEach]; and no property can be read of an element that is [null],
    which the first round of [forEach] reaches, in [element.sensor] or in
    the [filter] over all elements.  The list is not complete: deeper in an
    element, a member that is an object where the rules expect a string or
    a number can make them throw as well. *)
Definition validateLayout_throws (value : JSON.value) : bool :=
  match value with
  | JSON.JNull => true
  | JSON.JObject members =>
      match JSON.get "elements" members with
      | Some (JSON.JArray items) =>
          existsb (fun item => match item with
                               | JSON.JNull => true
                               | _ => false
                               end) items
      | Some elements => JSON.truthy elements
      | None => false
      end
  | _ => false
  end.

(** ** The editor store ([src/store/editorStore.ts]) *)

Module Point.
Record t : Type := mk { x : JS.number; y : JS.number }.
End Point.

(** [EditorState] extended with the data fields of [EditorStore]. *)
Module EditorState.
Record t : Type := mk {
  layout : LayoutData.t;
  selectedElementIds : list string;
  clipboard : list Element.t;
  currentTool : string;
  snapToGrid : bool;
  gridSize : JS.number;
  zoom : JS.number;
  pan : Point.t;
  showDebug : bool;
  previewMode : bool;
  validationResult : option ValidationResult.t;
  canUndo : bool;
  canRedo : bool;
  canvasWidth : JS.number;
  canvasHeight : JS.number;
  showBackground : bool;
  backgroundImage : string
}.

(** [set({ layout })], [set({ selectedElementIds })], [set({ clipboard })]
    and [set({ validationResult })]. *)
Definition set_layout (l : LayoutData.t) (s : t) : t :=
  mk l (selectedElementIds s) (clipboard s) (currentTool s) (snapToGrid s)
     (gridSize s) (zoom s) (pan s) (showDebug s) (previewMode s)
     (validationResult s) (canUndo s) (canRedo s) (canvasWidth s)
     (canvasHeight s) (showBackground s) (backgroundImage s).
Definition set_selectedElementIds (ids : list string) (s : t) : t :=
  mk (layout s) ids (clipboard s) (currentTool s) (snapToGrid s)
     (gridSize s) (zoom s) (pan s) (showDebug s) (previewMode s)
     (validationResult s) (canUndo s) (canRedo s) (canvasWidth s)
     (canvasHeight s) (showBackground s) (backgroundImage s).
Definition set_clipboard (c : list Element.t) (s : t) : t :=
  mk (layout s) (selectedElementIds s) c (currentTool s) (snapToGrid s)
     (gridSize s) (zoom s) (pan s) (showDebug s) (previewMode s)
     (validationResult s) (canUndo s) (canRedo s) (canvasWidth s)
     (canvasHeight s) (showBackground s) (backgroundImage s).
Definition set_validationResult (r : option ValidationResult.t) (s : t) : t :=
  mk (layout s) (selectedElementIds s) (clipboard s) (currentTool s)
     (snapToGrid s) (gridSize s) (zoom s) (pan s) (showDebug s)
     (previewMode s) r (canUndo s) (canRedo s) (canvasWidth s)
     (canvasHeight s) (showBackground s) (backgroundImage s).
Definition set_currentTool (tool : string) (s : t) : t :=
  mk (layout s) (selectedElementIds s) (clipboard s) tool (snapToGrid s)
     (gridSize s) (zoom s) (pan s) (showDebug s) (previewMode s)
     (validationResult s) (canUndo s) (canRedo s) (canvasWidth s)
     (canvasHeight s) (showBackground s) (backgroundImage s).

(** [set] on the view settings, the history flags and the canvas
    settings. *)
Definition set_snapToGrid (enabled : bool) (s : t) : t :=
  mk (layout s) (selectedElementIds s) (clipboard s) (currentTool s) enabled
     (gridSize s) (zoom s) (pan s) (showDebug s) (previewMode s)
     (validationResult s) (canUndo s) (canRedo s) (canvasWidth s)
     (canvasHeight s) (showBackground s) (backgroundImage s).
Definition set_gridSize (size : JS.number) (s : t) : t :=
  mk (layout s) (selectedElementIds s) (clipboard s) (currentTool s)
     (snapToGrid s) size (zoom s) (pan s) (showDebug s) (previewMode s)
     (validationResult s) (canUndo s) (canRedo s) (canvasWidth s)
     (canvasHeight s) (showBackground s) (backgroundImage s).
Definition set_zoom (z : JS.number) (s : t) : t :=
  mk (layout s) (selectedElementIds s) (clipboard s) (currentTool s)
     (snapToGrid s) (gridSize s) z (pan s) (showDebug s) (previewMode s)
     (validationResult s) (canUndo s) (canRedo s) (canvasWidth s)
     (canvasHeight s) (showBackground s) (backgroundImage s).
Definition set_pan (p : Point.t) (s : t) : t :=
  mk (layout s) (selectedElementIds s) (clipboard s) (currentTool s)
     (snapToGrid s) (gridSize s) (zoom s) p (showDebug s) (previewMode s)
     (validationResult s) (canUndo s) (canRedo s) (canvasWidth s)
     (canvasHeight s) (showBackground s) (backgroundImage s).
Definition set_showDebug (show : bool) (s : t) : t :=
  mk (layout s) (selectedElementIds s) (clipboard s) (currentTool s)
     (snapToGrid s) (gridSize s) (zoom s) (pan s) show (previewMode s)
     (validationResult s) (canUndo s) (canRedo s) (canvasWidth s)
     (canvasHeight s) (showBackground s) (backgroundImage s).
Definition set_previewMode (mode : bool) (s : t) : t :=
  mk (layout s) (selectedElementIds s) (clipboard s) (currentTool s)
     (snapToGrid s) (gridSize s) (zoom s) (pan s) (showDebug s) mode
     (validationResult s) (canUndo s) (canRedo s) (canvasWidth s)
     (canvasHeight s) (showBackground s) (backgroundImage s).
Definition set_history (undoable redoable : bool) (s : t) : t :=
  mk (layout s) (selectedElementIds s) (clipboard s) (currentTool s)
     (snapToGrid s) (gridSize s) (zoom s) (pan s) (showDebug s)
     (previewMode s) (validationResult s) undoable redoable (canvasWidth s)
     (canvasHeight s) (showBackground s) (backgroundImage s).
Definition set_canvasSize (w h : JS.number) (s : t) : t :=
  mk (layout s) (selectedElementIds s) (clipboard s) (currentTool s)
     (snapToGrid s) (gridSize s) (zoom s) (pan s) (showDebug s)
     (previewMode s) (validationResult s) (canUndo s) (canRedo s) w h
     (showBackground s) (backgroundImage s).
Definition set_showBackground (show : bool) (s : t) : t :=
  mk (layout s) (selectedElementIds s) (clipboard s) (currentTool s)
     (snapToGrid s) (gridSize s) (zoom s) (pan s) (showDebug s)
     (previewMode s) (validationResult s) (canUndo s) (canRedo s)
     (canvasWidth s) (canvasHeight s) show (backgroundImage s).
Definition set_backgroundImage (image : string) (s : t) : t :=
  mk (layout s) (selectedElementIds s) (clipboard s) (currentTool s)
     (snapToGrid s) (gridSize s) (zoom s) (pan s) (showDebug s)
     (previewMode s) (validationResult s) (canUndo s) (canRedo s)
     (canvasWidth s) (canvasHeight s) (showBackground s) image.
End EditorState.

Definition defaultLayout : LayoutData.t := LayoutData.mk "1.0" [] None.

(** The initial state handed to [create]. *)
Definition initialState : EditorState.t :=
  EditorState.mk defaultLayout [] [] "select" true 20 1 (Point.mk 0 0)
    false false None false false 1920 1080 false "".

(** The ids of the document's elements, in z-order. *)
Definition element_ids (s : EditorState.t) : list string :=
  map Element.id (LayoutData.elements (EditorState.layout s)).

Module Store.
Section Actions.

Variable validateSchema : LayoutData.t -> list Ajv.ErrorObject.

(** *** Validation action *)

Definition validateLayout (s : EditorState.t)
  : EditorState.t * ValidationResult.t :=
  let result := validateLayout validateSchema (EditorState.layout s) in
  (EditorState.set_validationResult (Some result) s, result).

(** *** Layout actions *)

Definition setLayout (layout : LayoutData.t) (s : EditorState.t)
  : EditorState.t :=
  fst (validateLayout (EditorState.set_layout layout s)).

Definition updateElement (id : string) (updates : Element.partial)
    (s : EditorState.t) : EditorState.t :=
  let newLayout :=
    LayoutData.with_elements (EditorState.layout s)
      (map (fun el => if Element.id el =? id
                      then Element.merge el updates else el)
           (LayoutData.elements (EditorState.layout s))) in
  fst (validateLayout (EditorState.set_layout newLayout s)).

Definition addElement (element : Element.t) (s : EditorState.t)
  : EditorState.t :=
  let newLayout :=
    LayoutData.with_elements (EditorState.layout s)
      (LayoutData.elements (EditorState.layout s) ++ [element]) in
  fst (validateLayout (EditorState.set_layout newLayout s)).

(** The element [createElement] builds under timestamp [now]. *)
Definition newElement (definition : ElementDefinition.t)
    (type : ElementType) (x y : JS.number) (sensor : option SensorId)
    (now : N) : Element.t :=
  Element.mk
    (type ++ "_" ++ JS.N_toString now)
    type
    (JS.or_string
       (JS.or_string (Element.or_else sensor "")
          (hd "" (ElementDefinition.suggestedSensors definition)))
       "CPU_Utilization")
    (VisualProperties.mk x y
       (ElementDefinition.width (ElementDefinition.defaultSize definition))
       (ElementDefinition.height (ElementDefinition.defaultSize definition))
       "#333333" "#ffffff" "#00ff00" 1 true true "Consolas" 12
       "normal" "normal")
    false 1.

(** [createElement(type, x, y, sensor)], with [now] the value [Date.now()]
    yields: the state after the call and how the call ends.  The arrow
    function has a block body and no [return] of a value, so that the
    caller receives [undefined], rendered [None].  For a [type] that names
    a member inherited from [Object.prototype], [definition] is that
    member: it is truthy and has no [defaultSize], and reading
    [definition.defaultSize.width] throws a [TypeError] before the store is
    touched. *)
Definition createElement (type : ElementType) (x y : JS.number)
    (sensor : option SensorId) (now : N) (s : EditorState.t)
  : EditorState.t * JS.completion (option string) :=
  match ELEMENT_DEFINITIONS type with
  | None => (s, JS.returned None)
  | Some Dict.inherited => (s, JS.threw "TypeError")
  | Some (Dict.own definition) =>
      (addElement (newElement definition type x y sensor now) s,
       JS.returned None)
  end.

Definition removeElement (id : string) (s : EditorState.t)
  : EditorState.t :=
  let newLayout :=
    LayoutData.with_elements (EditorState.layout s)
      (filter (fun el => negb (Element.id el =? id))
              (LayoutData.elements (EditorState.layout s))) in
  fst (validateLayout
         (EditorState.set_selectedElementIds
            (filter (fun selectedId => negb (selectedId =? id))
                    (EditorState.selectedElementIds s))
            (EditorState.set_layout newLayout s))).

(** [{ ...el, id: `${el.id}<tag>${Date.now()}`,
       visual: { ...el.visual, x: el.visual.x + 20, y: el.visual.y + 20 } }] *)
Definition retagged (tag : string) (now : N) (el : Element.t) : Element.t :=
  Element.with_id_visual el
    (Element.id el ++ tag ++ JS.N_toString now)
    (VisualProperties.with_position (Element.visual el)
       (VisualProperties.x (Element.visual el) + 20)
       (VisualProperties.y (Element.visual el) + 20)).

Definition duplicateElement (id : string) (now : N) (s : EditorState.t)
  : EditorState.t :=
  match find (fun el => Element.id el =? id)
             (LayoutData.elements (EditorState.layout s)) with
  | Some element => addElement (retagged "_copy_" now element) s
  | None => s
  end.

(** *** Clipboard actions *)

Definition copySelected (s : EditorState.t) : EditorState.t :=
  let selectedElements :=
    filter (fun el => JS.includes (EditorState.selectedElementIds s)
                                  (Element.id el))
           (LayoutData.elements (EditorState.layout s)) in
  EditorState.set_clipboard selectedElements s.

(** [state.clipboard.map(el => ...)]: [Date.now()] is read once per
    clipboard entry; [now i] is the reading for the entry at index [i]. *)
Fixpoint pasted (now : nat -> N) (index : nat) (clipboard : list Element.t)
  : list Element.t :=
  match clipboard with
  | [] => []
  | el :: rest =>
      retagged "_paste_" (now index) el :: pasted now (S index) rest
  end.

Definition paste (now : nat -> N) (s : EditorState.t) : EditorState.t :=
  let pastedElements := pasted now 0 (EditorState.clipboard s) in
  let newLayout :=
    LayoutData.with_elements (EditorState.layout s)
      (LayoutData.elements (EditorState.layout s) ++ pastedElements) in
  fst (validateLayout (EditorState.set_layout newLayout s)).

Definition cutSelected (s : EditorState.t) : EditorState.t :=
  let s1 := copySelected s in
  fold_left (fun st id => removeElement id st)
            (EditorState.selectedElementIds s1) s1.

Definition resetLayout (s : EditorState.t) : EditorState.t :=
  fst (validateLayout
         (EditorState.set_selectedElementIds []
            (EditorState.set_layout defaultLayout s))).

(** *** Utility actions *)

(** [exportLayout()] *)
Definition exportLayout (s : EditorState.t) : string :=
  JSON.stringify (Codec.LayoutData_toJS (EditorState.layout s)).

(** How [importLayout(json)] leaves the store.
    - [typed s' answer]: the store is [s'] and the caller receives
      [answer].
    - [untyped value]: the store holds [value], which is no [LayoutData],
      as its [layout]; [validateLayout] threw on it, so that every other
      member of the store, the cached [validationResult] too, is as before
      the call, and the caller receives [false]. *)
Inductive imported : Type :=
| typed (s' : EditorState.t) (answer : bool)
| untyped (value : JSON.value).

(** [importLayout(json)].  A text that [JSON.parse] rejects leaves the
    store as it is and yields [false].  The text of a layout installs it.
    Any other text has its value put in the place of the layout before
    [validateLayout] runs on it; the outer [None] marks the values on which
    [validateLayout] may return, with a validation result that depends on
    what Ajv reports for a value that is no layout. *)
Definition importLayout (json : string) (s : EditorState.t)
  : option imported :=
  match JSON.parse json with
  | None => Some (typed s false)
  | Some v =>
      match Codec.LayoutData_ofJS v with
      | Some layout => Some (typed (setLayout layout s) true)
      | None => if validateLayout_throws v then Some (untyped v) else None
      end
  end.

End Actions.

(** *** Selection actions *)

Definition selectElement (id : string) (s : EditorState.t)
  : EditorState.t :=
  EditorState.set_selectedElementIds [id] s.

Definition selectMultiple (ids : list string) (s : EditorState.t)
  : EditorState.t :=
  EditorState.set_selectedElementIds ids s.

Definition clearSelection (s : EditorState.t) : EditorState.t :=
  EditorState.set_selectedElementIds [] s.

Definition toggleSelection (id : string) (s : EditorState.t)
  : EditorState.t :=
  let isSelected := JS.includes (EditorState.selectedElementIds s) id in
  if isSelected
  then EditorState.set_selectedElementIds
         (filter (fun selectedId => negb (selectedId =? id))
                 (EditorState.selectedElementIds s)) s
  else EditorState.set_selectedElementIds
         (EditorState.selectedElementIds s ++ [id]) s.

Definition setTool (tool : string) (s : EditorState.t) : EditorState.t :=
  EditorState.set_currentTool tool s.

(** *** Editor, UI and canvas actions *)

Definition setSnapToGrid (enabled : bool) (s : EditorState.t)
  : EditorState.t :=
  EditorState.set_snapToGrid enabled s.

(** [setGridSize(size)] and [setZoom(zoom)], for an argument that is a
    number of the model. *)
Definition setGridSize (size : JS.number) (s : EditorState.t)
  : EditorState.t :=
  EditorState.set_gridSize (JS.Math_max 5 (JS.Math_min 100 size)) s.

Definition setZoom (zoom : JS.number) (s : EditorState.t) : EditorState.t :=
  EditorState.set_zoom (JS.Math_max (1 # 10) (JS.Math_min 5 zoom)) s.

(** The same two actions for any value of the type [number].  An infinity
    is brought to a bound.  For [NaN], [Math.min] and [Math.max] answer
    [NaN] and the store holds it from then on, a state the record
    [EditorState.t] does not have: [None]. *)
Definition setGridSize_float (size : JS.float) (s : EditorState.t)
  : option EditorState.t :=
  match JS.Math_max_float 5 (JS.Math_min_float 100 size) with
  | JS.finite stored => Some (EditorState.set_gridSize stored s)
  | _ => None
  end.

Definition setZoom_float (zoom : JS.float) (s : EditorState.t)
  : option EditorState.t :=
  match JS.Math_max_float (1 # 10) (JS.Math_min_float 5 zoom) with
  | JS.finite stored => Some (EditorState.set_zoom stored s)
  | _ => None
  end.

Definition setPan (pan : Point.t) (s : EditorState.t) : EditorState.t :=
  EditorState.set_pan pan s.

Definition setShowDebug (show : bool) (s : EditorState.t) : EditorState.t :=
  EditorState.set_showDebug show s.

Definition setPreviewMode (mode : bool) (s : EditorState.t)
  : EditorState.t :=
  EditorState.set_previewMode mode s.

Definition setCanvasSize (width height : JS.number) (s : EditorState.t)
  : EditorState.t :=
  EditorState.set_canvasSize width height s.

Definition setShowBackground (show : bool) (s : EditorState.t)
  : EditorState.t :=
  EditorState.set_showBackground show s.

Definition setBackgroundImage (image : string) (s : EditorState.t)
  : EditorState.t :=
  EditorState.set_backgroundImage image s.

(** *** History actions

    The three bodies only set the two flags; the [HistoryAction] handed to
    [pushHistory] is not read. *)

Definition pushHistory {HistoryAction : Type} (action : HistoryAction)
    (s : EditorState.t) : EditorState.t :=
  EditorState.set_history true false s.

Definition undo (s : EditorState.t) : EditorState.t :=
  EditorState.set_history false true s.

Definition redo (s : EditorState.t) : EditorState.t :=
  EditorState.set_history true false s.

End Store.

(** ** The canvas controller ([src/components/Canvas.tsx]) *)

Module Canvas.

(** The component's [useState] cells. *)
Record ResizeStart : Type := mkResizeStart {
  x : JS.number;
  y : JS.number;
  width : JS.number;
  height : JS.number
}.
Record t : Type := mk {
  isDragging : bool;
  isResizing : bool;
  dragStart : Point.t;
  resizeStart : ResizeStart;
  resizeHandle : string
}.

Definition initial : t :=
  mk false false (Point.mk 0 0) (mkResizeStart 0 0 0 0) "".

(** What the handlers read from a mouse event; [onCurrentTarget] is
    [e.target === e.currentTarget]. *)
Record MouseEvent : Type := mkEvent {
  clientX : JS.number;
  clientY : JS.number;
  onCurrentTarget : bool
}.
Record DOMRect : Type := mkRect { left : JS.number; top : JS.number }.

(** The size [handleResizeMove] computes from the deltas, canvas-space. *)
Definition resizedSize (handle : string) (start : ResizeStart)
    (deltaX deltaY : JS.number) : JS.number * JS.number :=
  let newWidth := width start in
  let newHeight := height start in
  let newWidth :=
    if JS.includes_char handle "e" then newWidth + deltaX else newWidth in
  let newWidth :=
    if JS.includes_char handle "w" then newWidth - deltaX else newWidth in
  let newHeight :=
    if JS.includes_char handle "s" then newHeight + deltaY else newHeight in
  let newHeight :=
    if JS.includes_char handle "n" then newHeight - deltaY else newHeight in
  (JS.Math_max 20 newWidth, JS.Math_max 20 newHeight).

Definition snapped (snapToGrid : bool) (gridSize v : JS.number)
  : JS.number :=
  if snapToGrid then JS.Math_round (v / gridSize) * gridSize else v.

Section Handlers.

Variable validateSchema : LayoutData.t -> list Ajv.ErrorObject.

(** [rect] is [canvasRef.current?.getBoundingClientRect()]. *)
Definition handleCanvasClick (rect : option DOMRect) (e : MouseEvent)
    (now : N) (s : EditorState.t) : EditorState.t :=
  if onCurrentTarget e then
    if EditorState.currentTool s =? "select" then
      Store.selectElement "" s
    else
      match rect with
      | Some rect =>
          let x := (clientX e - left rect - Point.x (EditorState.pan s))
                   / EditorState.zoom s in
          let y := (clientY e - top rect - Point.y (EditorState.pan s))
                   / EditorState.zoom s in
          let snappedX :=
            snapped (EditorState.snapToGrid s) (EditorState.gridSize s) x in
          let snappedY :=
            snapped (EditorState.snapToGrid s) (EditorState.gridSize s) y in
          fst (Store.createElement validateSchema
                 (EditorState.currentTool s) snappedX snappedY None now s)
      | None => s
      end
  else s.

Definition handleElementClick (elementId : string) (s : EditorState.t)
  : EditorState.t :=
  if EditorState.currentTool s =? "select"
  then Store.selectElement elementId s else s.

Definition handleElementMouseDown (e : MouseEvent) (elementId : string)
    (c : t) (s : EditorState.t) : t * EditorState.t :=
  if EditorState.currentTool s =? "select"
  then (mk true (isResizing c) (Point.mk (clientX e) (clientY e))
           (resizeStart c) (resizeHandle c),
        Store.selectElement elementId s)
  else (c, s).

Definition handleCanvasMouseUp (c : t) : t :=
  mk false false (dragStart c) (resizeStart c) "".

Definition handleResizeStart (e : MouseEvent) (elementId handle : string)
    (c : t) (s : EditorState.t) : t :=
  match find (fun el => Element.id el =? elementId)
             (LayoutData.elements (EditorState.layout s)) with
  | Some element =>
      mk (isDragging c) true (dragStart c)
         (mkResizeStart (clientX e) (clientY e)
            (VisualProperties.width (Element.visual element))
            (VisualProperties.height (Element.visual element)))
         handle
  | None => c
  end.

Definition handleResizeMove (e : MouseEvent) (c : t) (s : EditorState.t)
  : EditorState.t :=
  if isResizing c && (List.length (EditorState.selectedElementIds s) =? 1)%nat
  then
    match find (fun el => Element.id el
                          =? hd "" (EditorState.selectedElementIds s))
               (LayoutData.elements (EditorState.layout s)) with
    | Some element =>
        let deltaX := (clientX e - x (resizeStart c)) / EditorState.zoom s in
        let deltaY := (clientY e - y (resizeStart c)) / EditorState.zoom s in
        let '(newWidth, newHeight) :=
          resizedSize (resizeHandle c) (resizeStart c) deltaX deltaY in
        Store.updateElement validateSchema (Element.id element)
          (Element.only_visual
             (VisualProperties.with_size (Element.visual element)
                newWidth newHeight)) s
    | None => s
    end
  else s.

Definition handleCanvasMouseMove (e : MouseEvent) (c : t)
    (s : EditorState.t) : EditorState.t :=
  if isResizing c && (List.length (EditorState.selectedElementIds s) =? 1)%nat
  then handleResizeMove e c s else s.

(** The [mousemove] listener the effect puts on [document] while a drag or
    a resize is under way; it reads the state of the render that
    registered it. *)
Definition handleGlobalMouseMove (e : MouseEvent) (c : t)
    (s : EditorState.t) : t * EditorState.t :=
  if isDragging c && (List.length (EditorState.selectedElementIds s) =? 1)%nat
  then
    match find (fun el => Element.id el
                          =? hd "" (EditorState.selectedElementIds s))
               (LayoutData.elements (EditorState.layout s)) with
    | Some element =>
        let deltaX :=
          (clientX e - Point.x (dragStart c)) / EditorState.zoom s in
        let deltaY :=
          (clientY e - Point.y (dragStart c)) / EditorState.zoom s in
        let newX := VisualProperties.x (Element.visual element) + deltaX in
        let newY := VisualProperties.y (Element.visual element) + deltaY in
        let snappedX :=
          snapped (EditorState.snapToGrid s) (EditorState.gridSize s) newX in
        let snappedY :=
          snapped (EditorState.snapToGrid s) (EditorState.gridSize s) newY in
        (mk (isDragging c) (isResizing c)
            (Point.mk (clientX e) (clientY e))
            (resizeStart c) (resizeHandle c),
         Store.updateElement validateSchema (Element.id element)
           (Element.only_visual
              (VisualProperties.with_position (Element.visual element)
                 snappedX snappedY)) s)
    | None => (c, s)
    end
  else (c, s).

End Handlers.

(** The [mouseup] listener on [document]. *)
Definition handleGlobalMouseUp (c : t) : t :=
  mk false false (dragStart c) (resizeStart c) "".

End Canvas.

(** ** The asset manager ([src/lib/asset-manager.ts]) *)

(** What the manager reads from a [File]. *)
Module File.
Record t : Type := mk {
  name : string;
  type : string;
  size : N
}.
End File.

Module Asset.
Record t : Type := mk {
  id : string;
  name : string;
  type : string;
  path : string;
  size : N;
  lastModified : N
}.
End Asset.

Module AssetCollection.
Inductive key : Type := images | fonts | sounds.
Record t : Type := mk {
  of_images : Dict.t Asset.t;
  of_fonts : Dict.t Asset.t;
  of_sounds : Dict.t Asset.t
}.

(** [assets[type]] and [assets[type] = d]. *)
Definition get (assets : t) (type : key) : Dict.t Asset.t :=
  match type with
  | images => of_images assets
  | fonts => of_fonts assets
  | sounds => of_sounds assets
  end.
Definition with_key (assets : t) (type : key) (d : Dict.t Asset.t) : t :=
  match type with
  | images => mk d (of_fonts assets) (of_sounds assets)
  | fonts => mk (of_images assets) d (of_sounds assets)
  | sounds => mk (of_images assets) (of_fonts assets) d
  end.
End AssetCollection.

Module AssetValidationResult.
Record t : Type := mk {
  valid : bool;
  errors : list string;
  warnings : list string
}.
End AssetValidationResult.

Module AssetUploadResult.
Record t : Type := mk {
  success : bool;
  asset : option Asset.t;
  error : option string
}.
End AssetUploadResult.

Module AssetManager.

(** The field [assets] of the instance; the methods pass it on. *)
Definition t : Type := AssetCollection.t.

Definition initial : t := AssetCollection.mk [] [] [].

Definition SUPPORTED_TYPES (type : AssetCollection.key) : list string :=
  match type with
  | AssetCollection.images =>
      ["image/png"; "image/jpeg"; "image/jpg"; "image/svg+xml"; "image/webp"]
  | AssetCollection.fonts =>
      ["font/woff"; "font/woff2"; "application/font-woff";
       "application/font-woff2"]
  | AssetCollection.sounds => ["audio/mpeg"; "audio/wav"; "audio/ogg"]
  end.

Definition SIZE_LIMITS (type : AssetCollection.key) : N :=
  match type with
  | AssetCollection.images => 5 * 1024 * 1024
  | AssetCollection.fonts => 2 * 1024 * 1024
  | AssetCollection.sounds => 10 * 1024 * 1024
  end.

(** [getAsset(id, type)]: [null] is [None]. *)
Definition getAsset (id : string) (type : AssetCollection.key) (assets : t)
  : option (Dict.member Asset.t) :=
  Dict.get (AssetCollection.get assets type) id.

(** [addAsset(asset, type)]; see [Dict.set] for [None]. *)
Definition addAsset (asset : Asset.t) (type : AssetCollection.key)
    (assets : t) : option t :=
  match Dict.set (AssetCollection.get assets type) (Asset.id asset) asset with
  | Some d => Some (AssetCollection.with_key assets type d)
  | None => None
  end.

(** [removeAsset(id, type)]: the new state and the boolean handed back. *)
Definition removeAsset (id : string) (type : AssetCollection.key)
    (assets : t) : t * bool :=
  if Dict.truthy (AssetCollection.get assets type) id
  then (AssetCollection.with_key assets type
          (Dict.delete (AssetCollection.get assets type) id), true)
  else (assets, false).

(** [hasAsset(id, type)] *)
Definition hasAsset (id : string) (type : AssetCollection.key) (assets : t)
  : bool :=
  Dict.truthy (AssetCollection.get assets type) id.

(** [clearAssets()] *)
Definition clearAssets (assets : t) : t := AssetCollection.mk [] [] [].

(** The white space [String.prototype.trim] removes: the characters [\s]
    matches. *)
Definition white_space : Regex.re := Regex.space.

(** [name.trim() === ''] *)
Definition blank (name : string) : bool :=
  Regex.test (Regex.Star white_space) name.

(** [(bytes / 1024 / 1024).toFixed(1)] *)
Definition megabytes (bytes : N) : string :=
  JS.toFixed1 (inject_Z (Z.of_N bytes) / 1024 / 1024).

(** [if (condition) list.push(message)] *)
Definition push_if (condition : bool) (message : string)
    (messages : list string) : list string :=
  if condition then messages ++ [message] else messages.

(** [validateFile(file, type)] *)
Definition validateFile (file : File.t) (type : AssetCollection.key)
    (assets : t) : AssetValidationResult.t :=
  let errors := [] in
  let warnings := [] in
  let errors :=
    push_if (negb (JS.includes (SUPPORTED_TYPES type) (File.type file)))
      ("Unsupported file type: " ++ File.type file ++ ". Supported types: "
         ++ JS.join ", " (SUPPORTED_TYPES type))
      errors in
  let errors :=
    push_if (SIZE_LIMITS type <? File.size file)%N
      ("File too large: " ++ megabytes (File.size file)
         ++ "MB. Maximum size: " ++ megabytes (SIZE_LIMITS type) ++ "MB")
      errors in
  let errors :=
    push_if (negb (JS.truthy_string (File.name file))
             || blank (File.name file))
      "File name is required" errors in
  let existingAsset :=
    find (fun asset => Asset.name asset =? File.name file)
         (Dict.values (AssetCollection.get assets type)) in
  let warnings :=
    push_if (match existingAsset with Some _ => true | None => false end)
      ("Asset with name " ++ String JSON.dquote (File.name file)
         ++ String JSON.dquote " already exists")
      warnings in
  AssetValidationResult.mk (List.length errors =? 0)%nat errors warnings.

(** [filename.replace(/\.[^/.]+$/, '')]: the text before the first dot
    that is followed, up to the end, by one or more characters other than
    a slash and a dot. *)
Fixpoint extension_body (s : string) : bool :=
  match s with
  | EmptyString => true
  | String c s' =>
      negb (Ascii.eqb c "/") && negb (Ascii.eqb c ".") && extension_body s'
  end.
Fixpoint without_extension (filename : string) : string :=
  match filename with
  | EmptyString => ""
  | String c rest =>
      if Ascii.eqb c "." && negb (rest =? "") && extension_body rest
      then ""
      else String c (without_extension rest)
  end.

(** [s.replace(/[^a-zA-Z0-9]/g, '_')].  The pattern is applied to UTF-16
    code units: a character outside ASCII is one unit, or two when its
    UTF-8 form has four bytes, and each unit becomes an underscore. *)
Definition alphanumeric (c : ascii) : bool :=
  Regex.in_range "a" "z" c || Regex.in_range "A" "Z" c
  || Regex.in_range "0" "9" c.
Fixpoint underscored (s : string) : string :=
  match s with
  | EmptyString => ""
  | String c s' =>
      let n := nat_of_ascii c in
      (if alphanumeric c then String c ""
       else if (n <? 128)%nat then "_"
       else if (n <? 192)%nat then ""
       else if (n <? 240)%nat then "_"
       else "__")
      ++ underscored s'
  end.

(** The loop of [generateAssetId]: [id] is the candidate, [counter] the
    next suffix.  [fuel] bounds the number of rounds; [None] when it runs
    out. *)
Fixpoint generateAssetId_loop (fuel : nat) (d : Dict.t Asset.t)
    (baseName id : string) (counter : nat) : option string :=
  if Dict.truthy d id
  then match fuel with
       | O => None
       | S fuel' =>
           generateAssetId_loop fuel' d baseName
             (baseName ++ "_" ++ JS.nat_toString counter) (S counter)
       end
  else Some id.

(** [generateAssetId(filename, type)].  The loop tries the base name and
    then one suffix per round; it is given one round more than there are
    names that can be taken. *)
Definition generateAssetId (filename : string) (type : AssetCollection.key)
    (assets : t) : option string :=
  let baseName := underscored (without_extension filename) in
  let d := AssetCollection.get assets type in
  generateAssetId_loop
    (S (List.length d + List.length Dict.Object_prototype))
    d baseName baseName 1.

(** [uploadFile(file, type)], with [url] what [URL.createObjectURL(file)]
    yields and [now] the date [new Date()] yields.  The outer [None] is
    the loop out of fuel or an assignment outside the model; neither
    occurs. *)
Definition uploadFile (file : File.t) (type : AssetCollection.key)
    (url : string) (now : N) (assets : t)
  : option (t * AssetUploadResult.t) :=
  let validation := validateFile file type assets in
  if negb (AssetValidationResult.valid validation)
  then Some (assets,
             AssetUploadResult.mk false None
               (Some (JS.join ", " (AssetValidationResult.errors validation))))
  else
    match generateAssetId (File.name file) type assets with
    | None => None
    | Some id =>
        let asset :=
          Asset.mk id (File.name file)
            (match type with
             | AssetCollection.images => "image"
             | AssetCollection.fonts => "font"
             | AssetCollection.sounds => "sound"
             end)
            url (File.size file) now in
        match addAsset asset type assets with
        | None => None
        | Some assets' =>
            Some (assets', AssetUploadResult.mk true (Some asset) None)
        end
    end.

(** [getAssetStats()] *)
Module Stats.
Record t : Type := mk {
  total : nat;
  images : nat;
  fonts : nat;
  sounds : nat;
  totalSize : N
}.

(** [stats.byType[type] = count; stats.total += count] and
    [stats.totalSize += size]. *)
Definition counted (stats : t) (type : AssetCollection.key) (count : nat)
  : t :=
  match type with
  | AssetCollection.images =>
      mk (total stats + count) count (fonts stats) (sounds stats)
         (totalSize stats)
  | AssetCollection.fonts =>
      mk (total stats + count) (images stats) count (sounds stats)
         (totalSize stats)
  | AssetCollection.sounds =>
      mk (total stats + count) (images stats) (fonts stats) count
         (totalSize stats)
  end.
Definition sized (stats : t) (size : N) : t :=
  mk (total stats) (images stats) (fonts stats) (sounds stats)
     (totalSize stats + size).
End Stats.

Definition getAssetStats (assets : t) : Stats.t :=
  fold_left
    (fun stats type =>
       let count :=
         List.length (Dict.keys (AssetCollection.get assets type)) in
       fold_left (fun stats asset => Stats.sized stats (Asset.size asset))
                 (Dict.values (AssetCollection.get assets type))
                 (Stats.counted stats type count))
    [AssetCollection.images; AssetCollection.fonts; AssetCollection.sounds]
    (Stats.mk 0 0 0 0 0).

End AssetManager.

(** ** Sensor data ([src/lib/sensor-data.ts]) and its rendering
       ([src/lib/element-renderers.tsx]) *)

Module SensorData.
Record t : Type := mk {
  value : JS.number;
  min : JS.number;
  max : JS.number;
  unit : string;
  isValid : bool
}.

(** [data.value = v] *)
Definition with_value (d : t) (v : JS.number) : t :=
  mk v (min d) (max d) (unit d) (isValid d).
End SensorData.

(** The object literal [mockSensorData], key by key. *)
Definition mockSensorData_entries : list (string * SensorData.t) :=
  [
    ("CPU_Utilization", SensorData.mk (226 # 5) 0 100 "%" true);
    ("CPU_Temperature", SensorData.mk (314 # 5) 30 90 "°C" true);
    ("CPU_Power", SensorData.mk (131 # 2) 0 150 "W" true);
    ("CPU_Voltage", SensorData.mk (5 # 4) (4 # 5) (3 # 2) "V" true);
    ("CPU_Clock", SensorData.mk 3600 800 5000 "MHz" true);
    ("CPU_Core_0", SensorData.mk (226 # 5) 0 100 "%" true);
    ("CPU_Core_1", SensorData.mk (387 # 10) 0 100 "%" true);
    ("CPU_Core_2", SensorData.mk (521 # 10) 0 100 "%" true);
    ("CPU_Core_3", SensorData.mk (413 # 10) 0 100 "%" true);
    ("CPU_Core_4", SensorData.mk (179 # 5) 0 100 "%" true);
    ("CPU_Core_5", SensorData.mk (489 # 10) 0 100 "%" true);
    ("CPU_Core_6", SensorData.mk (216 # 5) 0 100 "%" true);
    ("CPU_Core_7", SensorData.mk (198 # 5) 0 100 "%" true);
    ("GPU_Utilization", SensorData.mk (157 # 2) 0 100 "%" true);
    ("GPU_Temperature", SensorData.mk (356 # 5) 30 95 "°C" true);
    ("GPU_Memory", SensorData.mk (42 # 5) 0 12 "GB" true);
    ("GPU_Power", SensorData.mk (1803 # 10) 0 300 "W" true);
    ("GPU_Clock", SensorData.mk 1950 300 2500 "MHz" true);
    ("GPU_Fan", SensorData.mk 1200 0 3000 "RPM" true);
    ("Memory_Usage", SensorData.mk (673 # 10) 0 100 "%" true);
    ("Memory_Total", SensorData.mk 32 0 32 "GB" true);
    ("Memory_Available", SensorData.mk (21 # 2) 0 32 "GB" true);
    ("Memory_Bandwidth", SensorData.mk (226 # 5) 0 100 "%" true);
    ("WiFi_Speed", SensorData.mk (1257 # 10) 0 1000 "Mbps" true);
    ("Ethernet_Speed", SensorData.mk 0 0 1000 "Mbps" true);
    ("Network_Upload", SensorData.mk (123 # 10) 0 100 "MB/s" true);
    ("Network_Download", SensorData.mk (457 # 10) 0 100 "MB/s" true);
    ("Disk_Usage", SensorData.mk (137 # 2) 0 100 "%" true);
    ("Disk_Temperature", SensorData.mk (421 # 10) 20 60 "°C" true);
    ("Disk_Read", SensorData.mk (76 # 5) 0 200 "MB/s" true);
    ("Disk_Write", SensorData.mk (87 # 10) 0 200 "MB/s" true);
    ("Motherboard_Temperature", SensorData.mk (77 # 2) 20 70 "°C" true);
    ("Fan_CPU", SensorData.mk 1200 0 3000 "RPM" true);
    ("Fan_Case_1", SensorData.mk 800 0 2000 "RPM" true);
    ("Fan_Case_2", SensorData.mk 750 0 2000 "RPM" true);
    ("PSU_Power", SensorData.mk (1229 # 5) 0 750 "W" true);
    ("PSU_Voltage_12V", SensorData.mk (121 # 10) (57 # 5) (63 # 5) "V" true);
    ("PSU_Voltage_5V", SensorData.mk (101 # 20) (19 # 4) (21 # 4) "V" true)
  ].

(** What [getSensorInfo] returns. *)
Module SensorInfo.
Record t : Type := mk {
  value : JS.number;
  unit : string;
  percentage : JS.number
}.
End SensorInfo.

(** [getSensorInfo(element, sensorData)]; [null] is [None]. *)
Definition getSensorInfo (element : Element.t)
    (sensorData : option SensorData.t) : SensorInfo.t :=
  let value :=
    match sensorData with
    | Some d => JS.or_number (SensorData.value d) 0
    | None => 0
    end in
  let unit :=
    match sensorData with
    | Some d => JS.or_string (SensorData.unit d) ""
    | None => ""
    end in
  let percentage :=
    match sensorData with
    | Some d =>
        ((value - SensorData.min d) / (SensorData.max d - SensorData.min d))
        * 100
    | None => 0
    end in
  SensorInfo.mk value unit (JS.Math_max 0 (JS.Math_min 100 percentage)).

(** The simulator.  The constructor and [reset] copy the object that lists
    the [SensorData] objects ([{ ...initialData }], [{ ...mockSensorData }]),
    not the objects themselves, and the methods assign to the fields of
    these objects.  The state therefore holds the objects by address
    ([heap]) and [data] as a dictionary of addresses.  The objects the
    literal [mockSensorData] creates when the module is loaded are the
    first ones of the heap: [mockSensorData] lists the object created for
    its n-th key at address n. *)
Module SensorDataSimulator.

Record t : Type := mk {
  heap : list SensorData.t;
  data : Dict.t nat;
  callbacks : list nat
}.

Fixpoint addresses {A : Type} (entries : list (string * A)) (from : nat)
  : Dict.t nat :=
  match entries with
  | [] => []
  | (key, _) :: entries' => (key, from) :: addresses entries' (S from)
  end.

Definition mockSensorData : Dict.t nat := addresses mockSensorData_entries 0.

(** [new SensorDataSimulator(initialData)], before any method has run, in
    a heap that holds the objects [initialData] lists. *)
Definition create (heap : list SensorData.t) (initialData : Dict.t nat) : t :=
  mk heap initialData [].

(** The heap when the module has been loaded, and the instance the module
    exports: [new SensorDataSimulator()], whose parameter defaults to
    [mockSensorData]. *)
Definition loaded : list SensorData.t := map snd mockSensorData_entries.
Definition sensorSimulator : t := create loaded mockSensorData.

(** [this.data[sensorId]]: the object found, with its address. *)
Definition sensor (sensorId : string) (s : t)
  : option (Dict.member (nat * SensorData.t)) :=
  match Dict.get (data s) sensorId with
  | Some (Dict.own address) =>
      match nth_error (heap s) address with
      | Some d => Some (Dict.own (address, d))
      | None => None
      end
  | Some Dict.inherited => Some Dict.inherited
  | None => None
  end.

(** [getSensorValue(sensorId)]: a member inherited from
    [Object.prototype] has no [value]. *)
Definition getSensorValue (sensorId : string) (s : t) : JS.number :=
  match sensor sensorId s with
  | Some (Dict.own (_, d)) => JS.or_number (SensorData.value d) 0
  | Some Dict.inherited => 0
  | None => 0
  end.

(** [getSensorData(sensorId)]: [null] is [None]. *)
Definition getSensorData (sensorId : string) (s : t)
  : option (Dict.member SensorData.t) :=
  match sensor sensorId s with
  | Some (Dict.own (_, d)) => Some (Dict.own d)
  | Some Dict.inherited => Some Dict.inherited
  | None => None
  end.

(** [subscribe(callback)], a callback being known by its identity, and the
    function [subscribe] returns. *)
Definition subscribe (callback : nat) (s : t) : t :=
  mk (heap s) (data s) (callbacks s ++ [callback]).

Fixpoint remove_first (callback : nat) (l : list nat) : list nat :=
  match l with
  | [] => []
  | c :: l' => if (c =? callback)%nat then l' else c :: remove_first callback l'
  end.

Definition unsubscribe (callback : nat) (s : t) : t :=
  mk (heap s) (data s) (remove_first callback (callbacks s)).

(** [notifyCallbacks()]: the callbacks called, in order. *)
Definition notifyCallbacks (s : t) : list nat := callbacks s.

Fixpoint store {A : Type} (l : list A) (address : nat) (a : A) : list A :=
  match l, address with
  | [], _ => []
  | _ :: l', O => a :: l'
  | b :: l', S address' => b :: store l' address' a
  end.

(** [setSensorValue(sensorId, value)]: the new state and the callbacks
    called.  For a name inherited from [Object.prototype],
    [this.data[sensorId]] is a function or an object of the platform: it is
    truthy, the assignment gives it a property [value] ([NaN], as it has no
    [min] and no [max]) that no method of the simulator reads as anything
    but a falsy value, and the callbacks are called. *)
Definition setSensorValue (sensorId : string) (value : JS.number) (s : t)
  : t * list nat :=
  match sensor sensorId s with
  | Some (Dict.own (address, d)) =>
      let d' :=
        SensorData.with_value d
          (JS.Math_max (SensorData.min d)
             (JS.Math_min (SensorData.max d) value)) in
      let s' := mk (store (heap s) address d') (data s) (callbacks s) in
      (s', notifyCallbacks s')
  | Some Dict.inherited => (s, notifyCallbacks s)
  | None => (s, [])
  end.

(** [reset()] *)
Definition reset (s : t) : t * list nat :=
  let s' := mk (heap s) mockSensorData (callbacks s) in
  (s', notifyCallbacks s').

End SensorDataSimulator.

(** ** The properties panel ([src/components/PropertiesPanel.tsx]) *)

Module PropertiesPanel.


Section Handlers.

Variable validateSchema : LayoutData.t -> list Ajv.ErrorObject.



End Handlers.
End PropertiesPanel.

(** * Vocabulary of the properties *)

(** A compiled schema that accepts every layout; it instantiates the
    schema parameter when the engine is run on concrete inputs. *)
Definition acceptingSchema : LayoutData.t -> list Ajv.ErrorObject :=
  fun _ => [].

(** No string occurs twice. *)
Fixpoint distinct (l : list string) : bool :=
  match l with
  | [] => true
  | a :: l' => negb (JS.includes l' a) && distinct l'
  end.

(** Every selected id is the id of an element of the document. *)
Definition selection_consistent (s : EditorState.t) : Prop :=
  incl (EditorState.selectedElementIds s) (element_ids s).

(** The issues a guarded [push] contributes. *)
Definition issue_if (b : bool) (severity : ValidationError.severity_t)
    (path message : string) : list ValidationError.t :=
  if b then [ValidationError.mk path message severity] else [].

(** [emits r E W]: whatever the arrays hold, running [r] appends [E] to
    [errors] and [W] to [warnings]. *)
Definition emits (r : Issues.rule) (E W : list ValidationError.t) : Prop :=
  forall acc,
    r acc = Issues.mk (Issues.errors acc ++ E) (Issues.warnings acc ++ W).

(** [xs.flatMap((x, index) => f x index)], indices starting at [n]. *)
Fixpoint flat_mapi {A B : Type} (f : A -> nat -> list B) (xs : list A)
    (n : nat) : list B :=
  match xs with
  | [] => []
  | x :: xs' => f x n ++ flat_mapi f xs' (S n)
  end.

(** The errors and the warnings one [forEach] round appends, in order. *)
Definition visualErrors (index : nat) (v : VisualProperties.t)
  : list ValidationError.t :=
  issue_if (badColor (VisualProperties.backgroundColor v))
    ValidationError.error (elementPath index ++ ".visual.backgroundColor")
    (Message.invalidColor (VisualProperties.backgroundColor v))
  ++ issue_if (badColor (VisualProperties.foregroundColor v))
    ValidationError.error (elementPath index ++ ".visual.foregroundColor")
    (Message.invalidColor (VisualProperties.foregroundColor v))
  ++ issue_if (badColor (VisualProperties.needleColor v))
    ValidationError.error (elementPath index ++ ".visual.needleColor")
    (Message.invalidColor (VisualProperties.needleColor v))
  ++ issue_if (JS.lt (VisualProperties.opacity v) 0
               || JS.gt (VisualProperties.opacity v) 1)
    ValidationError.error (elementPath index ++ ".visual.opacity")
    (Message.opacity (VisualProperties.opacity v))
  ++ issue_if (negb (JS.includes validFontWeights
                       (VisualProperties.fontWeight v)))
    ValidationError.error (elementPath index ++ ".visual.fontWeight")
    (Message.fontWeight (VisualProperties.fontWeight v))
  ++ issue_if (negb (JS.includes validFontStyles
                       (VisualProperties.fontStyle v)))
    ValidationError.error (elementPath index ++ ".visual.fontStyle")
    (Message.fontStyle (VisualProperties.fontStyle v))
  ++ issue_if (JS.le (VisualProperties.width v) 0)
    ValidationError.error (elementPath index ++ ".visual.width")
    (Message.width (VisualProperties.width v))
  ++ issue_if (JS.le (VisualProperties.height v) 0)
    ValidationError.error (elementPath index ++ ".visual.height")
    (Message.height (VisualProperties.height v)).

Definition visualWarnings (index : nat) (v : VisualProperties.t)
  : list ValidationError.t :=
  issue_if (JS.lt (VisualProperties.fontSize v) 8
            || JS.gt (VisualProperties.fontSize v) 72)
    ValidationError.warning (elementPath index ++ ".visual.fontSize")
    (Message.fontSize (VisualProperties.fontSize v))
  ++ issue_if (JS.lt (VisualProperties.x v) 0)
    ValidationError.warning (elementPath index ++ ".visual.x")
    (Message.negativeX (VisualProperties.x v))
  ++ issue_if (JS.lt (VisualProperties.y v) 0)
    ValidationError.warning (elementPath index ++ ".visual.y")
    (Message.negativeY (VisualProperties.y v)).

Definition duplicateIdIssue (layout : LayoutData.t) (element : Element.t)
    (index : nat) : list ValidationError.t :=
  issue_if
    (1 <? List.length
            (filter (fun el => (Element.id el =? Element.id element)%string)
                    (LayoutData.elements layout)))%nat
    ValidationError.error (elementPath index ++ ".id")
    (Message.duplicateId (Element.id element)).

Definition sensorIssue (element : Element.t) (index : nat)
  : list ValidationError.t :=
  issue_if (JS.truthy_string (Element.sensor element)
            && negb (JS.includes VALID_SENSOR_IDS (Element.sensor element)))
    ValidationError.warning (elementPath index ++ ".sensor")
    (Message.unknownSensor (Element.sensor element)).

Definition animationSpeedIssue (element : Element.t) (index : nat)
  : list ValidationError.t :=
  issue_if (Element.animated element
            && JS.truthy_number (Element.animationSpeed element)
            && (JS.lt (Element.animationSpeed element) (1 # 10)
                || JS.gt (Element.animationSpeed element) 10))
    ValidationError.warning (elementPath index ++ ".animationSpeed")
    (Message.animationSpeed (Element.animationSpeed element)).

Definition elementErrors (layout : LayoutData.t) (element : Element.t)
    (index : nat) : list ValidationError.t :=
  (duplicateIdIssue layout element index
   ++ visualErrors index (Element.visual element))%list.

Definition elementWarnings (element : Element.t) (index : nat)
  : list ValidationError.t :=
  (sensorIssue element index
   ++ visualWarnings index (Element.visual element)
   ++ animationSpeedIssue element index)%list.

(** The error a schema violation becomes. *)
Definition schemaIssue (error : Ajv.ErrorObject) : ValidationError.t :=
  ValidationError.mk
    (JS.or_string (Ajv.instancePath error) "root")
    (JS.or_string (Element.or_else (Ajv.message error) "")
       "Unknown validation error")
    ValidationError.error.

(** The issues of a result that are located at [path]. *)
Definition at_path (path : string) (issues : list ValidationError.t)
  : list ValidationError.t :=
  filter (fun issue => ValidationError.path issue =? path) issues.

(** The structural rules on the visual properties: colours in the accepted
    grammar, opacity within [0, 1], enumerated font weight and style,
    positive width and height. *)
Definition visual_well_formed (v : VisualProperties.t) : Prop :=
  Regex.test COLOR_REGEX (VisualProperties.backgroundColor v) = true
  /\ Regex.test COLOR_REGEX (VisualProperties.foregroundColor v) = true
  /\ Regex.test COLOR_REGEX (VisualProperties.needleColor v) = true
  /\ 0 <= VisualProperties.opacity v <= 1
  /\ In (VisualProperties.fontWeight v) validFontWeights
  /\ In (VisualProperties.fontStyle v) validFontStyles
  /\ 0 < VisualProperties.width v
  /\ 0 < VisualProperties.height v.

(** The store and component state of the resize scenario: one 100 x 100
    gauge, selected, grabbed by its south-east handle at the origin, at
    zoom 1. *)
Definition resizeScenarioStore : EditorState.t :=
  Store.selectElement "gauge_1"
    (EditorState.set_layout
       (LayoutData.mk "1.0"
          [Element.mk "gauge_1" "gauge" "CPU_Utilization"
             (VisualProperties.mk 0 0 100 100 "#333333" "#ffffff" "#00ff00"
                1 true true "Consolas" 12 "normal" "normal")
             false 1]
          None)
       initialState).

Definition resizeScenarioGrab : Canvas.t :=
  Canvas.handleResizeStart (Canvas.mkEvent 0 0 false) "gauge_1" "se"
    Canvas.initial resizeScenarioStore.

(** ** JSON documents *)

(** Two numbers with the same numerator and the same denominator. *)
Definition same_number (a b : JS.number) : bool :=
  (Qnum a =? Qnum b)%Z && (Qden a =? Qden b)%positive.

Fixpoint all_chars (p : ascii -> bool) (s : string) : bool :=
  match s with
  | EmptyString => true
  | String c s' => p c && all_chars p s'
  end.

Definition starts_with (p : ascii -> bool) (s : string) : bool :=
  match s with
  | EmptyString => false
  | String c _ => p c
  end.

(** A decimal fraction in lowest terms: the fraction is reduced and its
    denominator divides a power of ten.  Every integer and every binary
    fraction in lowest terms is one. *)
Definition is_decimal_fraction (n : JS.number) : bool :=
  same_number (Qred n) n
  && match JS.decimal_scale (Pos.to_nat (Pos.size (Qden n))) 0 (Qden n) with
     | Some _ => true
     | None => false
     end.

(** A number with a finite decimal expansion: brought to lowest terms, it
    is a decimal fraction.  Every JavaScript number has one. *)
Definition has_decimal_expansion (n : JS.number) : bool :=
  is_decimal_fraction (Qred n).

(** A number survives the passage through text: its rendering is a number
    token that reads back as the same fraction.  In JavaScript every finite
    number does; here those do that are decimal fractions in lowest
    terms. *)
Definition number_ok (n : JS.number) : bool :=
  let token := JS.Number_toString n in
  starts_with JSON.is_number_start token
  && all_chars JSON.is_number_char token
  && match JSON.parse_number token with
     | Some n' => same_number n' n
     | None => false
     end.

Fixpoint numbers_ok (v : JSON.value) : bool :=
  match v with
  | JSON.JNumber n => number_ok n
  | JSON.JArray items => forallb numbers_ok items
  | JSON.JObject members => forallb (fun m => numbers_ok (snd m)) members
  | _ => true
  end.

(** The fuel reading a value takes. *)
Fixpoint weight (v : JSON.value) : nat :=
  match v with
  | JSON.JArray items => S (list_sum (map (fun x => S (weight x)) items))
  | JSON.JObject members =>
      S (list_sum (map (fun m => S (weight (snd m))) members))
  | _ => 1
  end.

(** Text that cannot prolong a number token. *)
Definition delimited (rest : string) : bool :=
  negb (starts_with JSON.is_number_char rest).

(** The characters a value starts with. *)
Definition is_value_start (c : ascii) : bool :=
  JSON.is_number_start c || Ascii.eqb c JSON.dquote || Ascii.eqb c "["
  || Ascii.eqb c "{" || Ascii.eqb c "n" || Ascii.eqb c "t" || Ascii.eqb c "f".

(** [reads_back v]: with enough fuel, the text of [v] at the front of a
    text is read as [v], leaving what follows. *)
Definition reads_back (v : JSON.value) : Prop :=
  forall (indent fuel : nat) (rest : string),
    (weight v <= fuel)%nat ->
    delimited rest = true ->
    JSON.parse_value fuel (JSON.stringify_at indent v ++ rest)
    = Some (v, rest).

(** Every number of the document survives the passage through text. *)
Definition layout_numbers_ok (layout : LayoutData.t) : bool :=
  forallb number_ok (Codec.LayoutData_numbers layout).

(** Every number of the document has a finite decimal expansion. *)
Definition layout_numbers_decimal (layout : LayoutData.t) : bool :=
  forallb has_decimal_expansion (Codec.LayoutData_numbers layout).


(** The document with each of its numbers brought to lowest terms. *)
Definition VisualProperties_reduced (v : VisualProperties.t)
  : VisualProperties.t :=
  VisualProperties.mk
    (Qred (VisualProperties.x v)) (Qred (VisualProperties.y v))
    (Qred (VisualProperties.width v)) (Qred (VisualProperties.height v))
    (VisualProperties.backgroundColor v) (VisualProperties.foregroundColor v)
    (VisualProperties.needleColor v) (Qred (VisualProperties.opacity v))
    (VisualProperties.visible v) (VisualProperties.showText v)
    (VisualProperties.fontFamily v) (Qred (VisualProperties.fontSize v))
    (VisualProperties.fontWeight v) (VisualProperties.fontStyle v).
Definition Element_reduced (e : Element.t) : Element.t :=
  Element.mk (Element.id e) (Element.type e) (Element.sensor e)
    (VisualProperties_reduced (Element.visual e)) (Element.animated e)
    (Qred (Element.animationSpeed e)).
Definition LayoutData_reduced (l : LayoutData.t) : LayoutData.t :=
  LayoutData.mk (LayoutData.version l)
    (map Element_reduced (LayoutData.elements l)) (LayoutData.metadata l).


(** The value with each of its numbers brought to lowest terms. *)
Fixpoint value_reduced (v : JSON.value) : JSON.value :=
  match v with
  | JSON.JNumber n => JSON.JNumber (Qred n)
  | JSON.JArray items => JSON.JArray (map value_reduced items)
  | JSON.JObject members =>
      JSON.JObject (map (fun m => (fst m, value_reduced (snd m))) members)
  | _ => v
  end.

(** Induction on JSON values, through the items of arrays and the members of
    objects. *)
Section ValueInduction.

Variable P : JSON.value -> Prop.
Hypothesis Hnull : P JSON.JNull.
Hypothesis Hbool : forall b, P (JSON.JBool b).
Hypothesis Hnumber : forall n, P (JSON.JNumber n).
Hypothesis Hstring : forall s, P (JSON.JString s).
Hypothesis Harray : forall items, Forall P items -> P (JSON.JArray items).
Hypothesis Hobject :
  forall members,
    Forall (fun m => P (snd m)) members -> P (JSON.JObject members).

Fixpoint value_induction (v : JSON.value) : P v :=
  match v with
  | JSON.JNull => Hnull
  | JSON.JBool b => Hbool b
  | JSON.JNumber n => Hnumber n
  | JSON.JString s => Hstring s
  | JSON.JArray items =>
      Harray items
        ((fix go (l : list JSON.value) : Forall P l :=
            match l with
            | [] => Forall_nil P
            | x :: l' => Forall_cons x (value_induction x) (go l')
            end) items)
  | JSON.JObject members =>
      Hobject members
        ((fix go (l : list (string * JSON.value))
            : Forall (fun m => P (snd m)) l :=
            match l with
            | [] => Forall_nil _
            | m :: l' => Forall_cons m (value_induction (snd m)) (go l')
            end) members)
  end.

End ValueInduction.

(** ** Sample inputs *)

(** An element as [createElement] shapes it, with a chosen id, sensor and
    animation setting. *)
Definition sampleElement (id : string) (sensor : SensorId) (animated : bool)
    (animationSpeed : JS.number) : Element.t :=
  Element.mk id "gauge" sensor
    (VisualProperties.mk 100 100 150 150 "#333333" "#ffffff" "#00ff00" 1
       true true "Consolas" 12 "normal" "normal")
    animated animationSpeed.

(** Two elements sharing the id ["gauge_1"]. *)
Definition duplicateIdLayout : LayoutData.t :=
  LayoutData.mk "1.0"
    [sampleElement "gauge_1" "CPU_Utilization" false 1;
     sampleElement "gauge_1" "GPU_Utilization" false 1]
    None.

(** One element bound to a sensor the editor does not know, one bound to
    the empty string. *)
Definition unknownSensorLayout : LayoutData.t :=
  LayoutData.mk "1.0" [sampleElement "gauge_1" "Quantum_Flux" false 1] None.
Definition emptySensorLayout : LayoutData.t :=
  LayoutData.mk "1.0" [sampleElement "gauge_1" "" false 1] None.

(** One animated element, with speed 0 and with speed 25. *)
Definition zeroSpeedLayout : LayoutData.t :=
  LayoutData.mk "1.0" [sampleElement "gauge_1" "CPU_Utilization" true 0] None.
Definition fastLayout : LayoutData.t :=
  LayoutData.mk "1.0" [sampleElement "gauge_1" "CPU_Utilization" true 25] None.

(** A store holding one gauge, created at timestamp 17. *)
Definition oneGaugeStore : EditorState.t :=
  fst (Store.createElement acceptingSchema "gauge" 100 100 None 17
         initialState).

(** A click on the empty canvas with the select tool. *)
Definition emptyCanvasClick : Canvas.MouseEvent := Canvas.mkEvent 40 40 true.

(** A store whose document has fractional numbers, one of them not in
    lowest terms, numbers written with an exponent (width 1.5e-7, height
    1.5e+21), text that needs escaping and metadata. *)
Definition exchangeSampleStore : EditorState.t :=
  EditorState.set_layout
    (LayoutData.mk "1.0"
       [Element.mk "gauge_17" "gauge" "CPU_Utilization"
          (VisualProperties.mk (25 # 2) (-40) (3 # 20000000)
             ((15 * 10 ^ 20)%Z # 1) "#333333" "#ffffff"
             "rgba(0, 255, 0, 0.5)" (2 # 4) true false
             ("Fira" ++ String JSON.backslash "Code") 12 "normal" "italic")
          true (3 # 2);
        sampleElement "text_18" "GPU_Temperature" false 1]
       (Some (Metadata.mk (Some ("demo " ++ String JSON.dquote "a")) None
                (Some "me") None None (Some ["cpu"; "gpu"])
                (Some (Metadata.mkCompatibility (Some "1.0") None)))))
    initialState.


(** ** Runs of the store and of the canvas *)

Section Runs.

Variable validateSchema : LayoutData.t -> list Ajv.ErrorObject.

(** [step s s']: one call of an action of the store takes [s] to [s'].
    The arguments are values of the model: the numbers are numbers (no
    [NaN]), the layouts are of type [LayoutData]. *)
Inductive step : EditorState.t -> EditorState.t -> Prop :=
| step_setLayout layout s :
    step s (Store.setLayout validateSchema layout s)
| step_updateElement id updates s :
    step s (Store.updateElement validateSchema id updates s)
| step_addElement element s :
    step s (Store.addElement validateSchema element s)
| step_createElement type x y sensor now s :
    step s (fst (Store.createElement validateSchema type x y sensor now s))
| step_removeElement id s :
    step s (Store.removeElement validateSchema id s)
| step_duplicateElement id now s :
    step s (Store.duplicateElement validateSchema id now s)
| step_selectElement id s : step s (Store.selectElement id s)
| step_selectMultiple ids s : step s (Store.selectMultiple ids s)
| step_clearSelection s : step s (Store.clearSelection s)
| step_toggleSelection id s : step s (Store.toggleSelection id s)
| step_setTool tool s : step s (Store.setTool tool s)
| step_setSnapToGrid enabled s : step s (Store.setSnapToGrid enabled s)
| step_setGridSize size s : step s (Store.setGridSize size s)
| step_setZoom zoom s : step s (Store.setZoom zoom s)
| step_setPan pan s : step s (Store.setPan pan s)
| step_setShowDebug show s : step s (Store.setShowDebug show s)
| step_setPreviewMode mode s : step s (Store.setPreviewMode mode s)
| step_setCanvasSize width height s :
    step s (Store.setCanvasSize width height s)
| step_setShowBackground show s : step s (Store.setShowBackground show s)
| step_setBackgroundImage image s :
    step s (Store.setBackgroundImage image s)
| step_validateLayout s : step s (fst (Store.validateLayout validateSchema s))
| step_pushHistory (HistoryAction : Type) (action : HistoryAction) s :
    step s (Store.pushHistory action s)
| step_undo s : step s (Store.undo s)
| step_redo s : step s (Store.redo s)
| step_copySelected s : step s (Store.copySelected s)
| step_paste now s : step s (Store.paste validateSchema now s)
| step_cutSelected s : step s (Store.cutSelected validateSchema s)
| step_resetLayout s : step s (Store.resetLayout validateSchema s)
| step_importLayout json s s' accepted :
    Store.importLayout validateSchema json s = Some (Store.typed s' accepted) ->
    step s s'.

(** The states the store goes through, from the one [create] installs, as
    long as its [layout] is a [LayoutData]: an [importLayout] that puts
    another value in its place ends the run. *)
Inductive reachable : EditorState.t -> Prop :=
| reachable_initial : reachable initialState
| reachable_step s s' : reachable s -> step s s' -> reachable s'.

(** The grid size and the zoom lie within the bounds of their setters. *)
Definition view_in_bounds (s : EditorState.t) : Prop :=
  5 <= EditorState.gridSize s <= 100
  /\ 1 # 10 <= EditorState.zoom s <= 5.

(** The cached validation result is the one of the current document, or
    there is none yet and the document is the default one. *)
Definition validation_fresh (s : EditorState.t) : Prop :=
  EditorState.validationResult s
  = Some (validateLayout validateSchema (EditorState.layout s))
  \/ (EditorState.validationResult s = None
      /\ EditorState.layout s = defaultLayout).

End Runs.

(** The events the canvas component listens to: [onClick], [onMouseMove],
    [onMouseUp] and [onMouseLeave] on the canvas, [onClick] and
    [onMouseDown] on an element, [mousemove] and [mouseup] on
    [document]. *)
Module CanvasEvent.
Inductive t : Type :=
| canvasClick (rect : option Canvas.DOMRect) (e : Canvas.MouseEvent) (now : N)
| canvasMouseMove (e : Canvas.MouseEvent)
| canvasMouseUp
| canvasMouseLeave
| elementClick (elementId : string)
| elementMouseDown (e : Canvas.MouseEvent) (elementId : string)
| documentMouseMove (e : Canvas.MouseEvent)
| documentMouseUp.
End CanvasEvent.

Section CanvasRuns.

Variable validateSchema : LayoutData.t -> list Ajv.ErrorObject.

(** The handler each event runs.  The two listeners on [document] are
    registered only while [isDragging || isResizing]. *)
Definition dispatch (event : CanvasEvent.t) (c : Canvas.t)
    (s : EditorState.t) : Canvas.t * EditorState.t :=
  match event with
  | CanvasEvent.canvasClick rect e now =>
      (c, Canvas.handleCanvasClick validateSchema rect e now s)
  | CanvasEvent.canvasMouseMove e =>
      (c, Canvas.handleCanvasMouseMove validateSchema e c s)
  | CanvasEvent.canvasMouseUp => (Canvas.handleCanvasMouseUp c, s)
  | CanvasEvent.canvasMouseLeave => (Canvas.handleCanvasMouseUp c, s)
  | CanvasEvent.elementClick elementId =>
      (c, Canvas.handleElementClick elementId s)
  | CanvasEvent.elementMouseDown e elementId =>
      Canvas.handleElementMouseDown e elementId c s
  | CanvasEvent.documentMouseMove e =>
      if Canvas.isDragging c || Canvas.isResizing c
      then Canvas.handleGlobalMouseMove validateSchema e c s
      else (c, s)
  | CanvasEvent.documentMouseUp =>
      if Canvas.isDragging c || Canvas.isResizing c
      then (Canvas.handleGlobalMouseUp c, s)
      else (c, s)
  end.

(** The component states a canvas goes through from its first render; the
    store may be in any state when an event arrives. *)
Inductive canvas_reachable : Canvas.t -> Prop :=
| canvas_initial : canvas_reachable Canvas.initial
| canvas_event event c s :
    canvas_reachable c -> canvas_reachable (fst (dispatch event c s)).

(** A run of [mousemove] events on [document], each one handled by the
    listener of the render that followed the event before it: the effect
    lists [dragStart] and [layout.elements] among its dependencies and
    registers the listener anew when they change. *)
Fixpoint drag (events : list Canvas.MouseEvent) (c : Canvas.t)
    (s : EditorState.t) : Canvas.t * EditorState.t :=
  match events with
  | [] => (c, s)
  | e :: events' =>
      let (c', s') := Canvas.handleGlobalMouseMove validateSchema e c s in
      drag events' c' s'
  end.

End CanvasRuns.

(** A number that is an integer multiple of the grid step. *)
Definition on_grid (gridSize v : JS.number) : Prop :=
  exists k : Z, v == inject_Z k * gridSize.

(** The positions and the sizes of the elements, in z-order. *)
Definition positions (s : EditorState.t) : list (JS.number * JS.number) :=
  map (fun el => (VisualProperties.x (Element.visual el),
                  VisualProperties.y (Element.visual el)))
      (LayoutData.elements (EditorState.layout s)).

(** The first element with a given id: [elements.find(el => el.id === id)]. *)
Definition find_element (id : string) (s : EditorState.t)
  : option Element.t :=
  find (fun el => Element.id el =? id)
       (LayoutData.elements (EditorState.layout s)).

(** [slow reach from events]: each pointer position of [events] lies, on
    both axes, at least [-reach] and less than [reach] from the one before
    it, the first one from [from]. *)
Fixpoint slow (reach : JS.number) (from : Point.t)
    (events : list Canvas.MouseEvent) : Prop :=
  match events with
  | [] => True
  | e :: events' =>
      - reach <= Canvas.clientX e - Point.x from
      /\ Canvas.clientX e - Point.x from < reach
      /\ - reach <= Canvas.clientY e - Point.y from
      /\ Canvas.clientY e - Point.y from < reach
      /\ slow reach (Point.mk (Canvas.clientX e) (Canvas.clientY e)) events'
  end.

(** The pointer position after a run of events that started at [from]. *)
Definition last_pointer (from : Point.t) (events : list Canvas.MouseEvent)
  : Point.t :=
  fold_left (fun _ e => Point.mk (Canvas.clientX e) (Canvas.clientY e))
            events from.

(** The fields an action on the document leaves alone. *)
Definition same_settings (s s' : EditorState.t) : Prop :=
  EditorState.gridSize s' = EditorState.gridSize s
  /\ EditorState.zoom s' = EditorState.zoom s
  /\ EditorState.canUndo s' = EditorState.canUndo s
  /\ EditorState.canRedo s' = EditorState.canRedo s.

(** ** More sample inputs *)

(** Two gauges on the grid, created at timestamps 17 and 18, the first one
    selected. *)
Definition twoGaugeStore : EditorState.t :=
  Store.selectElement "gauge_17"
    (fst (Store.createElement acceptingSchema "gauge" 300 200 None 18
            (fst (Store.createElement acceptingSchema "gauge" 100 100 None 17
                    initialState)))).

(** The component after a press on the first gauge at (110, 110), and four
    pointer positions, each 9 pixels to the right of the one before. *)
Definition pressedCanvas : Canvas.t :=
  fst (Canvas.handleElementMouseDown (Canvas.mkEvent 110 110 false)
         "gauge_17" Canvas.initial twoGaugeStore).
Definition slowPointer : list Canvas.MouseEvent :=
  [Canvas.mkEvent 119 110 false; Canvas.mkEvent 128 110 false;
   Canvas.mkEvent 137 110 false; Canvas.mkEvent 146 110 false].

(** A palette click: the gauge tool, then a click at (333, 278) on a canvas
    whose corner is at (8, 8). *)
Definition gaugeToolStore : EditorState.t :=
  Store.setTool "gauge" initialState.
Definition paletteClick : Canvas.MouseEvent := Canvas.mkEvent 333 278 true.

(** Issues at the paths of the second and of the eleventh element. *)
Definition elevenIssues : list ValidationError.t :=
  [ValidationError.mk "elements[10].id" "a" ValidationError.error;
   ValidationError.mk "elements[1].visual.width" "b" ValidationError.error;
   ValidationError.mk "elements[1]" "c" ValidationError.error;
   ValidationError.mk "elements[1].id" "d" ValidationError.error].

(** A document whose second element has a negative width and an unknown
    sensor. *)
Definition brokenSecondLayout : LayoutData.t :=
  LayoutData.mk "1.0"
    [sampleElement "gauge_1" "CPU_Utilization" false 1;
     Element.mk "gauge_2" "gauge" "Quantum_Flux"
       (VisualProperties.mk 10 10 (-5) 150 "#333333" "#ffffff" "#00ff00" 1
          true true "Consolas" 12 "normal" "normal")
       false 1]
    None.

(** ** The asset manager *)

(** The sizes of the assets of a collection, summed. *)
Definition total_size (d : Dict.t Asset.t) : N :=
  fold_right N.add 0%N (map Asset.size (Dict.values d)).

(** The conditions under which [validateFile] raises no error. *)
Definition acceptable (file : File.t) (type : AssetCollection.key) : bool :=
  JS.includes (AssetManager.SUPPORTED_TYPES type) (File.type file)
  && (File.size file <=? AssetManager.SIZE_LIMITS type)%N
  && JS.truthy_string (File.name file)
  && negb (AssetManager.blank (File.name file)).

(** A collection with one image, uploaded as [logo.png]. *)
Definition oneImage : AssetManager.t :=
  match AssetManager.uploadFile (File.mk "logo.png" "image/png" 2048)
          AssetCollection.images "blob:logo" 1700000000000
          AssetManager.initial with
  | Some (assets, _) => assets
  | None => AssetManager.initial
  end.

(** ** The sensor simulator *)

(** The calls of the public methods of the simulator that change it, and a
    sequence of them run on a simulator. *)
Module SimulatorCall.
Inductive t : Type :=
| subscribe (callback : nat)
| unsubscribe (callback : nat)
| setSensorValue (sensorId : string) (value : JS.number)
| reset.
End SimulatorCall.

Definition simulator_call (call : SimulatorCall.t)
    (s : SensorDataSimulator.t) : SensorDataSimulator.t :=
  match call with
  | SimulatorCall.subscribe callback =>
      SensorDataSimulator.subscribe callback s
  | SimulatorCall.unsubscribe callback =>
      SensorDataSimulator.unsubscribe callback s
  | SimulatorCall.setSensorValue sensorId value =>
      fst (SensorDataSimulator.setSensorValue sensorId value s)
  | SimulatorCall.reset => fst (SensorDataSimulator.reset s)
  end.

Definition simulator_run (calls : list SimulatorCall.t)
    (s : SensorDataSimulator.t) : SensorDataSimulator.t :=
  fold_left (fun s call => simulator_call call s) calls s.

Definition is_reset (call : SimulatorCall.t) : bool :=
  match call with
  | SimulatorCall.reset => true
  | _ => false
  end.

(** [initialData] lists objects of the caller's, none of those the literal
    [mockSensorData] created. *)
Definition own_objects (initialData : Dict.t nat) : Prop :=
  forall key address,
    In (key, address) initialData ->
    (List.length mockSensorData_entries <= address)%nat.

(** A heap with the objects of the module and, after them, one object of
    the caller's for [CPU_Utilization], of value 10; the table that lists
    it; and the calls [subscribe(f)], [setSensorValue('CPU_Utilization',
    250)]. *)
Definition callerHeap : list SensorData.t :=
  (SensorDataSimulator.loaded
   ++ [SensorData.mk 10 0 100 "%" true])%list.
Definition callerData : Dict.t nat :=
  [("CPU_Utilization", List.length mockSensorData_entries)].
Definition overdrive : list SimulatorCall.t :=
  [SimulatorCall.subscribe 1;
   SimulatorCall.setSensorValue "CPU_Utilization" 250].

(** * Properties of the editing engine *)


(** ** Lists and strings *)

Lemma filter_all {A : Type} (p : A -> bool) (l : list A) :
  (forall a, In a l -> p a = true) -> filter p l = l.
Proof.
  induction l as [|a l IH]; intros H; simpl; [reflexivity|].
  rewrite (H a (or_introl eq_refl)), IH; [reflexivity|].
  intros b Hb. apply H. now right.
Qed.

Lemma filter_idem {A : Type} (p : A -> bool) (l : list A) :
  filter p (filter p l) = filter p l.
Proof.
  apply filter_all. intros a Ha. now apply filter_In in Ha.
Qed.

Lemma neqb_true_iff (a b : string) : negb (a =? b) = true <-> a <> b.
Proof.
  rewrite negb_true_iff. apply String.eqb_neq.
Qed.

Lemma includes_In (l : list string) (s : string) :
  JS.includes l s = true <-> In s l.
Proof.
  unfold JS.includes. rewrite existsb_exists. split.
  - intros [x [Hx Heq]]. apply String.eqb_eq in Heq. now subst.
  - intros H. exists s. split; [assumption | apply String.eqb_refl].
Qed.

Lemma not_in_ids_filter (i : string) (els : list Element.t) :
  ~ In i (map Element.id els) ->
  filter (fun el => negb (Element.id el =? i)) els = els.
Proof.
  intros H. apply filter_all. intros el Hel. apply neqb_true_iff.
  intros Heq. apply H. rewrite <- Heq. now apply in_map.
Qed.

(** ** Store actions *)

Section StoreProperties.

Variable validateSchema : LayoutData.t -> list Ajv.ErrorObject.

Lemma addElement_elements (el : Element.t) (s : EditorState.t) :
  LayoutData.elements (EditorState.layout (Store.addElement validateSchema el s))
  = (LayoutData.elements (EditorState.layout s) ++ [el])%list.
Proof. reflexivity. Qed.

(** Appending an element whose id is not taken keeps the ids distinct. *)
Lemma addElement_NoDup (el : Element.t) (s : EditorState.t) :
  NoDup (element_ids s) ->
  ~ In (Element.id el) (element_ids s) ->
  NoDup (element_ids (Store.addElement validateSchema el s)).
Proof.
  unfold element_ids. rewrite addElement_elements, map_app. simpl.
  intros Hnd Hfresh. apply NoDup_app; [assumption | | ].
  - constructor; [intros [] | constructor].
  - intros a Ha [Hb | []]. subst. contradiction.
Qed.

Lemma distinct_NoDup (l : list string) : distinct l = true -> NoDup l.
Proof.
  induction l as [|a l IH]; simpl; intros H; constructor;
    apply andb_true_iff in H; destruct H as [Ha Hl].
  - intros Hin. apply includes_In in Hin. rewrite Hin in Ha. discriminate Ha.
  - exact (IH Hl).
Qed.

(** The keys of the catalog are pairwise distinct, and every entry carries
    its key as [type]. *)
Lemma catalog_keys_distinct : NoDup (map fst ELEMENT_DEFINITIONS_entries).
Proof. apply distinct_NoDup. vm_compute. reflexivity. Qed.

Lemma catalog_entries_typed :
  forallb (fun entry => fst entry =? ElementDefinition.type (snd entry))
          ELEMENT_DEFINITIONS_entries = true.
Proof. vm_compute. reflexivity. Qed.


Lemma lookup_entry_Some {A : Type} (k : string) (l : list (string * A)) :
  In k (map fst l) -> exists v, lookup_entry k l = Some v /\ In (k, v) l.
Proof.
  induction l as [|[k' v] l IH]; simpl; intros H; [contradiction|].
  destruct (String.eqb_spec k' k) as [->|Hne].
  - exists v. split; [reflexivity | now left].
  - destruct H as [H|H]; [contradiction|].
    destruct (IH H) as (v' & Hv' & Hin). exists v'. split; [exact Hv' | now right].
Qed.

(** What [ELEMENT_DEFINITIONS[type]] finds: the entry of a key of the
    literal, the member of a name every object inherits, and nothing
    else. *)
Lemma catalog_own (type : ElementType) :
  In type (map fst ELEMENT_DEFINITIONS_entries) ->
  exists definition,
    ELEMENT_DEFINITIONS type = Some (Dict.own definition)
    /\ In (type, definition) ELEMENT_DEFINITIONS_entries.
Proof.
  intros H. destruct (lookup_entry_Some type _ H) as (definition & Hdef & Hin).
  exists definition. split; [|exact Hin].
  unfold ELEMENT_DEFINITIONS, Dict.get. now rewrite Hdef.
Qed.



(** No key of the catalog is the name of a member of [Object.prototype]. *)
Lemma catalog_shadows_nothing (type : ElementType) :
  In type Dict.Object_prototype ->
  ~ In type (map fst ELEMENT_DEFINITIONS_entries).
Proof.
  intros Hproto Hkey.
  assert (H : forallb (fun name =>
                         negb (JS.includes (map fst ELEMENT_DEFINITIONS_entries)
                                           name))
                      Dict.Object_prototype = true)
    by (vm_compute; reflexivity).
  rewrite forallb_forall in H. specialize (H type Hproto).
  apply negb_true_iff in H. apply includes_In in Hkey. congruence.
Qed.


(** C9 (amended).  For a kind of the catalog, [createElement] appends one
    element at the end of the sequence, placed at the given position, with
    the default size of the catalog's entry for that kind and the id
    [<kind>_<timestamp>], and hands nothing back to the caller: it returns
    [undefined]. *)
Theorem C9_createElement_appends_and_returns_undefined
    (type : ElementType) (x y : JS.number) (sensor : option SensorId)
    (now : N) (s : EditorState.t) :
  In type (map fst ELEMENT_DEFINITIONS_entries) ->
  let r := Store.createElement validateSchema type x y sensor now s in
  exists definition el,
    In (type, definition) ELEMENT_DEFINITIONS_entries
    /\ LayoutData.elements (EditorState.layout (fst r))
       = (LayoutData.elements (EditorState.layout s) ++ [el])%list
    /\ Element.id el = type ++ "_" ++ JS.N_toString now
    /\ Element.type el = type
    /\ VisualProperties.x (Element.visual el) = x
    /\ VisualProperties.y (Element.visual el) = y
    /\ VisualProperties.width (Element.visual el)
       = ElementDefinition.width (ElementDefinition.defaultSize definition)
    /\ VisualProperties.height (Element.visual el)
       = ElementDefinition.height (ElementDefinition.defaultSize definition)
    /\ snd r = JS.returned None.
Proof.
  intros Hknown r.
  destruct (catalog_own type Hknown) as (definition & Hdef & Hin).
  subst r. unfold Store.createElement. rewrite Hdef.
  exists definition. eexists. split; [exact Hin|].
  split; [apply addElement_elements|]. repeat split.
Qed.

(** C6 (amended).  [removeElement(id)] keeps exactly the elements whose id
    differs from [id], in their order, drops [id] from the selection and
    leaves the clipboard as it was.  The document is untouched when no
    element has that id, the selection is untouched when [id] is not
    selected, and a second [removeElement(id)] changes nothing. *)
Theorem C6_removeElement_effect (i : string) (s : EditorState.t) :
  let s' := Store.removeElement validateSchema i s in
  LayoutData.elements (EditorState.layout s')
  = filter (fun el => negb (Element.id el =? i))
           (LayoutData.elements (EditorState.layout s))
  /\ ~ In i (element_ids s')
  /\ EditorState.selectedElementIds s'
     = filter (fun selectedId => negb (selectedId =? i))
              (EditorState.selectedElementIds s)
  /\ ~ In i (EditorState.selectedElementIds s')
  /\ EditorState.clipboard s' = EditorState.clipboard s
  /\ (~ In i (element_ids s) -> EditorState.layout s' = EditorState.layout s)
  /\ (~ In i (EditorState.selectedElementIds s) ->
      EditorState.selectedElementIds s' = EditorState.selectedElementIds s)
  /\ Store.removeElement validateSchema i s' = s'.
Proof.
  cbv zeta. repeat split.
  - unfold element_ids. simpl. rewrite in_map_iff.
    intros [el [Hid Hin]]. apply filter_In in Hin. destruct Hin as [_ Hneq].
    apply neqb_true_iff in Hneq. contradiction.
  - simpl. intros Hin. apply filter_In in Hin. destruct Hin as [_ Hneq].
    apply neqb_true_iff in Hneq. now apply Hneq.
  - intros Hfresh. simpl. unfold LayoutData.with_elements.
    unfold element_ids in Hfresh. rewrite (not_in_ids_filter _ _ Hfresh).
    now destruct (EditorState.layout s).
  - intros Hfresh. simpl. apply filter_all. intros a Ha.
    apply neqb_true_iff. intros ->. contradiction.
  - unfold Store.removeElement, Store.validateLayout. simpl.
    unfold LayoutData.with_elements. simpl. now rewrite !filter_idem.
Qed.

End StoreProperties.

(** ** Selection *)

(** C2 (amended).  The selection actions store the ids they are given
    without looking at the document, whatever it holds: [selectElement(id)]
    makes the selection [[id]], [selectMultiple(ids)] makes it [ids], and
    [toggleSelection(id)] adds [id] when it is not selected; none of them
    touches the document.  The selection [selectElement] leaves names
    existing elements only exactly when [id] is the id of an element, the
    one [selectMultiple] leaves exactly when all of [ids] are, and, started
    from a selection of existing elements, the one [toggleSelection] leaves
    exactly when [id] is; [clearSelection] always leaves one. *)
Theorem C2_selection_actions_do_not_filter
    (s : EditorState.t) (id : string) (ids : list string) :
  EditorState.selectedElementIds (Store.selectElement id s) = [id]
  /\ EditorState.selectedElementIds (Store.selectMultiple ids s) = ids
  /\ (~ In id (EditorState.selectedElementIds s) ->
      EditorState.selectedElementIds (Store.toggleSelection id s)
      = (EditorState.selectedElementIds s ++ [id])%list)
  /\ (forall s', In s' [Store.selectElement id s; Store.selectMultiple ids s;
                        Store.toggleSelection id s; Store.clearSelection s] ->
                 EditorState.layout s' = EditorState.layout s)
  /\ (selection_consistent (Store.selectElement id s)
      <-> In id (element_ids s))
  /\ (selection_consistent (Store.selectMultiple ids s)
      <-> incl ids (element_ids s))
  /\ (selection_consistent s ->
      (selection_consistent (Store.toggleSelection id s)
       <-> In id (element_ids s)))
  /\ selection_consistent (Store.clearSelection s).
Proof.
  unfold selection_consistent, element_ids.
  assert (Htoggle : EditorState.layout (Store.toggleSelection id s)
                    = EditorState.layout s).
  { unfold Store.toggleSelection.
    now destruct (JS.includes (EditorState.selectedElementIds s) id). }
  split; [reflexivity|]. split; [reflexivity|]. split.
  { intros Hnot. unfold Store.toggleSelection.
    replace (JS.includes (EditorState.selectedElementIds s) id) with false;
      [reflexivity|].
    symmetry. apply not_true_iff_false. now rewrite includes_In. }
  split.
  { intros s' [<-|[<-|[<-|[<-|[]]]]]; try reflexivity. exact Htoggle. }
  split.
  { cbn. split.
    - intros H. apply H. now left.
    - intros H a [<-|[]]. exact H. }
  split; [cbn; tauto|]. split; [|intros a []].
  intros Hs. rewrite Htoggle. unfold Store.toggleSelection.
  destruct (JS.includes (EditorState.selectedElementIds s) id) eqn:E; cbn.
  - apply includes_In in E. split.
    + intros _. now apply Hs.
    + intros _ a Ha. apply filter_In in Ha. apply Hs. tauto.
  - split.
    + intros H. apply H. apply in_or_app. right. now left.
    + intros H. apply incl_app; [assumption|]. intros a [<-|[]]. exact H.
Qed.

(** ** Resizing *)

Lemma resizedSize_floor (handle : string) (start : Canvas.ResizeStart)
    (deltaX deltaY : JS.number) :
  20 <= fst (Canvas.resizedSize handle start deltaX deltaY)
  /\ 20 <= snd (Canvas.resizedSize handle start deltaX deltaY).
Proof.
  unfold Canvas.resizedSize, JS.Math_max. simpl. split; apply Q.le_max_l.
Qed.


(** C7.  Whatever the size at resize start, the handle and the pointer
    deltas, the width and the height a resize step computes are at least 20;
    every element of the document that [handleResizeMove] changed has such a
    size.  With the east and south edges active, a 100 x 100 start and a
    canvas-space delta of (30, -10) the new size is 130 x 90. *)
Theorem C7_resize_floor
    (validateSchema : LayoutData.t -> list Ajv.ErrorObject)
    (handle : string) (start : Canvas.ResizeStart)
    (deltaX deltaY : JS.number)
    (e : Canvas.MouseEvent) (c : Canvas.t) (s : EditorState.t) :
  20 <= fst (Canvas.resizedSize handle start deltaX deltaY)
  /\ 20 <= snd (Canvas.resizedSize handle start deltaX deltaY)
  /\ Forall
       (fun el =>
          In el (LayoutData.elements (EditorState.layout s))
          \/ (20 <= VisualProperties.width (Element.visual el)
              /\ 20 <= VisualProperties.height (Element.visual el)))
       (LayoutData.elements
          (EditorState.layout (Canvas.handleResizeMove validateSchema e c s)))
  /\ Canvas.resizedSize "se" (Canvas.mkResizeStart 0 0 100 100) 30 (-10)
     = (130, 90)
  /\ map (fun el => (VisualProperties.width (Element.visual el),
                     VisualProperties.height (Element.visual el)))
         (LayoutData.elements
            (EditorState.layout
               (Canvas.handleResizeMove validateSchema
                  (Canvas.mkEvent 30 (-10) true)
                  resizeScenarioGrab resizeScenarioStore)))
     = [(130, 90)].
Proof.
  split; [exact (proj1 (resizedSize_floor handle start deltaX deltaY))|].
  split; [exact (proj2 (resizedSize_floor handle start deltaX deltaY))|].
  split; [|split; lazy; reflexivity].
  apply Forall_forall. intros el Hel.
  unfold Canvas.handleResizeMove in Hel.
  destruct (Canvas.isResizing c
            && (List.length (EditorState.selectedElementIds s) =? 1)%nat);
    [|now left].
  destruct (find _ _) as [element|]; [|now left].
  unfold Canvas.resizedSize in Hel. simpl in Hel.
  apply in_map_iff in Hel. destruct Hel as [el0 [Heq Hin]].
  destruct (Element.id el0 =? Element.id element); subst el.
  - right. simpl. unfold JS.Math_max. split; apply Q.le_max_l.
  - now left.
Qed.

(** ** Strings and paths *)

Lemma string_app_assoc (a b c : string) : (a ++ b) ++ c = a ++ (b ++ c).
Proof.
  induction a as [|ch a IH]; simpl; [reflexivity | now rewrite IH].
Qed.

Lemma eqb_app_prefix (p a b : string) : (p ++ a =? p ++ b) = (a =? b).
Proof.
  induction p as [|ch p IH]; simpl; [reflexivity|].
  now rewrite Ascii.eqb_refl.
Qed.

Lemma uint_digits (d : Decimal.uint) :
  all_chars JSON.is_digit (NilEmpty.string_of_uint d) = true.
Proof. induction d; simpl; auto. Qed.

Lemma digits_then_bracket (d1 d2 r1 r2 : string) :
  all_chars JSON.is_digit d1 = true -> all_chars JSON.is_digit d2 = true ->
  d1 ++ String "]" r1 = d2 ++ String "]" r2 -> d1 = d2.
Proof.
  revert d2. induction d1 as [|c d1 IH]; intros [|c' d2] H1 H2 Heq;
    simpl in *.
  - reflexivity.
  - injection Heq as Hc _. subst c'. discriminate.
  - injection Heq as Hc _. subst c. discriminate.
  - injection Heq as Hc Hrest. subst c'.
    apply andb_true_iff in H1, H2. f_equal. apply IH; tauto.
Qed.

Lemma nat_toString_inj (i j : nat) :
  JS.nat_toString i = JS.nat_toString j -> i = j.
Proof.
  unfold JS.nat_toString. intros H.
  apply (f_equal NilEmpty.uint_of_string) in H.
  rewrite !NilEmpty.usu in H. injection H as H.
  apply (f_equal Nat.of_uint) in H.
  now rewrite !DecimalNat.Unsigned.of_to in H.
Qed.

Lemma elementPath_inj (i j : nat) (a b : string) :
  elementPath i ++ a = elementPath j ++ b -> i = j.
Proof.
  unfold elementPath. rewrite !string_app_assoc. simpl.
  intros H. injection H as H.
  rewrite ?string_app_assoc in H. simpl in H.
  apply nat_toString_inj.
  apply (digits_then_bracket _ _ a b);
    [apply uint_digits | apply uint_digits | exact H].
Qed.

(** Two paths below [elements[..]] coincide when the indices and the
    suffixes do. *)
Lemma elementPath_eqb (i j : nat) (a b : string) :
  (elementPath i ++ a =? elementPath j ++ b) = ((i =? j)%nat && (a =? b)).
Proof.
  destruct (Nat.eqb_spec i j) as [->|Hne].
  - apply eqb_app_prefix.
  - cbn [andb]. apply String.eqb_neq. intros H. apply Hne. exact (elementPath_inj _ _ _ _ H).
Qed.

(** ** The arrays [validateLayout] fills *)

Lemma emits_ext (r : Issues.rule) (E W E' W' : list ValidationError.t) :
  emits r E W -> E = E' -> W = W' -> emits r E' W'.
Proof. now intros H <- <-. Qed.

Lemma emits_skip : emits Issues.skip [] [].
Proof.
  intros [E W]. unfold Issues.skip. simpl. now rewrite !app_nil_r.
Qed.

Lemma emits_when (b : bool) (r : Issues.rule) (E W : list ValidationError.t) :
  emits r E W ->
  emits (Issues.when b r) (if b then E else []) (if b then W else []).
Proof.
  destruct b; simpl; [trivial | intros _; apply emits_skip].
Qed.

Lemma emits_pushError (path message : string) :
  emits (Issues.pushError path message)
        [ValidationError.mk path message ValidationError.error] [].
Proof.
  intros [E W]. unfold Issues.pushError. simpl. now rewrite app_nil_r.
Qed.

Lemma emits_pushWarning (path message : string) :
  emits (Issues.pushWarning path message)
        [] [ValidationError.mk path message ValidationError.warning].
Proof.
  intros [E W]. unfold Issues.pushWarning. simpl. now rewrite app_nil_r.
Qed.

Lemma emits_error_if (b : bool) (path message : string) :
  emits (Issues.when b (Issues.pushError path message))
        (issue_if b ValidationError.error path message) [].
Proof.
  eapply emits_ext; [apply emits_when, emits_pushError | | ];
    now destruct b.
Qed.

Lemma emits_warning_if (b : bool) (path message : string) :
  emits (Issues.when b (Issues.pushWarning path message))
        [] (issue_if b ValidationError.warning path message).
Proof.
  eapply emits_ext; [apply emits_when, emits_pushWarning | | ];
    now destruct b.
Qed.

Lemma emits_andThen (r1 r2 : Issues.rule)
    (E1 W1 E2 W2 : list ValidationError.t) :
  emits r1 E1 W1 -> emits r2 E2 W2 ->
  emits (Issues.andThen r1 r2) (E1 ++ E2) (W1 ++ W2).
Proof.
  intros H1 H2 acc. unfold Issues.andThen. rewrite H1, H2. simpl.
  now rewrite !app_assoc.
Qed.

Lemma emits_forEach {A : Type} (body : A -> nat -> Issues.rule)
    (E W : A -> nat -> list ValidationError.t) (xs : list A) :
  (forall x i, emits (body x i) (E x i) (W x i)) ->
  forall n, emits (Issues.forEach body xs n)
                  (flat_mapi E xs n) (flat_mapi W xs n).
Proof.
  intros Hbody. induction xs as [|x xs IH]; intros n; simpl.
  - apply emits_skip.
  - apply emits_andThen; [apply Hbody | apply IH].
Qed.

Create HintDb emits.
#[local] Hint Resolve emits_error_if emits_warning_if emits_andThen : emits.

Lemma checkVisual_emits (index : nat) (v : VisualProperties.t) :
  emits (checkVisual (elementPath index ++ ".visual") v)
        (visualErrors index v) (visualWarnings index v).
Proof.
  unfold checkVisual.
  eapply emits_ext; [auto 20 with emits | | ];
    unfold visualErrors, visualWarnings;
    rewrite !string_app_assoc; simpl; rewrite ?app_nil_r; reflexivity.
Qed.

Lemma checkElement_emits (layout : LayoutData.t) (element : Element.t)
    (index : nat) :
  emits (checkElement layout element index)
        (elementErrors layout element index) (elementWarnings element index).
Proof.
  unfold checkElement.
  eapply emits_ext.
  - apply emits_andThen; [apply emits_warning_if|].
    apply emits_andThen; [apply emits_error_if|].
    apply emits_andThen; [apply checkVisual_emits|].
    apply emits_when, emits_warning_if.
  - simpl. unfold elementErrors, duplicateIdIssue.
    destruct (Element.animated element
              && JS.truthy_number (Element.animationSpeed element));
      now rewrite app_nil_r.
  - simpl. unfold elementWarnings, sensorIssue, animationSpeedIssue.
    destruct (Element.animated element
              && JS.truthy_number (Element.animationSpeed element));
      reflexivity.
Qed.

Lemma pushSchemaError_emits (errs : list Ajv.ErrorObject) (n : nat) :
  emits (Issues.forEach pushSchemaError errs n) (map schemaIssue errs) [].
Proof.
  revert n. induction errs as [|e errs IH]; intros n; simpl.
  - apply emits_skip.
  - change (schemaIssue e :: map schemaIssue errs)
      with ([schemaIssue e] ++ map schemaIssue errs)%list.
    change (@nil ValidationError.t) with (@nil ValidationError.t ++ [])%list.
    apply emits_andThen; [apply emits_pushError | apply IH].
Qed.

(** What [validateLayout] returns: the schema violations, then the errors of
    the elements in order; the warnings of the elements in order; and
    [isValid] exactly when there is no error. *)
Lemma validateLayout_spec
    (validateSchema : LayoutData.t -> list Ajv.ErrorObject)
    (layout : LayoutData.t) :
  let r := validateLayout validateSchema layout in
  ValidationResult.errors r
  = (map schemaIssue (validateSchema layout)
     ++ flat_mapi (elementErrors layout) (LayoutData.elements layout) 0)%list
  /\ ValidationResult.warnings r
     = flat_mapi elementWarnings (LayoutData.elements layout) 0
  /\ ValidationResult.isValid r
     = (List.length (ValidationResult.errors r) =? 0)%nat.
Proof.
  unfold validateLayout. simpl.
  rewrite (emits_andThen _ _ _ _ _ _
             (pushSchemaError_emits (validateSchema layout) 0)
             (emits_forEach (checkElement layout) _ _
                (LayoutData.elements layout)
                (checkElement_emits layout) 0)).
  simpl. repeat split.
Qed.

(** ** Issues located at a path *)

Lemma at_path_app (p : string) (l1 l2 : list ValidationError.t) :
  at_path p (l1 ++ l2) = (at_path p l1 ++ at_path p l2)%list.
Proof. apply filter_app. Qed.

Lemma at_path_issue_if (p : string) (b : bool)
    (sev : ValidationError.severity_t) (path message : string) :
  at_path p (issue_if b sev path message)
  = issue_if (b && (path =? p)) sev path message.
Proof.
  destruct b; simpl; [|reflexivity].
  unfold issue_if. now destruct (path =? p).
Qed.

Lemma issue_if_false_r (b : bool) (sev : ValidationError.severity_t)
    (path message : string) :
  issue_if (b && false) sev path message = [].
Proof. now rewrite andb_false_r. Qed.

(** Filtering the issues of one element by a path below [elements[i]]. *)
Ltac at_path_compute :=
  rewrite ?at_path_app, ?at_path_issue_if, ?elementPath_eqb;
  cbn [String.eqb Ascii.eqb Bool.eqb andb];
  rewrite ?andb_false_r, ?andb_true_r, ?issue_if_false_r;
  cbn [issue_if app].

Lemma at_path_flat_mapi {A : Type} (p : string) (i : nat)
    (f g : A -> nat -> list ValidationError.t) (xs : list A) :
  (forall x j, at_path p (f x j) = if (j =? i)%nat then g x j else []) ->
  forall n,
    at_path p (flat_mapi f xs n)
    = match nth_error xs (i - n) with
      | Some x => if (n <=? i)%nat then g x i else []
      | None => []
      end.
Proof.
  intros Hf. induction xs as [|x xs IH]; intros n; simpl.
  - now destruct (i - n)%nat.
  - rewrite at_path_app, Hf, IH.
    destruct (Nat.eqb_spec n i) as [->|Hne].
    + replace (i - S i)%nat with 0%nat by lia.
      replace (S i <=? i)%nat with false by (symmetry; apply Nat.leb_gt; lia).
      rewrite Nat.sub_diag, Nat.leb_refl. cbn [nth_error].
      destruct xs; cbv iota; now rewrite app_nil_r.
    + cbn [app]. destruct (Nat.leb_spec n i) as [Hle|Hgt].
      * replace (S n <=? i)%nat with true by (symmetry; apply Nat.leb_le; lia).
        replace (i - n)%nat with (S (i - S n)) by lia. reflexivity.
      * replace (S n <=? i)%nat with false by (symmetry; apply Nat.leb_gt; lia).
        replace (i - n)%nat with 0%nat by lia.
        replace (i - S n)%nat with 0%nat by lia.
        cbn [nth_error]. now destruct xs.
Qed.

Lemma at_path_flat_mapi_nth {A : Type} (p : string) (i : nat)
    (f g : A -> nat -> list ValidationError.t) (xs : list A) (x : A) :
  (forall y j, at_path p (f y j) = if (j =? i)%nat then g y j else []) ->
  nth_error xs i = Some x ->
  at_path p (flat_mapi f xs 0) = g x i.
Proof.
  intros Hf Hnth. rewrite (at_path_flat_mapi p i f g xs Hf 0).
  now rewrite Nat.sub_0_r, Hnth.
Qed.

Lemma at_path_flat_mapi_none {A : Type} (p : string)
    (f : A -> nat -> list ValidationError.t) (xs : list A) (n : nat) :
  (forall y j, at_path p (f y j) = []) -> at_path p (flat_mapi f xs n) = [].
Proof.
  intros Hf. revert n. induction xs as [|x xs IH]; intros n; simpl;
    [reflexivity|].
  now rewrite at_path_app, Hf, IH.
Qed.

Lemma flat_mapi_nil {A B : Type} (f : A -> nat -> list B) (xs : list A) :
  (forall x j, In x xs -> f x j = []) -> forall n, flat_mapi f xs n = [].
Proof.
  induction xs as [|x xs IH]; intros Hf n; simpl; [reflexivity|].
  rewrite (Hf x n (or_introl eq_refl)), IH; [reflexivity|].
  intros y j Hy. apply Hf. now right.
Qed.

Lemma at_path_warnings_sensor (i j : nat) (el : Element.t) :
  at_path (elementPath i ++ ".sensor") (elementWarnings el j)
  = if (j =? i)%nat then sensorIssue el j else [].
Proof.
  unfold elementWarnings, visualWarnings, sensorIssue, animationSpeedIssue.
  at_path_compute. destruct (j =? i)%nat; at_path_compute;
    now rewrite ?app_nil_r.
Qed.

Lemma at_path_warnings_animationSpeed (i j : nat) (el : Element.t) :
  at_path (elementPath i ++ ".animationSpeed") (elementWarnings el j)
  = if (j =? i)%nat then animationSpeedIssue el j else [].
Proof.
  unfold elementWarnings, visualWarnings, sensorIssue, animationSpeedIssue.
  at_path_compute. destruct (j =? i)%nat; at_path_compute; reflexivity.
Qed.

Lemma at_path_errors_sensor (layout : LayoutData.t) (i j : nat)
    (el : Element.t) :
  at_path (elementPath i ++ ".sensor") (elementErrors layout el j) = [].
Proof.
  unfold elementErrors, duplicateIdIssue, visualErrors.
  at_path_compute. reflexivity.
Qed.

(** ** Numbers *)

Lemma JS_lt_iff (a b : JS.number) : JS.lt a b = true <-> a < b.
Proof.
  unfold JS.lt. rewrite negb_true_iff, <- not_true_iff_false, Qle_bool_iff.
  split; [apply Qnot_le_lt | apply Qlt_not_le].
Qed.

Lemma JS_lt_false_iff (a b : JS.number) : JS.lt a b = false <-> b <= a.
Proof.
  unfold JS.lt. rewrite negb_false_iff. apply Qle_bool_iff.
Qed.

Lemma JS_le_false_iff (a b : JS.number) : JS.le a b = false <-> b < a.
Proof.
  unfold JS.le. rewrite <- not_true_iff_false, Qle_bool_iff.
  split; [apply Qnot_le_lt | apply Qlt_not_le].
Qed.

Lemma truthy_number_iff (a : JS.number) :
  JS.truthy_number a = true <-> ~ a == 0.
Proof.
  unfold JS.truthy_number.
  rewrite negb_true_iff, <- not_true_iff_false, Qeq_bool_iff. tauto.
Qed.

Lemma truthy_string_iff (s : string) : JS.truthy_string s = true <-> s <> "".
Proof. apply neqb_true_iff. Qed.

(** ** Documents without structural defects *)

Lemma visual_well_formed_no_error (index : nat) (v : VisualProperties.t) :
  visual_well_formed v -> visualErrors index v = [].
Proof.
  intros (Hbg & Hfg & Hnd & [Hop0 Hop1] & Hfw & Hfs & Hw & Hh).
  unfold visualErrors, badColor. rewrite Hbg, Hfg, Hnd.
  apply includes_In in Hfw, Hfs. rewrite Hfw, Hfs.
  apply JS_lt_false_iff in Hop0, Hop1. unfold JS.gt. rewrite Hop0, Hop1.
  apply JS_le_false_iff in Hw, Hh. rewrite Hw, Hh.
  now rewrite !andb_false_r.
Qed.

Lemma unique_id_filter_length {A : Type} (f : A -> string) (k : string)
    (l : list A) :
  NoDup (map f l) ->
  (List.length (filter (fun x => (f x =? k)%string) l) <= 1)%nat.
Proof.
  induction l as [|a l IH]; simpl; intros Hnd; [lia|].
  inversion Hnd as [|? ? Hnotin Hnd']; subst.
  destruct (String.eqb_spec (f a) k) as [<-|Hne]; [|now apply IH].
  simpl. replace (filter _ l) with (@nil A); [simpl; lia|].
  symmetry. clear IH Hnd Hnd'. induction l as [|b l IHl]; [reflexivity|].
  simpl in *. destruct (String.eqb_spec (f b) (f a)) as [Heq|Hne].
  - exfalso. apply Hnotin. now left.
  - apply IHl. tauto.
Qed.

Lemma unique_ids_no_duplicate_issue (layout : LayoutData.t)
    (el : Element.t) (index : nat) :
  NoDup (map Element.id (LayoutData.elements layout)) ->
  duplicateIdIssue layout el index = [].
Proof.
  intros Hnd. unfold duplicateIdIssue.
  pose proof (unique_id_filter_length Element.id (Element.id el) _ Hnd) as Hle.
  replace (1 <? _)%nat with false; [reflexivity|].
  symmetry. apply Nat.ltb_ge. exact Hle.
Qed.

(** ** Validation results *)

(** C3.  A document of exactly two elements that share the id ["gauge_1"],
    accepted by the schema and free of any other structural defect, is
    invalid with exactly two errors, one per element, located at
    [elements[0].id] and [elements[1].id]. *)
Theorem C3_two_elements_sharing_an_id
    (validateSchema : LayoutData.t -> list Ajv.ErrorObject)
    (layout : LayoutData.t) (e1 e2 : Element.t) :
  LayoutData.elements layout = [e1; e2] ->
  Element.id e1 = "gauge_1" ->
  Element.id e2 = "gauge_1" ->
  validateSchema layout = [] ->
  visual_well_formed (Element.visual e1) ->
  visual_well_formed (Element.visual e2) ->
  let r := validateLayout validateSchema layout in
  ValidationResult.isValid r = false
  /\ List.length (ValidationResult.errors r) = 2%nat
  /\ ValidationResult.errors r
     = [ValidationError.mk "elements[0].id" (Message.duplicateId "gauge_1")
          ValidationError.error;
        ValidationError.mk "elements[1].id" (Message.duplicateId "gauge_1")
          ValidationError.error].
Proof.
  intros Hels Hid1 Hid2 Hschema Hv1 Hv2 r.
  destruct (validateLayout_spec validateSchema layout) as (HE & _ & HV).
  fold r in HE, HV.
  assert (Herrors : ValidationResult.errors r
                    = [ValidationError.mk "elements[0].id"
                         (Message.duplicateId "gauge_1") ValidationError.error;
                       ValidationError.mk "elements[1].id"
                         (Message.duplicateId "gauge_1")
                         ValidationError.error]).
  { rewrite HE, Hschema, Hels. cbn [map flat_mapi app].
    unfold elementErrors, duplicateIdIssue.
    rewrite !visual_well_formed_no_error by assumption.
    rewrite Hels. cbn [filter]. rewrite Hid1, Hid2. reflexivity. }
  rewrite HV, Herrors. repeat split.
Qed.

(** C4.  An element whose sensor reference is not in the known set (a
    reference is a non-empty string: the empty one stands for no sensor)
    gets exactly one issue located at its sensor field, a warning.  The
    rules of [validateLayout] report no error there: the errors are the
    schema's violations followed by errors located elsewhere; when the
    schema accepts the document there is none at that path, and if moreover
    the ids are distinct and the visual properties well formed, the
    document is valid. *)
Theorem C4_unknown_sensor_is_a_warning
    (validateSchema : LayoutData.t -> list Ajv.ErrorObject)
    (layout : LayoutData.t) (i : nat) (el : Element.t) :
  nth_error (LayoutData.elements layout) i = Some el ->
  Element.sensor el <> "" ->
  ~ In (Element.sensor el) VALID_SENSOR_IDS ->
  let r := validateLayout validateSchema layout in
  let p := elementPath i ++ ".sensor" in
  at_path p (ValidationResult.warnings r)
  = [ValidationError.mk p (Message.unknownSensor (Element.sensor el))
       ValidationError.warning]
  /\ (exists own,
         ValidationResult.errors r
         = (map schemaIssue (validateSchema layout) ++ own)%list
         /\ at_path p own = [])
  /\ (validateSchema layout = [] ->
      at_path p (ValidationResult.errors r) = []
      /\ (NoDup (map Element.id (LayoutData.elements layout)) ->
          Forall (fun e => visual_well_formed (Element.visual e))
                 (LayoutData.elements layout) ->
          ValidationResult.isValid r = true)).
Proof.
  intros Hnth Hsensor Hunknown r p.
  destruct (validateLayout_spec validateSchema layout) as (HE & HW & HV).
  fold r in HE, HW, HV.
  assert (Hown : at_path p (flat_mapi (elementErrors layout)
                              (LayoutData.elements layout) 0) = []).
  { apply at_path_flat_mapi_none. intros. apply at_path_errors_sensor. }
  split; [|split].
  - rewrite HW.
    rewrite (at_path_flat_mapi_nth p i _ sensorIssue _ el
               (fun y j => at_path_warnings_sensor i j y) Hnth).
    unfold sensorIssue.
    rewrite (proj2 (truthy_string_iff _) Hsensor).
    replace (JS.includes VALID_SENSOR_IDS (Element.sensor el)) with false;
      [reflexivity|].
    symmetry. apply not_true_iff_false. now rewrite includes_In.
  - eexists. split; [exact HE | exact Hown].
  - intros Hschema. rewrite HE, Hschema. cbn [map app]. split; [exact Hown|].
    intros Hnd Hwf. rewrite HV, HE, Hschema. cbn [map app].
    rewrite flat_mapi_nil; [reflexivity|].
    intros x j Hx. unfold elementErrors.
    rewrite unique_ids_no_duplicate_issue by assumption.
    rewrite Forall_forall in Hwf.
    now rewrite visual_well_formed_no_error by (apply Hwf; assumption).
Qed.

(** C5 (amended).  For an animated element whose animation speed is non-zero
    and outside [0.1, 10], [validateLayout] emits exactly one warning located
    at that element's [animationSpeed].  It emits none there when the element
    is not animated, when the speed is 0, or when the speed lies within
    [0.1, 10]. *)
Theorem C5_animation_speed_warning
    (validateSchema : LayoutData.t -> list Ajv.ErrorObject)
    (layout : LayoutData.t) (i : nat) (el : Element.t) :
  nth_error (LayoutData.elements layout) i = Some el ->
  let r := validateLayout validateSchema layout in
  let p := elementPath i ++ ".animationSpeed" in
  (Element.animated el = true ->
   ~ Element.animationSpeed el == 0 ->
   Element.animationSpeed el < 1 # 10 \/ 10 < Element.animationSpeed el ->
   at_path p (ValidationResult.warnings r)
   = [ValidationError.mk p
        (Message.animationSpeed (Element.animationSpeed el))
        ValidationError.warning])
  /\ (Element.animated el = false
      \/ Element.animationSpeed el == 0
      \/ (1 # 10 <= Element.animationSpeed el
          /\ Element.animationSpeed el <= 10) ->
      at_path p (ValidationResult.warnings r) = []).
Proof.
  intros Hnth r p.
  destruct (validateLayout_spec validateSchema layout) as (_ & HW & _).
  fold r in HW.
  assert (Hat : at_path p (ValidationResult.warnings r)
                = animationSpeedIssue el i).
  { rewrite HW.
    exact (at_path_flat_mapi_nth p i _ animationSpeedIssue _ el
             (fun y j => at_path_warnings_animationSpeed i j y) Hnth). }
  rewrite Hat. unfold animationSpeedIssue. split.
  - intros Hanimated Hnonzero Hrange.
    rewrite Hanimated, (proj2 (truthy_number_iff _) Hnonzero).
    replace (JS.lt (Element.animationSpeed el) (1 # 10)
             || JS.gt (Element.animationSpeed el) 10) with true;
      [reflexivity|].
    symmetry. apply orb_true_iff. unfold JS.gt. rewrite !JS_lt_iff. exact Hrange.
  - intros [Hstill | [Hzero | [Hlow Hhigh]]].
    + now rewrite Hstill.
    + replace (JS.truthy_number (Element.animationSpeed el)) with false;
        [now rewrite andb_false_r|].
      symmetry. apply not_true_iff_false. rewrite truthy_number_iff. tauto.
    + apply JS_lt_false_iff in Hlow, Hhigh. unfold JS.gt.
      rewrite Hlow, Hhigh. now rewrite andb_false_r.
Qed.

(** ** Generated ids *)

Lemma not_NoDup_repeated {A : Type} (a : A) (l1 l2 : list A) :
  ~ NoDup (l1 ++ a :: a :: l2).
Proof.
  intros H. apply NoDup_remove_2 in H. apply H.
  apply in_or_app. right. now left.
Qed.

Lemma flat_mapi_length_In {A B : Type} (f : A -> nat -> list B) (xs : list A)
    (x : A) :
  In x xs -> (forall n, f x n <> []) ->
  forall n, (0 < List.length (flat_mapi f xs n))%nat.
Proof.
  intros Hin Hne. induction xs as [|y xs IH]; intros n; [destruct Hin|].
  simpl. rewrite length_app. destruct Hin as [->|Hin].
  - specialize (Hne n). destruct (f x n); [contradiction | simpl; lia].
  - specialize (IH Hin (S n)). lia.
Qed.

(** A document in which some id occurs twice is invalid. *)
Lemma repeated_id_is_invalid
    (validateSchema : LayoutData.t -> list Ajv.ErrorObject)
    (layout : LayoutData.t) (el : Element.t) :
  In el (LayoutData.elements layout) ->
  (1 < List.length (filter (fun x => (Element.id x =? Element.id el)%string)
                           (LayoutData.elements layout)))%nat ->
  ValidationResult.isValid (validateLayout validateSchema layout) = false.
Proof.
  intros Hin Hlen.
  destruct (validateLayout_spec validateSchema layout) as (HE & _ & HV).
  rewrite HV, HE. apply Nat.eqb_neq. rewrite length_app.
  pose proof (flat_mapi_length_In (elementErrors layout) _ el Hin) as Hpos.
  assert (0 < List.length (flat_mapi (elementErrors layout)
                             (LayoutData.elements layout) 0))%nat; [|lia].
  apply Hpos. intros n. unfold elementErrors, duplicateIdIssue.
  apply Nat.ltb_lt in Hlen. rewrite Hlen. discriminate.
Qed.

Lemma createElement_known
    (validateSchema : LayoutData.t -> list Ajv.ErrorObject)
    (type : ElementType) (definition : ElementDefinition.t)
    (x y : JS.number) (sensor : option SensorId) (now : N)
    (s : EditorState.t) :
  ELEMENT_DEFINITIONS type = Some (Dict.own definition) ->
  Store.createElement validateSchema type x y sensor now s
  = (Store.addElement validateSchema
       (Store.newElement definition type x y sensor now) s,
     JS.returned None).
Proof.
  intros Hdef. unfold Store.createElement. now rewrite Hdef.
Qed.

Lemma duplicateElement_found
    (validateSchema : LayoutData.t -> list Ajv.ErrorObject)
    (id : string) (now : N) (s : EditorState.t) (el : Element.t) :
  find (fun x => Element.id x =? id)
       (LayoutData.elements (EditorState.layout s)) = Some el ->
  Store.duplicateElement validateSchema id now s
  = Store.addElement validateSchema (Store.retagged "_copy_" now el) s.
Proof.
  intros Hfind. unfold Store.duplicateElement. now rewrite Hfind.
Qed.

Lemma paste_elements
    (validateSchema : LayoutData.t -> list Ajv.ErrorObject)
    (now : nat -> N) (s : EditorState.t) :
  LayoutData.elements (EditorState.layout (Store.paste validateSchema now s))
  = (LayoutData.elements (EditorState.layout s)
     ++ Store.pasted now 0 (EditorState.clipboard s))%list.
Proof. reflexivity. Qed.

Lemma paste_clipboard
    (validateSchema : LayoutData.t -> list Ajv.ErrorObject)
    (now : nat -> N) (s : EditorState.t) :
  EditorState.clipboard (Store.paste validateSchema now s)
  = EditorState.clipboard s.
Proof. reflexivity. Qed.

(** C1.  Two elements created under the same reading of [Date.now()] get the
    same id: after two [createElement("gauge", ...)] calls within one
    millisecond on the initial store the document holds the id
    [gauge_<now>] twice, and the store's own validation result is invalid.
    Two [duplicateElement] calls on one element, and two [paste] calls of one
    clipboard, within one millisecond collide in the same way. *)
Theorem C1_same_millisecond_ids_collide
    (validateSchema : LayoutData.t -> list Ajv.ErrorObject) (now : N) :
  let id := "gauge_" ++ JS.N_toString now in
  let s1 := fst (Store.createElement validateSchema "gauge" 100 100 None now
                   initialState) in
  let s2 := fst (Store.createElement validateSchema "gauge" 200 200 None now
                   s1) in
  let d2 := Store.duplicateElement validateSchema id now
              (Store.duplicateElement validateSchema id now s1) in
  let p2 := Store.paste validateSchema (fun _ => now)
              (Store.paste validateSchema (fun _ => now)
                 (Store.copySelected (Store.selectElement id s1))) in
  NoDup (element_ids initialState)
  /\ NoDup (element_ids s1)
  /\ element_ids s2 = [id; id]
  /\ ~ NoDup (element_ids s2)
  /\ option_map ValidationResult.isValid (EditorState.validationResult s2)
     = Some false
  /\ element_ids d2
     = [id; id ++ "_copy_" ++ JS.N_toString now;
        id ++ "_copy_" ++ JS.N_toString now]
  /\ ~ NoDup (element_ids d2)
  /\ element_ids p2
     = [id; id ++ "_paste_" ++ JS.N_toString now;
        id ++ "_paste_" ++ JS.N_toString now]
  /\ ~ NoDup (element_ids p2).
Proof.
  assert (Hdef : exists def,
             ELEMENT_DEFINITIONS "gauge" = Some (Dict.own def))
    by (eexists; reflexivity).
  destruct Hdef as [def Hdef].
  intros id s1 s2 d2 p2.
  set (e1 := Store.newElement def "gauge" 100 100 None now).
  set (e2 := Store.newElement def "gauge" 200 200 None now).
  assert (Hs1 : s1 = Store.addElement validateSchema e1 initialState)
    by (unfold s1; now rewrite (createElement_known _ _ _ _ _ _ _ _ Hdef)).
  assert (Hels1 : LayoutData.elements (EditorState.layout s1) = [e1])
    by (now rewrite Hs1).
  clear Hs1. clearbody s1.
  assert (Hs2 : s2 = Store.addElement validateSchema e2 s1)
    by (unfold s2; now rewrite (createElement_known _ _ _ _ _ _ _ _ Hdef)).
  assert (Hels2 : LayoutData.elements (EditorState.layout s2) = [e1; e2])
    by (now rewrite Hs2, addElement_elements, Hels1).
  assert (Hfind : forall rest,
             find (fun x => Element.id x =? id) (e1 :: rest) = Some e1).
  { intros rest. cbn [find]. change (Element.id e1) with id.
    now rewrite String.eqb_refl. }
  assert (Hids2 : element_ids s2 = [id; id])
    by (unfold element_ids; now rewrite Hels2).
  assert (Hd2 : element_ids d2
                = [id; id ++ "_copy_" ++ JS.N_toString now;
                   id ++ "_copy_" ++ JS.N_toString now]).
  { unfold d2, element_ids.
    rewrite (duplicateElement_found validateSchema id now s1 e1)
      by (rewrite Hels1; apply Hfind).
    rewrite (duplicateElement_found validateSchema id now _ e1)
      by (rewrite addElement_elements, Hels1; apply Hfind).
    now rewrite !addElement_elements, Hels1. }
  assert (Hp2 : element_ids p2
                = [id; id ++ "_paste_" ++ JS.N_toString now;
                   id ++ "_paste_" ++ JS.N_toString now]).
  { set (c := Store.copySelected (Store.selectElement id s1)).
    assert (Hclip : EditorState.clipboard c = [e1]).
    { unfold c, Store.copySelected, Store.selectElement.
      cbn [EditorState.clipboard EditorState.set_clipboard EditorState.layout
           EditorState.selectedElementIds EditorState.set_selectedElementIds].
      rewrite Hels1. cbn [filter JS.includes existsb].
      change (Element.id e1) with id. now rewrite String.eqb_refl. }
    assert (Hcels : LayoutData.elements (EditorState.layout c) = [e1])
      by exact Hels1.
    unfold p2, element_ids. fold c. rewrite !paste_elements, paste_clipboard.
    now rewrite Hclip, Hcels. }
  split; [constructor|].
  split; [unfold element_ids; rewrite Hels1; repeat constructor; intros []|].
  split; [exact Hids2|].
  split; [rewrite Hids2; apply (not_NoDup_repeated id [] [])|].
  split; [|split; [exact Hd2|]; split;
            [rewrite Hd2; apply (not_NoDup_repeated _ [id] [])|];
            split; [exact Hp2|];
            rewrite Hp2; apply (not_NoDup_repeated _ [id] [])].
  rewrite Hs2. cbn [Store.addElement Store.validateLayout fst
                    EditorState.validationResult
                    EditorState.set_validationResult option_map].
  f_equal. apply (repeated_id_is_invalid _ _ e1).
  - cbn. rewrite Hels1. now left.
  - cbn. rewrite Hels1. cbn. change (Element.id e2) with (Element.id e1).
    rewrite String.eqb_refl. cbn. lia.
Qed.

(** ** The properties at concrete inputs *)

Lemma sampleElement_well_formed (id : string) (sensor : SensorId)
    (animated : bool) (speed : JS.number) :
  visual_well_formed (Element.visual (sampleElement id sensor animated speed)).
Proof.
  unfold visual_well_formed. simpl.
  repeat split; try (vm_compute; reflexivity); try discriminate; try tauto.
Qed.



(** C9 (amended) at the first gauge created on the initial store. *)
Lemma C9_witness :
  In "gauge" (map fst ELEMENT_DEFINITIONS_entries)
  /\ exists el,
       LayoutData.elements
         (EditorState.layout
            (fst (Store.createElement acceptingSchema "gauge" 100 100 None
                    17 initialState)))
       = [el]
       /\ Element.id el = "gauge_17"
       /\ (VisualProperties.width (Element.visual el),
           VisualProperties.height (Element.visual el)) = (150, 150)
       /\ snd (Store.createElement acceptingSchema "gauge" 100 100 None 17
                 initialState) = JS.returned None.
Proof.
  assert (Hknown : In "gauge" (map fst ELEMENT_DEFINITIONS_entries))
    by (left; reflexivity).
  split; [exact Hknown|].
  destruct (C9_createElement_appends_and_returns_undefined acceptingSchema
              "gauge" 100 100 None 17 initialState Hknown)
    as (definition & el & _ & Hels & Hid & _ & _ & _ & _ & _ & Hret).
  exists el. split; [exact Hels|]. split; [exact Hid|].
  split; [|exact Hret].
  injection Hels as <-. reflexivity.
Defined.

(** C9 as stated fails: the id of the new element is not handed back. *)
Lemma C9_counterexample :
  element_ids (fst (Store.createElement acceptingSchema "gauge" 100 100 None
                      17 initialState)) = ["gauge_17"]
  /\ snd (Store.createElement acceptingSchema "gauge" 100 100 None 17
            initialState) <> JS.returned (Some "gauge_17").
Proof.
  split; [reflexivity | discriminate].
Qed.

(** C6 (amended) at an id that is neither in the document nor selected. *)
Lemma C6_witness :
  ~ In "ghost" (element_ids oneGaugeStore)
  /\ ~ In "ghost" (EditorState.selectedElementIds oneGaugeStore)
  /\ EditorState.layout (Store.removeElement acceptingSchema "ghost"
                           oneGaugeStore)
     = EditorState.layout oneGaugeStore
  /\ EditorState.selectedElementIds
       (Store.removeElement acceptingSchema "ghost" oneGaugeStore)
     = EditorState.selectedElementIds oneGaugeStore.
Proof.
  assert (H1 : ~ In "ghost" (element_ids oneGaugeStore))
    by (intros [H | []]; discriminate H).
  assert (H2 : ~ In "ghost" (EditorState.selectedElementIds oneGaugeStore))
    by (intros []).
  destruct (C6_removeElement_effect acceptingSchema "ghost" oneGaugeStore)
    as (_ & _ & _ & _ & _ & Hdoc & Hsel & _).
  split; [exact H1|]. split; [exact H2|].
  split; [exact (Hdoc H1) | exact (Hsel H2)].
Defined.

(** C6 as stated fails: after a select-tool click on the empty canvas the
    selection is [[""]] and no element has the id [""], yet [removeElement("")]
    changes the selection. *)
Lemma C6_counterexample :
  let s := Canvas.handleCanvasClick acceptingSchema None emptyCanvasClick 0
             initialState in
  ~ In "" (element_ids s)
  /\ EditorState.selectedElementIds (Store.removeElement acceptingSchema "" s)
     <> EditorState.selectedElementIds s.
Proof.
  split; [intros [] | discriminate].
Qed.

(** C2 (amended) at the id of an existing element and at an id no element
    has. *)
Lemma C2_witness :
  selection_consistent oneGaugeStore
  /\ In "gauge_17" (element_ids oneGaugeStore)
  /\ ~ In "ghost" (element_ids oneGaugeStore)
  /\ selection_consistent (Store.selectElement "gauge_17" oneGaugeStore)
  /\ selection_consistent (Store.selectMultiple ["gauge_17"] oneGaugeStore)
  /\ selection_consistent (Store.toggleSelection "gauge_17" oneGaugeStore)
  /\ EditorState.selectedElementIds (Store.selectElement "ghost" oneGaugeStore)
     = ["ghost"]
  /\ ~ selection_consistent (Store.selectElement "ghost" oneGaugeStore)
  /\ ~ selection_consistent (Store.toggleSelection "ghost" oneGaugeStore).
Proof.
  assert (H1 : selection_consistent oneGaugeStore) by (intros a []).
  assert (H2 : In "gauge_17" (element_ids oneGaugeStore))
    by (left; reflexivity).
  assert (H3 : ~ In "ghost" (element_ids oneGaugeStore))
    by (intros [H|[]]; discriminate H).
  destruct (C2_selection_actions_do_not_filter oneGaugeStore
              "gauge_17" ["gauge_17"])
    as (_ & _ & _ & _ & Hsel & Hmul & Htog & _).
  destruct (C2_selection_actions_do_not_filter oneGaugeStore
              "ghost" [])
    as (Hghost & _ & _ & _ & Hsel' & _ & Htog' & _).
  split; [exact H1|]. split; [exact H2|]. split; [exact H3|].
  split; [now apply Hsel|].
  split; [apply Hmul; intros a [<-|[]]; exact H2|].
  split; [now apply (Htog H1)|].
  split; [exact Hghost|].
  split; [intros H; exact (H3 (proj1 Hsel' H))|].
  intros H. exact (H3 (proj1 (Htog' H1) H)).
Defined.

(** C2 as stated fails: an id without element stays in the selection, and a
    select-tool click on the empty canvas selects the id [""]. *)
Lemma C2_counterexample :
  ~ selection_consistent (Store.selectElement "ghost" initialState)
  /\ ~ selection_consistent (Store.selectMultiple ["ghost"] initialState)
  /\ ~ selection_consistent (Store.toggleSelection "ghost" initialState)
  /\ ~ selection_consistent
         (Canvas.handleCanvasClick acceptingSchema None emptyCanvasClick 0
            initialState).
Proof.
  unfold selection_consistent.
  repeat split; intros H; exact (H _ (or_introl eq_refl)).
Qed.

(** C3 at two gauges that share the id [gauge_1]. *)
Lemma C3_witness :
  let r := validateLayout acceptingSchema duplicateIdLayout in
  List.length (LayoutData.elements duplicateIdLayout) = 2%nat
  /\ ValidationResult.isValid r = false
  /\ List.length (ValidationResult.errors r) = 2%nat
  /\ map ValidationError.path (ValidationResult.errors r)
     = ["elements[0].id"; "elements[1].id"].
Proof.
  destruct (C3_two_elements_sharing_an_id acceptingSchema duplicateIdLayout
              _ _ eq_refl eq_refl eq_refl eq_refl
              (sampleElement_well_formed _ _ _ _)
              (sampleElement_well_formed _ _ _ _))
    as (Hvalid & Hlen & Herrors).
  cbv zeta. rewrite Herrors.
  split; [reflexivity|]. split; [exact Hvalid|].
  split; reflexivity.
Defined.

(** C4 at a sensor reference the editor does not know. *)
Lemma C4_witness :
  let r := validateLayout acceptingSchema unknownSensorLayout in
  ~ In "Quantum_Flux" VALID_SENSOR_IDS
  /\ map ValidationError.path (ValidationResult.warnings r)
     = ["elements[0].sensor"]
  /\ at_path "elements[0].sensor" (ValidationResult.errors r) = []
  /\ ValidationResult.isValid r = true.
Proof.
  assert (Hunknown : ~ In "Quantum_Flux" VALID_SENSOR_IDS).
  { intros H. apply includes_In in H. discriminate H. }
  destruct (C4_unknown_sensor_is_a_warning acceptingSchema
              unknownSensorLayout 0 _ eq_refl
              (fun H => ltac:(discriminate H)) Hunknown)
    as (_ & _ & Hok).
  destruct (Hok eq_refl) as (Herr & Hvalid).
  split; [exact Hunknown|]. split; [reflexivity|].
  split; [exact Herr|]. apply Hvalid.
  - repeat constructor. intros [].
  - repeat constructor; apply sampleElement_well_formed.
Defined.

(** The empty sensor reference stands for no sensor: the rule is guarded
    by [element.sensor &&] and raises nothing for it. *)
Lemma empty_sensor_reference_raises_nothing :
  let r := validateLayout acceptingSchema emptySensorLayout in
  map Element.sensor (LayoutData.elements emptySensorLayout) = [""]
  /\ ValidationResult.warnings r = []
  /\ ValidationResult.errors r = [].
Proof.
  repeat split.
Qed.

(** C5 (amended) at an animated element of speed 25. *)
Lemma C5_witness :
  let r := validateLayout acceptingSchema fastLayout in
  map (fun el => (Element.animated el, Element.animationSpeed el))
      (LayoutData.elements fastLayout) = [(true, 25)]
  /\ 10 < 25
  /\ map ValidationError.path
         (at_path "elements[0].animationSpeed" (ValidationResult.warnings r))
     = ["elements[0].animationSpeed"].
Proof.
  destruct (C5_animation_speed_warning acceptingSchema fastLayout 0 _ eq_refl)
    as (Hwarn & _).
  split; [reflexivity|]. split; [reflexivity|].
  cbv zeta. change "elements[0].animationSpeed"
    with (elementPath 0 ++ ".animationSpeed").
  rewrite Hwarn; [reflexivity | reflexivity | discriminate | right; reflexivity].
Defined.

(** C5 as stated fails: an animated element of speed 0 gets no warning. *)
Lemma C5_counterexample :
  let r := validateLayout acceptingSchema zeroSpeedLayout in
  map (fun el => (Element.animated el, Element.animationSpeed el))
      (LayoutData.elements zeroSpeedLayout) = [(true, 0)]
  /\ 0 < 1 # 10
  /\ at_path "elements[0].animationSpeed" (ValidationResult.warnings r) = []
  /\ ValidationResult.warnings r = [].
Proof.
  repeat split.
Qed.

(** ** JSON text *)

Lemma string_app_nil_r (s : string) : s ++ "" = s.
Proof.
  induction s as [|c s IH]; simpl; [reflexivity | now rewrite IH].
Qed.

Lemma string_length_app (a b : string) :
  String.length (a ++ b) = (String.length a + String.length b)%nat.
Proof.
  induction a as [|c a IH]; simpl; [reflexivity | now rewrite IH].
Qed.

Lemma skip_ws_idem (s : string) :
  JSON.skip_ws (JSON.skip_ws s) = JSON.skip_ws s.
Proof.
  induction s as [|c s IH]; simpl; [reflexivity|].
  destruct (JSON.is_ws c) eqn:Hc; [exact IH|]. simpl. now rewrite Hc.
Qed.

Lemma skip_ws_spaces (n : nat) (s : string) :
  JSON.skip_ws (JSON.spaces n ++ s) = JSON.skip_ws s.
Proof.
  induction n as [|n IH]; simpl; [reflexivity | exact IH].
Qed.

Lemma skip_ws_line (n : nat) (s : string) :
  JSON.skip_ws (String (ascii_of_nat 10) (JSON.spaces n ++ s))
  = JSON.skip_ws s.
Proof.
  simpl. apply skip_ws_spaces.
Qed.

(** A string literal is read back as written. *)
Lemma parse_quote_char (c : ascii) (s : string) :
  JSON.parse_string_body (JSON.quote_char c ++ s)
  = match JSON.parse_string_body s with
    | Some (body, rest) => Some (String c body, rest)
    | None => None
    end.
Proof.
  destruct c as [[] [] [] [] [] [] [] []]; reflexivity.
Qed.

Lemma parse_quote_body (s rest : string) :
  JSON.parse_string_body (JSON.quote_body s ++ String JSON.dquote rest)
  = Some (s, rest).
Proof.
  induction s as [|c s IH]; [reflexivity|].
  cbn [JSON.quote_body]. rewrite string_app_assoc, parse_quote_char.
  now rewrite IH.
Qed.

Lemma quote_app (s rest : string) :
  JSON.quote s ++ rest
  = String JSON.dquote (JSON.quote_body s ++ String JSON.dquote rest).
Proof.
  unfold JSON.quote. simpl. now rewrite string_app_assoc.
Qed.

Lemma skip_ws_cons (c : ascii) (s : string) :
  JSON.is_ws c = false -> JSON.skip_ws (String c s) = String c s.
Proof.
  intros H. simpl. now rewrite H.
Qed.


Lemma same_number_eq (a b : JS.number) : same_number a b = true -> a = b.
Proof.
  destruct a as [na da], b as [nb db]. unfold same_number. simpl.
  rewrite andb_true_iff, Z.eqb_eq, Pos.eqb_eq. now intros [-> ->].
Qed.

(** What [number_ok] provides. *)
Lemma number_ok_token (n : JS.number) :
  number_ok n = true ->
  exists c tail,
    JS.Number_toString n = String c tail
    /\ JSON.is_number_start c = true
    /\ all_chars JSON.is_number_char (String c tail) = true
    /\ JSON.parse_number (String c tail) = Some n.
Proof.
  unfold number_ok. intros H.
  apply andb_true_iff in H. destruct H as [H Hparse].
  apply andb_true_iff in H. destruct H as [Hstart Hchars].
  destruct (JS.Number_toString n) as [|c tail]; [discriminate Hstart|].
  exists c, tail. repeat split; try assumption.
  destruct (JSON.parse_number (String c tail)) as [n'|]; [|discriminate].
  now rewrite (same_number_eq _ _ Hparse).
Qed.

Lemma span_all_chars (p : ascii -> bool) (token rest : string) :
  all_chars p token = true ->
  starts_with p rest = false ->
  JSON.span p (token ++ rest) = (token, rest).
Proof.
  intros Htoken Hrest. induction token as [|c token IH].
  - destruct rest as [|c rest]; [reflexivity|]. simpl in *.
    now rewrite Hrest.
  - simpl in Htoken. apply andb_true_iff in Htoken.
    destruct Htoken as [Hc Htoken].
    cbn [append JSON.span]. now rewrite Hc, (IH Htoken).
Qed.

Lemma number_start_facts (c : ascii) :
  JSON.is_number_start c = true ->
  JSON.is_ws c = false /\ is_value_start c = true.
Proof.
  destruct c as [[] [] [] [] [] [] [] []]; simpl; intros H;
    try discriminate H; split; reflexivity.
Qed.

Lemma value_start_facts (c : ascii) :
  is_value_start c = true ->
  JSON.is_ws c = false
  /\ Ascii.eqb c "]" = false
  /\ Ascii.eqb c "}" = false.
Proof.
  destruct c as [[] [] [] [] [] [] [] []]; simpl; intros H;
    try discriminate H; repeat split; reflexivity.
Qed.

Lemma stringify_at_array (indent : nat) (x : JSON.value)
    (xs : list JSON.value) :
  JSON.stringify_at indent (JSON.JArray (x :: xs))
  = "[" ++ JSON.nl ++ JSON.spaces (2 + indent)
      ++ JSON.join ("," ++ JSON.nl ++ JSON.spaces (2 + indent))
           (map (JSON.stringify_at (2 + indent)) (x :: xs))
      ++ JSON.nl ++ JSON.spaces indent ++ "]".
Proof. reflexivity. Qed.

Lemma stringify_at_object (indent : nat) (m : string * JSON.value)
    (ms : list (string * JSON.value)) :
  JSON.stringify_at indent (JSON.JObject (m :: ms))
  = "{" ++ JSON.nl ++ JSON.spaces (2 + indent)
      ++ JSON.join ("," ++ JSON.nl ++ JSON.spaces (2 + indent))
           (map (fun m => JSON.quote (fst m) ++ ": "
                            ++ JSON.stringify_at (2 + indent) (snd m))
                (m :: ms))
      ++ JSON.nl ++ JSON.spaces indent ++ "}".
Proof. reflexivity. Qed.

(** The text of a value starts with a character that starts a value. *)
Lemma stringify_at_start (indent : nat) (v : JSON.value) :
  numbers_ok v = true ->
  exists c tail,
    JSON.stringify_at indent v = String c tail /\ is_value_start c = true.
Proof.
  destruct v as [|[]|n|s|[|x xs]|[|m ms]]; intros Hok;
    try (eexists; eexists; split; reflexivity).
  destruct (number_ok_token n Hok) as (c & tail & Htoken & Hstart & _).
  exists c, tail. split; [exact Htoken|].
  exact (proj2 (number_start_facts c Hstart)).
Qed.

Lemma parse_value_S (fuel : nat) (s : string) :
  JSON.parse_value (S fuel) s = JSON.parse_value (S fuel) (JSON.skip_ws s).
Proof.
  cbn [JSON.parse_value]. now rewrite skip_ws_idem.
Qed.

Lemma parse_value_skip_ws (fuel : nat) (s : string) :
  JSON.parse_value fuel (JSON.skip_ws s) = JSON.parse_value fuel s.
Proof.
  destruct fuel; [reflexivity | symmetry; apply parse_value_S].
Qed.

Lemma parse_items_skip_ws (fuel : nat) (s : string) :
  JSON.parse_items fuel (JSON.skip_ws s) = JSON.parse_items fuel s.
Proof.
  destruct fuel; [reflexivity|].
  cbn [JSON.parse_items]. now rewrite parse_value_skip_ws.
Qed.

Lemma parse_members_skip_ws (fuel : nat) (s : string) :
  JSON.parse_members fuel (JSON.skip_ws s) = JSON.parse_members fuel s.
Proof.
  destruct fuel; [reflexivity|].
  cbn [JSON.parse_members]. now rewrite skip_ws_idem.
Qed.

(** ** Numbers as decimal text *)

Lemma all_chars_app (p : ascii -> bool) (a b : string) :
  all_chars p (a ++ b) = all_chars p a && all_chars p b.
Proof.
  induction a as [|c a IH]; simpl; [reflexivity|].
  now rewrite IH, andb_assoc.
Qed.

Lemma all_chars_weaken (p q : ascii -> bool) (s : string) :
  (forall c, p c = true -> q c = true) ->
  all_chars p s = true -> all_chars q s = true.
Proof.
  intros Hpq. induction s as [|c s IH]; simpl; [reflexivity|].
  rewrite !andb_true_iff. intros [Hc Hs]. split; auto.
Qed.

Lemma digits_are_number_chars (s : string) :
  all_chars JSON.is_digit s = true ->
  all_chars JSON.is_number_char s = true.
Proof.
  apply all_chars_weaken. intros a Ha. unfold JSON.is_number_char.
  now rewrite Ha.
Qed.

Lemma take_drop (n : nat) (s : string) : JS.take n s ++ JS.drop n s = s.
Proof.
  revert s. induction n as [|n IH]; intros [|c s]; simpl;
    try reflexivity. now rewrite IH.
Qed.

Lemma length_drop (n : nat) (s : string) :
  String.length (JS.drop n s) = (String.length s - n)%nat.
Proof.
  revert s. induction n as [|n IH]; intros [|c s]; simpl;
    try reflexivity; try lia. apply IH.
Qed.

Lemma length_zeros (n : nat) : String.length (JS.zeros n) = n.
Proof. induction n; simpl; congruence. Qed.

Lemma zeros_digits (n : nat) : all_chars JSON.is_digit (JS.zeros n) = true.
Proof. induction n; simpl; auto. Qed.

(** *** The value of a string of digits *)

Lemma digits_value_from_app (acc : N) (a b : string) :
  JSON.digits_value_from acc (a ++ b)
  = JSON.digits_value_from (JSON.digits_value_from acc a) b.
Proof.
  revert acc. induction a as [|c a IH]; intros acc; simpl; [reflexivity|].
  apply IH.
Qed.

Lemma digits_value_from_zeros (acc : N) (n : nat) :
  JSON.digits_value_from acc (JS.zeros n) = (acc * 10 ^ N.of_nat n)%N.
Proof.
  revert acc. induction n as [|n IH]; intros acc.
  - cbn [JS.zeros JSON.digits_value_from]. change (10 ^ N.of_nat 0)%N with 1%N.
    now rewrite N.mul_1_r.
  - cbn [JS.zeros JSON.digits_value_from].
    change (JSON.digit_value "0") with 0%N.
    rewrite IH, Nat2N.inj_succ, N.pow_succ_r', N.add_0_r. ring.
Qed.

Lemma digits_value_zeros (n : nat) (ds : string) :
  JSON.digits_value (JS.zeros n ++ ds) = JSON.digits_value ds.
Proof.
  unfold JSON.digits_value.
  now rewrite digits_value_from_app, digits_value_from_zeros, N.mul_0_l.
Qed.

Lemma digits_value_app_zeros (ds : string) (n : nat) :
  JSON.digits_value (ds ++ JS.zeros n)
  = (JSON.digits_value ds * 10 ^ N.of_nat n)%N.
Proof.
  unfold JSON.digits_value.
  now rewrite digits_value_from_app, digits_value_from_zeros.
Qed.

Lemma digits_value_from_uint (u : Decimal.uint) (acc : positive) :
  JSON.digits_value_from (Npos acc) (NilEmpty.string_of_uint u)
  = Npos (Pos.of_uint_acc u acc).
Proof.
  revert acc.
  induction u as [|u IH|u IH|u IH|u IH|u IH|u IH|u IH|u IH|u IH|u IH];
    intros acc; [reflexivity|..];
    cbn [NilEmpty.string_of_uint JSON.digits_value_from Pos.of_uint_acc];
    rewrite <- IH; f_equal;
    match goal with
    | |- context [JSON.digit_value ?c] =>
        let v := eval vm_compute in (JSON.digit_value c) in
        change (JSON.digit_value c) with v
    end; lia.
Qed.

Lemma digits_value_uint (u : Decimal.uint) :
  JSON.digits_value (NilEmpty.string_of_uint u) = N.of_uint u.
Proof.
  unfold JSON.digits_value, N.of_uint.
  induction u as [|u IH|u IH|u IH|u IH|u IH|u IH|u IH|u IH|u IH|u IH];
    [reflexivity | exact IH | ..];
    cbn [NilEmpty.string_of_uint JSON.digits_value_from Pos.of_uint];
    match goal with
    | |- context [(10 * 0 + JSON.digit_value ?c)%N] =>
        let v := eval vm_compute in (10 * 0 + JSON.digit_value c)%N in
        change (10 * 0 + JSON.digit_value c)%N with v
    end; apply digits_value_from_uint.
Qed.

Lemma digits_value_N_toString (m : N) :
  JSON.digits_value (JS.N_toString m) = m.
Proof.
  unfold JS.N_toString. rewrite digits_value_uint.
  apply DecimalN.Unsigned.of_to.
Qed.

(** The digits of a number have no leading zero, unless they are [0]. *)
Lemma N_toString_plain (m : N) :
  JSON.no_leading_zero (JS.N_toString m) = true.
Proof.
  unfold JS.N_toString.
  pose proof (DecimalN.Unsigned.to_of (N.to_uint m)) as H.
  rewrite DecimalN.Unsigned.of_to in H.
  destruct (N.to_uint m) as [|u|u|u|u|u|u|u|u|u|u];
    try (simpl; destruct (NilEmpty.string_of_uint u); reflexivity).
  - discriminate H.
  - unfold Decimal.unorm in H. rewrite DecimalFacts.nzhead_D0 in H.
    destruct (Decimal.nzhead u) eqn:Hu; try discriminate H.
    + injection H as ->. reflexivity.
    + exfalso. exact (DecimalFacts.nzhead_nonzero _ _ Hu).
Qed.

Lemma N_toString_digits (m : N) :
  all_chars JSON.is_digit (JS.N_toString m) = true.
Proof. apply uint_digits. Qed.

(** The digits of a number that is not zero start with a digit that is not
    [0]. *)
Lemma N_toString_head (m : N) :
  m <> 0%N ->
  exists c rest, JS.N_toString m = String c rest /\ c <> "0"%char.
Proof.
  intros Hm. pose proof (N_toString_plain m) as Hplain.
  pose proof (digits_value_N_toString m) as Hvalue.
  destruct (JS.N_toString m) as [|c rest]; [discriminate Hplain|].
  exists c, rest. split; [reflexivity|]. intros ->.
  destruct rest as [|c' rest]; [|discriminate Hplain].
  apply Hm. rewrite <- Hvalue. reflexivity.
Qed.

Lemma span_digits_all (ds : string) :
  all_chars JSON.is_digit ds = true -> JSON.span JSON.is_digit ds = (ds, "").
Proof.
  intros H. rewrite <- (string_app_nil_r ds) at 1.
  now apply span_all_chars.
Qed.

(** *** Digits without the zeros at their end *)

Lemma strip_zeros_spec (s : string) :
  exists t, s = JS.strip_zeros s ++ JS.zeros t.
Proof.
  induction s as [|c s [t Ht]]; [now exists 0%nat|].
  cbn [JS.strip_zeros]. destruct (JS.strip_zeros s) as [|c' s'] eqn:E.
  - cbn [append] in Ht. destruct (Ascii.eqb_spec c "0") as [->|_].
    + exists (S t). cbn [append JS.zeros]. now rewrite <- Ht.
    + exists t. cbn [append]. now rewrite <- Ht.
  - exists t. cbn [append] in *. now rewrite <- Ht.
Qed.

Lemma strip_zeros_head (c : ascii) (s : string) :
  c <> "0"%char -> exists rest, JS.strip_zeros (String c s) = String c rest.
Proof.
  intros Hc. cbn [JS.strip_zeros].
  destruct (JS.strip_zeros s); [|eauto].
  apply Ascii.eqb_neq in Hc. rewrite Hc. eauto.
Qed.

(** *** Reading a number token *)

Lemma exponent_cons (e : Z) :
  JS.exponent e
  = String "e" ((if (e <? 0)%Z then "-" else "+")
                ++ JS.N_toString (Z.abs_N e)).
Proof. reflexivity. Qed.

Lemma exponent_chars (e : Z) :
  all_chars JSON.is_number_char (JS.exponent e) = true.
Proof.
  rewrite exponent_cons. cbn [all_chars].
  rewrite all_chars_app, (digits_are_number_chars _ (N_toString_digits _)).
  now destruct (e <? 0)%Z.
Qed.

Lemma parse_exponent_exponent (e : Z) :
  JSON.parse_exponent (JS.exponent e) = Some e.
Proof.
  rewrite exponent_cons. unfold JSON.parse_exponent.
  change (Ascii.eqb "e" "e" || Ascii.eqb "e" "E") with true. cbv iota.
  pose proof (N_toString_plain (Z.abs_N e)) as Hplain.
  pose proof (N_toString_digits (Z.abs_N e)) as Hdigits.
  pose proof (digits_value_N_toString (Z.abs_N e)) as Hvalue.
  destruct (Z.ltb_spec e 0) as [Hneg|Hpos]; cbn [append];
    change (Ascii.eqb "-" "-") with true;
    change (Ascii.eqb "+" "-") with false;
    change (Ascii.eqb "+" "+") with true; cbv iota;
    rewrite (span_digits_all _ Hdigits);
    (destruct (JS.N_toString (Z.abs_N e)) as [|c ds];
       [discriminate Hplain|]);
    rewrite Hvalue, N2Z.inj_abs_N; f_equal; lia.
Qed.

(** Digits alone, and digits around a decimal point, read as numbers,
    without and with an exponent. *)
Lemma parse_unsigned_integer (negative : bool) (ds : string) :
  all_chars JSON.is_digit ds = true ->
  JSON.no_leading_zero ds = true ->
  JSON.parse_unsigned negative ds
  = Some (JSON.scaled negative (JSON.digits_value ds) 0).
Proof.
  intros Hdigits Hplain. unfold JSON.parse_unsigned.
  rewrite (span_digits_all _ Hdigits), Hplain. cbn [JSON.parse_exponent].
  now rewrite string_app_nil_r.
Qed.

Lemma parse_unsigned_fraction (negative : bool) (int frac : string) :
  all_chars JSON.is_digit int = true ->
  all_chars JSON.is_digit frac = true ->
  JSON.no_leading_zero int = true ->
  frac <> "" ->
  JSON.parse_unsigned negative (int ++ String "." frac)
  = Some (JSON.scaled negative (JSON.digits_value (int ++ frac))
            (0 - Z.of_nat (String.length frac))).
Proof.
  intros Hint Hfrac Hplain Hne. unfold JSON.parse_unsigned.
  rewrite (span_all_chars _ _ _ Hint) by reflexivity.
  rewrite Hplain. cbn [Ascii.eqb Bool.eqb]. cbv iota.
  rewrite (span_digits_all _ Hfrac).
  apply String.eqb_neq in Hne. rewrite Hne. reflexivity.
Qed.

Lemma parse_unsigned_integer_exponent (negative : bool) (ds : string)
    (e : Z) :
  all_chars JSON.is_digit ds = true ->
  JSON.no_leading_zero ds = true ->
  JSON.parse_unsigned negative (ds ++ JS.exponent e)
  = Some (JSON.scaled negative (JSON.digits_value ds) e).
Proof.
  intros Hdigits Hplain. unfold JSON.parse_unsigned.
  rewrite (span_all_chars _ _ _ Hdigits) by reflexivity.
  rewrite Hplain.
  pose proof (parse_exponent_exponent e) as Hexp.
  rewrite exponent_cons in *.
  change (Ascii.eqb "e" ".") with false. cbv iota.
  rewrite Hexp, string_app_nil_r. cbn [String.length]. now rewrite Z.sub_0_r.
Qed.

Lemma parse_unsigned_fraction_exponent (negative : bool) (int frac : string)
    (e : Z) :
  all_chars JSON.is_digit int = true ->
  all_chars JSON.is_digit frac = true ->
  JSON.no_leading_zero int = true ->
  frac <> "" ->
  JSON.parse_unsigned negative (int ++ String "." (frac ++ JS.exponent e))
  = Some (JSON.scaled negative (JSON.digits_value (int ++ frac))
            (e - Z.of_nat (String.length frac))).
Proof.
  intros Hint Hfrac Hplain Hne. unfold JSON.parse_unsigned.
  rewrite (span_all_chars _ _ _ Hint) by reflexivity.
  rewrite Hplain. cbn [Ascii.eqb Bool.eqb]. cbv iota.
  rewrite (span_all_chars _ _ _ Hfrac) by reflexivity.
  apply String.eqb_neq in Hne. rewrite Hne. cbn [negb].
  now rewrite parse_exponent_exponent.
Qed.

(** *** The number a token stands for *)

Lemma scaled_shift (negative : bool) (a : N) (j : nat) (e : Z) :
  JSON.scaled negative (a * 10 ^ N.of_nat j) e
  = JSON.scaled negative a (e + Z.of_nat j).
Proof.
  unfold JSON.scaled.
  set (m := if negative then (- Z.of_N a)%Z else Z.of_N a).
  assert (Hm : (if negative then (- Z.of_N (a * 10 ^ N.of_nat j))%Z
                else Z.of_N (a * 10 ^ N.of_nat j))
               = (m * 10 ^ Z.of_nat j)%Z).
  { unfold m. rewrite N2Z.inj_mul, N2Z.inj_pow, nat_N_Z.
    change (Z.of_N 10) with 10%Z. destruct negative; ring. }
  rewrite Hm. clear Hm.
  assert (Hj : (0 < 10 ^ Z.of_nat j)%Z) by (apply Z.pow_pos_nonneg; lia).
  destruct (Z.leb_spec 0 e) as [He|He].
  - replace (0 <=? e + Z.of_nat j)%Z with true
      by (symmetry; apply Z.leb_le; lia).
    f_equal. f_equal. rewrite Z.pow_add_r by lia. ring.
  - assert (He' : (0 < 10 ^ (- e))%Z) by (apply Z.pow_pos_nonneg; lia).
    destruct (Z.leb_spec 0 (e + Z.of_nat j)) as [Hej|Hej];
      apply Qred_complete; unfold Qeq, inject_Z; cbn [Qnum Qden].
    + rewrite Z2Pos.id by exact He'. rewrite Z.mul_1_r, <- Z.mul_assoc.
      f_equal. rewrite <- Z.pow_add_r by lia. f_equal. lia.
    + assert (Hej' : (0 < 10 ^ (- (e + Z.of_nat j)))%Z)
        by (apply Z.pow_pos_nonneg; lia).
      rewrite !Z2Pos.id by assumption. rewrite <- !Z.mul_assoc. f_equal.
      rewrite <- Z.pow_add_r by lia. f_equal. lia.
Qed.

(** [Number::toString] from its digits reads back as the number the digits
    stand for. *)
Lemma digits_toString_reads_back (s : string) (n : Z) (c0 : ascii)
    (rest0 : string) :
  s = String c0 rest0 ->
  c0 <> "0"%char ->
  all_chars JSON.is_digit s = true ->
  exists c tail,
    JS.digits_toString s n = String c tail
    /\ JSON.is_digit c = true
    /\ all_chars JSON.is_number_char (String c tail) = true
    /\ forall negative,
         JSON.parse_unsigned negative (String c tail)
         = Some (JSON.scaled negative (JSON.digits_value s)
                   (n - Z.of_nat (String.length s))).
Proof.
  intros Hs Hc0 Hdigits.
  assert (Hhead : JSON.is_digit c0 = true
                  /\ all_chars JSON.is_digit rest0 = true).
  { rewrite Hs in Hdigits. cbn [all_chars] in Hdigits.
    now apply andb_true_iff in Hdigits. }
  destruct Hhead as [Hc0d Hrest0].
  assert (Hlen : String.length s = S (String.length rest0))
    by (now rewrite Hs).
  assert (Hplain : forall x, JSON.no_leading_zero (String c0 x) = true).
  { intros [|c x]; [reflexivity|]. cbn. apply Ascii.eqb_neq in Hc0.
    now rewrite Hc0. }
  unfold JS.digits_toString.
  set (k := Z.of_nat (String.length s)).
  destruct ((-5 <=? n)%Z && (n <=? 21)%Z) eqn:Hplace.
  - destruct (Z.leb_spec k n) as [Hkn|Hkn].
    + (* the digits, then zeros *)
      set (j := Z.to_nat (n - k)).
      exists c0, (rest0 ++ JS.zeros j).
      split; [now rewrite Hs|]. split; [exact Hc0d|].
      change (String c0 (rest0 ++ JS.zeros j))
        with (String c0 rest0 ++ JS.zeros j).
      rewrite <- Hs. split.
      * apply digits_are_number_chars.
        now rewrite all_chars_app, Hdigits, zeros_digits.
      * intros negative. rewrite parse_unsigned_integer.
        -- rewrite digits_value_app_zeros, scaled_shift. do 2 f_equal.
           unfold j. rewrite Z2Nat.id by lia. lia.
        -- now rewrite all_chars_app, Hdigits, zeros_digits.
        -- rewrite Hs. apply Hplain.
    + destruct (Z.ltb_spec 0 n) as [Hn|Hn].
      * (* a point among the digits *)
        set (i := Z.to_nat n).
        assert (Hi : (1 <= i < String.length s)%nat) by (unfold i, k in *; lia).
        pose proof (take_drop i s) as Hsplit.
        assert (Hparts : all_chars JSON.is_digit (JS.take i s) = true
                         /\ all_chars JSON.is_digit (JS.drop i s) = true).
        { rewrite <- Hsplit, all_chars_app in Hdigits.
          now apply andb_true_iff in Hdigits. }
        assert (Htake : exists x, JS.take i s = String c0 x).
        { rewrite Hs. destruct i as [|i']; [lia|]. cbn [JS.take]. eauto. }
        destruct Htake as [x Hx].
        exists c0, (x ++ String "." (JS.drop i s)).
        split; [now rewrite Hx|]. split; [exact Hc0d|].
        change (String c0 (x ++ String "." (JS.drop i s)))
          with (String c0 x ++ String "." (JS.drop i s)).
        rewrite <- Hx. split.
        -- rewrite all_chars_app. cbn [all_chars].
           rewrite !digits_are_number_chars by apply Hparts. reflexivity.
        -- intros negative.
           rewrite parse_unsigned_fraction; try apply Hparts.
           ++ rewrite Hsplit, length_drop. do 2 f_equal. unfold i, k in *. lia.
           ++ rewrite Hx. apply Hplain.
           ++ intros Hnil. pose proof (length_drop i s) as Hd.
              rewrite Hnil in Hd. cbn in Hd. lia.
      * (* zeros between the point and the digits *)
        set (z := Z.to_nat (- n)).
        exists "0"%char, (String "." (JS.zeros z ++ s)).
        split; [reflexivity|]. split; [reflexivity|]. split.
        -- cbn [all_chars]. rewrite digits_are_number_chars; [reflexivity|].
           now rewrite all_chars_app, zeros_digits, Hdigits.
        -- intros negative.
           change (String "0" (String "." (JS.zeros z ++ s)))
             with ("0" ++ String "." (JS.zeros z ++ s)).
           rewrite parse_unsigned_fraction.
           ++ change ("0" ++ JS.zeros z ++ s) with (JS.zeros (S z) ++ s).
              rewrite digits_value_zeros, string_length_app, length_zeros.
              do 2 f_equal. unfold z, k. lia.
           ++ reflexivity.
           ++ now rewrite all_chars_app, zeros_digits, Hdigits.
           ++ reflexivity.
           ++ rewrite Hs. destruct (JS.zeros z); discriminate.
  - (* notation with an exponent *)
    rewrite Hs. destruct rest0 as [|c1 rest1].
    + exists c0, (JS.exponent (n - 1)).
      split; [reflexivity|]. split; [exact Hc0d|]. split.
      * cbn [all_chars]. rewrite exponent_chars. unfold JSON.is_number_char.
        now rewrite Hc0d.
      * intros negative.
        change (String c0 (JS.exponent (n - 1)))
          with (String c0 "" ++ JS.exponent (n - 1)).
        rewrite parse_unsigned_integer_exponent.
        -- do 2 f_equal. unfold k. rewrite Hlen. cbn. lia.
        -- cbn [all_chars]. now rewrite Hc0d.
        -- reflexivity.
    + exists c0, ("." ++ String c1 rest1 ++ JS.exponent (n - 1)).
      split; [reflexivity|]. split; [exact Hc0d|]. split.
      * cbn [all_chars append]. cbn [all_chars] in Hrest0.
        apply andb_true_iff in Hrest0. destruct Hrest0 as [Hc1 Hrest1].
        rewrite all_chars_app, exponent_chars,
          (digits_are_number_chars _ Hrest1).
        unfold JSON.is_number_char. now rewrite Hc0d, Hc1.
      * intros negative.
        change (String c0 ("." ++ String c1 rest1 ++ JS.exponent (n - 1)))
          with (String c0 ""
                ++ String "." (String c1 rest1 ++ JS.exponent (n - 1))).
        rewrite parse_unsigned_fraction_exponent.
        -- cbn [append]. do 2 f_equal. unfold k. rewrite Hlen.
           cbn [String.length]. lia.
        -- cbn [all_chars]. now rewrite Hc0d.
        -- exact Hrest0.
        -- reflexivity.
        -- discriminate.
Qed.

Lemma decimal_scale_divides (fuel k : nat) (d : positive) (k' : nat) :
  JS.decimal_scale fuel k d = Some k' ->
  (10 ^ Z.of_nat k' mod Zpos d = 0)%Z.
Proof.
  revert k. induction fuel as [|fuel IH]; intros k; simpl;
    destruct (Z.eqb_spec (10 ^ Z.of_nat k mod Z.pos d) 0) as [Hz|Hnz];
    intros H; try discriminate H.
  - now injection H as <-.
  - now injection H as <-.
  - exact (IH _ H).
Qed.

(** The fraction the digits [|n| * 10^k / d] stand for, [k] places after the
    point, is [n / d] when [d] divides [10^k]. *)
Lemma scaled_digits (n : Z) (d : positive) (k : nat) :
  (10 ^ Z.of_nat k mod Zpos d = 0)%Z ->
  JSON.scaled (n <? 0)%Z (Z.to_N (Z.abs n * 10 ^ Z.of_nat k / Zpos d))
    (0 - Z.of_nat k)
  = Qred (n # d).
Proof.
  intros Hdiv.
  set (p := (10 ^ Z.of_nat k)%Z) in *.
  assert (Hp : (0 < p)%Z) by (apply Z.pow_pos_nonneg; lia).
  set (m := (Z.abs n * p / Zpos d)%Z).
  assert (Hm : (m * Zpos d = Z.abs n * p)%Z).
  { unfold m. rewrite Z.mul_comm. symmetry. apply Z_div_exact_full_2; [lia|].
    rewrite Z.mul_mod by lia. rewrite Hdiv, Z.mul_0_r. reflexivity. }
  assert (Hm0 : (0 <= m)%Z) by (apply Z.div_pos; lia).
  unfold JSON.scaled. rewrite Z2N.id by exact Hm0.
  set (sm := if (n <? 0)%Z then (- m)%Z else m).
  assert (Hsm : (sm * Zpos d = n * p)%Z).
  { unfold sm. destruct (Z.ltb_spec n 0); nia. }
  destruct k as [|k].
  - change (0 - Z.of_nat 0)%Z with 0%Z. cbn [Z.leb Z.compare].
    apply Qred_complete. unfold Qeq, inject_Z. simpl Qnum. simpl Qden.
    change p with 1%Z in Hsm. change (10 ^ 0)%Z with 1%Z. lia.
  - replace (0 <=? 0 - Z.of_nat (S k))%Z with false
      by (symmetry; apply Z.leb_gt; lia).
    replace (- (0 - Z.of_nat (S k)))%Z with (Z.of_nat (S k)) by lia.
    fold p. apply Qred_complete. unfold Qeq. simpl Qnum. simpl Qden.
    rewrite Z2Pos.id by exact Hp. exact Hsm.
Qed.

(** A decimal fraction in lowest terms survives the passage through text. *)
Lemma decimal_fraction_ok (q : JS.number) :
  is_decimal_fraction q = true -> number_ok q = true.
Proof.
  unfold is_decimal_fraction. intros H.
  apply andb_true_iff in H. destruct H as [Hred Hscale].
  apply same_number_eq in Hred.
  destruct (JS.decimal_scale (Pos.to_nat (Pos.size (Qden q))) 0 (Qden q))
    as [k|] eqn:Hk; [|discriminate Hscale].
  pose proof (decimal_scale_divides _ _ _ _ Hk) as Hdiv.
  pose proof (scaled_digits (Qnum q) (Qden q) k Hdiv) as Hvalue.
  replace (Qnum q # Qden q) with q in Hvalue by now destruct q.
  rewrite Hred in Hvalue.
  set (p := (10 ^ Z.of_nat k)%Z) in *.
  assert (Hp : (0 < p)%Z) by (apply Z.pow_pos_nonneg; lia).
  set (m := (Z.abs (Qnum q) * p / Z.pos (Qden q))%Z) in *.
  assert (Hm : (m * Zpos (Qden q) = Z.abs (Qnum q) * p)%Z).
  { unfold m. rewrite Z.mul_comm. symmetry. apply Z_div_exact_full_2; [lia|].
    rewrite Z.mul_mod by lia. rewrite Hdiv, Z.mul_0_r. reflexivity. }
  assert (Hm0 : (0 <= m)%Z) by (apply Z.div_pos; lia).
  assert (Htoken : JS.Number_toString q
                   = if (m =? 0)%Z then "0"
                     else (if (Qnum q <? 0)%Z then "-" else "")
                          ++ JS.digits_toString
                               (JS.strip_zeros (JS.N_toString (Z.to_N m)))
                               (Z.of_nat
                                  (String.length (JS.N_toString (Z.to_N m)))
                                - Z.of_nat k)).
  { unfold JS.Number_toString. rewrite Hred, Hk. reflexivity. }
  unfold number_ok. rewrite Htoken. clear Htoken.
  destruct (Z.eqb_spec m 0) as [Hzero|Hnonzero].
  - (* the number is zero *)
    assert (Hnum : Qnum q = 0%Z) by nia.
    assert (Hq : q = 0).
    { rewrite <- Hred. transitivity (Qred 0); [|reflexivity].
      apply Qred_complete. unfold Qeq. rewrite Hnum. reflexivity. }
    rewrite Hq. reflexivity.
  - set (digits := JS.N_toString (Z.to_N m)).
    destruct (N_toString_head (Z.to_N m) ltac:(lia))
      as (c0 & rest0 & Hdigits0 & Hc0).
    fold digits in Hdigits0.
    destruct (strip_zeros_head c0 rest0 Hc0) as [rest1 Hstrip].
    rewrite <- Hdigits0 in Hstrip.
    destruct (strip_zeros_spec digits) as [t Ht].
    pose proof (N_toString_digits (Z.to_N m)) as Hall. fold digits in Hall.
    assert (Hs : all_chars JSON.is_digit (JS.strip_zeros digits) = true).
    { rewrite Ht, all_chars_app in Hall.
      now apply andb_true_iff in Hall. }
    destruct (digits_toString_reads_back (JS.strip_zeros digits)
                (Z.of_nat (String.length digits) - Z.of_nat k)
                c0 rest1 Hstrip Hc0 Hs)
      as (c & tail & Hplace & Hc & Hchars & Hparse).
    assert (Hread : forall negative,
               JSON.parse_unsigned negative (String c tail)
               = Some (JSON.scaled negative (Z.to_N m) (0 - Z.of_nat k))).
    { intros negative. rewrite Hparse. f_equal.
      pose proof (digits_value_N_toString (Z.to_N m)) as Hdv.
      fold digits in Hdv. rewrite Ht, digits_value_app_zeros in Hdv.
      rewrite <- Hdv, scaled_shift. f_equal.
      rewrite Ht at 1. rewrite string_length_app, length_zeros. lia. }
    rewrite Hplace.
    destruct (Qnum q <? 0)%Z eqn:Hsign.
    + cbn [append starts_with JSON.parse_number].
      change (all_chars JSON.is_number_char (String "-" (String c tail)))
        with (JSON.is_number_char "-"
              && all_chars JSON.is_number_char (String c tail)).
      change (JSON.is_number_start "-") with true.
      change (JSON.is_number_char "-") with true.
      rewrite Ascii.eqb_refl, Hchars, Hread, Hvalue.
      cbn [andb]. unfold same_number.
      now rewrite Z.eqb_refl, Pos.eqb_refl.
    + cbn [append starts_with JSON.parse_number].
      assert (Hminus : Ascii.eqb c "-" = false).
      { destruct (Ascii.eqb_spec c "-") as [->|];
          [discriminate Hc|reflexivity]. }
      unfold JSON.is_number_start. rewrite Hc, Hminus, Hchars, Hread, Hvalue.
      cbn [orb andb]. unfold same_number.
      now rewrite Z.eqb_refl, Pos.eqb_refl.
Qed.
(** Every integer is a decimal fraction in lowest terms. *)
Lemma integer_is_decimal_fraction (z : Z) :
  is_decimal_fraction (inject_Z z) = true.
Proof.
  unfold is_decimal_fraction, inject_Z. apply andb_true_iff. split.
  - replace (Qred (z # 1)) with (z # 1); [|symmetry].
    + unfold same_number. simpl. now rewrite Z.eqb_refl.
    + unfold Qred.
      pose proof (Z.ggcd_gcd z 1) as Hg.
      pose proof (Z.ggcd_correct_divisors z 1) as Hd.
      destruct (Z.ggcd z 1) as [g [a b]]. simpl in Hg.
      rewrite Z.gcd_1_r in Hg. subst g. destruct Hd as [Ha Hb].
      rewrite !Z.mul_1_l in *. subst. reflexivity.
  - reflexivity.
Qed.

Lemma delimited_cons (c : ascii) (s : string) :
  JSON.is_number_char c = false -> delimited (String c s) = true.
Proof.
  intros H. unfold delimited. simpl. now rewrite H.
Qed.

(** A value followed by white space and a closing bracket, or by a comma. *)
Lemma reads_back_then (v : JSON.value) (indent fuel : nat) (c : ascii)
    (rest : string) :
  reads_back v ->
  (weight v <= fuel)%nat ->
  JSON.is_number_char c = false ->
  JSON.parse_value fuel (JSON.stringify_at indent v ++ String c rest)
  = Some (v, String c rest).
Proof.
  intros Hv Hfuel Hc. apply Hv; [exact Hfuel | now apply delimited_cons].
Qed.

(** Text brought to the shape the reader consumes it in. *)
Ltac normalize_text :=
  unfold JSON.nl; rewrite ?string_app_assoc; cbn [append].

Lemma parse_items_join (a b j : nat) (items : list JSON.value) :
  items <> [] ->
  Forall reads_back items ->
  forall (fuel : nat) (rest : string),
    (list_sum (map (fun x => S (weight x)) items) <= fuel)%nat ->
    JSON.parse_items fuel
      (JSON.join ("," ++ JSON.nl ++ JSON.spaces a)
         (map (JSON.stringify_at b) items)
       ++ JSON.nl ++ JSON.spaces j ++ "]" ++ rest)
    = Some (items, rest).
Proof.
  induction items as [|x items IH]; intros Hne Hall fuel rest Hfuel;
    [contradiction|].
  inversion Hall as [|? ? Hx Hitems]; subst.
  simpl in Hfuel.
  destruct fuel as [|fuel]; [lia|].
  cbn [JSON.parse_items].
  destruct items as [|y items].
  - cbn [map JSON.join]. normalize_text.
    rewrite (reads_back_then x b fuel _ _ Hx) by first [reflexivity | lia].
    rewrite skip_ws_line. reflexivity.
  - change (JSON.join ("," ++ JSON.nl ++ JSON.spaces a)
              (map (JSON.stringify_at b) (x :: y :: items)))
      with (JSON.stringify_at b x
            ++ ("," ++ JSON.nl ++ JSON.spaces a)
            ++ JSON.join ("," ++ JSON.nl ++ JSON.spaces a)
                 (map (JSON.stringify_at b) (y :: items))).
    specialize (IH ltac:(discriminate) Hitems fuel rest ltac:(simpl in *; lia)).
    revert IH. normalize_text. intros IH.
    rewrite (reads_back_then x b fuel _ _ Hx) by first [reflexivity | lia].
    rewrite skip_ws_cons by reflexivity.
    rewrite Ascii.eqb_refl.
    rewrite <- parse_items_skip_ws, skip_ws_line, parse_items_skip_ws.
    now rewrite IH.
Qed.

Lemma parse_members_join (a b j : nat)
    (members : list (string * JSON.value)) :
  members <> [] ->
  Forall (fun m => reads_back (snd m)) members ->
  forall (fuel : nat) (rest : string),
    (list_sum (map (fun m => S (weight (snd m))) members) <= fuel)%nat ->
    JSON.parse_members fuel
      (JSON.join ("," ++ JSON.nl ++ JSON.spaces a)
         (map (fun m => JSON.quote (fst m) ++ ": "
                          ++ JSON.stringify_at b (snd m)) members)
       ++ JSON.nl ++ JSON.spaces j ++ "}" ++ rest)
    = Some (members, rest).
Proof.
  induction members as [|[k x] members IH]; intros Hne Hall fuel rest Hfuel;
    [contradiction|].
  inversion Hall as [|? ? Hx Hmembers]; subst. simpl in Hx.
  simpl in Hfuel.
  destruct fuel as [|fuel]; [lia|].
  cbn [JSON.parse_members].
  destruct members as [|m members].
  - cbn [map JSON.join fst snd]. rewrite string_app_assoc, quote_app.
    rewrite skip_ws_cons by reflexivity.
    rewrite Ascii.eqb_refl, parse_quote_body.
    normalize_text.
    rewrite skip_ws_cons by reflexivity. rewrite Ascii.eqb_refl.
    rewrite <- parse_value_skip_ws.
    change (JSON.skip_ws (String " " ?s)) with (JSON.skip_ws s).
    rewrite parse_value_skip_ws.
    rewrite (reads_back_then x b fuel _ _ Hx) by first [reflexivity | lia].
    rewrite skip_ws_line. reflexivity.
  - change (JSON.join ("," ++ JSON.nl ++ JSON.spaces a)
              (map (fun m => JSON.quote (fst m) ++ ": "
                               ++ JSON.stringify_at b (snd m))
                   ((k, x) :: m :: members)))
      with ((JSON.quote k ++ ": " ++ JSON.stringify_at b x)
            ++ ("," ++ JSON.nl ++ JSON.spaces a)
            ++ JSON.join ("," ++ JSON.nl ++ JSON.spaces a)
                 (map (fun m => JSON.quote (fst m) ++ ": "
                                  ++ JSON.stringify_at b (snd m))
                      (m :: members))).
    specialize (IH ltac:(discriminate) Hmembers fuel rest
                  ltac:(simpl in *; lia)).
    revert IH. rewrite !string_app_assoc, quote_app. normalize_text.
    intros IH.
    rewrite skip_ws_cons by reflexivity.
    rewrite Ascii.eqb_refl, parse_quote_body.
    rewrite skip_ws_cons by reflexivity. rewrite Ascii.eqb_refl.
    rewrite <- parse_value_skip_ws.
    change (JSON.skip_ws (String " " ?s)) with (JSON.skip_ws s).
    rewrite parse_value_skip_ws.
    rewrite (reads_back_then x b fuel _ _ Hx) by first [reflexivity | lia].
    rewrite skip_ws_cons by reflexivity.
    rewrite Ascii.eqb_refl.
    rewrite <- parse_members_skip_ws, skip_ws_line, parse_members_skip_ws.
    now rewrite IH.
Qed.

Lemma forallb_Forall {A : Type} (p : A -> bool) (P : A -> Prop)
    (l : list A) :
  Forall (fun a => p a = true -> P a) l ->
  forallb p l = true -> Forall P l.
Proof.
  induction 1 as [|a l Ha _ IH]; simpl; intros H; constructor;
    apply andb_true_iff in H; destruct H; auto.
Qed.

(** Every value whose numbers survive the passage through text is read
    back. *)
Lemma stringify_reads_back (v : JSON.value) :
  numbers_ok v = true -> reads_back v.
Proof.
  induction v as [|b|n|s|items IH|members IH] using value_induction;
    intros Hok indent fuel rest Hfuel Hrest;
    (destruct fuel as [|fuel]; [simpl in Hfuel; lia|]).
  - reflexivity.
  - destruct b; reflexivity.
  - destruct (number_ok_token n Hok)
      as (c & tail & Htoken & Hstart & Hchars & Hparse).
    cbn [JSON.stringify_at]. rewrite Htoken. cbn [append JSON.parse_value].
    rewrite skip_ws_cons by apply (number_start_facts c Hstart).
    rewrite Hstart.
    change (String c (tail ++ rest)) with (String c tail ++ rest).
    rewrite (span_all_chars _ _ _ Hchars)
      by (unfold delimited in Hrest; now apply negb_true_iff in Hrest).
    now rewrite Hparse.
  - cbn [JSON.stringify_at JSON.parse_value]. rewrite quote_app.
    rewrite skip_ws_cons by reflexivity.
    change (JSON.is_number_start JSON.dquote) with false. cbv iota.
    now rewrite Ascii.eqb_refl, parse_quote_body.
  - destruct items as [|x items]; [reflexivity|].
    assert (Hall : Forall reads_back (x :: items))
      by (exact (forallb_Forall _ _ _ IH Hok)).
    destruct (stringify_at_start (2 + indent) x) as (c & tail & Hc & Hstart);
      [simpl in Hok; now apply andb_true_iff in Hok|].
    destruct (value_start_facts c Hstart) as (Hws & Hbracket & _).
    pose proof (parse_items_join (2 + indent) (2 + indent) indent
                  (x :: items) ltac:(discriminate) Hall fuel rest
                  ltac:(simpl in *; lia)) as Hitems.
    rewrite stringify_at_array. revert Hitems.
    destruct items as [|y items].
    + cbn [map JSON.join]. rewrite Hc. normalize_text. intros Hitems.
      cbn [JSON.parse_value].
      rewrite skip_ws_cons by reflexivity.
      change (JSON.is_number_start "[") with false. cbv iota.
      change (Ascii.eqb "[" JSON.dquote) with false. cbv iota.
      rewrite Ascii.eqb_refl, skip_ws_line, skip_ws_cons by exact Hws.
      rewrite Hbracket.
      rewrite <- parse_items_skip_ws, skip_ws_line, parse_items_skip_ws.
      now rewrite Hitems.
    + change (JSON.join ("," ++ JSON.nl ++ JSON.spaces (2 + indent))
                (map (JSON.stringify_at (2 + indent)) (x :: y :: items)))
        with (JSON.stringify_at (2 + indent) x
              ++ ("," ++ JSON.nl ++ JSON.spaces (2 + indent))
              ++ JSON.join ("," ++ JSON.nl ++ JSON.spaces (2 + indent))
                   (map (JSON.stringify_at (2 + indent)) (y :: items))).
      rewrite Hc. normalize_text. intros Hitems.
      cbn [JSON.parse_value].
      rewrite skip_ws_cons by reflexivity.
      change (JSON.is_number_start "[") with false. cbv iota.
      change (Ascii.eqb "[" JSON.dquote) with false. cbv iota.
      rewrite Ascii.eqb_refl, skip_ws_line, skip_ws_cons by exact Hws.
      rewrite Hbracket.
      rewrite <- parse_items_skip_ws, skip_ws_line, parse_items_skip_ws.
      now rewrite Hitems.
  - destruct members as [|[k x] members]; [reflexivity|].
    assert (Hall : Forall (fun m => reads_back (snd m)) ((k, x) :: members))
      by (exact (forallb_Forall (fun m => numbers_ok (snd m)) _ _ IH Hok)).
    pose proof (parse_members_join (2 + indent) (2 + indent) indent
                  ((k, x) :: members) ltac:(discriminate) Hall fuel rest
                  ltac:(simpl in *; lia)) as Hmembers.
    rewrite stringify_at_object. revert Hmembers.
    destruct members as [|m members].
    + cbn [map JSON.join fst snd]. rewrite !string_app_assoc, quote_app.
      normalize_text. intros Hmembers.
      cbn [JSON.parse_value].
      rewrite skip_ws_cons by reflexivity.
      change (JSON.is_number_start "{") with false. cbv iota.
      change (Ascii.eqb "{" JSON.dquote) with false. cbv iota.
      change (Ascii.eqb "{" "[") with false. cbv iota.
      rewrite Ascii.eqb_refl, skip_ws_line, skip_ws_cons by reflexivity.
      change (Ascii.eqb JSON.dquote "}") with false. cbv iota.
      rewrite <- parse_members_skip_ws, skip_ws_line, parse_members_skip_ws.
      now rewrite Hmembers.
    + change (JSON.join ("," ++ JSON.nl ++ JSON.spaces (2 + indent))
                (map (fun m => JSON.quote (fst m) ++ ": "
                                 ++ JSON.stringify_at (2 + indent) (snd m))
                     ((k, x) :: m :: members)))
        with ((JSON.quote k ++ ": " ++ JSON.stringify_at (2 + indent) x)
              ++ ("," ++ JSON.nl ++ JSON.spaces (2 + indent))
              ++ JSON.join ("," ++ JSON.nl ++ JSON.spaces (2 + indent))
                   (map (fun m => JSON.quote (fst m) ++ ": "
                                    ++ JSON.stringify_at (2 + indent) (snd m))
                        (m :: members))).
      rewrite !string_app_assoc, quote_app. normalize_text. intros Hmembers.
      cbn [JSON.parse_value].
      rewrite skip_ws_cons by reflexivity.
      change (JSON.is_number_start "{") with false. cbv iota.
      change (Ascii.eqb "{" JSON.dquote) with false. cbv iota.
      change (Ascii.eqb "{" "[") with false. cbv iota.
      rewrite Ascii.eqb_refl, skip_ws_line, skip_ws_cons by reflexivity.
      change (Ascii.eqb JSON.dquote "}") with false. cbv iota.
      rewrite <- parse_members_skip_ws, skip_ws_line, parse_members_skip_ws.
      now rewrite Hmembers.
Qed.

(** The text of a value is at least as long as the fuel its reading takes. *)
Lemma join_length_bound {A : Type} (w : A -> nat) (str : A -> string)
    (separator : string) (l : list A) :
  (1 <= String.length separator)%nat ->
  Forall (fun a => (w a <= String.length (str a))%nat) l ->
  (list_sum (map (fun a => S (w a)) l)
   <= S (String.length (JSON.join separator (map str l))))%nat.
Proof.
  intros Hsep. induction 1 as [|a l Ha Hl IH]; [simpl; lia|].
  destruct l as [|b l].
  - simpl. lia.
  - change (JSON.join separator (map str (a :: b :: l)))
      with (str a ++ separator ++ JSON.join separator (map str (b :: l))).
    rewrite !string_length_app.
    change (list_sum (map (fun a => S (w a)) (a :: b :: l)))
      with (S (w a) + list_sum (map (fun a => S (w a)) (b :: l)))%nat.
    lia.
Qed.

Lemma weight_le_length (v : JSON.value) :
  numbers_ok v = true ->
  forall indent,
    (weight v <= String.length (JSON.stringify_at indent v))%nat.
Proof.
  induction v as [|b|n|s|items IH|members IH] using value_induction;
    intros Hok indent.
  - simpl. lia.
  - destruct b; simpl; lia.
  - destruct (number_ok_token n Hok) as (c & tail & Htoken & _).
    cbn [JSON.stringify_at weight]. rewrite Htoken. simpl. lia.
  - cbn [JSON.stringify_at weight]. unfold JSON.quote. simpl. lia.
  - destruct items as [|x items]; [simpl; lia|].
    rewrite stringify_at_array. cbn [weight].
    rewrite !string_length_app.
    pose proof (join_length_bound weight (JSON.stringify_at (2 + indent))
                  ("," ++ JSON.nl ++ JSON.spaces (2 + indent)) (x :: items)
                  ltac:(simpl; lia)) as Hjoin.
    assert (Hall : Forall (fun a => (weight a <= String.length
                                       (JSON.stringify_at (2 + indent) a))%nat)
                          (x :: items)).
    { pose proof (forallb_Forall _ _ _ IH Hok) as H.
      rewrite Forall_forall in *. intros a Ha. now apply H. }
    specialize (Hjoin Hall).
    change (String.length "[") with 1%nat.
    change (String.length JSON.nl) with 1%nat.
    change (String.length "]") with 1%nat. lia.
  - destruct members as [|m members]; [simpl; lia|].
    rewrite stringify_at_object. cbn [weight].
    rewrite !string_length_app.
    pose proof (join_length_bound (fun m => weight (snd m))
                  (fun m => JSON.quote (fst m) ++ ": "
                              ++ JSON.stringify_at (2 + indent) (snd m))
                  ("," ++ JSON.nl ++ JSON.spaces (2 + indent)) (m :: members)
                  ltac:(simpl; lia)) as Hjoin.
    assert (Hall : Forall
                     (fun m => (weight (snd m)
                                <= String.length
                                     (JSON.quote (fst m) ++ ": "
                                        ++ JSON.stringify_at (2 + indent)
                                             (snd m)))%nat)
                     (m :: members)).
    { pose proof (forallb_Forall (fun m => numbers_ok (snd m)) _ _ IH Hok)
        as H.
      rewrite Forall_forall in *. intros a Ha.
      rewrite !string_length_app. specialize (H a Ha (2 + indent)%nat). lia. }
    specialize (Hjoin Hall).
    change (String.length "{") with 1%nat.
    change (String.length JSON.nl) with 1%nat.
    change (String.length "}") with 1%nat. lia.
Qed.


(** ** Layout documents as JSON values *)








Lemma numbers_ok_texts (l : list string) :
  forallb numbers_ok (map JSON.JString l) = true.
Proof. induction l; simpl; auto. Qed.

Lemma numbers_ok_Metadata (d : Metadata.t) :
  numbers_ok (Codec.Metadata_toJS d) = true.
Proof.
  destruct d as [[n|] [d|] [a|] [c|] [m|] [t|] [[[x|] [y|]]|]];
    cbn -[forallb]; cbn [forallb snd numbers_ok andb];
    rewrite ?numbers_ok_texts; reflexivity.
Qed.

Lemma numbers_ok_LayoutData (l : LayoutData.t) :
  layout_numbers_ok l = true -> numbers_ok (Codec.LayoutData_toJS l) = true.
Proof.
  destruct l as [version elements metadata].
  unfold layout_numbers_ok, Codec.LayoutData_numbers. cbn [LayoutData.elements].
  intros H.
  assert (Hels : forallb numbers_ok (map Codec.Element_toJS elements) = true).
  { induction elements as [|e elements IH]; [reflexivity|].
    cbn [flat_map] in H. rewrite forallb_app in H.
    apply andb_true_iff in H. destruct H as [He H].
    cbn [map forallb]. rewrite (IH H), andb_true_r.
    destruct e as [id type sensor [x y w h bg fg nd op vis st ff fs fw fst]
                     animated speed].
    cbn -[number_ok] in He |- *.
    repeat (apply andb_true_iff in He;
            let Hn := fresh "Hn" in destruct He as [Hn He]; rewrite Hn).
    reflexivity. }
  destruct metadata as [metadata|];
    cbn -[Codec.Metadata_toJS Codec.Element_toJS];
    rewrite Hels, ?numbers_ok_Metadata; reflexivity.
Qed.

(** *** Numbers that are not in lowest terms *)

Lemma Number_toString_Qred (q : JS.number) :
  JS.Number_toString (Qred q) = JS.Number_toString q.
Proof.
  unfold JS.Number_toString.
  now rewrite (Qred_complete _ _ (Qred_correct q)).
Qed.

Lemma stringify_at_reduced (v : JSON.value) :
  forall indent,
    JSON.stringify_at indent (value_reduced v) = JSON.stringify_at indent v.
Proof.
  induction v as [|b|n|s|items IH|members IH] using value_induction;
    intros indent; try reflexivity.
  - cbn [value_reduced JSON.stringify_at]. apply Number_toString_Qred.
  - assert (Hmap : map (JSON.stringify_at (2 + indent))
                       (map value_reduced items)
                   = map (JSON.stringify_at (2 + indent)) items).
    { rewrite map_map. apply map_ext_in. intros x Hx.
      rewrite Forall_forall in IH. now apply IH. }
    destruct items as [|x items]; [reflexivity|].
    cbn [value_reduced]. cbn [map] in *.
    rewrite !stringify_at_array. cbn [map]. now rewrite Hmap.
  - assert (Hmap : map (fun m => JSON.quote (fst m) ++ ": "
                                   ++ JSON.stringify_at (2 + indent) (snd m))
                       (map (fun m => (fst m, value_reduced (snd m))) members)
                   = map (fun m => JSON.quote (fst m) ++ ": "
                                     ++ JSON.stringify_at (2 + indent) (snd m))
                         members).
    { rewrite map_map. apply map_ext_in. intros x Hx. cbn [fst snd].
      rewrite Forall_forall in IH. now rewrite IH. }
    destruct members as [|m members]; [reflexivity|].
    cbn [value_reduced]. cbn [map] in *.
    rewrite !stringify_at_object. cbn [map]. now rewrite Hmap.
Qed.

Lemma LayoutData_toJS_reduced (l : LayoutData.t) :
  Codec.LayoutData_toJS (LayoutData_reduced l)
  = value_reduced (Codec.LayoutData_toJS l).
Proof.
  destruct l as [version elements metadata].
  unfold Codec.LayoutData_toJS, LayoutData_reduced.
  cbn [LayoutData.version LayoutData.elements LayoutData.metadata].
  assert (Hels : map Codec.Element_toJS (map Element_reduced elements)
                 = map value_reduced (map Codec.Element_toJS elements)).
  { rewrite !map_map. apply map_ext. intros e. reflexivity. }
  assert (Hmeta : forall d, value_reduced (Codec.Metadata_toJS d)
                            = Codec.Metadata_toJS d).
  { intros [[n|] [d|] [a|] [c|] [m|] [t|] [[[x|] [y|]]|]];
      cbn; rewrite ?map_map, ?map_id; reflexivity. }
  destruct metadata as [d|];
    cbn -[Codec.Element_toJS Codec.Metadata_toJS value_reduced];
    cbn [value_reduced map fst snd]; rewrite Hels, ?Hmeta; reflexivity.
Qed.

Lemma exportLayout_reduced (s : EditorState.t) :
  Store.exportLayout s
  = JSON.stringify
      (Codec.LayoutData_toJS (LayoutData_reduced (EditorState.layout s))).
Proof.
  unfold Store.exportLayout, JSON.stringify.
  now rewrite LayoutData_toJS_reduced, stringify_at_reduced.
Qed.

Lemma LayoutData_numbers_reduced (l : LayoutData.t) :
  Codec.LayoutData_numbers (LayoutData_reduced l)
  = map Qred (Codec.LayoutData_numbers l).
Proof.
  destruct l as [version elements metadata].
  unfold Codec.LayoutData_numbers, LayoutData_reduced.
  cbn [LayoutData.elements].
  induction elements as [|e elements IH]; [reflexivity|].
  cbn [map flat_map]. rewrite IH, map_app. reflexivity.
Qed.

Lemma layout_numbers_decimal_ok (l : LayoutData.t) :
  layout_numbers_decimal l = true ->
  layout_numbers_ok (LayoutData_reduced l) = true.
Proof.
  unfold layout_numbers_decimal, layout_numbers_ok.
  rewrite LayoutData_numbers_reduced, !forallb_forall. intros H n Hn.
  apply in_map_iff in Hn. destruct Hn as (q & <- & Hq).
  apply decimal_fraction_ok. now apply H.
Qed.




(** ** Export, then import *)



(** * The store's invariants *)

Section StoreInvariants.

Variable validateSchema : LayoutData.t -> list Ajv.ErrorObject.

Lemma same_settings_refl (s : EditorState.t) : same_settings s s.
Proof. repeat split. Qed.

Lemma same_settings_trans (s1 s2 s3 : EditorState.t) :
  same_settings s1 s2 -> same_settings s2 s3 -> same_settings s1 s3.
Proof.
  intros (A1 & A2 & A3 & A4) (B1 & B2 & B3 & B4).
  repeat split; congruence.
Qed.

Lemma removeElement_settings (id : string) (s : EditorState.t) :
  same_settings s (Store.removeElement validateSchema id s).
Proof. repeat split. Qed.

Lemma fold_removeElement_settings (ids : list string) (s : EditorState.t) :
  same_settings s
    (fold_left (fun st id => Store.removeElement validateSchema id st) ids s).
Proof.
  revert s. induction ids as [|id ids IH]; intro s; simpl.
  - apply same_settings_refl.
  - eapply same_settings_trans; [apply removeElement_settings | apply IH].
Qed.

Lemma cutSelected_settings (s : EditorState.t) :
  same_settings s (Store.cutSelected validateSchema s).
Proof.
  unfold Store.cutSelected.
  eapply same_settings_trans; [|apply fold_removeElement_settings].
  repeat split.
Qed.

Lemma createElement_settings type x y sensor now (s : EditorState.t) :
  same_settings s
    (fst (Store.createElement validateSchema type x y sensor now s)).
Proof.
  unfold Store.createElement.
  destruct (ELEMENT_DEFINITIONS type) as [[definition|]|]; repeat split.
Qed.

Lemma duplicateElement_settings id now (s : EditorState.t) :
  same_settings s (Store.duplicateElement validateSchema id now s).
Proof.
  unfold Store.duplicateElement.
  destruct (find _ _); repeat split.
Qed.

Lemma toggleSelection_settings id (s : EditorState.t) :
  same_settings s (Store.toggleSelection id s).
Proof.
  unfold Store.toggleSelection.
  destruct (JS.includes _ _); repeat split.
Qed.

Lemma importLayout_settings json (s s' : EditorState.t) (accepted : bool) :
  Store.importLayout validateSchema json s = Some (Store.typed s' accepted) ->
  same_settings s s'.
Proof.
  unfold Store.importLayout.
  destruct (JSON.parse json) as [v|].
  - destruct (Codec.LayoutData_ofJS v).
    + intro H; injection H as <- _. repeat split.
    + destruct (validateLayout_throws v); discriminate.
  - intro H; injection H as <- _. apply same_settings_refl.
Qed.

(** What a step does to the four settings: it keeps them, or it is one of
    the two clamping setters, or one of the three history actions. *)
Lemma step_settings (s s' : EditorState.t) :
  step validateSchema s s' ->
  same_settings s s'
  \/ (exists size, s' = Store.setGridSize size s)
  \/ (exists zoom, s' = Store.setZoom zoom s)
  \/ (EditorState.gridSize s' = EditorState.gridSize s
      /\ EditorState.zoom s' = EditorState.zoom s
      /\ EditorState.canUndo s' = negb (EditorState.canRedo s')).
Proof.
  intro H; destruct H;
    try (left; repeat split; fail).
  - left; apply createElement_settings.
  - left; apply duplicateElement_settings.
  - left; apply toggleSelection_settings.
  - right; left; eauto.
  - right; right; left; eauto.
  - right; right; right; repeat split.
  - right; right; right; repeat split.
  - right; right; right; repeat split.
  - left; apply cutSelected_settings.
  - left; eapply importLayout_settings; eauto.
Qed.

Lemma clamp_bounds (lo hi v : Q) :
  lo <= hi -> lo <= Qmax lo (Qmin hi v) <= hi.
Proof.
  intro H. split.
  - apply Q.le_max_l.
  - apply Q.max_lub; [exact H | apply Q.le_min_l].
Qed.


Lemma clamp_id (lo hi v : Q) :
  lo <= v -> v <= hi -> Qmax lo (Qmin hi v) == v.
Proof.
  intros H1 H2.
  rewrite (Q.min_r hi v) by exact H2.
  apply Q.max_r; exact H1.
Qed.

(** X1.  From the initial state, whatever actions are called with numbers
    as their arguments, the grid size stays within [5, 100] and the zoom
    within [0.1, 5]; [setGridSize] and [setZoom] store a requested value
    that lies within the bounds as it is, and the nearest bound otherwise,
    also for an infinity.  [NaN] is the one argument for which this fails:
    both actions store it as it is. *)
Theorem view_settings_stay_in_bounds (s : EditorState.t) :
  reachable validateSchema s ->
  view_in_bounds s
  /\ (forall size,
        (5 <= size <= 100 ->
         EditorState.gridSize (Store.setGridSize size s) == size)
        /\ (size <= 5 -> EditorState.gridSize (Store.setGridSize size s) == 5)
        /\ (100 <= size ->
            EditorState.gridSize (Store.setGridSize size s) == 100))
  /\ (forall zoom,
        (1 # 10 <= zoom <= 5 ->
         EditorState.zoom (Store.setZoom zoom s) == zoom)
        /\ (zoom <= 1 # 10 ->
            EditorState.zoom (Store.setZoom zoom s) == 1 # 10)
        /\ (5 <= zoom -> EditorState.zoom (Store.setZoom zoom s) == 5))
  /\ (forall size,
        (Store.setGridSize_float size s = None <-> size = JS.NaN)
        /\ (forall s', Store.setGridSize_float size s = Some s' ->
                       view_in_bounds s')
        /\ (forall q, size = JS.finite q ->
                      Store.setGridSize_float size s
                      = Some (Store.setGridSize q s))
        /\ (size = JS.Infinity ->
            Store.setGridSize_float size s = Some (Store.setGridSize 100 s))
        /\ (size = JS.minus_Infinity ->
            Store.setGridSize_float size s = Some (Store.setGridSize 5 s)))
  /\ (forall zoom,
        (Store.setZoom_float zoom s = None <-> zoom = JS.NaN)
        /\ (forall s', Store.setZoom_float zoom s = Some s' ->
                       view_in_bounds s')
        /\ (forall q, zoom = JS.finite q ->
                      Store.setZoom_float zoom s = Some (Store.setZoom q s))
        /\ (zoom = JS.Infinity ->
            Store.setZoom_float zoom s = Some (Store.setZoom 5 s))
        /\ (zoom = JS.minus_Infinity ->
            Store.setZoom_float zoom s = Some (Store.setZoom (1 # 10) s))).
Proof.
  intro H.
  assert (Hin : view_in_bounds s).
  { induction H as [|s s' _ IH Hstep].
    + unfold view_in_bounds; cbn. repeat split; discriminate.
    + destruct (step_settings s s' Hstep)
        as [(G & Z & _) | [(size & ->) | [(zoom & ->) | (G & Z & _)]]];
        unfold view_in_bounds in *.
      * rewrite G, Z; exact IH.
      * split; [|exact (proj2 IH)].
        cbn. apply clamp_bounds. discriminate.
      * split; [exact (proj1 IH)|].
        cbn. apply clamp_bounds. discriminate.
      * rewrite G, Z; exact IH. }
  split; [exact Hin|]. split; [|split; [|split]].
  - intro size; cbn; unfold JS.Math_max, JS.Math_min. repeat split.
    + intros [A B]. apply clamp_id; assumption.
    + intro A. rewrite (Q.max_l 5 (Qmin 100 size)); [reflexivity|].
      eapply Qle_trans; [apply Q.le_min_r | exact A].
    + intro A. rewrite (Q.min_l 100 size) by exact A.
      apply Q.max_r. discriminate.
  - intro zoom; cbn; unfold JS.Math_max, JS.Math_min. repeat split.
    + intros [A B]. apply clamp_id; assumption.
    + intro A. rewrite (Q.max_l (1 # 10) (Qmin 5 zoom)); [reflexivity|].
      eapply Qle_trans; [apply Q.le_min_r | exact A].
    + intro A. rewrite (Q.min_l 5 zoom) by exact A.
      apply Q.max_r. discriminate.
  - intro size. split; [|split; [|split; [|split]]].
    + destruct size; cbn; split; intro E; try discriminate E; reflexivity.
    + intros s' E. destruct Hin as [_ Hzoom].
      destruct size; cbn in E; try discriminate E; injection E as <-;
        (split; [|exact Hzoom]); cbn;
        try (apply clamp_bounds; discriminate);
        split; discriminate.
    + intros q ->. reflexivity.
    + intros ->. reflexivity.
    + intros ->. reflexivity.
  - intro zoom. split; [|split; [|split; [|split]]].
    + destruct zoom; cbn; split; intro E; try discriminate E; reflexivity.
    + intros s' E. destruct Hin as [Hgrid _].
      destruct zoom; cbn in E; try discriminate E; injection E as <-;
        (split; [exact Hgrid|]); cbn;
        try (apply clamp_bounds; discriminate);
        split; discriminate.
    + intros q ->. reflexivity.
    + intros ->. reflexivity.
    + intros ->. reflexivity.
Qed.

(** What a step does to the document and to the cached validation
    result. *)
Lemma validate_fresh (s : EditorState.t) :
  validation_fresh validateSchema (fst (Store.validateLayout validateSchema s)).
Proof. left; reflexivity. Qed.

Lemma removeElement_fresh (id : string) (s : EditorState.t) :
  validation_fresh validateSchema (Store.removeElement validateSchema id s).
Proof. left; reflexivity. Qed.

Lemma fold_removeElement_fresh (ids : list string) (s : EditorState.t) :
  validation_fresh validateSchema s ->
  validation_fresh validateSchema
    (fold_left (fun st id => Store.removeElement validateSchema id st) ids s).
Proof.
  revert s. induction ids as [|id ids IH]; intros s H; simpl.
  - exact H.
  - apply IH, removeElement_fresh.
Qed.

Lemma importLayout_fresh (json : string) (s s' : EditorState.t)
    (answer : bool) :
  validation_fresh validateSchema s ->
  Store.importLayout validateSchema json s = Some (Store.typed s' answer) ->
  validation_fresh validateSchema s'.
Proof.
  intros IH. unfold Store.importLayout.
  destruct (JSON.parse json) as [v|].
  - destruct (Codec.LayoutData_ofJS v).
    + intro E; injection E as <- _. left; reflexivity.
    + destruct (validateLayout_throws v); discriminate.
  - intro E; injection E as <- _. exact IH.
Qed.

(** X2.  As long as the layout of the store is a [LayoutData], the cached
    validation result is never stale: from the initial state, whatever
    actions are called with arguments of their declared types, it is the
    result of [validateLayout] on the current document, and it is absent
    only as long as the document is the default one.  [importLayout] keeps
    it so when it rejects the text or installs the layout the text holds.
    A text that holds another value on which [validateLayout] throws,
    [null] for one, ends this: the value takes the place of the layout, the
    caller receives [false], and the cached validation result stays the one
    of the document that is gone. *)
Theorem validation_result_is_fresh_while_the_layout_is_typed
    (s : EditorState.t) (json : string) :
  reachable validateSchema s ->
  validation_fresh validateSchema s
  /\ (forall s' answer,
        Store.importLayout validateSchema json s
        = Some (Store.typed s' answer) ->
        validation_fresh validateSchema s')
  /\ (forall value,
        Store.importLayout validateSchema json s = Some (Store.untyped value)
        <-> JSON.parse json = Some value
            /\ Codec.LayoutData_ofJS value = None
            /\ validateLayout_throws value = true)
  /\ (JSON.parse json = Some JSON.JNull ->
      Store.importLayout validateSchema json s
      = Some (Store.untyped JSON.JNull)).
Proof.
  intro H.
  assert (Hfresh : validation_fresh validateSchema s).
  { induction H as [|s s' _ IH Hstep].
    - right; split; reflexivity.
    - destruct Hstep; try (left; reflexivity); try exact IH.
      + unfold Store.createElement.
        destruct (ELEMENT_DEFINITIONS type) as [[definition|]|];
          [left; reflexivity | exact IH | exact IH].
      + unfold Store.duplicateElement.
        destruct (find _ _); [left; reflexivity | exact IH].
      + unfold Store.toggleSelection.
        destruct (JS.includes _ _); exact IH.
      + unfold Store.cutSelected. apply fold_removeElement_fresh. exact IH.
      + eapply importLayout_fresh; eassumption. }
  split; [exact Hfresh|]. split.
  { intros s' answer. now apply importLayout_fresh. }
  split.
  - intros value. unfold Store.importLayout.
    destruct (JSON.parse json) as [v|].
    + destruct (Codec.LayoutData_ofJS v) eqn:Htyped.
      * split; [discriminate|]. intros (E & Hnone & _).
        injection E as <-. congruence.
      * destruct (validateLayout_throws v) eqn:Hthrows.
        -- split.
           ++ intro E. injection E as <-. auto.
           ++ intros (E & _). now injection E as <-.
        -- split; [discriminate|]. intros (E & _ & Ht).
           injection E as <-. congruence.
    + split; [discriminate | intros (E & _); discriminate E].
  - intros Hnull. unfold Store.importLayout. now rewrite Hnull.
Qed.

(** X3.  [pushHistory], [undo] and [redo] change nothing but the two
    flags, and set them whatever they were: the document, the selection,
    the clipboard and the cached validation result after [undo] are the
    ones before it.  From the initial state, whatever actions are called,
    [canUndo] and [canRedo] never hold together. *)
Theorem history_actions_only_flip_flags (HistoryAction : Type)
    (action : HistoryAction) (s : EditorState.t) :
  let untouched s' :=
    EditorState.layout s' = EditorState.layout s
    /\ EditorState.selectedElementIds s' = EditorState.selectedElementIds s
    /\ EditorState.clipboard s' = EditorState.clipboard s
    /\ EditorState.validationResult s' = EditorState.validationResult s in
  let flags s' := (EditorState.canUndo s', EditorState.canRedo s') in
  untouched (Store.pushHistory action s)
  /\ untouched (Store.undo s)
  /\ untouched (Store.redo s)
  /\ flags (Store.pushHistory action s) = (true, false)
  /\ flags (Store.undo s) = (false, true)
  /\ flags (Store.redo s) = (true, false)
  /\ (reachable validateSchema s ->
      EditorState.canUndo s && EditorState.canRedo s = false).
Proof.
  cbn zeta. repeat (split; [repeat split; reflexivity|]).
  intro H. induction H as [|s s' _ IH Hstep].
  - reflexivity.
  - destruct (step_settings s s' Hstep)
      as [(_ & _ & U & R) | [(size & ->) | [(zoom & ->) | (_ & _ & U)]]].
    + rewrite U, R; exact IH.
    + exact IH.
    + exact IH.
    + rewrite U. destruct (EditorState.canRedo s'); reflexivity.
Qed.

End StoreInvariants.

(** * What the document actions do *)

Lemma merge_no_update (el : Element.t) : Element.merge el Element.no_update = el.
Proof. destruct el; reflexivity. Qed.

Lemma with_elements_same (l : LayoutData.t) :
  LayoutData.with_elements l (LayoutData.elements l) = l.
Proof. destruct l; reflexivity. Qed.

Lemma map_if_absent (id : string) (f : Element.t -> Element.t)
    (els : list Element.t) :
  ~ In id (map Element.id els) ->
  map (fun el => if Element.id el =? id then f el else el) els = els.
Proof.
  induction els as [|el els IH]; simpl; intro H; [reflexivity|].
  destruct (String.eqb_spec (Element.id el) id) as [E|E]; [tauto|].
  rewrite IH; tauto.
Qed.

Lemma map_if_ids (id : string) (f : Element.t -> Element.t)
    (els : list Element.t) :
  (forall el, Element.id (f el) = Element.id el) ->
  map Element.id (map (fun el => if Element.id el =? id then f el else el) els)
  = map Element.id els.
Proof.
  intro Hf. rewrite map_map. apply map_ext. intro el.
  destruct (Element.id el =? id); [apply Hf | reflexivity].
Qed.

Lemma find_first_split (id : string) (els : list Element.t) :
  In id (map Element.id els) ->
  exists before original after,
    els = (before ++ original :: after)%list
    /\ ~ In id (map Element.id before)
    /\ Element.id original = id
    /\ find (fun el => Element.id el =? id) els = Some original.
Proof.
  induction els as [|a l IH]; intro H; [destruct H|].
  cbn [find].
  destruct (String.eqb_spec (Element.id a) id) as [Ea|Ea].
  - exists [], a, l. repeat split; try assumption. intros [].
  - destruct H as [H|H]; [contradiction|].
    destruct (IH H) as (before & original & after & E1 & E2 & E3 & E4).
    exists (a :: before), original, after.
    split; [now rewrite E1|]. split; [|split; assumption].
    intros [X|X]; contradiction.
Qed.

Lemma pasted_nth (now : nat -> N) (k : nat) (clipboard : list Element.t)
    (i : nat) :
  nth_error (Store.pasted now k clipboard) i
  = option_map (Store.retagged "_paste_" (now (k + i)%nat))
               (nth_error clipboard i).
Proof.
  revert k i. induction clipboard as [|c l IH]; intros k [|i]; cbn;
    try reflexivity.
  - now rewrite Nat.add_0_r.
  - rewrite IH. now rewrite Nat.add_succ_r.
Qed.

Lemma pasted_length (now : nat -> N) (k : nat) (clipboard : list Element.t) :
  List.length (Store.pasted now k clipboard) = List.length clipboard.
Proof.
  revert k. induction clipboard as [|c l IH]; intro k; cbn;
    [reflexivity | now rewrite IH].
Qed.

Lemma pasted_visual (now now' : nat -> N) (k k' : nat)
    (clipboard : list Element.t) :
  map Element.visual (Store.pasted now k clipboard)
  = map Element.visual (Store.pasted now' k' clipboard).
Proof.
  revert k k'. induction clipboard as [|c l IH]; intros k k'; cbn;
    [reflexivity | now rewrite (IH (S k) (S k'))].
Qed.

Lemma filter_comm {A : Type} (p q : A -> bool) (l : list A) :
  filter p (filter q l) = filter q (filter p l).
Proof.
  induction l as [|a l IH]; simpl; [reflexivity|].
  destruct (p a) eqn:P, (q a) eqn:Q; simpl; rewrite ?P, ?Q, IH; reflexivity.
Qed.

Lemma filter_both {A : Type} (p q : A -> bool) (l : list A) :
  filter p (filter q l) = filter (fun a => q a && p a) l.
Proof.
  induction l as [|a l IH]; simpl; [reflexivity|].
  destruct (q a) eqn:Q; simpl; [destruct (p a)|]; now rewrite IH.
Qed.

Lemma filter_none {A : Type} (p : A -> bool) (l : list A) :
  (forall a, In a l -> p a = false) -> filter p l = [].
Proof.
  induction l as [|a l IH]; intros H; simpl; [reflexivity|].
  rewrite (H a (or_introl eq_refl)). apply IH. intros b Hb. apply H. now right.
Qed.

Section DocumentActions.

Variable validateSchema : LayoutData.t -> list Ajv.ErrorObject.

(** X4.  [updateElement(id, updates)] keeps the number and the order of the
    elements: the element at each position is the old one, merged with the
    updates when its id is [id].  It leaves the selection and the clipboard
    alone; the ids of the document are unchanged when the updates carry no
    id, and the document is unchanged when no element has the id or the
    updates are empty. *)
Theorem updateElement_effect (id : string) (updates : Element.partial)
    (s : EditorState.t) :
  let s' := Store.updateElement validateSchema id updates s in
  List.length (LayoutData.elements (EditorState.layout s'))
  = List.length (LayoutData.elements (EditorState.layout s))
  /\ (forall i el,
        nth_error (LayoutData.elements (EditorState.layout s)) i = Some el ->
        nth_error (LayoutData.elements (EditorState.layout s')) i
        = Some (if Element.id el =? id then Element.merge el updates else el))
  /\ EditorState.selectedElementIds s' = EditorState.selectedElementIds s
  /\ EditorState.clipboard s' = EditorState.clipboard s
  /\ (Element.p_id updates = None -> element_ids s' = element_ids s)
  /\ (~ In id (element_ids s) -> EditorState.layout s' = EditorState.layout s)
  /\ (updates = Element.no_update ->
      EditorState.layout s' = EditorState.layout s).
Proof.
  cbn zeta. unfold element_ids. cbn.
  split; [apply length_map|].
  split; [intros i el H; rewrite nth_error_map, H; reflexivity|].
  split; [reflexivity|]. split; [reflexivity|].
  split; [|split].
  - intro H. apply map_if_ids. intro el. unfold Element.merge. cbn.
    rewrite H. reflexivity.
  - intro H. rewrite map_if_absent by exact H. apply with_elements_same.
  - intros ->.
    rewrite (map_ext _ (fun el => el)), map_id; [apply with_elements_same|].
    intro el. rewrite merge_no_update. now destruct (_ =? _).
Qed.


Lemma renamed_ids (id new : string) (els : list Element.t) :
  map Element.id
      (map (fun el => if Element.id el =? id
                      then Element.merge el (Element.only_id new) else el) els)
  = map (fun i => if i =? id then new else i) (map Element.id els).
Proof.
  rewrite !map_map. apply map_ext. intro el.
  now destruct (Element.id el =? id).
Qed.

Lemma not_NoDup_two (a : string) (l : list string) :
  (1 < List.length (filter (String.eqb a) l))%nat -> ~ NoDup l.
Proof.
  induction l as [|b l IH]; simpl; [lia|].
  intros H Hnd. inversion Hnd as [|? ? Hb Hl]; subst.
  destruct (String.eqb_spec a b) as [<-|Hne].
  - simpl in H. destruct (filter (String.eqb a) l) as [|c r] eqn:E;
      [simpl in H; lia|].
    apply Hb. assert (Hin : In c (filter (String.eqb a) l))
      by (rewrite E; now left).
    apply filter_In in Hin. destruct Hin as [Hin Hc].
    apply String.eqb_eq in Hc. now subst.
  - now apply IH.
Qed.

Lemma count_renamed (id new : string) (l : list string) :
  new <> id -> In id l -> In new l ->
  (1 < List.length
         (filter (String.eqb new)
                 (map (fun i => if (i =? id)%string then new else i) l)))%nat.
Proof.
  intros Hne. induction l as [|a l IH]; simpl; [tauto|].
  intros Hid Hnew.
  assert (Hhit : forall l', In id l' \/ In new l' ->
            (0 < List.length
                   (filter (String.eqb new)
                           (map (fun i => if (i =? id)%string then new else i)
                                l')))%nat).
  { clear. intros l'. induction l' as [|b l' IH']; simpl; [tauto|].
    intros H. destruct (String.eqb_spec b id) as [->|Hb].
    - rewrite String.eqb_refl. simpl. lia.
    - destruct (String.eqb_spec new b) as [->|Hn]; [simpl; lia|].
      apply IH'. destruct H as [[H|H]|[H|H]]; try tauto; congruence. }
  destruct (String.eqb_spec a id) as [->|Ha].
  - rewrite String.eqb_refl. simpl.
    destruct Hnew as [Hnew|Hnew]; [congruence|].
    specialize (Hhit l (or_intror Hnew)). lia.
  - destruct (String.eqb_spec new a) as [->|Hn].
    + simpl. destruct Hid as [Hid|Hid]; [congruence|].
      specialize (Hhit l (or_introl Hid)). lia.
    + apply IH; destruct Hid, Hnew; congruence || assumption.
Qed.

(** X5.  [updateElement(id, { id: new })] gives the id [new] to every
    element that had the id [id], and leaves the selection as it was: when
    [id] was selected, the selection afterwards names an id no element has.
    When another element already has the id [new], the ids of the document
    are no longer distinct and the cached validation result is invalid. *)
Theorem renaming_leaves_the_selection_behind (id new : string)
    (s : EditorState.t) :
  In id (element_ids s) ->
  new <> id ->
  let s' := Store.updateElement validateSchema id (Element.only_id new) s in
  element_ids s' = map (fun i => if i =? id then new else i) (element_ids s)
  /\ ~ In id (element_ids s')
  /\ In new (element_ids s')
  /\ EditorState.selectedElementIds s' = EditorState.selectedElementIds s
  /\ (In id (EditorState.selectedElementIds s) -> ~ selection_consistent s')
  /\ (In new (element_ids s) ->
      ~ NoDup (element_ids s')
      /\ option_map ValidationResult.isValid (EditorState.validationResult s')
         = Some false).
Proof.
  intros Hin Hne. cbn zeta.
  assert (Hids : element_ids
                   (Store.updateElement validateSchema id (Element.only_id new) s)
                 = map (fun i => if i =? id then new else i) (element_ids s)).
  { unfold element_ids. cbn. apply renamed_ids. }
  rewrite Hids.
  assert (Hgone : ~ In id (map (fun i => if i =? id then new else i)
                               (element_ids s))).
  { intro H. apply in_map_iff in H. destruct H as (i & Hi & _).
    destruct (String.eqb_spec i id); congruence. }
  split; [reflexivity|]. split; [exact Hgone|].
  split.
  { apply in_map_iff. exists id. now rewrite String.eqb_refl. }
  split; [reflexivity|].
  split.
  - intros Hsel Hcons. apply Hgone. rewrite <- Hids. apply Hcons. exact Hsel.
  - intro Hnew.
    pose proof (count_renamed id new _ Hne Hin Hnew) as Hcount.
    split; [exact (not_NoDup_two _ _ Hcount)|].
    cbn [Store.updateElement Store.validateLayout fst EditorState.validationResult
         EditorState.set_validationResult option_map].
    f_equal.
    set (layout' := LayoutData.with_elements _ _).
    assert (Hids' : map Element.id (LayoutData.elements layout')
                    = map (fun i => if i =? id then new else i) (element_ids s))
      by (subst layout'; cbn; apply renamed_ids).
    assert (Hex : exists el, In el (LayoutData.elements layout')
                             /\ Element.id el = new).
    { assert (H : In new (map Element.id (LayoutData.elements layout'))).
      { rewrite Hids'. apply in_map_iff. exists id.
        now rewrite String.eqb_refl. }
      apply in_map_iff in H. destruct H as (el & He & Hel). eauto. }
    destruct Hex as (el & Hel & Heq).
    apply (repeated_id_is_invalid validateSchema layout' el Hel).
    rewrite Heq.
    replace (List.length (filter (fun x => Element.id x =? new)
                                 (LayoutData.elements layout')))
      with (List.length (filter (String.eqb new)
                                (map Element.id (LayoutData.elements layout')))).
    + rewrite Hids'. exact Hcount.
    + clear. induction (LayoutData.elements layout') as [|a l IH];
        [reflexivity|]. simpl. rewrite (String.eqb_sym new).
      destruct (Element.id a =? new); simpl; now rewrite IH.
Qed.

(** X6.  [duplicateElement(id)] returns the store untouched when no element
    has the id.  Otherwise it appends one element, a copy of the first
    element with that id moved by (20, 20), of the same size, kind and
    sensor, with the id [<id>_copy_<timestamp>]; the selection and the
    clipboard stay as they were. *)
Theorem duplicateElement_effect (id : string) (now : N) (s : EditorState.t) :
  let s' := Store.duplicateElement validateSchema id now s in
  (~ In id (element_ids s) -> s' = s)
  /\ (In id (element_ids s) ->
      exists before original after,
        LayoutData.elements (EditorState.layout s)
        = (before ++ original :: after)%list
        /\ ~ In id (map Element.id before)
        /\ Element.id original = id
        /\ LayoutData.elements (EditorState.layout s')
           = (LayoutData.elements (EditorState.layout s)
              ++ [Element.mk (id ++ "_copy_" ++ JS.N_toString now)
                    (Element.type original) (Element.sensor original)
                    (VisualProperties.with_position (Element.visual original)
                       (VisualProperties.x (Element.visual original) + 20)
                       (VisualProperties.y (Element.visual original) + 20))
                    (Element.animated original)
                    (Element.animationSpeed original)])%list
        /\ EditorState.selectedElementIds s' = EditorState.selectedElementIds s
        /\ EditorState.clipboard s' = EditorState.clipboard s).
Proof.
  cbn zeta. unfold Store.duplicateElement, element_ids. split.
  - intro H.
    destruct (find _ _) as [el|] eqn:E; [|reflexivity].
    apply find_some in E. destruct E as [E1 E2].
    apply String.eqb_eq in E2. exfalso. apply H. rewrite <- E2.
    now apply in_map.
  - intro H.
    destruct (find_first_split id _ H)
      as (before & original & after & E1 & E2 & E3 & E4).
    exists before, original, after.
    rewrite E4. cbn. unfold Store.retagged, Element.with_id_visual.
    rewrite E3. repeat split; assumption.
Qed.


(** X7.  [paste()] appends one element per clipboard entry, in clipboard
    order, after the elements of the document: a copy of the entry moved by
    (20, 20) with the id [<id>_paste_<timestamp>].  The clipboard and the
    selection stay as they were, so a second [paste()] appends elements
    with the same position and size as the first; with an empty clipboard
    the document is unchanged. *)
Theorem paste_effect (now now' : nat -> N) (s : EditorState.t) :
  let s' := Store.paste validateSchema now s in
  let n := List.length (LayoutData.elements (EditorState.layout s)) in
  List.length (LayoutData.elements (EditorState.layout s'))
  = (n + List.length (EditorState.clipboard s))%nat
  /\ firstn n (LayoutData.elements (EditorState.layout s'))
     = LayoutData.elements (EditorState.layout s)
  /\ (forall i entry,
        nth_error (EditorState.clipboard s) i = Some entry ->
        nth_error (LayoutData.elements (EditorState.layout s')) (n + i)
        = Some (Element.mk
                  (Element.id entry ++ "_paste_" ++ JS.N_toString (now i))
                  (Element.type entry) (Element.sensor entry)
                  (VisualProperties.with_position (Element.visual entry)
                     (VisualProperties.x (Element.visual entry) + 20)
                     (VisualProperties.y (Element.visual entry) + 20))
                  (Element.animated entry) (Element.animationSpeed entry)))
  /\ EditorState.clipboard s' = EditorState.clipboard s
  /\ EditorState.selectedElementIds s' = EditorState.selectedElementIds s
  /\ map Element.visual
         (skipn (n + List.length (EditorState.clipboard s))
                (LayoutData.elements
                   (EditorState.layout (Store.paste validateSchema now' s'))))
     = map Element.visual
           (skipn n (LayoutData.elements (EditorState.layout s')))
  /\ (EditorState.clipboard s = [] ->
      EditorState.layout s' = EditorState.layout s).
Proof.
  cbn zeta. rewrite !paste_elements, !paste_clipboard.
  split; [now rewrite length_app, pasted_length|].
  split; [now rewrite firstn_app, firstn_all, Nat.sub_diag, app_nil_r|].
  split.
  { intros i entry H.
    rewrite nth_error_app2 by lia.
    replace (_ + i - _)%nat with i by lia.
    rewrite pasted_nth, H. reflexivity. }
  split; [reflexivity|]. split; [reflexivity|].
  split.
  { rewrite <- (pasted_length now 0 (EditorState.clipboard s)) at 1.
    rewrite <- length_app, skipn_app, skipn_all, Nat.sub_diag. cbn [app skipn].
    rewrite skipn_app, skipn_all, Nat.sub_diag. cbn [app skipn].
    apply pasted_visual. }
  intro H. cbn. rewrite H. cbn. rewrite app_nil_r. apply with_elements_same.
Qed.

Lemma fold_removeElement_effect (ids : list string) (s : EditorState.t) :
  let s' := fold_left (fun st id => Store.removeElement validateSchema id st)
                      ids s in
  LayoutData.elements (EditorState.layout s')
  = filter (fun el => negb (JS.includes ids (Element.id el)))
           (LayoutData.elements (EditorState.layout s))
  /\ EditorState.selectedElementIds s'
     = filter (fun i => negb (JS.includes ids i))
              (EditorState.selectedElementIds s)
  /\ EditorState.clipboard s' = EditorState.clipboard s.
Proof.
  cbn zeta. revert s. induction ids as [|id ids IH]; intro s.
  - cbn. split; [|split; [|reflexivity]]; symmetry; apply filter_all; reflexivity.
  - cbn [fold_left].
    destruct (IH (Store.removeElement validateSchema id s)) as (E1 & E2 & E3).
    rewrite E1, E2, E3. cbn.
    split; [|split; [|reflexivity]].
    + rewrite filter_both. apply filter_ext. intro el.
      unfold JS.includes. cbn [existsb].
      now destruct (Element.id el =? id), (existsb _ ids).
    + rewrite filter_both. apply filter_ext. intro i.
      unfold JS.includes. cbn [existsb].
      now destruct (i =? id), (existsb _ ids).
Qed.

(** X8.  [cutSelected()] puts the elements whose id is selected on the
    clipboard, in document order, removes them from the document and
    empties the selection; every element of the document ends up on one
    side or the other.  With nothing selected it empties the clipboard and
    keeps the document. *)
Theorem cutSelected_effect (s : EditorState.t) :
  let s' := Store.cutSelected validateSchema s in
  let selected el :=
    JS.includes (EditorState.selectedElementIds s) (Element.id el) in
  EditorState.clipboard s'
  = filter selected (LayoutData.elements (EditorState.layout s))
  /\ LayoutData.elements (EditorState.layout s')
     = filter (fun el => negb (selected el))
              (LayoutData.elements (EditorState.layout s))
  /\ EditorState.selectedElementIds s' = []
  /\ (forall id, In id (EditorState.selectedElementIds s) ->
                 ~ In id (element_ids s'))
  /\ (forall el, In el (LayoutData.elements (EditorState.layout s)) <->
                 In el (LayoutData.elements (EditorState.layout s'))
                 \/ In el (EditorState.clipboard s'))
  /\ (EditorState.selectedElementIds s = [] ->
      EditorState.clipboard s' = []
      /\ EditorState.layout s' = EditorState.layout s).
Proof.
  cbn zeta. unfold Store.cutSelected.
  change (EditorState.selectedElementIds (Store.copySelected s))
    with (EditorState.selectedElementIds s).
  destruct (fold_removeElement_effect (EditorState.selectedElementIds s)
              (Store.copySelected s)) as (E1 & E2 & E3).
  change (EditorState.layout (Store.copySelected s))
    with (EditorState.layout s) in E1.
  change (EditorState.selectedElementIds (Store.copySelected s))
    with (EditorState.selectedElementIds s) in E2.
  change (EditorState.clipboard (Store.copySelected s))
    with (filter (fun el => JS.includes (EditorState.selectedElementIds s)
                                        (Element.id el))
                 (LayoutData.elements (EditorState.layout s))) in E3.
  set (s' := fold_left _ _ _) in *.
  assert (Esel : EditorState.selectedElementIds s' = []).
  { rewrite E2. apply filter_none. intros i Hi.
    apply negb_false_iff. now apply includes_In. }
  split; [exact E3|]. split; [exact E1|]. split; [exact Esel|].
  split.
  { intros id Hid Hin. unfold element_ids in Hin. rewrite E1 in Hin.
    apply in_map_iff in Hin. destruct Hin as (el & <- & Hel).
    apply filter_In in Hel. destruct Hel as [_ Hel].
    apply negb_true_iff in Hel. apply includes_In in Hid. congruence. }
  split.
  { intro el. rewrite E1, E3, !filter_In.
    destruct (JS.includes _ (Element.id el)); cbn; intuition congruence. }
  intro H. split.
  - rewrite E3, H. apply filter_none. reflexivity.
  - subst s'. rewrite H. reflexivity.
Qed.

(** X9.  [toggleSelection(id)] flips whether [id] is selected and keeps
    every other id as it was; an id that was not selected goes to the end
    of the selection, and toggling it once more restores the store.  A
    selection without repetition stays without repetition, and the document
    is untouched. *)
Theorem toggleSelection_effect (id : string) (s : EditorState.t) :
  let s' := Store.toggleSelection id s in
  (In id (EditorState.selectedElementIds s')
   <-> ~ In id (EditorState.selectedElementIds s))
  /\ (forall other, other <> id ->
        (In other (EditorState.selectedElementIds s')
         <-> In other (EditorState.selectedElementIds s)))
  /\ (~ In id (EditorState.selectedElementIds s) ->
      EditorState.selectedElementIds s'
      = (EditorState.selectedElementIds s ++ [id])%list
      /\ Store.toggleSelection id s' = s)
  /\ (NoDup (EditorState.selectedElementIds s) ->
      NoDup (EditorState.selectedElementIds s'))
  /\ EditorState.layout s' = EditorState.layout s
  /\ EditorState.clipboard s' = EditorState.clipboard s.
Proof.
  cbn zeta. unfold Store.toggleSelection.
  destruct (JS.includes (EditorState.selectedElementIds s) id) eqn:E.
  - apply includes_In in E. cbn.
    split.
    { rewrite filter_In, neqb_true_iff. tauto. }
    split.
    { intros other H. rewrite filter_In, neqb_true_iff. tauto. }
    split; [tauto|].
    split; [intro H; now apply NoDup_filter|].
    split; reflexivity.
  - assert (Hn : ~ In id (EditorState.selectedElementIds s)).
    { intro H. apply includes_In in H. congruence. }
    cbn [EditorState.selectedElementIds EditorState.set_selectedElementIds
         EditorState.layout EditorState.clipboard].
    split.
    { rewrite in_app_iff. cbn. tauto. }
    split.
    { intros other H. rewrite in_app_iff. cbn. intuition congruence. }
    split.
    { intros _. split; [reflexivity|].
      unfold Store.toggleSelection.
      cbn [EditorState.selectedElementIds EditorState.set_selectedElementIds].
      assert (Hi : JS.includes (EditorState.selectedElementIds s ++ [id]) id
                   = true).
      { apply includes_In. apply in_or_app. right. now left. }
      rewrite Hi, filter_app. cbn [filter]. rewrite String.eqb_refl.
      cbn [negb]. rewrite app_nil_r, filter_all.
      - destruct s; reflexivity.
      - intros a Ha. apply neqb_true_iff. intros ->. contradiction. }
    split.
    { intro H. apply NoDup_app; [exact H | constructor; [intros []|constructor] |].
      intros a Ha [<-|[]]. contradiction. }
    split; reflexivity.
Qed.

(** X10.  Two [removeElement] calls commute.  [removeElement] of the id of
    an element that [addElement] has just appended removes that element
    together with every older element of the same id: the document is the
    former one exactly when the id was not yet in use. *)
Theorem removeElement_composition (a b : string) (el : Element.t)
    (s : EditorState.t) :
  Store.removeElement validateSchema a (Store.removeElement validateSchema b s)
  = Store.removeElement validateSchema b (Store.removeElement validateSchema a s)
  /\ LayoutData.elements
       (EditorState.layout
          (Store.removeElement validateSchema (Element.id el)
             (Store.addElement validateSchema el s)))
     = filter (fun x => negb (Element.id x =? Element.id el))
              (LayoutData.elements (EditorState.layout s))
  /\ (~ In (Element.id el) (element_ids s) <->
      EditorState.layout
        (Store.removeElement validateSchema (Element.id el)
           (Store.addElement validateSchema el s))
      = EditorState.layout s).
Proof.
  assert (Hadd : LayoutData.elements
       (EditorState.layout
          (Store.removeElement validateSchema (Element.id el)
             (Store.addElement validateSchema el s)))
     = filter (fun x => negb (Element.id x =? Element.id el))
              (LayoutData.elements (EditorState.layout s))).
  { cbn. rewrite filter_app. cbn. rewrite String.eqb_refl. cbn.
    apply app_nil_r. }
  split; [|split; [exact Hadd|]].
  - unfold Store.removeElement, Store.validateLayout. cbn.
    rewrite (filter_comm (fun el => negb (Element.id el =? a))).
    rewrite (filter_comm (fun i => negb (i =? a))).
    reflexivity.
  - split.
    + intro H. cbn. rewrite filter_app. cbn. rewrite String.eqb_refl. cbn.
      rewrite app_nil_r, not_in_ids_filter by exact H.
      destruct (EditorState.layout s); reflexivity.
    + intros H Hin. apply (f_equal LayoutData.elements) in H.
      rewrite Hadd in H. unfold element_ids in Hin.
      apply in_map_iff in Hin. destruct Hin as (x & Hx & Hin).
      rewrite <- H in Hin. apply filter_In in Hin. destruct Hin as [_ Hin].
      apply neqb_true_iff in Hin. contradiction.
Qed.

End DocumentActions.

(** * Creation and validation, import and malformed text *)

Lemma flat_mapi_app {A B : Type} (f : A -> nat -> list B) (xs ys : list A)
    (n : nat) :
  flat_mapi f (xs ++ ys) n
  = (flat_mapi f xs n ++ flat_mapi f ys (n + List.length xs))%list.
Proof.
  revert n. induction xs as [|x xs IH]; intro n; cbn.
  - now rewrite Nat.add_0_r.
  - rewrite IH, app_assoc. now rewrite Nat.add_succ_r.
Qed.

Lemma flat_mapi_ext_in {A B : Type} (f g : A -> nat -> list B)
    (xs : list A) :
  (forall x j, In x xs -> f x j = g x j) ->
  forall n, flat_mapi f xs n = flat_mapi g xs n.
Proof.
  induction xs as [|x xs IH]; intros H n; cbn; [reflexivity|].
  rewrite (H x n (or_introl eq_refl)), IH; [reflexivity|].
  intros y j Hy. apply H. now right.
Qed.

Lemma filter_id_absent (i : string) (els : list Element.t) :
  ~ In i (map Element.id els) ->
  filter (fun el => Element.id el =? i) els = [].
Proof.
  intro H. apply filter_none. intros el Hel. apply String.eqb_neq.
  intros Heq. apply H. rewrite <- Heq. now apply in_map.
Qed.

(** The defaults of [createElement] against the rules of the validator,
    entry by entry of the catalog. *)
Lemma catalog_defaults_pass :
  forallb (fun entry =>
             JS.gt (ElementDefinition.width
                      (ElementDefinition.defaultSize (snd entry))) 0
             && JS.gt (ElementDefinition.height
                         (ElementDefinition.defaultSize (snd entry))) 0
             && validateSensorId
                  (JS.or_string
                     (hd "" (ElementDefinition.suggestedSensors (snd entry)))
                     "CPU_Utilization")
             && forallb validateSensorId
                        (ElementDefinition.suggestedSensors (snd entry)))
          ELEMENT_DEFINITIONS_entries = true.
Proof. vm_compute. reflexivity. Qed.

Lemma newElement_sensor (definition : ElementDefinition.t)
    (type : ElementType) (x y : JS.number) (sensor : option SensorId)
    (now : N) :
  validateSensorId
    (JS.or_string (hd "" (ElementDefinition.suggestedSensors definition))
       "CPU_Utilization") = true ->
  let chosen := Element.or_else sensor "" in
  let bound :=
    Element.sensor (Store.newElement definition type x y sensor now) in
  (chosen <> "" -> bound = chosen)
  /\ (chosen = "" ->
      bound = JS.or_string
                (hd "" (ElementDefinition.suggestedSensors definition))
                "CPU_Utilization"
      /\ validateSensorId bound = true).
Proof.
  intros Hdef chosen bound. subst bound.
  cbn [Store.newElement Element.sensor]. fold chosen. split.
  - intros Hne. apply truthy_string_iff in Hne.
    unfold JS.or_string at 2. rewrite Hne. unfold JS.or_string.
    now rewrite Hne.
  - intros ->. split; [reflexivity | exact Hdef].
Qed.

Lemma newElement_well_formed (definition : ElementDefinition.t)
    (type : ElementType) (x y : JS.number) (sensor : option SensorId)
    (now : N) :
  0 < ElementDefinition.width (ElementDefinition.defaultSize definition) ->
  0 < ElementDefinition.height (ElementDefinition.defaultSize definition) ->
  visual_well_formed
    (Element.visual (Store.newElement definition type x y sensor now)).
Proof.
  intros Hw Hh. unfold visual_well_formed. cbn.
  repeat split; try (vm_compute; reflexivity); try assumption;
    try discriminate; auto 12.
Qed.

Section Creation.

Variable validateSchema : LayoutData.t -> list Ajv.ErrorObject.

(** X11.  For a kind of the catalog, [createElement] binds the new element
    to the caller's sensor when one is given, and otherwise to the first
    suggested sensor of the kind, or to [CPU_Utilization] when the kind
    suggests none: a sensor the validator knows.  Placed at non-negative
    coordinates under an id that is not yet in use, with the schema
    accepting the document before and after, the new element raises no
    error and the verdict of the cached validation result is the one of
    the document before.  It raises no warning when its sensor is one the
    validator knows, and exactly one, the last of the warnings, when the
    caller's sensor is not. *)
Theorem created_element_raises_no_issue
    (type : ElementType) (x y : JS.number) (sensor : option SensorId)
    (now : N) (s : EditorState.t) :
  In type (map fst ELEMENT_DEFINITIONS_entries) ->
  0 <= x -> 0 <= y ->
  ~ In (type ++ "_" ++ JS.N_toString now) (element_ids s) ->
  let s' := fst (Store.createElement validateSchema type x y sensor now s) in
  let r := validateLayout validateSchema (EditorState.layout s) in
  let r' := validateLayout validateSchema (EditorState.layout s') in
  let chosen := Element.or_else sensor "" in
  validateSchema (EditorState.layout s) = [] ->
  validateSchema (EditorState.layout s') = [] ->
  exists el,
    LayoutData.elements (EditorState.layout s')
    = (LayoutData.elements (EditorState.layout s) ++ [el])%list
    /\ (chosen <> "" -> Element.sensor el = chosen)
    /\ (chosen = "" -> validateSensorId (Element.sensor el) = true)
    /\ EditorState.validationResult s' = Some r'
    /\ ValidationResult.errors r' = ValidationResult.errors r
    /\ ValidationResult.isValid r' = ValidationResult.isValid r
    /\ (validateSensorId (Element.sensor el) = true ->
        ValidationResult.warnings r' = ValidationResult.warnings r)
    /\ (validateSensorId (Element.sensor el) = false ->
        ValidationResult.warnings r'
        = (ValidationResult.warnings r
           ++ [ValidationError.mk
                 (elementPath
                    (List.length (LayoutData.elements (EditorState.layout s)))
                  ++ ".sensor")
                 (Message.unknownSensor (Element.sensor el))
                 ValidationError.warning])%list).
Proof.
  intros Hkind Hx Hy Hfresh.
  destruct (catalog_own type Hkind) as (definition & Hdef & Hentry).
  pose proof (proj1 (forallb_forall _ _) catalog_defaults_pass _ Hentry)
    as Hpass.
  cbn [snd] in Hpass.
  apply andb_true_iff in Hpass. destruct Hpass as [Hpass _].
  apply andb_true_iff in Hpass. destruct Hpass as [Hpass Hhd].
  apply andb_true_iff in Hpass. destruct Hpass as [Hw Hh].
  apply JS_lt_iff in Hw, Hh.
  rewrite (createElement_known validateSchema type definition x y sensor now s
             Hdef).
  cbn [fst]. cbn zeta.
  set (el := Store.newElement definition type x y sensor now).
  set (s' := Store.addElement validateSchema el s).
  intros Hs Hs'.
  assert (Hels : LayoutData.elements (EditorState.layout s')
                 = (LayoutData.elements (EditorState.layout s) ++ [el])%list)
    by reflexivity.
  destruct (newElement_sensor definition type x y sensor now Hhd)
    as [Hgiven Hfallback]. fold el in Hgiven, Hfallback.
  assert (Hid : Element.id el = type ++ "_" ++ JS.N_toString now)
    by reflexivity.
  assert (Hvis : visual_well_formed (Element.visual el))
    by (apply newElement_well_formed; assumption).
  exists el. split; [exact Hels|]. split; [exact Hgiven|].
  split; [intros E; exact (proj2 (Hfallback E))|].
  split; [reflexivity|].
  destruct (validateLayout_spec validateSchema (EditorState.layout s))
    as (E & W & V).
  destruct (validateLayout_spec validateSchema (EditorState.layout s'))
    as (E' & W' & V').
  cbn zeta in *.
  assert (HE : ValidationResult.errors
                 (validateLayout validateSchema (EditorState.layout s'))
               = ValidationResult.errors
                   (validateLayout validateSchema (EditorState.layout s))).
  { rewrite E, E', Hs, Hs', Hels, flat_mapi_app. cbn [map app flat_mapi].
    rewrite app_nil_r.
    replace (elementErrors (EditorState.layout s') el _) with
      (@nil ValidationError.t).
    - rewrite app_nil_r. apply flat_mapi_ext_in. intros e j He.
      unfold elementErrors, duplicateIdIssue. rewrite Hels, filter_app.
      cbn [filter]. rewrite Hid.
      destruct (String.eqb_spec (type ++ "_" ++ JS.N_toString now)
                                (Element.id e)) as [Eq|Ne].
      + exfalso. apply Hfresh. rewrite Eq. unfold element_ids.
        now apply in_map.
      + now rewrite app_nil_r.
    - symmetry. unfold elementErrors.
      rewrite (visual_well_formed_no_error _ _ Hvis), app_nil_r.
      unfold duplicateIdIssue. rewrite Hels, filter_app. cbn [filter].
      rewrite String.eqb_refl, length_app. cbn [List.length].
      rewrite filter_id_absent; [reflexivity|].
      rewrite Hid. exact Hfresh. }
  split; [exact HE|]. split; [now rewrite V, V', HE|].
  assert (Hrest : forall n,
             elementWarnings el n = sensorIssue el n).
  { intros n. unfold elementWarnings, visualWarnings, animationSpeedIssue.
    cbn. apply JS_lt_false_iff in Hx, Hy. rewrite Hx, Hy.
    now rewrite app_nil_r. }
  split.
  - intros Hknown. rewrite W, W', Hels, flat_mapi_app. cbn [flat_mapi].
    rewrite Hrest. unfold sensorIssue.
    fold (validateSensorId (Element.sensor el)). rewrite Hknown.
    rewrite andb_false_r. cbn [issue_if]. now rewrite !app_nil_r.
  - intros Hunknown. rewrite W, W', Hels, flat_mapi_app. cbn [flat_mapi].
    rewrite Hrest, app_nil_r. unfold sensorIssue.
    fold (validateSensorId (Element.sensor el)). rewrite Hunknown.
    assert (Hne : Element.or_else sensor "" <> "").
    { intros Hempty. rewrite (proj2 (Hfallback Hempty)) in Hunknown.
      discriminate Hunknown. }
    rewrite (Hgiven Hne).
    rewrite (proj2 (truthy_string_iff _) Hne). cbn [andb negb issue_if].
    reflexivity.
Qed.

(** X12.  [importLayout] answers [false] and leaves the store as it is
    when the text does not start, after white space, with a character a
    JSON value can start with, and also when the text is an export
    followed by something else than white space. *)
Theorem importLayout_rejects_malformed_text (json : string)
    (s target : EditorState.t) (c : ascii) (rest : string) :
  (starts_with is_value_start (JSON.skip_ws json) = false ->
   Store.importLayout validateSchema json target
   = Some (Store.typed target false))
  /\ (layout_numbers_decimal (EditorState.layout s) = true ->
      JSON.is_ws c = false ->
      JSON.is_number_char c = false ->
      Store.importLayout validateSchema
        (Store.exportLayout s ++ String c rest) target
      = Some (Store.typed target false)).
Proof.
  split.
  - intro H. unfold Store.importLayout.
    replace (JSON.parse json) with (@None JSON.value); [reflexivity|].
    symmetry. unfold JSON.parse. cbn [JSON.parse_value].
    destruct (JSON.skip_ws json) as [|ch tail]; [reflexivity|].
    cbn [starts_with] in H.
    destruct ch as [[] [] [] [] [] [] [] []]; try discriminate H;
      reflexivity.
  - intros Hnum Hws Hc. unfold Store.importLayout.
    rewrite exportLayout_reduced.
    replace (JSON.parse _) with (@None JSON.value); [reflexivity|].
    symmetry. unfold JSON.parse, JSON.stringify.
    pose proof (numbers_ok_LayoutData _ (layout_numbers_decimal_ok _ Hnum))
      as Hok.
    rewrite (reads_back_then _ 0 _ c rest
               (stringify_reads_back _ Hok)); [| |exact Hc].
    + now rewrite skip_ws_cons by exact Hws.
    + pose proof (weight_le_length _ Hok 0%nat) as Hlen.
      rewrite string_length_app. lia.
Qed.

End Creation.

(** * The helpers of the validation module *)

Lemma prefix_app (p r : string) : String.prefix p (p ++ r) = true.
Proof.
  induction p as [|c p IH]; cbn; [now destruct r|].
  now rewrite Ascii.eqb_refl || (destruct (ascii_dec c c); [exact IH | congruence]).
Qed.

Lemma prefix_split (p s : string) :
  String.prefix p s = true -> exists r, s = p ++ r.
Proof.
  revert s. induction p as [|c p IH]; intros s H.
  - exists s. reflexivity.
  - destruct s as [|c' s]; [discriminate H|].
    cbn in H. destruct (ascii_dec c c') as [<-|]; [|discriminate H].
    destruct (IH s H) as (r & ->). exists r. reflexivity.
Qed.

(** [elements[i]] is a prefix of a path below [elements[j]] only for
    [j = i]: the closing bracket ends the index. *)
Lemma startsWith_elementPath (i j : nat) (suffix : string) :
  JS.startsWith (elementPath j ++ suffix) (elementPath i) = (j =? i)%nat.
Proof.
  unfold JS.startsWith.
  destruct (Nat.eqb_spec j i) as [->|Hne].
  - apply prefix_app.
  - apply not_true_iff_false. intro H.
    apply prefix_split in H. destruct H as (r & H).
    apply Hne. exact (elementPath_inj _ _ _ _ H).
Qed.

Lemma getValidationErrors_app (p : string) (l1 l2 : list ValidationError.t) :
  getValidationErrors p (l1 ++ l2)
  = (getValidationErrors p l1 ++ getValidationErrors p l2)%list.
Proof. apply filter_app. Qed.

Lemma getValidationErrors_issue_if (i j : nat) (b : bool)
    (sev : ValidationError.severity_t) (suffix message : string) :
  getValidationErrors (elementPath i)
    (issue_if b sev (elementPath j ++ suffix) message)
  = if (j =? i)%nat then issue_if b sev (elementPath j ++ suffix) message
    else [].
Proof.
  destruct b; [|now destruct (j =? i)%nat].
  unfold getValidationErrors, issue_if. cbn [filter ValidationError.path].
  rewrite startsWith_elementPath. now destruct (j =? i)%nat.
Qed.

Ltac by_element :=
  rewrite ?getValidationErrors_app, ?getValidationErrors_issue_if.

Lemma getValidationErrors_elementErrors (layout : LayoutData.t) (i j : nat)
    (el : Element.t) :
  getValidationErrors (elementPath i) (elementErrors layout el j)
  = if (j =? i)%nat then elementErrors layout el j else [].
Proof.
  unfold elementErrors, duplicateIdIssue, visualErrors. by_element.
  now destruct (j =? i)%nat.
Qed.

Lemma getValidationErrors_elementWarnings (i j : nat) (el : Element.t) :
  getValidationErrors (elementPath i) (elementWarnings el j)
  = if (j =? i)%nat then elementWarnings el j else [].
Proof.
  unfold elementWarnings, sensorIssue, visualWarnings, animationSpeedIssue.
  by_element. now destruct (j =? i)%nat.
Qed.

Lemma getValidationErrors_flat_mapi {A : Type} (i : nat)
    (f : A -> nat -> list ValidationError.t) (xs : list A) :
  (forall x j, getValidationErrors (elementPath i) (f x j)
               = if (j =? i)%nat then f x j else []) ->
  forall n,
    getValidationErrors (elementPath i) (flat_mapi f xs n)
    = match nth_error xs (i - n) with
      | Some x => if (n <=? i)%nat then f x i else []
      | None => []
      end.
Proof.
  intros Hf. induction xs as [|x xs IH]; intros n; simpl.
  - now destruct (i - n)%nat.
  - rewrite getValidationErrors_app, Hf, IH.
    destruct (Nat.eqb_spec n i) as [->|Hne].
    + replace (i - S i)%nat with 0%nat by lia.
      replace (S i <=? i)%nat with false by (symmetry; apply Nat.leb_gt; lia).
      rewrite Nat.sub_diag, Nat.leb_refl. cbn [nth_error].
      destruct xs; cbv iota; now rewrite app_nil_r.
    + cbn [app]. destruct (Nat.leb_spec n i) as [Hle|Hgt].
      * replace (S n <=? i)%nat with true by (symmetry; apply Nat.leb_le; lia).
        replace (i - n)%nat with (S (i - S n)) by lia. reflexivity.
      * replace (S n <=? i)%nat with false by (symmetry; apply Nat.leb_gt; lia).
        replace (i - n)%nat with 0%nat by lia.
        replace (i - S n)%nat with 0%nat by lia.
        cbn [nth_error]. now destruct xs.
Qed.

Section ValidationHelpers.

Variable validateSchema : LayoutData.t -> list Ajv.ErrorObject.

(** X13.  On the result of [validateLayout], [getValidationErrors] with
    the path [elements[i]] returns the issues the rules raised for the
    element at index [i], all of them and in order, and none of another
    element ([elements[1]] does not catch [elements[10]]); among the errors
    they follow the schema violations whose path starts that way. *)
Theorem getValidationErrors_of_an_element (layout : LayoutData.t) (i : nat)
    (el : Element.t) :
  nth_error (LayoutData.elements layout) i = Some el ->
  let r := validateLayout validateSchema layout in
  getValidationErrors (elementPath i) (ValidationResult.warnings r)
  = elementWarnings el i
  /\ getValidationErrors (elementPath i) (ValidationResult.errors r)
     = (getValidationErrors (elementPath i)
          (map schemaIssue (validateSchema layout))
        ++ elementErrors layout el i)%list
  /\ (forall j other,
        j <> i -> nth_error (LayoutData.elements layout) j = Some other ->
        forall issue,
          In issue (elementWarnings other j ++ elementErrors layout other j) ->
          ~ In issue (getValidationErrors (elementPath i)
                        (ValidationResult.warnings r))
          /\ ~ In issue (elementErrors layout el i)).
Proof.
  intros Hnth. cbn zeta.
  destruct (validateLayout_spec validateSchema layout) as (E & W & _).
  cbn zeta in E, W. rewrite E, W, getValidationErrors_app.
  rewrite (getValidationErrors_flat_mapi i _ _
             (fun x j => getValidationErrors_elementErrors layout i j x) 0).
  rewrite (getValidationErrors_flat_mapi i _ _
             (fun x j => getValidationErrors_elementWarnings i j x) 0).
  rewrite Nat.sub_0_r, Hnth. cbn [Nat.leb].
  split; [reflexivity|]. split; [reflexivity|].
  intros j other Hj _ issue Hissue.
  assert (Hpath : JS.startsWith (ValidationError.path issue) (elementPath i)
                  = false).
  { apply in_app_or in Hissue.
    assert (Hall : getValidationErrors (elementPath i)
                     (elementWarnings other j ++ elementErrors layout other j)
                   = []).
    { rewrite getValidationErrors_app, getValidationErrors_elementErrors,
        getValidationErrors_elementWarnings.
      apply Nat.eqb_neq in Hj. now rewrite Hj. }
    apply not_true_iff_false. intro Ht.
    assert (Hin : In issue (getValidationErrors (elementPath i)
                     (elementWarnings other j ++ elementErrors layout other j))).
    { apply filter_In. split; [apply in_or_app; tauto | exact Ht]. }
    rewrite Hall in Hin. destruct Hin. }
  split; intro Hin.
  - assert (H : In issue (getValidationErrors (elementPath i)
                            (elementWarnings el i))).
    { now rewrite getValidationErrors_elementWarnings, Nat.eqb_refl. }
    apply filter_In in H. destruct H as [_ H]. congruence.
  - assert (H : In issue (getValidationErrors (elementPath i)
                            (elementErrors layout el i))).
    { now rewrite getValidationErrors_elementErrors, Nat.eqb_refl. }
    apply filter_In in H. destruct H as [_ H]. congruence.
Qed.

(** X14.  [getValidationError(path, errors)] returns the first issue whose
    path is exactly [path], and [null] exactly when there is none; what it
    returns is among the issues [getValidationErrors(path, errors)]
    returns, which also holds the issues located below [path]. *)
Theorem getValidationError_is_the_first_match (path : string)
    (errors : list ValidationError.t) :
  (getValidationError path errors = None <->
   forall issue, In issue errors -> ValidationError.path issue <> path)
  /\ (forall issue,
        getValidationError path errors = Some issue ->
        ValidationError.path issue = path
        /\ In issue (getValidationErrors path errors)
        /\ exists before after,
             errors = (before ++ issue :: after)%list
             /\ forall earlier, In earlier before ->
                                ValidationError.path earlier <> path)
  /\ (forall issue suffix,
        In issue errors ->
        ValidationError.path issue = path ++ suffix ->
        In issue (getValidationErrors path errors)).
Proof.
  unfold getValidationError, getValidationErrors. split; [|split].
  - split.
    + intros H issue Hin Hp.
      pose proof (find_none _ _ H issue Hin) as Hf. cbn in Hf.
      apply String.eqb_neq in Hf. contradiction.
    + intro H. induction errors as [|e l IH]; [reflexivity|].
      cbn. destruct (String.eqb_spec (ValidationError.path e) path) as [Hp|Hp].
      * exfalso. exact (H e (or_introl eq_refl) Hp).
      * apply IH. intros issue Hin. apply H. now right.
  - intros issue H.
    assert (Hp : ValidationError.path issue = path).
    { apply find_some in H. destruct H as [_ H]. now apply String.eqb_eq. }
    split; [exact Hp|]. split.
    + apply filter_In. split; [now apply find_some in H|].
      unfold JS.startsWith. rewrite Hp.
      rewrite <- (string_app_nil_r path) at 2. apply prefix_app.
    + clear Hp. induction errors as [|e l IH]; [discriminate H|].
      cbn in H.
      destruct (String.eqb_spec (ValidationError.path e) path) as [Hp|Hp].
      * injection H as <-. exists [], l. split; [reflexivity|]. intros ? [].
      * destruct (IH H) as (before & after & -> & Hb).
        exists (e :: before), after. split; [reflexivity|].
        intros earlier [<-|Hin]; [exact Hp | now apply Hb].
  - intros issue suffix Hin Hp. apply filter_In. split; [exact Hin|].
    unfold JS.startsWith. rewrite Hp. apply prefix_app.
Qed.

(** X15.  [formatValidationError] shows an issue the rules of
    [validateLayout] raised under its own path, and a schema violation at
    the root of the document (empty instance path) under [Layout]. *)
Theorem formatValidationError_of_an_issue (layout : LayoutData.t)
    (violation : Ajv.ErrorObject) :
  let r := validateLayout validateSchema layout in
  let shown issue :=
    ValidationError.path issue ++ ": " ++ ValidationError.message issue in
  (forall issue,
     In issue (ValidationResult.warnings r) ->
     formatValidationError issue = shown issue)
  /\ (forall issue,
        In issue (ValidationResult.errors r) ->
        ~ In issue (map schemaIssue (validateSchema layout)) ->
        formatValidationError issue = shown issue)
  /\ (Ajv.instancePath violation = "" ->
      formatValidationError (schemaIssue violation)
      = "Layout: "
        ++ JS.or_string (Element.or_else (Ajv.message violation) "")
                        "Unknown validation error").
Proof.
  cbn zeta.
  destruct (validateLayout_spec validateSchema layout) as (E & W & _).
  cbn zeta in E, W. rewrite E, W.
  assert (Hrule : forall (f : Element.t -> nat -> list ValidationError.t)
                         xs n issue,
            (forall x j, getValidationErrors (elementPath j) (f x j) = f x j) ->
            In issue (flat_mapi f xs n) ->
            formatValidationError issue
            = ValidationError.path issue ++ ": "
              ++ ValidationError.message issue).
  { intros f xs. induction xs as [|x xs IH]; intros n issue Hf Hin;
      [destruct Hin|].
    cbn in Hin. apply in_app_or in Hin. destruct Hin as [Hin|Hin];
      [|exact (IH _ _ Hf Hin)].
    rewrite <- Hf in Hin. apply filter_In in Hin. destruct Hin as [_ Hp].
    unfold JS.startsWith in Hp. apply prefix_split in Hp.
    destruct Hp as (rest & Hp). unfold formatValidationError.
    rewrite Hp. reflexivity. }
  split; [|split].
  - intros issue Hin. eapply (Hrule elementWarnings); [|exact Hin].
    intros x j. now rewrite getValidationErrors_elementWarnings, Nat.eqb_refl.
  - intros issue Hin Hnot. apply in_app_or in Hin.
    destruct Hin as [Hin|Hin]; [contradiction|].
    eapply (Hrule (elementErrors layout)); [|exact Hin].
    intros x j. now rewrite getValidationErrors_elementErrors, Nat.eqb_refl.
  - intro H. unfold formatValidationError, schemaIssue.
    cbn [ValidationError.path ValidationError.message]. rewrite H. reflexivity.
Qed.

End ValidationHelpers.

(** ** [validateElement] *)

(** The errors [validateElement] collects, in order. *)
Lemma validateElement_errors (element : Element.partial)
    (allElements : list Element.partial) :
  let r := validateElement element allElements in
  ValidationResult.errors r
  = (issue_if (JS.falsy_member (Element.p_id element)) ValidationError.error
       "id" "Element ID is required"
     ++ issue_if (JS.falsy_member (Element.p_type element))
          ValidationError.error "type" "Element type is required"
     ++ issue_if (JS.falsy_member (Element.p_sensor element))
          ValidationError.error "sensor" "Sensor binding is required"
     ++ issue_if (match Element.p_visual element with
                  | Some _ => false
                  | None => true
                  end)
          ValidationError.error "visual" "Visual properties are required"
     ++ issue_if
          (1 <? List.length
                  (filter (fun el => JS.strict_equal (Element.p_id el)
                                                     (Element.p_id element))
                          allElements))%nat
          ValidationError.error "id"
          (Message.duplicateId (JS.template (Element.p_id element))))%list
  /\ ValidationResult.warnings r = []
  /\ ValidationResult.isValid r
     = (List.length (ValidationResult.errors r) =? 0)%nat.
Proof.
  unfold validateElement, Issues.andThen, Issues.when.
  destruct (JS.falsy_member (Element.p_id element)),
           (JS.falsy_member (Element.p_type element)),
           (JS.falsy_member (Element.p_sensor element)),
           (Element.p_visual element),
           (1 <? _)%nat; repeat split.
Qed.

Lemma falsy_member_false (v : option string) :
  JS.falsy_member v = false <-> exists s, v = Some s /\ s <> "".
Proof.
  destruct v as [s|]; cbn.
  - rewrite negb_false_iff, truthy_string_iff. split.
    + intro H. exists s. split; [reflexivity | exact H].
    + intros (s' & E & H). now injection E as ->.
  - split; [discriminate | intros (s & E & _); discriminate].
Qed.

Lemma app_nil_iff {A : Type} (l1 l2 : list A) :
  (l1 ++ l2)%list = [] <-> l1 = [] /\ l2 = [].
Proof.
  split; [apply app_eq_nil | intros [-> ->]; reflexivity].
Qed.

Lemma issue_if_nil (b : bool) (sev : ValidationError.severity_t)
    (path message : string) :
  issue_if b sev path message = [] <-> b = false.
Proof. destruct b; cbn; split; congruence. Qed.

Lemma issue_if_In (b : bool) (sev : ValidationError.severity_t)
    (path message : string) (issue : ValidationError.t) :
  In issue (issue_if b sev path message) ->
  issue = ValidationError.mk path message sev.
Proof.
  destruct b; cbn; [intros [H|[]]; now symmetry | intros []].
Qed.

Lemma count_members (id : string) (els : list Element.t) :
  List.length
    (filter (fun el => JS.strict_equal (Element.p_id el) (Some id))
            (map Element.members els))
  = List.length (filter (fun el => Element.id el =? id) els).
Proof.
  induction els as [|e l IH]; cbn; [reflexivity|].
  destruct (Element.id e =? id); cbn; now rewrite IH.
Qed.

Section ElementCheck.

Variable validateSchema : LayoutData.t -> list Ajv.ErrorObject.

(** X16.  [validateElement] never warns.  It finds an element valid
    exactly when the id, the kind and the sensor are present and non-empty,
    the visual properties are present, and at most one of [allElements] has
    the element's id.  For an element of a document checked against the
    elements of that document, it reports a duplicate id exactly when the
    rules of [validateLayout] report one for that element. *)
Theorem validateElement_verdict (element : Element.partial)
    (allElements : list Element.partial) (layout : LayoutData.t) (i : nat)
    (el : Element.t) :
  let r := validateElement element allElements in
  ValidationResult.warnings r = []
  /\ (ValidationResult.isValid r = true <->
      (exists id type sensor visual,
          element = Element.mkPartial (Some id) (Some type) (Some sensor)
                      (Some visual) (Element.p_animated element)
                      (Element.p_animationSpeed element)
          /\ id <> "" /\ type <> "" /\ sensor <> "")
      /\ (List.length
            (filter (fun other => JS.strict_equal (Element.p_id other)
                                                  (Element.p_id element))
                    allElements) <= 1)%nat)
  /\ (nth_error (LayoutData.elements layout) i = Some el ->
      let whole :=
        validateElement (Element.members el)
          (map Element.members (LayoutData.elements layout)) in
      (In (ValidationError.mk "id" (Message.duplicateId (Element.id el))
             ValidationError.error)
          (ValidationResult.errors whole)
       <-> In (ValidationError.mk (elementPath i ++ ".id")
                 (Message.duplicateId (Element.id el)) ValidationError.error)
              (elementErrors layout el i))
      /\ (Element.id el <> "" -> Element.type el <> "" ->
          Element.sensor el <> "" ->
          NoDup (map Element.id (LayoutData.elements layout)) ->
          ValidationResult.isValid whole = true)).
Proof.
  cbn zeta.
  destruct (validateElement_errors element allElements) as (E & W & V).
  cbn zeta in E, W, V.
  split; [exact W|]. split.
  - rewrite V, Nat.eqb_eq, length_zero_iff_nil, E.
    rewrite !app_nil_iff, !issue_if_nil, !falsy_member_false, Nat.ltb_ge.
    split.
    + intros ((id & Hid & Hid') & (type & Ht & Ht') & (sensor & Hs & Hs')
              & Hv & Hc).
      split; [|exact Hc].
      destruct (Element.p_visual element) as [visual|] eqn:Ev;
        [|discriminate Hv].
      exists id, type, sensor, visual.
      destruct element; cbn in *. subst. repeat split; assumption.
    + intros ((id & type & sensor & visual & -> & Hid & Ht & Hs) & Hc).
      cbn in *. repeat split; eauto.
  - intro Hnth. clear E W V.
    destruct (validateElement_errors (Element.members el)
                (map Element.members (LayoutData.elements layout)))
      as (E' & _ & V').
    cbn zeta in E', V'. cbn [Element.members Element.p_id Element.p_type
                             Element.p_sensor Element.p_visual] in E', V'.
    rewrite count_members in E'. cbn [JS.template] in E'.
    split.
    + rewrite E'. unfold elementErrors, duplicateIdIssue.
      rewrite !in_app_iff.
      destruct (1 <? List.length
                       (filter (fun x => (Element.id x =? Element.id el)%string)
                               (LayoutData.elements layout)))%nat;
        cbn [issue_if In].
      * split; intros _; [left; now left | do 4 right; now left].
      * split.
        -- unfold Message.duplicateId.
           intro H. repeat destruct H as [H|H];
             try contradiction; apply issue_if_In in H; discriminate H.
        -- intros [[]|H]. exfalso.
           assert (Hf : In (ValidationError.mk (elementPath i ++ ".id")
                              (Message.duplicateId (Element.id el))
                              ValidationError.error)
                           (at_path (elementPath i ++ ".id")
                              (visualErrors i (Element.visual el)))).
           { apply filter_In. split; [exact H|]. cbn [ValidationError.path].
             apply String.eqb_refl. }
           unfold visualErrors in Hf. revert Hf. at_path_compute.
           intros [].
    + intros Hid Ht Hs Hnd.
      rewrite V', Nat.eqb_eq, length_zero_iff_nil, E'.
      rewrite !app_nil_iff, !issue_if_nil. cbn [JS.falsy_member].
      rewrite !negb_false_iff, !truthy_string_iff, Nat.ltb_ge.
      repeat split; try assumption.
      apply (unique_id_filter_length Element.id). exact Hnd.
Qed.

End ElementCheck.

(** * The catalog and its categories *)

Lemma lookup_entry_In {A : Type} (k : string) (l : list (string * A)) (v : A) :
  lookup_entry k l = Some v -> In (k, v) l.
Proof.
  induction l as [|[k' v'] l IH]; cbn; [discriminate|].
  destruct (String.eqb_spec k' k) as [->|Hne].
  - intro H. injection H as ->. now left.
  - intro H. right. exact (IH H).
Qed.

Lemma get_own_In {A : Type} (k : string) (d : Dict.t A) (v : A) :
  Dict.get d k = Some (Dict.own v) -> In (k, v) d.
Proof.
  unfold Dict.get. intros H. apply lookup_entry_In.
  destruct (lookup_entry k d) as [a|].
  - now injection H as ->.
  - destruct (JS.includes Dict.Object_prototype k); discriminate H.
Qed.

(** Every kind a category lists has a definition filed under that
    category. *)
Lemma categories_are_defined :
  forallb (fun category =>
             forallb (fun type =>
                        match getElementDefinition type with
                        | Some (Dict.own definition) =>
                            ElementDefinition.category definition
                            =? ElementCategory.id category
                        | _ => false
                        end)
                     (ElementCategory.elements category))
          ELEMENT_CATEGORIES = true.
Proof. vm_compute. reflexivity. Qed.

(** Every definition is listed by the category it names. *)
Lemma definitions_are_listed :
  forallb (fun entry =>
             JS.includes
               (getElementsByCategory (ElementDefinition.category (snd entry)))
               (fst entry))
          ELEMENT_DEFINITIONS_entries = true.
Proof. vm_compute. reflexivity. Qed.

Lemma category_ids_distinct :
  NoDup (map ElementCategory.id ELEMENT_CATEGORIES).
Proof. apply distinct_NoDup. vm_compute. reflexivity. Qed.

(** X17.  The categories of the palette partition the catalog: listed one
    category after the other, their kinds are the keys of
    [ELEMENT_DEFINITIONS] in order, each once.  [getElementsByCategory]
    returns the kinds whose definition names the category, and the empty
    list for an id that is no category; [getElementDefinition] returns,
    for every kind a category lists, a definition of the catalog's own
    that carries the kind as its [type]. *)
Theorem categories_partition_the_catalog :
  flat_map ElementCategory.elements ELEMENT_CATEGORIES = getAllElementTypes
  /\ NoDup getAllElementTypes
  /\ (forall categoryId type,
        In type (getElementsByCategory categoryId) <->
        exists definition,
          getElementDefinition type = Some (Dict.own definition)
          /\ ElementDefinition.category definition = categoryId)
  /\ (forall categoryId,
        ~ In categoryId (map ElementCategory.id ELEMENT_CATEGORIES) ->
        getElementsByCategory categoryId = [])
  /\ (forall categoryId type,
        In type (getElementsByCategory categoryId) ->
        exists definition,
          getElementDefinition type = Some (Dict.own definition)
          /\ ElementDefinition.type definition = type).
Proof.
  assert (Hto : forall categoryId type,
            In type (getElementsByCategory categoryId) ->
            exists definition,
              getElementDefinition type = Some (Dict.own definition)
              /\ ElementDefinition.category definition = categoryId).
  { intros categoryId type. unfold getElementsByCategory.
    destruct (find _ ELEMENT_CATEGORIES) as [category|] eqn:F; [|intros []].
    apply find_some in F. destruct F as [Hcat Hid].
    apply String.eqb_eq in Hid. intro Hin.
    pose proof (proj1 (forallb_forall _ _) categories_are_defined _ Hcat) as H.
    cbn beta in H.
    pose proof (proj1 (forallb_forall _ _) H _ Hin) as H'. cbn beta in H'.
    destruct (getElementDefinition type) as [[definition|]|];
      [|discriminate H'|discriminate H'].
    exists definition. split; [reflexivity|].
    apply String.eqb_eq in H'. congruence. }
  split; [vm_compute; reflexivity|].
  split; [exact catalog_keys_distinct|].
  split; [|split].
  - intros categoryId type. split; [apply Hto|].
    intros (definition & Hdef & Hcat).
    apply get_own_In in Hdef.
    pose proof (proj1 (forallb_forall _ _) definitions_are_listed _ Hdef) as H.
    cbn [fst snd] in H. rewrite Hcat in H. now apply includes_In.
  - intros categoryId H. unfold getElementsByCategory.
    destruct (find _ ELEMENT_CATEGORIES) as [category|] eqn:F; [|reflexivity].
    apply find_some in F. destruct F as [Hcat Hid].
    apply String.eqb_eq in Hid. exfalso. apply H. rewrite <- Hid.
    now apply in_map.
  - intros categoryId type Hin.
    destruct (Hto _ _ Hin) as (definition & Hdef & _).
    exists definition. split; [exact Hdef|].
    apply get_own_In in Hdef.
    pose proof (proj1 (forallb_forall _ _) catalog_entries_typed _ Hdef) as H.
    cbn [fst snd] in H. apply String.eqb_eq in H. now symmetry.
Qed.

(** * The canvas: placing and dragging *)

Lemma snapped_on_grid (gridSize v : JS.number) :
  0 < gridSize ->
  on_grid gridSize (Canvas.snapped true gridSize v)
  /\ v - gridSize / 2 < Canvas.snapped true gridSize v
  /\ Canvas.snapped true gridSize v <= v + gridSize / 2.
Proof.
  intro Hg. unfold Canvas.snapped, JS.Math_round.
  set (q := v / gridSize + (1 # 2)).
  split; [exists (Qfloor q); reflexivity|].
  pose proof (Qfloor_le q) as Hlo. pose proof (Qlt_floor q) as Hhi.
  rewrite inject_Z_plus in Hhi. change (inject_Z 1) with 1 in Hhi.
  set (k := inject_Z (Qfloor q)) in *.
  assert (Hv : v == (v / gridSize) * gridSize).
  { rewrite Qmult_comm, Qmult_div_r; [reflexivity|].
    intro H. rewrite H in Hg. discriminate Hg. }
  set (t := v / gridSize) in *. subst q. clearbody k t.
  assert (H1 : 0 < (k + 1 - (t + (1 # 2))) * gridSize)
    by (apply Qmult_lt_0_compat; lra).
  assert (H2 : 0 <= (t + (1 # 2) - k) * gridSize)
    by (apply Qmult_le_0_compat; lra).
  unfold Qdiv. change (/ 2) with (1 # 2).
  split; rewrite Hv; lra.
Qed.

Lemma select_is_no_kind : ~ In "select" (map fst ELEMENT_DEFINITIONS_entries).
Proof.
  intro H. apply includes_In in H. vm_compute in H. discriminate H.
Qed.

Lemma find_after_update
    (validateSchema : LayoutData.t -> list Ajv.ErrorObject)
    (id : string) (updates : Element.partial) (s : EditorState.t)
    (element : Element.t) :
  Element.p_id updates = None ->
  find_element id s = Some element ->
  find_element id (Store.updateElement validateSchema id updates s)
  = Some (Element.merge element updates).
Proof.
  intros Hid. unfold find_element. cbn.
  induction (LayoutData.elements (EditorState.layout s)) as [|a l IH];
    cbn; [discriminate|].
  destruct (String.eqb_spec (Element.id a) id) as [Ha|Ha].
  - intro H. injection H as ->.
    assert (Hm : Element.id (Element.merge element updates) = id)
      by (unfold Element.merge; cbn; now rewrite Hid).
    cbn [find]. rewrite Hm, String.eqb_refl. reflexivity.
  - cbn. destruct (String.eqb_spec (Element.id a) id); [contradiction|].
    exact IH.
Qed.

Section CanvasProperties.

Variable validateSchema : LayoutData.t -> list Ajv.ErrorObject.

(** X18.  A click on the empty canvas with a kind of the catalog as the
    current tool appends one element of that kind and leaves the selection
    as it was.  With snapping off the element sits at the pointer position
    in canvas coordinates; with snapping on, both coordinates are integer
    multiples of the grid size, each within half a grid step of the
    pointer's canvas coordinate. *)
Theorem canvas_click_places_on_the_grid (rect : Canvas.DOMRect)
    (e : Canvas.MouseEvent) (now : N) (s : EditorState.t) :
  Canvas.onCurrentTarget e = true ->
  In (EditorState.currentTool s) (map fst ELEMENT_DEFINITIONS_entries) ->
  0 < EditorState.gridSize s ->
  let s' := Canvas.handleCanvasClick validateSchema (Some rect) e now s in
  let x := (Canvas.clientX e - Canvas.left rect
            - Point.x (EditorState.pan s)) / EditorState.zoom s in
  let y := (Canvas.clientY e - Canvas.top rect
            - Point.y (EditorState.pan s)) / EditorState.zoom s in
  exists el,
    LayoutData.elements (EditorState.layout s')
    = (LayoutData.elements (EditorState.layout s) ++ [el])%list
    /\ Element.type el = EditorState.currentTool s
    /\ EditorState.selectedElementIds s' = EditorState.selectedElementIds s
    /\ (EditorState.snapToGrid s = false ->
        VisualProperties.x (Element.visual el) = x
        /\ VisualProperties.y (Element.visual el) = y)
    /\ (EditorState.snapToGrid s = true ->
        on_grid (EditorState.gridSize s) (VisualProperties.x (Element.visual el))
        /\ on_grid (EditorState.gridSize s)
                   (VisualProperties.y (Element.visual el))
        /\ x - EditorState.gridSize s / 2 < VisualProperties.x (Element.visual el)
        /\ VisualProperties.x (Element.visual el)
           <= x + EditorState.gridSize s / 2
        /\ y - EditorState.gridSize s / 2 < VisualProperties.y (Element.visual el)
        /\ VisualProperties.y (Element.visual el)
           <= y + EditorState.gridSize s / 2).
Proof.
  intros Htarget Hkind Hgrid. cbn zeta.
  unfold Canvas.handleCanvasClick. rewrite Htarget.
  destruct (String.eqb_spec (EditorState.currentTool s) "select") as [E|_].
  { exfalso. rewrite E in Hkind. exact (select_is_no_kind Hkind). }
  destruct (catalog_own _ Hkind) as (definition & Hdef & _).
  rewrite (createElement_known validateSchema _ definition _ _ None now s Hdef).
  cbn [fst].
  eexists. split; [reflexivity|]. split; [reflexivity|].
  split; [reflexivity|].
  cbn [Store.newElement Element.visual VisualProperties.x VisualProperties.y].
  split.
  - intros ->. split; reflexivity.
  - intros ->.
    destruct (snapped_on_grid (EditorState.gridSize s)
                ((Canvas.clientX e - Canvas.left rect
                  - Point.x (EditorState.pan s)) / EditorState.zoom s) Hgrid)
      as (A1 & A2 & A3).
    destruct (snapped_on_grid (EditorState.gridSize s)
                ((Canvas.clientY e - Canvas.top rect
                  - Point.y (EditorState.pan s)) / EditorState.zoom s) Hgrid)
      as (B1 & B2 & B3).
    repeat split; assumption.
Qed.

(** What one [mousemove] does while an element is dragged. *)
Lemma handleGlobalMouseMove_dragging (e : Canvas.MouseEvent) (c : Canvas.t)
    (s : EditorState.t) (id : string) (element : Element.t) :
  Canvas.isDragging c = true ->
  EditorState.selectedElementIds s = [id] ->
  find_element id s = Some element ->
  Canvas.handleGlobalMouseMove validateSchema e c s
  = (Canvas.mk true (Canvas.isResizing c)
       (Point.mk (Canvas.clientX e) (Canvas.clientY e))
       (Canvas.resizeStart c) (Canvas.resizeHandle c),
     Store.updateElement validateSchema (Element.id element)
       (Element.only_visual
          (VisualProperties.with_position (Element.visual element)
             (Canvas.snapped (EditorState.snapToGrid s) (EditorState.gridSize s)
                (VisualProperties.x (Element.visual element)
                 + (Canvas.clientX e - Point.x (Canvas.dragStart c))
                   / EditorState.zoom s))
             (Canvas.snapped (EditorState.snapToGrid s) (EditorState.gridSize s)
                (VisualProperties.y (Element.visual element)
                 + (Canvas.clientY e - Point.y (Canvas.dragStart c))
                   / EditorState.zoom s)))) s).
Proof.
  intros Hdrag Hsel Hfind. unfold Canvas.handleGlobalMouseMove.
  unfold find_element in Hfind.
  rewrite Hdrag, Hsel. cbn [List.length Nat.eqb andb hd].
  rewrite Hfind. reflexivity.
Qed.

Lemma find_element_id (id : string) (s : EditorState.t) (element : Element.t) :
  find_element id s = Some element -> Element.id element = id.
Proof.
  intro H. apply find_some in H. destruct H as [_ H].
  now apply String.eqb_eq.
Qed.

(** X19.  While an element is dragged (one id selected, an element with
    that id in the document), a [mousemove] on the document moves the
    pointer's travel since the last event, divided by the zoom, onto the
    position; the listener then takes the pointer position as the new
    start.  Every element of the selected id receives the visual properties
    of the first one at the new position; the other elements, the sizes of
    the first one and the selection are unchanged.  With snapping on, the
    new coordinates are integer multiples of the grid size. *)
Theorem drag_step_effect (e : Canvas.MouseEvent) (c : Canvas.t)
    (s : EditorState.t) (id : string) (element : Element.t) :
  Canvas.isDragging c = true ->
  EditorState.selectedElementIds s = [id] ->
  find_element id s = Some element ->
  let c' := fst (Canvas.handleGlobalMouseMove validateSchema e c s) in
  let s' := snd (Canvas.handleGlobalMouseMove validateSchema e c s) in
  let x := VisualProperties.x (Element.visual element)
           + (Canvas.clientX e - Point.x (Canvas.dragStart c))
             / EditorState.zoom s in
  let y := VisualProperties.y (Element.visual element)
           + (Canvas.clientY e - Point.y (Canvas.dragStart c))
             / EditorState.zoom s in
  exists x' y',
    LayoutData.elements (EditorState.layout s')
    = map (fun el =>
             if Element.id el =? id
             then Element.mk (Element.id el) (Element.type el)
                    (Element.sensor el)
                    (VisualProperties.with_position (Element.visual element)
                       x' y')
                    (Element.animated el) (Element.animationSpeed el)
             else el)
          (LayoutData.elements (EditorState.layout s))
    /\ Canvas.dragStart c' = Point.mk (Canvas.clientX e) (Canvas.clientY e)
    /\ Canvas.isDragging c' = true
    /\ EditorState.selectedElementIds s' = [id]
    /\ (EditorState.snapToGrid s = false -> x' = x /\ y' = y)
    /\ (EditorState.snapToGrid s = true -> 0 < EditorState.gridSize s ->
        on_grid (EditorState.gridSize s) x'
        /\ on_grid (EditorState.gridSize s) y'
        /\ x - EditorState.gridSize s / 2 < x'
        /\ x' <= x + EditorState.gridSize s / 2
        /\ y - EditorState.gridSize s / 2 < y'
        /\ y' <= y + EditorState.gridSize s / 2).
Proof.
  intros Hdrag Hsel Hfind. cbn zeta.
  rewrite (handleGlobalMouseMove_dragging e c s id element Hdrag Hsel Hfind).
  cbn [fst snd].
  rewrite (find_element_id _ _ _ Hfind).
  eexists _, _. split; [reflexivity|].
  split; [reflexivity|]. split; [reflexivity|]. split; [exact Hsel|].
  split.
  - intros ->. split; reflexivity.
  - intros -> Hgrid.
    destruct (snapped_on_grid (EditorState.gridSize s)
                (VisualProperties.x (Element.visual element)
                 + (Canvas.clientX e - Point.x (Canvas.dragStart c))
                   / EditorState.zoom s) Hgrid) as (A1 & A2 & A3).
    destruct (snapped_on_grid (EditorState.gridSize s)
                (VisualProperties.y (Element.visual element)
                 + (Canvas.clientY e - Point.y (Canvas.dragStart c))
                   / EditorState.zoom s) Hgrid) as (B1 & B2 & B3).
    repeat split; assumption.
Qed.


(** A position on the grid that is moved by less than half a grid step
    snaps back to where it was. *)
Lemma snapped_stays (gridSize v d : JS.number) :
  0 < gridSize ->
  on_grid gridSize v ->
  - (gridSize / 2) <= d -> d < gridSize / 2 ->
  Canvas.snapped true gridSize (v + d) == v.
Proof.
  intros Hg (k & Hk) Hlo Hhi.
  unfold Qdiv in Hlo, Hhi. change (/ 2) with (1 # 2) in Hlo, Hhi.
  unfold Canvas.snapped, JS.Math_round.
  assert (Hne : ~ gridSize == 0) by (intro H; rewrite H in Hg; discriminate Hg).
  set (f := (d + gridSize * (1 # 2)) / gridSize).
  assert (Hq : (v + d) / gridSize + (1 # 2) == inject_Z k + f).
  { subst f. rewrite Hk. unfold JS.number in *. field. exact Hne. }
  assert (H0 : 0 <= f).
  { subst f. apply Qle_shift_div_l; [exact Hg|]. lra. }
  assert (H1 : f < 1).
  { subst f. apply Qlt_shift_div_r; [exact Hg|]. lra. }
  clearbody f.
  assert (Hfloor : Qfloor ((v + d) / gridSize + (1 # 2)) = k).
  { rewrite Hq.
    assert (Hle : (k <= Qfloor (inject_Z k + f))%Z).
    { rewrite <- (Qfloor_Z k) at 1. apply Qfloor_resp_le. lra. }
    assert (Hlt : (Qfloor (inject_Z k + f) < k + 1)%Z).
    { rewrite Zlt_Qlt. eapply Qle_lt_trans; [apply Qfloor_le|].
      rewrite inject_Z_plus. change (inject_Z 1) with 1. lra. }
    lia. }
  rewrite Hfloor, Hk. reflexivity.
Qed.

Lemma on_grid_Qeq (gridSize v w : JS.number) :
  v == w -> on_grid gridSize w -> on_grid gridSize v.
Proof.
  intros E (k & Hk). exists k. now rewrite E.
Qed.

Lemma slow_step (gridSize zoom d : JS.number) :
  0 < zoom ->
  - (gridSize * zoom / 2) <= d -> d < gridSize * zoom / 2 ->
  - (gridSize / 2) <= d / zoom /\ d / zoom < gridSize / 2.
Proof.
  intros Hz Hlo Hhi.
  unfold Qdiv in Hlo, Hhi |- *. change (/ 2) with (1 # 2) in *.
  assert (Hne : ~ zoom == 0) by (intro H; rewrite H in Hz; discriminate Hz).
  split.
  - apply Qle_shift_div_l; [exact Hz|]. lra.
  - apply Qlt_shift_div_r; [exact Hz|]. lra.
Qed.

(** X20.  With snapping on, a drag made of small steps does not move the
    element.  When the dragged element sits on the grid and each
    [mousemove] arrives after a pointer travel that, divided by the zoom,
    is less than half a grid step on both axes, the element is after every
    event where it was, however far the pointer has gone in total: each
    event snaps the position back and takes the pointer position as the
    new start.  Each event is handled by the listener registered after
    the render that followed the event before it. *)
Theorem slow_drag_leaves_the_element_in_place
    (events : list Canvas.MouseEvent) (c : Canvas.t) (s : EditorState.t)
    (id : string) (element : Element.t) :
  Canvas.isDragging c = true ->
  EditorState.selectedElementIds s = [id] ->
  find_element id s = Some element ->
  EditorState.snapToGrid s = true ->
  0 < EditorState.gridSize s ->
  0 < EditorState.zoom s ->
  on_grid (EditorState.gridSize s) (VisualProperties.x (Element.visual element)) ->
  on_grid (EditorState.gridSize s) (VisualProperties.y (Element.visual element)) ->
  slow (EditorState.gridSize s * EditorState.zoom s / 2)
       (Canvas.dragStart c) events ->
  let c' := fst (drag validateSchema events c s) in
  let s' := snd (drag validateSchema events c s) in
  exists element',
    find_element id s' = Some element'
    /\ VisualProperties.x (Element.visual element')
       == VisualProperties.x (Element.visual element)
    /\ VisualProperties.y (Element.visual element')
       == VisualProperties.y (Element.visual element)
    /\ Canvas.isDragging c' = true
    /\ Canvas.dragStart c' = last_pointer (Canvas.dragStart c) events.
Proof.
  cbn zeta. revert c s element.
  induction events as [|e events IH];
    intros c s element Hdrag Hsel Hfind Hsnap Hg Hz Hx Hy Hslow.
  - exists element. cbn. repeat split; try reflexivity; assumption.
  - cbn [drag].
    rewrite (handleGlobalMouseMove_dragging e c s id element Hdrag Hsel Hfind).
    rewrite Hsnap, (find_element_id _ _ _ Hfind).
    cbn [slow] in Hslow. destruct Hslow as (X1 & X2 & Y1 & Y2 & Hrest).
    destruct (slow_step _ _ _ Hz X1 X2) as [X1' X2'].
    destruct (slow_step _ _ _ Hz Y1 Y2) as [Y1' Y2'].
    pose proof (snapped_stays _ _ _ Hg Hx X1' X2') as Sx.
    pose proof (snapped_stays _ _ _ Hg Hy Y1' Y2') as Sy.
    set (v' := VisualProperties.with_position _ _ _) in *.
    set (c1 := Canvas.mk _ _ _ _ _).
    set (s1 := Store.updateElement _ _ _ _).
    assert (Hfind1 : find_element id s1
                     = Some (Element.merge element (Element.only_visual v')))
      by (apply find_after_update; [reflexivity | exact Hfind]).
    destruct (IH c1 s1 (Element.merge element (Element.only_visual v')))
      as (element' & F & Ex & Ey & D & P); try reflexivity; try assumption.
    + cbn. now apply (on_grid_Qeq _ _ _ Sx).
    + cbn. now apply (on_grid_Qeq _ _ _ Sy).
    + exists element'. split; [exact F|].
      split; [rewrite Ex; exact Sx|]. split; [rewrite Ey; exact Sy|].
      split; [exact D|]. exact P.
Qed.

(** X21.  No event the component listens to starts a resize: from the
    first render on, whatever events arrive and whatever the store holds,
    [isResizing] is false and the resize handle is empty, so that
    [handleCanvasMouseMove] and [handleResizeMove] leave the store as it
    is. *)
Theorem resize_is_never_started (c : Canvas.t) :
  canvas_reachable validateSchema c ->
  Canvas.isResizing c = false
  /\ Canvas.resizeHandle c = ""
  /\ (forall e s, Canvas.handleCanvasMouseMove validateSchema e c s = s)
  /\ (forall e s, Canvas.handleResizeMove validateSchema e c s = s).
Proof.
  intro H.
  assert (Hinv : Canvas.isResizing c = false /\ Canvas.resizeHandle c = "").
  { induction H as [|event c s _ [IH1 IH2]]; [split; reflexivity|].
    destruct event; cbn [dispatch fst]; try (split; assumption);
      try (split; reflexivity).
    - unfold Canvas.handleElementMouseDown.
      destruct (_ =? _); cbn; split; assumption.
    - destruct (Canvas.isDragging c || Canvas.isResizing c);
        [|split; assumption].
      unfold Canvas.handleGlobalMouseMove.
      destruct (_ && _); [|split; assumption].
      destruct (find _ _); cbn; split; assumption.
    - destruct (Canvas.isDragging c || Canvas.isResizing c); cbn;
        [split; reflexivity | split; assumption]. }
  destruct Hinv as [H1 H2]. split; [exact H1|]. split; [exact H2|].
  split; intros e s.
  - unfold Canvas.handleCanvasMouseMove. now rewrite H1.
  - unfold Canvas.handleResizeMove. now rewrite H1.
Qed.

End CanvasProperties.

(** * The asset manager *)

(** ** Dictionaries *)

Lemma lookup_put_same {A : Type} (d : Dict.t A) (key : string) (a : A) :
  lookup_entry key (Dict.put d key a) = Some a.
Proof.
  induction d as [|[k v] d IH]; cbn.
  - now rewrite String.eqb_refl.
  - destruct (String.eqb_spec k key) as [E|E]; cbn.
    + now rewrite E, String.eqb_refl.
    + destruct (String.eqb_spec k key); [contradiction | exact IH].
Qed.

Lemma lookup_put_other {A : Type} (d : Dict.t A) (key other : string) (a : A) :
  other <> key ->
  lookup_entry other (Dict.put d key a) = lookup_entry other d.
Proof.
  intro H. induction d as [|[k v] d IH]; cbn.
  - destruct (String.eqb_spec key other); [congruence | reflexivity].
  - destruct (String.eqb_spec k key) as [E|E]; cbn.
    + destruct (String.eqb_spec k other); [congruence | reflexivity].
    + destruct (String.eqb_spec k other); [reflexivity | exact IH].
Qed.

Lemma lookup_delete_same {A : Type} (d : Dict.t A) (key : string) :
  lookup_entry key (Dict.delete d key) = None.
Proof.
  induction d as [|[k v] d IH]; cbn; [reflexivity|].
  destruct (String.eqb_spec k key) as [E|E]; cbn; [exact IH|].
  destruct (String.eqb_spec k key); [contradiction | exact IH].
Qed.

Lemma lookup_delete_other {A : Type} (d : Dict.t A) (key other : string) :
  other <> key ->
  lookup_entry other (Dict.delete d key) = lookup_entry other d.
Proof.
  intro H. induction d as [|[k v] d IH]; cbn; [reflexivity|].
  destruct (String.eqb_spec k key) as [E|E]; cbn.
  - destruct (String.eqb_spec k other); [congruence | exact IH].
  - destruct (String.eqb_spec k other); [reflexivity | exact IH].
Qed.

Lemma lookup_In_keys {A : Type} (d : Dict.t A) (key : string) (a : A) :
  lookup_entry key d = Some a -> In key (Dict.keys d).
Proof.
  intro H. apply lookup_entry_In in H. unfold Dict.keys.
  apply in_map_iff. exists (key, a). split; [reflexivity | exact H].
Qed.

Lemma truthy_taken {A : Type} (d : Dict.t A) (key : string) :
  Dict.truthy d key = true ->
  In key (Dict.keys d ++ Dict.Object_prototype)%list.
Proof.
  unfold Dict.truthy, Dict.get. intro H. apply in_or_app.
  destruct (lookup_entry key d) as [a|] eqn:E.
  - left. exact (lookup_In_keys _ _ _ E).
  - right. apply includes_In.
    destruct (JS.includes Dict.Object_prototype key);
      [reflexivity | discriminate H].
Qed.

Lemma put_length {A : Type} (d : Dict.t A) (key : string) (a : A) :
  lookup_entry key d = None ->
  List.length (Dict.put d key a) = S (List.length d).
Proof.
  induction d as [|[k v] d IH]; cbn; [reflexivity|].
  destruct (String.eqb_spec k key); [discriminate|].
  intro H. cbn. now rewrite IH.
Qed.

Lemma put_fresh {A : Type} (d : Dict.t A) (key : string) (a : A) :
  lookup_entry key d = None -> Dict.put d key a = (d ++ [(key, a)])%list.
Proof.
  induction d as [|[k v] d IH]; cbn; [reflexivity|].
  destruct (String.eqb_spec k key); [discriminate|].
  intro H. now rewrite IH.
Qed.

(** ** Fresh ids *)

Lemma string_app_inj_l (p a b : string) : p ++ a = p ++ b -> a = b.
Proof.
  induction p as [|c p IH]; cbn; [tauto|].
  intro H. injection H as H. exact (IH H).
Qed.

Lemma suffixed_inj (base : string) (a b : nat) :
  base ++ "_" ++ JS.nat_toString a = base ++ "_" ++ JS.nat_toString b -> a = b.
Proof.
  intro H. apply string_app_inj_l in H. cbn in H. injection H as H.
  exact (nat_toString_inj _ _ H).
Qed.

Lemma NoDup_map_injective {A B : Type} (f : A -> B) (l : list A) :
  (forall a b, f a = f b -> a = b) -> NoDup l -> NoDup (map f l).
Proof.
  intros Hf Hl. induction Hl as [|a l Ha Hl IH]; cbn; constructor;
    [|exact IH].
  intro H. apply in_map_iff in H. destruct H as (b & Hb & Hin).
  apply Hf in Hb. now subst.
Qed.

Lemma suffixed_NoDup (base : string) (from n : nat) :
  NoDup (map (fun m => base ++ "_" ++ JS.nat_toString m) (seq from n)).
Proof.
  apply NoDup_map_injective; [|apply seq_NoDup].
  intros a b. apply suffixed_inj.
Qed.

Lemma forallb_false_ex {A : Type} (p : A -> bool) (l : list A) :
  forallb p l = false -> exists x, In x l /\ p x = false.
Proof.
  induction l as [|a l IH]; cbn; [discriminate|].
  destruct (p a) eqn:Pa; cbn.
  - intro H. destruct (IH H) as (x & Hx & Hp). exists x. split; [now right | exact Hp].
  - intros _. exists a. split; [now left | exact Pa].
Qed.

Lemma least_false (taken : nat -> bool) (bound : nat) :
  (exists m, (m <= bound)%nat /\ taken m = false) ->
  exists j, (j <= bound)%nat /\ taken j = false
            /\ forall m, (m < j)%nat -> taken m = true.
Proof.
  induction bound as [|bound IH]; intros (k & Hk & Hkf).
  - exists 0%nat. replace k with 0%nat in Hkf by lia.
    split; [lia|]. split; [exact Hkf | intros ? ?; lia].
  - destruct (forallb taken (seq 0 (S bound))) eqn:E.
    + exists (S bound). split; [lia|].
      assert (Hall : forall m, (m < S bound)%nat -> taken m = true).
      { intros x Hx. apply (proj1 (forallb_forall _ _) E).
        apply in_seq. lia. }
      split; [|exact Hall].
      destruct (Nat.eq_dec k (S bound)) as [->|Hne]; [exact Hkf|].
      rewrite Hall in Hkf by lia. discriminate Hkf.
    + apply forallb_false_ex in E. destruct E as (m & Hm & Hf).
      apply in_seq in Hm.
      destruct IH as (j & Hj & Hjf & Hjl).
      * exists m. split; [lia | exact Hf].
      * exists j. split; [lia|]. split; assumption.
Qed.

(** Among more names than can be taken, one is free, and there is a first
    one. *)
Lemma first_free {A : Type} (d : Dict.t A) (base : string) (from : nat) :
  exists j,
    (j <= List.length d + List.length Dict.Object_prototype)%nat
    /\ Dict.truthy d (base ++ "_" ++ JS.nat_toString (from + j)) = false
    /\ forall m, (m < j)%nat ->
         Dict.truthy d (base ++ "_" ++ JS.nat_toString (from + m)) = true.
Proof.
  set (N := (List.length d + List.length Dict.Object_prototype)%nat).
  set (taken := fun m =>
                  Dict.truthy d (base ++ "_" ++ JS.nat_toString (from + m))).
  apply (least_false taken N).
  destruct (forallb taken (seq 0 (S N))) eqn:E.
  - exfalso.
    assert (Hincl : incl (map (fun m => base ++ "_" ++ JS.nat_toString m)
                              (seq from (S N)))
                         (Dict.keys d ++ Dict.Object_prototype)).
    { intros x Hx. apply in_map_iff in Hx. destruct Hx as (m & <- & Hm).
      apply in_seq in Hm. apply truthy_taken.
      pose proof (proj1 (forallb_forall _ _) E (m - from)%nat) as H.
      unfold taken in H. replace (from + (m - from))%nat with m in H by lia.
      apply H. apply in_seq. lia. }
    pose proof (NoDup_incl_length (suffixed_NoDup base from (S N)) Hincl)
      as Hlen.
    rewrite length_map, length_seq, length_app in Hlen.
    unfold Dict.keys in Hlen. rewrite length_map in Hlen.
    subst N. lia.
  - apply forallb_false_ex in E. destruct E as (m & Hm & Hf).
    apply in_seq in Hm. exists m. split; [lia | exact Hf].
Qed.

(** The loop returns the first free name. *)
Lemma generateAssetId_loop_finds (d : Dict.t Asset.t) (base : string)
    (j : nat) :
  forall fuel id counter,
    (j < fuel)%nat ->
    Dict.truthy d id = true ->
    (forall m, (m < j)%nat ->
       Dict.truthy d (base ++ "_" ++ JS.nat_toString (counter + m)) = true) ->
    Dict.truthy d (base ++ "_" ++ JS.nat_toString (counter + j)) = false ->
    AssetManager.generateAssetId_loop fuel d base id counter
    = Some (base ++ "_" ++ JS.nat_toString (counter + j)).
Proof.
  induction j as [|j IH]; intros fuel id counter Hfuel Hid Htaken Hfree;
    (destruct fuel as [|fuel]; [lia|]); cbn [AssetManager.generateAssetId_loop];
    rewrite Hid.
  - rewrite Nat.add_0_r in Hfree |- *.
    destruct fuel; cbn [AssetManager.generateAssetId_loop]; now rewrite Hfree.
  - rewrite (IH fuel _ (S counter)).
    + now rewrite Nat.add_succ_r.
    + lia.
    + specialize (Htaken 0%nat ltac:(lia)). now rewrite Nat.add_0_r in Htaken.
    + intros m Hm. specialize (Htaken (S m) ltac:(lia)).
      now rewrite Nat.add_succ_r in Htaken.
    + now rewrite Nat.add_succ_r in Hfree.
Qed.

Lemma truthy_get_None {A : Type} (d : Dict.t A) (key : string) :
  Dict.truthy d key = false <-> Dict.get d key = None.
Proof.
  unfold Dict.truthy. destruct (Dict.get d key); split; congruence.
Qed.

(** [generateAssetId] ends and returns a name that is free. *)
Lemma generateAssetId_returns_free (filename : string)
    (type : AssetCollection.key) (assets : AssetManager.t) :
  let base := AssetManager.underscored (AssetManager.without_extension filename) in
  exists id,
    AssetManager.generateAssetId filename type assets = Some id
    /\ AssetManager.getAsset id type assets = None
    /\ AssetManager.hasAsset id type assets = false
    /\ ~ In id Dict.Object_prototype
    /\ (AssetManager.hasAsset base type assets = false -> id = base)
    /\ (AssetManager.hasAsset base type assets = true ->
        exists n,
          (1 <= n)%nat
          /\ id = base ++ "_" ++ JS.nat_toString n
          /\ forall m, (1 <= m < n)%nat ->
               AssetManager.hasAsset (base ++ "_" ++ JS.nat_toString m)
                 type assets = true).
Proof.
  cbn zeta. unfold AssetManager.generateAssetId, AssetManager.getAsset,
              AssetManager.hasAsset.
  set (d := AssetCollection.get assets type).
  set (base := AssetManager.underscored _).
  assert (Hproto : forall id, Dict.get d id = None ->
                              ~ In id Dict.Object_prototype).
  { intros id H Hin. unfold Dict.get in H.
    apply includes_In in Hin. rewrite Hin in H.
    destruct (lookup_entry id d); discriminate H. }
  destruct (Dict.truthy d base) eqn:Hbase.
  - destruct (first_free d base 1) as (j & Hj & Hfree & Htaken).
    exists (base ++ "_" ++ JS.nat_toString (1 + j)).
    split.
    { apply generateAssetId_loop_finds; try assumption. lia. }
    split; [now apply truthy_get_None|]. split; [exact Hfree|].
    split; [apply Hproto; now apply truthy_get_None|].
    split; [discriminate|]. intros _.
    exists (1 + j)%nat. split; [lia|]. split; [reflexivity|].
    intros m Hm. replace m with (1 + (m - 1))%nat by lia.
    apply Htaken. lia.
  - exists base. split.
    { cbn [AssetManager.generateAssetId_loop]. now rewrite Hbase. }
    split; [now apply truthy_get_None|]. split; [exact Hbase|].
    split; [apply Hproto; now apply truthy_get_None|].
    split; [reflexivity | discriminate].
Qed.

(** X22.  [generateAssetId] returns: the loop ends within as many rounds
    as there are names that can be taken.  The id it returns is not a
    property of the collection, own or inherited from [Object.prototype]:
    it is the base name (the file name without extension, every character
    that is no ASCII letter or digit replaced by an underscore) when that
    is free, and otherwise [<base>_<n>] for the least [n >= 1] that is
    free. *)
Theorem generateAssetId_is_fresh (filename : string)
    (type : AssetCollection.key) (assets : AssetManager.t) :
  let base := AssetManager.underscored (AssetManager.without_extension filename) in
  exists id,
    AssetManager.generateAssetId filename type assets = Some id
    /\ AssetManager.getAsset id type assets = None
    /\ AssetManager.hasAsset id type assets = false
    /\ ~ In id Dict.Object_prototype
    /\ (AssetManager.hasAsset base type assets = false -> id = base)
    /\ (AssetManager.hasAsset base type assets = true ->
        exists n,
          (1 <= n)%nat
          /\ id = base ++ "_" ++ JS.nat_toString n
          /\ forall m, (1 <= m < n)%nat ->
               AssetManager.hasAsset (base ++ "_" ++ JS.nat_toString m)
                 type assets = true).
Proof.
  exact (generateAssetId_returns_free filename type assets).
Qed.

(** ** Uploading and removing *)

Lemma get_with_key_same (assets : AssetCollection.t)
    (type : AssetCollection.key) (d : Dict.t Asset.t) :
  AssetCollection.get (AssetCollection.with_key assets type d) type = d.
Proof. destruct type; reflexivity. Qed.

Lemma get_with_key_other (assets : AssetCollection.t)
    (type other : AssetCollection.key) (d : Dict.t Asset.t) :
  other <> type ->
  AssetCollection.get (AssetCollection.with_key assets type d) other
  = AssetCollection.get assets other.
Proof. destruct type, other; intro H; try reflexivity; contradiction. Qed.

Lemma with_key_same (assets : AssetCollection.t) (type : AssetCollection.key) :
  AssetCollection.with_key assets type (AssetCollection.get assets type)
  = assets.
Proof. destruct assets, type; reflexivity. Qed.

Lemma key_eq_dec (a b : AssetCollection.key) : {a = b} + {a <> b}.
Proof. decide equality. Qed.

Lemma sized_fold (assets : list Asset.t) (stats : AssetManager.Stats.t) :
  fold_left (fun stats asset =>
               AssetManager.Stats.sized stats (Asset.size asset))
            assets stats
  = AssetManager.Stats.mk
      (AssetManager.Stats.total stats) (AssetManager.Stats.images stats)
      (AssetManager.Stats.fonts stats) (AssetManager.Stats.sounds stats)
      (AssetManager.Stats.totalSize stats
       + fold_right N.add 0%N (map Asset.size assets)).
Proof.
  revert stats. induction assets as [|a l IH]; intro stats; cbn.
  - rewrite N.add_0_r. now destruct stats.
  - rewrite IH. cbn. f_equal. lia.
Qed.

(** What [getAssetStats] returns. *)
Lemma getAssetStats_spec (assets : AssetManager.t) :
  AssetManager.getAssetStats assets
  = AssetManager.Stats.mk
      (List.length (AssetCollection.of_images assets)
       + List.length (AssetCollection.of_fonts assets)
       + List.length (AssetCollection.of_sounds assets))
      (List.length (AssetCollection.of_images assets))
      (List.length (AssetCollection.of_fonts assets))
      (List.length (AssetCollection.of_sounds assets))
      (total_size (AssetCollection.of_images assets)
       + total_size (AssetCollection.of_fonts assets)
       + total_size (AssetCollection.of_sounds assets)).
Proof.
  unfold AssetManager.getAssetStats. cbn [fold_left AssetCollection.get].
  rewrite !sized_fold. cbn. unfold Dict.keys, total_size.
  rewrite !length_map. f_equal; lia.
Qed.

Lemma total_size_app (d1 d2 : Dict.t Asset.t) :
  total_size (d1 ++ d2)%list = (total_size d1 + total_size d2)%N.
Proof.
  unfold total_size, Dict.values. rewrite !map_app.
  induction (map Asset.size (map snd d1)) as [|a l IH]; cbn; [reflexivity|].
  rewrite IH. lia.
Qed.

Lemma validateFile_valid (file : File.t) (type : AssetCollection.key)
    (assets : AssetManager.t) :
  AssetValidationResult.valid (AssetManager.validateFile file type assets)
  = acceptable file type.
Proof.
  unfold AssetManager.validateFile, acceptable, AssetManager.push_if.
  rewrite N.ltb_antisym.
  destruct (JS.includes _ _), (_ <=? _)%N, (JS.truthy_string _),
    (AssetManager.blank _); reflexivity.
Qed.

(** X23.  [uploadFile] answers for every input.  It stores the file
    exactly when the MIME type is supported for the collection, the size
    is within the limit and the name is neither empty nor blank; an asset
    of the same name only earns a warning.  A rejected file leaves the
    collections as they are and is answered with the errors joined by
    commas.  An accepted file is stored under the id [generateAssetId]
    returns, which was not in use: every asset stored before is still
    there, unchanged, the count goes up by one and the total size by the
    size of the file. *)
Theorem uploadFile_effect (file : File.t) (type : AssetCollection.key)
    (url : string) (now : N) (assets : AssetManager.t) :
  exists assets' result,
    AssetManager.uploadFile file type url now assets = Some (assets', result)
    /\ AssetUploadResult.success result = acceptable file type
    /\ (acceptable file type = false ->
        assets' = assets
        /\ AssetUploadResult.asset result = None
        /\ AssetUploadResult.error result
           = Some (JS.join ", "
                     (AssetValidationResult.errors
                        (AssetManager.validateFile file type assets))))
    /\ (acceptable file type = true ->
        exists id,
          AssetManager.generateAssetId (File.name file) type assets = Some id
          /\ result
             = AssetUploadResult.mk true
                 (Some (Asset.mk id (File.name file)
                          (match type with
                           | AssetCollection.images => "image"
                           | AssetCollection.fonts => "font"
                           | AssetCollection.sounds => "sound"
                           end)
                          url (File.size file) now))
                 None
          /\ AssetManager.getAsset id type assets = None
          /\ option_map Dict.own (AssetUploadResult.asset result)
             = AssetManager.getAsset id type assets'
          /\ (forall other k,
                (k, other) <> (type, id) ->
                AssetManager.getAsset other k assets'
                = AssetManager.getAsset other k assets)
          /\ AssetManager.Stats.total (AssetManager.getAssetStats assets')
             = S (AssetManager.Stats.total (AssetManager.getAssetStats assets))
          /\ AssetManager.Stats.totalSize (AssetManager.getAssetStats assets')
             = (AssetManager.Stats.totalSize
                  (AssetManager.getAssetStats assets)
                + File.size file)%N).
Proof.
  unfold AssetManager.uploadFile. rewrite validateFile_valid.
  destruct (acceptable file type) eqn:Hacc; cbn [negb].
  - destruct (generateAssetId_returns_free (File.name file) type assets)
      as (id & Hgen & Hnone & _ & Hproto & _).
    cbn zeta in Hgen. rewrite Hgen.
    unfold AssetManager.addAsset, Dict.set. cbn [Asset.id].
    destruct (String.eqb_spec id "__proto__") as [E|_].
    { exfalso. apply Hproto. rewrite E. apply includes_In. reflexivity. }
    eexists _, _. split; [reflexivity|]. split; [reflexivity|].
    split; [discriminate|]. intros _. exists id.
    split; [reflexivity|]. split; [reflexivity|]. split; [exact Hnone|].
    assert (Hown : lookup_entry id (AssetCollection.get assets type) = None).
    { unfold AssetManager.getAsset, Dict.get in Hnone.
      destruct (lookup_entry id _); [discriminate Hnone | reflexivity]. }
    split.
    { cbn [AssetUploadResult.asset option_map].
      unfold AssetManager.getAsset, Dict.get.
      now rewrite get_with_key_same, lookup_put_same. }
    split.
    { intros other k Hne. unfold AssetManager.getAsset, Dict.get.
      destruct (key_eq_dec k type) as [->|Hk].
      - rewrite get_with_key_same, lookup_put_other; [reflexivity|].
        intros ->. now apply Hne.
      - now rewrite get_with_key_other. }
    rewrite !getAssetStats_spec. cbn [AssetManager.Stats.total
                                      AssetManager.Stats.totalSize].
    rewrite (put_fresh _ _ _ Hown).
    destruct type; cbn [AssetCollection.with_key AssetCollection.of_images
                        AssetCollection.of_fonts AssetCollection.of_sounds
                        AssetCollection.get];
      rewrite ?length_app, ?total_size_app; cbn; split; lia.
  - eexists _, _. split; [reflexivity|]. split; [reflexivity|].
    split; [|discriminate]. intros _. repeat split.
Qed.

Lemma delete_idem {A : Type} (d : Dict.t A) (key : string) :
  Dict.delete (Dict.delete d key) key = Dict.delete d key.
Proof. apply filter_idem. Qed.

(** X24.  [removeAsset(id, type)] answers [true] exactly when
    [hasAsset(id, type)] held, and then deletes the asset; the other ids
    and the other collections are untouched, and a second call changes
    nothing more.  The names every object inherits from [Object.prototype]
    ([toString], [constructor], ...) count as present: for them
    [removeAsset] answers [true] whether or not an asset was stored, and
    [hasAsset] still holds afterwards; for every other id [hasAsset] is
    false after the removal. *)
Theorem removeAsset_effect (id : string) (type : AssetCollection.key)
    (assets : AssetManager.t) :
  let assets' := fst (AssetManager.removeAsset id type assets) in
  let removed := snd (AssetManager.removeAsset id type assets) in
  removed = AssetManager.hasAsset id type assets
  /\ AssetManager.hasAsset id type assets'
     = JS.includes Dict.Object_prototype id
  /\ (forall other k,
        (k, other) <> (type, id) ->
        AssetManager.getAsset other k assets'
        = AssetManager.getAsset other k assets)
  /\ (removed = false -> assets' = assets)
  /\ (In id Dict.Object_prototype -> removed = true)
  /\ fst (AssetManager.removeAsset id type assets') = assets'.
Proof.
  cbn zeta. unfold AssetManager.removeAsset, AssetManager.hasAsset.
  destruct (Dict.truthy (AssetCollection.get assets type) id) eqn:T;
    cbn [fst snd].
  - split; [reflexivity|].
    assert (Hhas : Dict.truthy
                     (AssetCollection.get
                        (AssetCollection.with_key assets type
                           (Dict.delete (AssetCollection.get assets type) id))
                        type) id
                   = JS.includes Dict.Object_prototype id).
    { rewrite get_with_key_same. unfold Dict.truthy, Dict.get.
      rewrite lookup_delete_same. now destruct (JS.includes _ id). }
    split; [exact Hhas|]. split.
    { intros other k Hne. unfold AssetManager.getAsset, Dict.get.
      destruct (key_eq_dec k type) as [->|Hk].
      - rewrite get_with_key_same, lookup_delete_other; [reflexivity|].
        intros ->. now apply Hne.
      - now rewrite get_with_key_other. }
    split; [discriminate|]. split; [reflexivity|].
    rewrite Hhas.
    destruct (JS.includes Dict.Object_prototype id); cbn [fst];
      [|reflexivity].
    rewrite get_with_key_same, delete_idem.
    destruct assets, type; reflexivity.
  - split; [reflexivity|]. split.
    { rewrite T. unfold Dict.truthy, Dict.get in T.
      destruct (lookup_entry id _); [discriminate T|].
      destruct (JS.includes _ id); [discriminate T | reflexivity]. }
    split; [reflexivity|]. split; [reflexivity|]. split.
    { intro H. apply includes_In in H. unfold Dict.truthy, Dict.get in T.
      rewrite H in T. destruct (lookup_entry id _); discriminate T. }
    now rewrite T.
Qed.

(** * Sensor data, its rendering and the properties panel *)

(** X25.  [getSensorInfo] without sensor data returns the value 0, no unit
    and 0 percent.  With sensor data whose maximum differs from its
    minimum the percentage lies within [0, 100]; when the minimum is below
    the maximum it is the position of the value between them, and it is 0
    for a value at or below the minimum and 100 for a value at or above
    the maximum. *)
Theorem getSensorInfo_percentage (element : Element.t) (d : SensorData.t) :
  let info := getSensorInfo element (Some d) in
  let none := getSensorInfo element None in
  let value := SensorInfo.value info in
  SensorInfo.value none = 0
  /\ SensorInfo.unit none = ""
  /\ SensorInfo.percentage none == 0
  /\ value == SensorData.value d
  /\ (~ SensorData.max d == SensorData.min d ->
      0 <= SensorInfo.percentage info <= 100)
  /\ (SensorData.min d < SensorData.max d ->
      (SensorData.min d <= value <= SensorData.max d ->
       SensorInfo.percentage info
       == (value - SensorData.min d)
          / (SensorData.max d - SensorData.min d) * 100)
      /\ (value <= SensorData.min d -> SensorInfo.percentage info == 0)
      /\ (SensorData.max d <= value -> SensorInfo.percentage info == 100)).
Proof.
  cbn zeta. unfold getSensorInfo.
  cbn [SensorInfo.value SensorInfo.unit SensorInfo.percentage].
  split; [reflexivity|]. split; [reflexivity|]. split; [reflexivity|].
  assert (Hv : JS.or_number (SensorData.value d) 0 == SensorData.value d).
  { unfold JS.or_number, JS.truthy_number.
    destruct (Qeq_bool (SensorData.value d) 0) eqn:E; cbn; [|reflexivity].
    apply Qeq_bool_iff in E. now rewrite E. }
  split; [exact Hv|].
  set (value := JS.or_number (SensorData.value d) 0) in *. clearbody value.
  unfold JS.Math_max, JS.Math_min.
  split.
  - intros _. apply clamp_bounds. discriminate.
  - intro Hlt.
    set (range := SensorData.max d - SensorData.min d).
    assert (Hrange : 0 < range) by (subst range; lra).
    assert (Hscale : forall a, a / range * 100 == a * 100 / range).
    { intro a. unfold JS.number in *. field.
      intro H. rewrite H in Hrange. discriminate Hrange. }
    split; [|split].
    + intros [Hlo Hhi]. apply clamp_id.
      * rewrite Hscale. apply Qle_shift_div_l; [exact Hrange|]. lra.
      * rewrite Hscale. apply Qle_shift_div_r; [exact Hrange|].
        subst range. lra.
    + intro Hlo.
      assert (Hp : (value - SensorData.min d) / range * 100 <= 0).
      { rewrite Hscale. apply Qle_shift_div_r; [exact Hrange|]. lra. }
      rewrite (Q.min_r 100) by lra. now apply Q.max_l.
    + intro Hhi.
      assert (Hp : 100 <= (value - SensorData.min d) / range * 100).
      { rewrite Hscale. apply Qle_shift_div_l; [exact Hrange|].
        subst range. lra. }
      rewrite (Q.min_l 100) by exact Hp. apply Q.max_r. discriminate.
Qed.

Section PanelProperties.

Variable validateSchema : LayoutData.t -> list Ajv.ErrorObject.




End PanelProperties.

(** ** The simulator *)

Lemma nth_error_store {A : Type} (l : list A) (address : nat) (a : A) :
  (address < List.length l)%nat ->
  nth_error (SensorDataSimulator.store l address a) address = Some a.
Proof.
  revert address. induction l as [|b l IH]; intros [|address] H; cbn in *;
    try lia; [reflexivity|]. apply IH. lia.
Qed.

Lemma nth_error_store_other {A : Type} (l : list A) (address other : nat)
    (a : A) :
  other <> address ->
  nth_error (SensorDataSimulator.store l address a) other = nth_error l other.
Proof.
  revert address other. induction l as [|b l IH]; intros [|address] [|other] H;
    cbn; try reflexivity; try contradiction. apply IH. congruence.
Qed.

Lemma addresses_range {A : Type} (entries : list (string * A)) (from : nat)
    (key : string) (address : nat) :
  In (key, address) (SensorDataSimulator.addresses entries from) ->
  (from <= address < from + List.length entries)%nat.
Proof.
  revert from. induction entries as [|[k v] l IH]; intros from; cbn;
    [intros []|].
  intros [E|H].
  - injection E as _ <-. lia.
  - apply IH in H. lia.
Qed.

Lemma sensor_own (sensorId : string) (s : SensorDataSimulator.t)
    (address : nat) (d : SensorData.t) :
  SensorDataSimulator.sensor sensorId s = Some (Dict.own (address, d)) ->
  Dict.get (SensorDataSimulator.data s) sensorId = Some (Dict.own address)
  /\ nth_error (SensorDataSimulator.heap s) address = Some d.
Proof.
  unfold SensorDataSimulator.sensor. intros H.
  destruct (Dict.get (SensorDataSimulator.data s) sensorId) as [[a|]|];
    try discriminate H.
  destruct (nth_error (SensorDataSimulator.heap s) a) eqn:E;
    [|discriminate H].
  injection H as -> ->. split; [reflexivity | exact E].
Qed.

(** A simulator whose table is the module's keeps it, whatever is
    called. *)
Lemma run_keeps_the_module_table (calls : list SimulatorCall.t)
    (s : SensorDataSimulator.t) :
  SensorDataSimulator.data s = SensorDataSimulator.mockSensorData ->
  SensorDataSimulator.data (simulator_run calls s)
  = SensorDataSimulator.mockSensorData.
Proof.
  unfold simulator_run. revert s.
  induction calls as [|call calls IH]; intros s H; [exact H|].
  cbn [fold_left]. apply IH.
  destruct call as [callback|callback|sensorId value|]; cbn;
    try exact H; [|reflexivity].
  unfold SensorDataSimulator.setSensorValue.
  destruct (SensorDataSimulator.sensor sensorId s) as [[[address d]|]|];
    exact H.
Qed.

(** Without a [reset()], a simulator over objects of the caller's keeps its
    table and writes to none of the module's objects. *)
Lemma run_spares_the_module_objects (initialData : Dict.t nat)
    (heap : list SensorData.t) (calls : list SimulatorCall.t)
    (s : SensorDataSimulator.t) :
  own_objects initialData ->
  forallb (fun call => negb (is_reset call)) calls = true ->
  SensorDataSimulator.data s = initialData ->
  (forall address,
     (address < List.length mockSensorData_entries)%nat ->
     nth_error (SensorDataSimulator.heap s) address = nth_error heap address) ->
  SensorDataSimulator.data (simulator_run calls s) = initialData
  /\ (forall address,
        (address < List.length mockSensorData_entries)%nat ->
        nth_error (SensorDataSimulator.heap (simulator_run calls s)) address
        = nth_error heap address).
Proof.
  intros Hown. unfold simulator_run. revert s.
  induction calls as [|call calls IH]; intros s Hcalls Hdata Hheap;
    [split; assumption|].
  cbn [fold_left forallb] in *. apply andb_true_iff in Hcalls.
  destruct Hcalls as [Hcall Hcalls].
  destruct call as [callback|callback|sensorId value|];
    [apply IH; assumption ..| |discriminate Hcall].
  cbn [simulator_call]. unfold SensorDataSimulator.setSensorValue.
  destruct (SensorDataSimulator.sensor sensorId s) as [[[address d]|]|] eqn:E;
    cbn [fst]; [|apply IH; assumption ..].
  apply IH; [exact Hcalls | exact Hdata |].
  cbn [SensorDataSimulator.heap]. intros a Ha.
  rewrite nth_error_store_other; [now apply Hheap|].
  destruct (sensor_own _ _ _ _ E) as [Hget _].
  rewrite Hdata in Hget. apply get_own_In in Hget. apply Hown in Hget. lia.
Qed.

(** X27.  [setSensorValue] stores the value brought into the range of the
    sensor and calls every subscriber; for a name the table only inherits
    from [Object.prototype] it leaves the table and the sensors as they are
    and still calls every subscriber; for any other id it does nothing and
    calls nobody.  [reset()] replaces the table by a copy of the list
    [mockSensorData] and calls every subscriber: it copies the list, not
    the objects the literal created.  So, after any calls of [subscribe],
    of the functions it returned, of [setSensorValue] and of [reset]:
    a simulator constructed with the default parameter, as the exported
    [sensorSimulator] is, is left by [reset()] as it is, every sensor with
    the value it has; and a simulator constructed over objects of the
    caller's reads, after its first [reset()], every sensor from the
    module's object, as that object was when the simulator was
    constructed. *)
Theorem reset_copies_the_table_not_the_sensors
    (heap : list SensorData.t) (initialData : Dict.t nat)
    (calls : list SimulatorCall.t) (sensorId : string) (value : JS.number) :
  let s := simulator_run calls (SensorDataSimulator.create heap initialData) in
  let answer := SensorDataSimulator.setSensorValue sensorId value s in
  fst (SensorDataSimulator.reset s)
  = SensorDataSimulator.mk (SensorDataSimulator.heap s)
      SensorDataSimulator.mockSensorData (SensorDataSimulator.callbacks s)
  /\ snd (SensorDataSimulator.reset s) = SensorDataSimulator.callbacks s
  /\ (initialData = SensorDataSimulator.mockSensorData ->
      fst (SensorDataSimulator.reset s) = s
      /\ fst (SensorDataSimulator.reset (fst answer)) = fst answer)
  /\ (own_objects initialData ->
      forallb (fun call => negb (is_reset call)) calls = true ->
      forall id,
        SensorDataSimulator.getSensorData id (fst (SensorDataSimulator.reset s))
        = SensorDataSimulator.getSensorData id
            (SensorDataSimulator.create heap
               SensorDataSimulator.mockSensorData))
  /\ (forall address d,
        SensorDataSimulator.sensor sensorId s = Some (Dict.own (address, d)) ->
        let d' :=
          SensorData.with_value d
            (JS.Math_max (SensorData.min d)
               (JS.Math_min (SensorData.max d) value)) in
        answer
        = (SensorDataSimulator.mk
             (SensorDataSimulator.store (SensorDataSimulator.heap s) address d')
             (SensorDataSimulator.data s) (SensorDataSimulator.callbacks s),
           SensorDataSimulator.callbacks s)
        /\ SensorDataSimulator.getSensorData sensorId (fst answer)
           = Some (Dict.own d')
        /\ (SensorData.min d <= SensorData.max d ->
            SensorData.min d <= SensorData.value d' <= SensorData.max d))
  /\ (Dict.get (SensorDataSimulator.data s) sensorId = Some Dict.inherited ->
      answer = (s, SensorDataSimulator.callbacks s))
  /\ (Dict.get (SensorDataSimulator.data s) sensorId = None ->
      answer = (s, [])).
Proof.
  intros s answer.
  assert (Hsame : forall s0,
            SensorDataSimulator.data s0 = SensorDataSimulator.mockSensorData ->
            fst (SensorDataSimulator.reset s0) = s0).
  { intros s0 E. unfold SensorDataSimulator.reset. cbn [fst]. rewrite <- E.
    now destruct s0. }
  split; [reflexivity|]. split; [reflexivity|]. split; [|split; [|split]].
  - intros ->. split.
    + apply Hsame. now apply run_keeps_the_module_table.
    + apply Hsame.
      change (fst answer)
        with (simulator_call (SimulatorCall.setSensorValue sensorId value) s).
      apply (run_keeps_the_module_table
               [SimulatorCall.setSensorValue sensorId value] s).
      now apply run_keeps_the_module_table.
  - intros Hown Hcalls id.
    destruct (run_spares_the_module_objects initialData heap calls
                (SensorDataSimulator.create heap initialData) Hown Hcalls
                eq_refl (fun _ _ => eq_refl)) as [_ Hheap].
    fold s in Hheap.
    unfold SensorDataSimulator.getSensorData, SensorDataSimulator.sensor.
    cbn [SensorDataSimulator.reset fst SensorDataSimulator.data
         SensorDataSimulator.heap SensorDataSimulator.create].
    destruct (Dict.get SensorDataSimulator.mockSensorData id)
      as [[address|]|] eqn:E; try reflexivity.
    apply get_own_In in E. apply addresses_range in E.
    rewrite Hheap; [reflexivity | lia].
  - intros address d Hsensor d'. subst answer.
    unfold SensorDataSimulator.setSensorValue. rewrite Hsensor.
    fold d'. split; [reflexivity|]. cbn [fst].
    destruct (sensor_own _ _ _ _ Hsensor) as [Hget Hnth].
    assert (Hlt : (address < List.length (SensorDataSimulator.heap s))%nat).
    { apply nth_error_Some. congruence. }
    split.
    + unfold SensorDataSimulator.getSensorData, SensorDataSimulator.sensor.
      cbn [SensorDataSimulator.data SensorDataSimulator.heap].
      now rewrite Hget, nth_error_store.
    + intro Hle. apply clamp_bounds. exact Hle.
  - split.
    + intros Hget. subst answer.
      unfold SensorDataSimulator.setSensorValue, SensorDataSimulator.sensor.
      now rewrite Hget.
    + intros Hget. subst answer.
      unfold SensorDataSimulator.setSensorValue, SensorDataSimulator.sensor.
      now rewrite Hget.
Qed.

(** ** The further properties at concrete inputs *)

(** X1 after [setGridSize(1)] and [setZoom(1000)], and at the arguments
    [Infinity] and [NaN]. *)
Lemma view_settings_witness :
  let s := Store.setZoom 1000 (Store.setGridSize 1 initialState) in
  reachable acceptingSchema s
  /\ EditorState.gridSize s == 5
  /\ EditorState.zoom s == 5
  /\ view_in_bounds s
  /\ option_map EditorState.gridSize (Store.setGridSize_float JS.Infinity s)
     = Some 100
  /\ Store.setGridSize_float JS.NaN s = None
  /\ Store.setZoom_float JS.NaN s = None.
Proof.
  cbn zeta.
  assert (H : reachable acceptingSchema
                (Store.setZoom 1000 (Store.setGridSize 1 initialState))).
  { eapply reachable_step; [|apply step_setZoom].
    eapply reachable_step; [apply reachable_initial | apply step_setGridSize]. }
  split; [exact H|]. split; [reflexivity|]. split; [reflexivity|].
  destruct (view_settings_stay_in_bounds acceptingSchema _ H)
    as (Hin & _ & _ & Hgrid & Hzoom).
  split; [exact Hin|]. split; [reflexivity|]. split.
  - exact (proj2 (proj1 (Hgrid JS.NaN)) eq_refl).
  - exact (proj2 (proj1 (Hzoom JS.NaN)) eq_refl).
Defined.

(** X2 after a gauge was created, selected and cut, and at the import of
    the text [null]. *)
Lemma validation_result_witness :
  let s := Store.cutSelected acceptingSchema twoGaugeStore in
  reachable acceptingSchema s
  /\ element_ids s = ["gauge_18"]
  /\ EditorState.validationResult s
     = Some (validateLayout acceptingSchema (EditorState.layout s))
  /\ Store.importLayout acceptingSchema "null" s
     = Some (Store.untyped JSON.JNull).
Proof.
  cbn zeta.
  assert (H : reachable acceptingSchema
                (Store.cutSelected acceptingSchema twoGaugeStore)).
  { eapply reachable_step; [|apply step_cutSelected].
    eapply reachable_step; [|apply step_selectElement].
    eapply reachable_step;
      [|apply (step_createElement acceptingSchema "gauge" 300 200 None 18)].
    eapply reachable_step;
      [|apply (step_createElement acceptingSchema "gauge" 100 100 None 17)].
    apply reachable_initial. }
  split; [exact H|]. split; [reflexivity|].
  destruct (validation_result_is_fresh_while_the_layout_is_typed
              acceptingSchema _ "null" H)
    as (Hfresh & _ & _ & Hnull).
  split; [|exact (Hnull eq_refl)].
  destruct Hfresh as [E|[E _]]; [exact E | discriminate E].
Defined.

(** X3 after [pushHistory] and [undo]. *)
Lemma history_flags_witness :
  let s := Store.undo (Store.pushHistory "move" oneGaugeStore) in
  reachable acceptingSchema s
  /\ EditorState.layout s = EditorState.layout oneGaugeStore
  /\ EditorState.canUndo s && EditorState.canRedo s = false.
Proof.
  cbn zeta.
  assert (H : reachable acceptingSchema
                (Store.undo (Store.pushHistory "move" oneGaugeStore))).
  { eapply reachable_step; [|apply step_undo].
    eapply reachable_step; [|apply step_pushHistory].
    eapply reachable_step;
      [|apply (step_createElement acceptingSchema "gauge" 100 100 None 17)].
    apply reachable_initial. }
  split; [exact H|]. split; [reflexivity|].
  destruct (history_actions_only_flip_flags acceptingSchema string "move"
              (Store.undo (Store.pushHistory "move" oneGaugeStore)))
    as (_ & _ & _ & _ & _ & _ & Hflags).
  exact (Hflags H).
Defined.

(** X4 at an id no element has. *)
Lemma updateElement_witness :
  ~ In "ghost" (element_ids twoGaugeStore)
  /\ EditorState.layout
       (Store.updateElement acceptingSchema "ghost" (Element.only_id "g")
          twoGaugeStore)
     = EditorState.layout twoGaugeStore.
Proof.
  assert (H : ~ In "ghost" (element_ids twoGaugeStore)).
  { intro H. apply includes_In in H. discriminate H. }
  split; [exact H|].
  destruct (updateElement_effect acceptingSchema "ghost" (Element.only_id "g")
              twoGaugeStore) as (_ & _ & _ & _ & _ & Habsent & _).
  exact (Habsent H).
Defined.

(** X5: the selected gauge renamed to the id of the other one. *)
Lemma renaming_witness :
  let s' := Store.updateElement acceptingSchema "gauge_17"
              (Element.only_id "gauge_18") twoGaugeStore in
  In "gauge_17" (element_ids twoGaugeStore)
  /\ "gauge_18" <> "gauge_17"
  /\ element_ids s' = ["gauge_18"; "gauge_18"]
  /\ EditorState.selectedElementIds s' = ["gauge_17"]
  /\ ~ selection_consistent s'
  /\ option_map ValidationResult.isValid (EditorState.validationResult s')
     = Some false.
Proof.
  cbn zeta.
  assert (H1 : In "gauge_17" (element_ids twoGaugeStore))
    by (left; reflexivity).
  assert (H2 : "gauge_18" <> "gauge_17") by discriminate.
  destruct (renaming_leaves_the_selection_behind acceptingSchema
              "gauge_17" "gauge_18" twoGaugeStore H1 H2)
    as (Hids & _ & _ & Hsel & Hdangling & Hclash).
  split; [exact H1|]. split; [exact H2|]. split; [exact Hids|].
  split; [exact Hsel|].
  split; [apply Hdangling; left; reflexivity|].
  apply Hclash. right. left. reflexivity.
Defined.

(** X6 at an id no element has, and at the first gauge. *)
Lemma duplicateElement_witness :
  Store.duplicateElement acceptingSchema "ghost" 40 twoGaugeStore
  = twoGaugeStore
  /\ map (fun el => (Element.id el,
                     VisualProperties.x (Element.visual el),
                     VisualProperties.y (Element.visual el)))
         (LayoutData.elements
            (EditorState.layout
               (Store.duplicateElement acceptingSchema "gauge_17" 40
                  twoGaugeStore)))
     = [("gauge_17", 100, 100); ("gauge_18", 300, 200);
        ("gauge_17_copy_40", 100 + 20, 100 + 20)].
Proof.
  split.
  - apply (proj1 (duplicateElement_effect acceptingSchema "ghost" 40
                    twoGaugeStore)).
    intro H. apply includes_In in H. discriminate H.
  - destruct (proj2 (duplicateElement_effect acceptingSchema "gauge_17" 40
                       twoGaugeStore) (or_introl eq_refl))
      as (before & original & after & Hsplit & Hfirst & _ & -> & _).
    destruct before as [|b before].
    + injection Hsplit as <- _. reflexivity.
    + exfalso. injection Hsplit as <- _. apply Hfirst. left. reflexivity.
Defined.

(** X7: the selected gauge copied and pasted twice. *)
Lemma paste_witness :
  let s := Store.copySelected twoGaugeStore in
  let s' := Store.paste acceptingSchema (fun _ => 50%N) s in
  let s'' := Store.paste acceptingSchema (fun _ => 60%N) s' in
  map Element.id (EditorState.clipboard s) = ["gauge_17"]
  /\ element_ids s' = ["gauge_17"; "gauge_18"; "gauge_17_paste_50"]
  /\ map Element.visual (skipn 3 (LayoutData.elements (EditorState.layout s'')))
     = map Element.visual (skipn 2 (LayoutData.elements (EditorState.layout s')))
  /\ (EditorState.clipboard initialState = [] ->
      EditorState.layout (Store.paste acceptingSchema (fun _ => 50%N)
                            initialState)
      = EditorState.layout initialState).
Proof.
  cbn zeta. split; [reflexivity|]. split; [reflexivity|].
  destruct (paste_effect acceptingSchema (fun _ => 50%N) (fun _ => 60%N)
              (Store.copySelected twoGaugeStore))
    as (_ & _ & _ & _ & _ & Hstack & _).
  split; [exact Hstack|].
  destruct (paste_effect acceptingSchema (fun _ => 50%N) (fun _ => 60%N)
              initialState) as (_ & _ & _ & _ & _ & _ & Hempty).
  exact Hempty.
Defined.

(** X8: the selected gauge cut, and a cut with nothing selected. *)
Lemma cutSelected_witness :
  let s' := Store.cutSelected acceptingSchema twoGaugeStore in
  In "gauge_17" (EditorState.selectedElementIds twoGaugeStore)
  /\ map Element.id (EditorState.clipboard s') = ["gauge_17"]
  /\ element_ids s' = ["gauge_18"]
  /\ ~ In "gauge_17" (element_ids s')
  /\ EditorState.clipboard
       (Store.cutSelected acceptingSchema
          (Store.clearSelection (Store.copySelected twoGaugeStore))) = [].
Proof.
  cbn zeta.
  assert (H : In "gauge_17" (EditorState.selectedElementIds twoGaugeStore))
    by (left; reflexivity).
  split; [exact H|]. split; [reflexivity|]. split; [reflexivity|].
  destruct (cutSelected_effect acceptingSchema twoGaugeStore)
    as (_ & _ & _ & Hgone & _ & _).
  split; [exact (Hgone _ H)|].
  destruct (cutSelected_effect acceptingSchema
              (Store.clearSelection (Store.copySelected twoGaugeStore)))
    as (_ & _ & _ & _ & _ & Hnone).
  exact (proj1 (Hnone eq_refl)).
Defined.

(** X9: an id toggled on and off again. *)
Lemma toggleSelection_witness :
  ~ In "gauge_18" (EditorState.selectedElementIds twoGaugeStore)
  /\ EditorState.selectedElementIds
       (Store.toggleSelection "gauge_18" twoGaugeStore)
     = ["gauge_17"; "gauge_18"]
  /\ Store.toggleSelection "gauge_18"
       (Store.toggleSelection "gauge_18" twoGaugeStore)
     = twoGaugeStore.
Proof.
  assert (H : ~ In "gauge_18" (EditorState.selectedElementIds twoGaugeStore)).
  { intros [H|[]]. discriminate H. }
  destruct (toggleSelection_effect "gauge_18" twoGaugeStore)
    as (_ & _ & Hfresh & _).
  split; [exact H|]. exact (Hfresh H).
Defined.

(** X10 at an element whose id is in use. *)
Lemma removeElement_composition_witness :
  In (Element.id (sampleElement "gauge_17" "GPU_Fan" false 1))
     (element_ids twoGaugeStore)
  /\ element_ids
       (Store.removeElement acceptingSchema "gauge_17"
          (Store.addElement acceptingSchema
             (sampleElement "gauge_17" "GPU_Fan" false 1) twoGaugeStore))
     = ["gauge_18"]
  /\ EditorState.layout
       (Store.removeElement acceptingSchema "gauge_17"
          (Store.addElement acceptingSchema
             (sampleElement "gauge_17" "GPU_Fan" false 1) twoGaugeStore))
     <> EditorState.layout twoGaugeStore.
Proof.
  assert (H : In (Element.id (sampleElement "gauge_17" "GPU_Fan" false 1))
                 (element_ids twoGaugeStore)) by (left; reflexivity).
  split; [exact H|]. split; [reflexivity|].
  destruct (removeElement_composition acceptingSchema "a" "b"
              (sampleElement "gauge_17" "GPU_Fan" false 1) twoGaugeStore)
    as (_ & _ & Hiff).
  intro E. apply Hiff in E. exact (E H).
Defined.

(** X11: a button created beside a gauge, once with no sensor and once
    with a sensor the validator does not know. *)
Lemma created_element_witness :
  let s' := fst (Store.createElement acceptingSchema "button" 40 60 None 99
                   oneGaugeStore) in
  let s'' := fst (Store.createElement acceptingSchema "button" 40 60
                    (Some "Flux_Capacitor") 99 oneGaugeStore) in
  In "button" (map fst ELEMENT_DEFINITIONS_entries)
  /\ ~ In "button_99" (element_ids oneGaugeStore)
  /\ map Element.sensor (LayoutData.elements (EditorState.layout s'))
     = ["CPU_Utilization"; "CPU_Utilization"]
  /\ option_map ValidationResult.warnings (EditorState.validationResult s')
     = Some []
  /\ option_map ValidationResult.isValid (EditorState.validationResult s')
     = Some true
  /\ map Element.sensor (LayoutData.elements (EditorState.layout s''))
     = ["CPU_Utilization"; "Flux_Capacitor"]
  /\ option_map
       (fun r => map ValidationError.path (ValidationResult.warnings r))
       (EditorState.validationResult s'')
     = Some ["elements[1].sensor"]
  /\ option_map ValidationResult.isValid (EditorState.validationResult s'')
     = Some true.
Proof.
  cbn zeta.
  assert (H1 : In "button" (map fst ELEMENT_DEFINITIONS_entries))
    by (apply includes_In; reflexivity).
  assert (H2 : ~ In ("button" ++ "_" ++ JS.N_toString 99)
                    (element_ids oneGaugeStore)).
  { intro H. apply includes_In in H. discriminate H. }
  split; [exact H1|]. split; [exact H2|]. split; [reflexivity|].
  destruct (created_element_raises_no_issue acceptingSchema "button" 40 60
              None 99 oneGaugeStore H1
              ltac:(discriminate) ltac:(discriminate) H2 eq_refl eq_refl)
    as (el & _ & _ & Hknown & Hres & _ & HV & HW & _).
  rewrite Hres. cbn [option_map]. rewrite (HW (Hknown eq_refl)), HV.
  split; [reflexivity|]. split; [reflexivity|]. split; [reflexivity|].
  destruct (created_element_raises_no_issue acceptingSchema "button" 40 60
              (Some "Flux_Capacitor") 99 oneGaugeStore H1
              ltac:(discriminate) ltac:(discriminate) H2 eq_refl eq_refl)
    as (el' & _ & Hgiven & _ & Hres' & _ & HV' & _ & HW').
  assert (Hsensor : Element.sensor el' = "Flux_Capacitor")
    by (apply Hgiven; discriminate).
  rewrite Hres'. cbn [option_map]. rewrite HV', HW'.
  - split; reflexivity.
  - rewrite Hsensor. reflexivity.
Defined.

(** X12 at a text that is no JSON, and at an export followed by a brace. *)
Lemma importLayout_rejects_witness :
  starts_with is_value_start (JSON.skip_ws "  <layout/>") = false
  /\ Store.importLayout acceptingSchema "  <layout/>" oneGaugeStore
     = Some (Store.typed oneGaugeStore false)
  /\ layout_numbers_decimal (EditorState.layout exchangeSampleStore) = true
  /\ Store.importLayout acceptingSchema
       (Store.exportLayout exchangeSampleStore ++ "}") oneGaugeStore
     = Some (Store.typed oneGaugeStore false).
Proof.
  destruct (importLayout_rejects_malformed_text acceptingSchema "  <layout/>"
              exchangeSampleStore oneGaugeStore "}" "") as [H1 H2].
  split; [reflexivity|]. split; [exact (H1 eq_refl)|].
  split; [vm_compute; reflexivity|].
  apply H2; [vm_compute|..]; reflexivity.
Defined.

(** X13 at the second element of a document with two. *)
Lemma getValidationErrors_witness :
  let r := validateLayout acceptingSchema brokenSecondLayout in
  map ValidationError.path
      (getValidationErrors "elements[1]" (ValidationResult.errors r))
  = ["elements[1].visual.width"]
  /\ map ValidationError.path
         (getValidationErrors "elements[1]" (ValidationResult.warnings r))
     = ["elements[1].sensor"]
  /\ map ValidationError.path (getValidationErrors "elements[1]" elevenIssues)
     = ["elements[1].visual.width"; "elements[1]"; "elements[1].id"].
Proof.
  cbn zeta.
  destruct (getValidationErrors_of_an_element acceptingSchema
              brokenSecondLayout 1
              (Element.mk "gauge_2" "gauge" "Quantum_Flux"
                 (VisualProperties.mk 10 10 (-5) 150 "#333333" "#ffffff"
                    "#00ff00" 1 true true "Consolas" 12 "normal" "normal")
                 false 1) eq_refl) as (HW & HE & _).
  change (elementPath 1) with "elements[1]" in HW, HE.
  rewrite HE, HW. split; [|split]; vm_compute; reflexivity.
Defined.

(** X14: the first exact match among issues that share a prefix. *)
Lemma getValidationError_witness :
  option_map ValidationError.message
    (getValidationError "elements[1]" elevenIssues) = Some "c"
  /\ getValidationError "elements[2]" elevenIssues = None
  /\ List.length (getValidationErrors "elements[1]" elevenIssues) = 3%nat.
Proof.
  destruct (getValidationError_is_the_first_match "elements[2]" elevenIssues)
    as ((_ & Hnone) & _ & _).
  split; [reflexivity|]. split; [|reflexivity].
  apply Hnone. intros issue Hin.
  repeat destruct Hin as [<-|Hin]; try discriminate. destruct Hin.
Defined.

(** X15 at a violation at the root of the document. *)
Lemma formatValidationError_witness :
  formatValidationError
    (schemaIssue (Ajv.mk "" (Some "must have required property 'version'")))
  = "Layout: must have required property 'version'"
  /\ map formatValidationError
         (ValidationResult.warnings
            (validateLayout acceptingSchema
               (LayoutData.mk "1.0"
                  [Element.mk "g" "gauge" "CPU_Power"
                     (VisualProperties.mk (-4) 0 10 10 "" "" "" 1 true true
                        "Consolas" 12 "normal" "normal") false 1] None)))
     = ["elements[0].visual.x: X position is negative: -4"].
Proof.
  destruct (formatValidationError_of_an_issue acceptingSchema defaultLayout
              (Ajv.mk "" (Some "must have required property 'version'")))
    as (_ & _ & Hroot).
  split; [exact (Hroot eq_refl) | vm_compute; reflexivity].
Defined.

(** X16 at a complete element, at one without sensor, and at an element of
    a document with distinct ids. *)
Lemma validateElement_witness :
  ValidationResult.isValid
    (validateElement (Element.members (sampleElement "a" "CPU_Power" false 1))
       [Element.members (sampleElement "a" "CPU_Power" false 1)]) = true
  /\ map ValidationError.path
         (ValidationResult.errors
            (validateElement (Element.members (sampleElement "a" "" false 1))
               []))
     = ["sensor"]
  /\ ValidationResult.isValid
       (validateElement
          (Element.members (sampleElement "gauge_1" "Quantum_Flux" false 1))
          (map Element.members (LayoutData.elements unknownSensorLayout)))
     = true.
Proof.
  destruct (validateElement_verdict
              (Element.members (sampleElement "a" "CPU_Power" false 1))
              [Element.members (sampleElement "a" "CPU_Power" false 1)]
              unknownSensorLayout 0
              (sampleElement "gauge_1" "Quantum_Flux" false 1))
    as (_ & Hvalid & Hwhole).
  split; [|split; [reflexivity|]].
  - apply Hvalid. split; [|cbn; lia].
    eexists _, _, _, _. split; [reflexivity|].
    repeat split; discriminate.
  - apply (proj2 (Hwhole eq_refl)); try discriminate.
    repeat constructor. intros [].
Defined.

(** X17 at the category of the indicators. *)
Lemma categories_witness :
  getElementsByCategory "indicators"
  = ["led"; "status_light"; "traffic_light"; "battery"; "signal_bars";
     "wifi_indicator"]
  /\ getElementsByCategory "widgets" = []
  /\ exists definition,
       getElementDefinition "battery" = Some (Dict.own definition)
       /\ ElementDefinition.category definition = "indicators".
Proof.
  destruct categories_partition_the_catalog as (_ & _ & Hiff & Hnone & _).
  split; [reflexivity|]. split.
  - apply Hnone. intro H. apply includes_In in H. discriminate H.
  - apply Hiff. apply includes_In. reflexivity.
Defined.

(** X18 at a click with the gauge tool, snapping on and off. *)
Lemma canvas_click_witness :
  let s' := Canvas.handleCanvasClick acceptingSchema
              (Some (Canvas.mkRect 8 8)) paletteClick 70 gaugeToolStore in
  let s'' := Canvas.handleCanvasClick acceptingSchema
               (Some (Canvas.mkRect 8 8)) paletteClick 70
               (Store.setSnapToGrid false gaugeToolStore) in
  In (EditorState.currentTool gaugeToolStore)
     (map fst ELEMENT_DEFINITIONS_entries)
  /\ Qeq_bool (fst (hd (0, 0) (positions s'))) 320 = true
  /\ Qeq_bool (snd (hd (0, 0) (positions s'))) 280 = true
  /\ positions s'' = [((333 - 8 - 0) / 1, (278 - 8 - 0) / 1)]
  /\ exists el,
       LayoutData.elements (EditorState.layout s') = [el]
       /\ on_grid 20 (VisualProperties.x (Element.visual el))
       /\ on_grid 20 (VisualProperties.y (Element.visual el)).
Proof.
  cbn zeta.
  assert (H : In (EditorState.currentTool gaugeToolStore)
                 (map fst ELEMENT_DEFINITIONS_entries))
    by (left; reflexivity).
  split; [exact H|]. split; [reflexivity|]. split; [reflexivity|].
  split; [reflexivity|].
  destruct (canvas_click_places_on_the_grid acceptingSchema
              (Canvas.mkRect 8 8) paletteClick 70 gaugeToolStore eq_refl H
              eq_refl) as (el & Hels & _ & _ & _ & Hsnap).
  exists el. split; [exact Hels|].
  destruct (Hsnap eq_refl) as (Hx & Hy & _). split; assumption.
Defined.

(** X19 at one drag step of 26 pixels to the right and 4 down. *)
Lemma drag_step_witness :
  let moved := Canvas.handleGlobalMouseMove acceptingSchema
                 (Canvas.mkEvent 136 114 false) pressedCanvas twoGaugeStore in
  Canvas.isDragging pressedCanvas = true
  /\ EditorState.selectedElementIds twoGaugeStore = ["gauge_17"]
  /\ Canvas.dragStart (fst moved) = Point.mk 136 114
  /\ map (fun p => (Qeq_bool (fst p) 120, Qeq_bool (snd p) 100))
         (firstn 1 (positions (snd moved))) = [(true, true)]
  /\ exists x' y',
       on_grid 20 x' /\ on_grid 20 y'
       /\ hd_error (positions (snd moved)) = Some (x', y').
Proof.
  cbn zeta.
  split; [reflexivity|]. split; [reflexivity|]. split; [reflexivity|].
  split; [reflexivity|].
  destruct (drag_step_effect acceptingSchema (Canvas.mkEvent 136 114 false)
              pressedCanvas twoGaugeStore "gauge_17"
              (hd (sampleElement "" "" false 0)
                  (LayoutData.elements (EditorState.layout twoGaugeStore)))
              eq_refl eq_refl eq_refl)
    as (x' & y' & Hels & _ & _ & _ & _ & Hsnap).
  exists x', y'.
  destruct (Hsnap eq_refl eq_refl) as (Hx & Hy & _).
  split; [exact Hx|]. split; [exact Hy|].
  unfold positions. rewrite Hels. reflexivity.
Defined.

(** X20 at four steps of 9 pixels each: the pointer has gone 36 pixels, the
    gauge is where it was. *)
Lemma slow_drag_witness :
  let dragged := drag acceptingSchema slowPointer pressedCanvas twoGaugeStore in
  slow (EditorState.gridSize twoGaugeStore * EditorState.zoom twoGaugeStore / 2)
       (Canvas.dragStart pressedCanvas) slowPointer
  /\ Canvas.dragStart (fst dragged) = Point.mk 146 110
  /\ exists element',
       find_element "gauge_17" (snd dragged) = Some element'
       /\ VisualProperties.x (Element.visual element') == 100
       /\ VisualProperties.y (Element.visual element') == 100.
Proof.
  cbn zeta.
  assert (Hslow : slow (EditorState.gridSize twoGaugeStore
                        * EditorState.zoom twoGaugeStore / 2)
                       (Canvas.dragStart pressedCanvas) slowPointer).
  { cbn. repeat split; discriminate. }
  split; [exact Hslow|].
  destruct (slow_drag_leaves_the_element_in_place acceptingSchema slowPointer
              pressedCanvas twoGaugeStore "gauge_17"
              (hd (sampleElement "" "" false 0)
                  (LayoutData.elements (EditorState.layout twoGaugeStore)))
              eq_refl eq_refl eq_refl eq_refl eq_refl eq_refl
              (ex_intro _ 5%Z eq_refl) (ex_intro _ 5%Z eq_refl) Hslow)
    as (element' & Hfind & Hx & Hy & _ & Hstart).
  split; [exact Hstart|].
  exists element'. split; [exact Hfind|]. split; assumption.
Defined.

(** X21 after a press on an element, a move and a release. *)
Lemma resize_never_witness :
  let c := fst (dispatch acceptingSchema CanvasEvent.documentMouseUp
             (fst (dispatch acceptingSchema
                     (CanvasEvent.documentMouseMove
                        (Canvas.mkEvent 136 114 false))
                     pressedCanvas twoGaugeStore))
             twoGaugeStore) in
  canvas_reachable acceptingSchema c
  /\ Canvas.isResizing c = false
  /\ Canvas.handleCanvasMouseMove acceptingSchema
       (Canvas.mkEvent 500 500 true) c twoGaugeStore = twoGaugeStore.
Proof.
  cbn zeta.
  set (c := fst (dispatch acceptingSchema CanvasEvent.documentMouseUp _ _)).
  assert (H : canvas_reachable acceptingSchema c).
  { subst c. apply canvas_event. apply canvas_event.
    apply (canvas_event acceptingSchema
             (CanvasEvent.elementMouseDown (Canvas.mkEvent 110 110 false)
                "gauge_17") Canvas.initial twoGaugeStore).
    apply canvas_initial. }
  destruct (resize_is_never_started acceptingSchema c H)
    as (H1 & _ & H2 & _).
  split; [exact H|]. split; [exact H1 | apply H2].
Defined.

(** X22 at a name [Object.prototype] holds, and at a name in use. *)
Lemma generateAssetId_witness :
  AssetManager.generateAssetId "toString.png" AssetCollection.images
    AssetManager.initial = Some "toString_1"
  /\ AssetManager.generateAssetId "logo.jpeg" AssetCollection.images oneImage
     = Some "logo_1"
  /\ AssetManager.hasAsset "logo" AssetCollection.images oneImage = true.
Proof.
  destruct (generateAssetId_is_fresh "logo.jpeg" AssetCollection.images
              oneImage) as (id & Hgen & _ & _ & _ & _ & Hused).
  split; [reflexivity|]. split; [reflexivity|].
  destruct (Hused eq_refl) as (n & _ & _ & _). reflexivity.
Defined.

(** X23 at a second file of the same name, and at a file that is too
    large. *)
Lemma uploadFile_witness :
  acceptable (File.mk "logo.png" "image/png" 4096) AssetCollection.images
  = true
  /\ (exists assets' result,
         AssetManager.uploadFile (File.mk "logo.png" "image/png" 4096)
           AssetCollection.images "blob:2" 1700000000001 oneImage
         = Some (assets', result)
         /\ option_map Asset.id (AssetUploadResult.asset result)
            = Some "logo_1"
         /\ AssetManager.Stats.total (AssetManager.getAssetStats assets')
            = 2%nat)
  /\ option_map snd
       (AssetManager.uploadFile (File.mk "big.png" "image/png" 6000000)
          AssetCollection.images "blob:3" 1700000000002 oneImage)
     = Some (AssetUploadResult.mk false None
               (Some "File too large: 5.7MB. Maximum size: 5.0MB")).
Proof.
  split; [reflexivity|]. split; [|reflexivity].
  destruct (uploadFile_effect (File.mk "logo.png" "image/png" 4096)
              AssetCollection.images "blob:2" 1700000000001 oneImage)
    as (assets' & result & Hup & _ & _ & Hstored).
  exists assets', result. split; [exact Hup|].
  destruct (Hstored eq_refl) as (id & Hid & -> & _ & _ & _ & Htotal & _).
  split; [|exact Htotal].
  cbn. f_equal. vm_compute in Hid. now injection Hid.
Defined.

(** X24 at an inherited name in an empty collection, and at a stored
    asset. *)
Lemma removeAsset_witness :
  In "toString" Dict.Object_prototype
  /\ AssetManager.removeAsset "toString" AssetCollection.images
       AssetManager.initial = (AssetManager.initial, true)
  /\ AssetManager.removeAsset "logo" AssetCollection.images oneImage
     = (AssetManager.initial, true)
  /\ AssetManager.removeAsset "logo" AssetCollection.images
       AssetManager.initial = (AssetManager.initial, false).
Proof.
  assert (H : In "toString" Dict.Object_prototype)
    by (apply includes_In; reflexivity).
  split; [exact H|].
  destruct (removeAsset_effect "toString" AssetCollection.images
              AssetManager.initial) as (_ & _ & _ & _ & Htrue & _).
  split; [|split; reflexivity].
  pose proof (Htrue H) as E.
  destruct (AssetManager.removeAsset "toString" AssetCollection.images
              AssetManager.initial) as [a b] eqn:R.
  cbn in E. subst b. vm_compute in R. now injection R as <-.
Defined.


(** X27 after [subscribe(f)] and [setSensorValue('CPU_Utilization', 250)].
    On the exported simulator the sensor reads 100 and still does after
    [reset()], where the literal says 45.2.  On a simulator over an object
    of the caller's the sensor reads 100, and after [reset()] what the
    module's object holds. *)
Lemma reset_witness :
  let s := simulator_run overdrive SensorDataSimulator.sensorSimulator in
  let s' := simulator_run overdrive
              (SensorDataSimulator.create callerHeap callerData) in
  SensorDataSimulator.getSensorValue "CPU_Utilization"
    SensorDataSimulator.sensorSimulator == 226 # 5
  /\ SensorDataSimulator.getSensorValue "CPU_Utilization" s == 100
  /\ SensorDataSimulator.getSensorValue "CPU_Utilization"
       (fst (SensorDataSimulator.reset s)) == 100
  /\ snd (SensorDataSimulator.reset s) = [1%nat]
  /\ own_objects callerData
  /\ SensorDataSimulator.getSensorValue "CPU_Utilization" s' == 100
  /\ SensorDataSimulator.getSensorData "CPU_Utilization"
       (fst (SensorDataSimulator.reset s'))
     = SensorDataSimulator.getSensorData "CPU_Utilization"
         (SensorDataSimulator.create callerHeap
            SensorDataSimulator.mockSensorData)
  /\ SensorDataSimulator.getSensorValue "CPU_Utilization"
       (SensorDataSimulator.create callerHeap
          SensorDataSimulator.mockSensorData) == 226 # 5.
Proof.
  cbn zeta.
  destruct (reset_copies_the_table_not_the_sensors SensorDataSimulator.loaded
              SensorDataSimulator.mockSensorData overdrive
              "CPU_Utilization" 0)
    as (_ & Hcalled & Hsame & _).
  fold SensorDataSimulator.sensorSimulator in Hcalled, Hsame.
  rewrite (proj1 (Hsame eq_refl)), Hcalled.
  split; [reflexivity|]. split; [reflexivity|]. split; [reflexivity|].
  split; [reflexivity|].
  assert (Hown : own_objects callerData).
  { intros key address [E|[]]. injection E as _ <-. apply le_n. }
  split; [exact Hown|]. split; [reflexivity|].
  destruct (reset_copies_the_table_not_the_sensors callerHeap callerData
              overdrive "CPU_Utilization" 0)
    as (_ & _ & _ & Hmodule & _).
  split; [exact (Hmodule Hown eq_refl "CPU_Utilization") | reflexivity].
Defined.
